(* ===== verification/_CoqProject ===== *)
-Q . S2P
Prelude.v
Utf8.v
PyString.v
PyData.v
Language.v
Prompt.v
Templates.v
Config.v
Session.v
Script.v
Invariant.v
Controller.v
Run.v
Page.v
Markup.v
Keys.v
Layout.v
Sessions.v
Browser.v
Text.v
Precedence.v
Server.v
Progress.v
