(* ===== verification/Prelude.v ===== *)
(** * Verification of the Universal Code Cleaner (src/CodeOptimizer.py)

    ** The program

    The program is one Streamlit script of 520 lines.  Every interaction
    of the user makes the framework execute the script from its first
    line to its last, with the session state ([st.session_state]) carried
    over from the previous execution.  In one execution the script

    - configures the page, loads the API key from the environment and
      makes the client of the hosted model (lines 16-28);
    - gives the keys of the session state their defaults (lines 36-45);
    - renders the header, the file uploader and the text area (48-117),
      the text area being given the uploaded code, the text typed before,
      or the empty string after a clear;
    - resolves the language of the code, by the extension of the uploaded
      file first and by the lexer Pygments guesses otherwise (120-220);
    - builds two prompt templates and the chains that run them on a
      hosted model (223-241);
    - reads four buttons (244-253) and runs their handlers: revert pops
      the history (256-266), clear empties the session and asks for a
      rerun (269-277), optimize calls the first chain and appends the
      answer to the history (288-298), explain calls the second chain,
      renders the explanation and stops the execution (301-311);
    - renders the comparison view of the last entry of the history with
      its download button and an optional explanation of the optimized
      code (314-359), then the footer and a style sheet (362-520).

    ** The development, file by file

    - [Prelude] (this file).  [result] for code that can raise; the monad
      [prog] of programs over a state that can halt (the state is kept at
      the halt, as Streamlit keeps the session state when an execution
      stops, reruns or raises); [maintains] with the tactic
      [maintains_tac], which proves that a program keeps an invariant
      from the blocks it is made of; Python truthiness as the class
      [Truthy]; the tactics [table_decide] and [by_evaluation]; the hint
      database [py]; [omap_sublist] and [sublist_Forall], the lemmas on
      lists the files on pages share.
    - [Utf8].  The codec of line 95 on bytes and code points as
      integers: the encoder and the decoder with the masks and shifts of
      the format ([encode_cp], [decode_one]), the loop of the decoder
      ([decode_loop], with fuel, and [decode]), their arithmetic
      reference ([encode_cp_ref], [decode_one_ref]) and Table 3-7 of the
      Unicode standard ([well_formed]).  Theorems: decoding is the
      inverse of encoding on the scalar values, and nothing else decodes
      ([utf8_roundtrip]); the decoder fails exactly on the sequences the
      table excludes ([decode_well_formed]); the fuel
      ([decode_loop_terminates]); the size of an encoding
      ([encode_bounds]); ASCII ([decode_ascii]); maps of the ASCII bytes
      commute with decoding ([decode_ascii_map]).
    - [PyString].  A [str] as the string of its UTF-8 bytes ([bytes_of],
      [code_points], [is_text]) and the operations on [str] the script
      calls: [Str.lower], [Str.strip] (on the code points, with the
      white space of Python: [Str.is_space_cp]), [Str.sub_non_alnum]
      (the [re.sub] of lines 211 and 213), [Str.splitext]
      ([os.path.splitext], POSIX), with their lemmas;
      [Str.splitext_cases] characterises the split, [Str.strip_blank]
      what the guards of the script test.
    - [PyData].  [dict] as an association list in insertion order
      ([Dict]), related to stdpp's [gmap] by [Dict.to_gmap]; [list]
      operations of the history ([PyList]); the values a chain can return
      ([PyVal]) and the expression of line 291 ([Val.text_of]); the
      exceptions of the script ([Exn]).
    - [Language].  Lines 9-14, 31-33 and 119-220: [LANGUAGES],
      [EXTENSION_TO_LANG] and [pygments_to_lang] as the source writes
      them, [detect_by_extension], the four stages of the normalisation
      ([lookup_direct], [lookup_lowered], [lookup_stripped],
      [fallback_raw], composed in [normalize]), [detect_by_content] with
      its [try]/[except], and [detect_language].  Pygments enters
      through the class [Lexer].  Theorems: the extension wins; alias
      spellings; the fallback; when the result is [None]; the range of
      the result; equivalence of [normalize] with the reference
      [normalize_ref]; well-formedness of the tables.
    - [Prompt].  Lines 223-241: the two templates with their text,
      [format], the inputs of a chain, the class [Chains] (what the
      script calls) and [llm_chains] (the chain of the library over any
      model).  Theorems: what text reaches the model; the text read from
      the result of the library's chain is a [str].
    - [Templates].  The text of the two templates as the source writes
      it ([prompt_text], [explain_prompt_text]), the reader of Python's
      format-string syntax ([from_template], one pass over the text with
      a mode) and the writer ([to_text]).  Theorems: a text reads as a
      template exactly when it is the text of that template in normal
      form ([from_template_iff]); the chains made from the texts of the
      source are the chains of [Prompt] ([source_chains_equiv]), and
      what they send to the model ([source_prompt_sent]).
    - [Config].  Lines 16-28: the arguments of [st.set_page_config],
      the environment after [load_dotenv] (a variable of the process
      wins over the file [.env]), the key read from it, the settings of
      the client ([llm]) and the chains over it ([configured_chains]); the
      hosted model behind the client is the parameter [Backend].
    - [Session].  The four keys of the session state ([SessionState],
      and [Stored] between two executions), [init_session_state] (36-45),
      the callback [on_change] (116) and every assignment of the script:
      [append_entry] (293-297), [clear_session] (271-275),
      [reset_clear_flag] (280-281), [init_show_flag] (284-285).
    - [Script].  The script as a program of [prog] over [RunState] (the
      session state and the page rendered so far), one definition per
      block in the order of the source: [render_header], [read_upload],
      [code_input], [render_actions], [revert_warning], [revert],
      [clear_all], [optimize], [explain], [comparison] with
      [render_comparison] and [explain_optimized], [render_footer],
      [render_css]; [script] composes them, [run] is one execution on
      the stored session state, [interact] is one action of the user (the
      callback, the execution, and the second execution after
      [st.rerun()]).  The widgets are inputs ([Widgets]); the page is the
      list of the output calls ([Element]).  The equations of the blocks
      ([revert_pop], [optimize_ok], ...) give each block on each branch.
    - [Invariant].  A property of the entries that holds of every entry
      optimize can append is kept by every block, hence by [script] and
      [run] ([script_history_all], by [maintains_tac]).
    - [Controller].  The session controller of the specification as
      functions on the session state ([revert_step], [optimize_step],
      [explain_step], composed in [step]) and what an execution renders
      ([page_step]).  [script_eq] and the theorem [run_refines_step]
      show that the script computes what they say: session state, page
      and outcome.
    - [Run].  One execution, by action: the session state it leaves and
      how it ends after optimize (success, failure of the chain, blank
      code), explain (success, failure), revert, clear, a file that does
      not decode; and whatever is pressed: older entries are never
      rewritten, at most one entry is appended, which exceptions can be
      raised, and that an execution which gets to line 316
      ([reaches_comparison] of [Controller]) with a last entry whose
      cleaned code is not a [str] ends in [AttributeError]
      ([run_poisoned]).
    - [Page].  What one execution renders, by action: the text area and
      its value, the comparison view and its entry, the explanation, the
      warning of revert, and when the footer and the style sheet are
      rendered.
    - [Markup].  The text of the seven constant blocks the script gives
      to [st.markdown] with [unsafe_allow_html=True] ([header_html],
      [features_html], [paste_heading_html], [comparison_open_html],
      [div_close_html], [footer_html], [dark_css], by [html_text]), and
      how it reads: [scan] follows the [div] elements a text opens and
      closes, [page_scan] those of a page.  Theorems: every page is well
      nested, however the execution ends ([run_well_nested]); the tags
      around the comparison section are blocks of their own that are not
      ([html_text_nesting]); the classes of the markup and the rules of
      the style sheet ([classes_styled]).
    - [Keys].  The identity Streamlit gives the widgets: the [key=]
      arguments of lines 93, 115 and 336 ([key_of]), the kind and the
      label of every widget ([widget_of]).  Theorem: every page creates
      a part of the eight widgets of the script, in their order, so that
      no execution ends with [DuplicateWidgetID]
      ([run_no_duplicate_widget]).
    - [Layout].  Where the output calls put their elements: the four
      rows of columns of lines 85, 245, 328 and 340 ([Row], [weights]),
      the [with] block of every call ([Place]), the blocks of the page
      with their places and [layout_step], the page of [page_step] with
      the place of every element; the options of the widgets that change
      their look only ([options]).  Theorems: the layout is the page
      ([layout_refines_page]); the rows are unpacked into as many names
      as they have columns and the columns are filled in the order of
      the source ([layout_columns]).
    - [Sessions].  Sequences of executions.  The state machine of the
      specification, transition by transition ([Mode] over [Resting],
      [Transition], [machine_step], with [history_effect] for what a
      transition does to the number of entries and [machine_path] for a
      sequence of them; [machine_run] is the same machine as a
      function), the transitions an execution takes in the order of its
      handlers ([transitions]), and the proof that every execution
      follows the machine, however it ends ([run_follows_machine]): from
      a state without the explanation flag the transitions lead from
      the state before to the state after, and an explain whose chain
      raises stays in [SHOWING_EXPLANATION]; from there the next
      optimize or explain completes the rendering, and until then
      revert and clear act underneath, which the machine has no
      transition for.  The stored states a session can reach
      ([reachable]) and their invariant ([stored_ok]), by induction on
      the actions; clear and its rerun; the scenarios of the
      specification.
    - [Browser].  What Streamlit keeps for one tab between two
      executions ([Browser]: the stored session state, the file in the
      uploader, the text area under the key [main_code_input] with the
      value it was created with and its text, the page on display, how
      the last execution ended, the number of executions so far), the
      events of the user ([Event]: an edit, an upload, the removal of the
      file, a press), which of them the page on display allows
      ([enabled]), the callback of line 116 ([apply_event]), one
      execution ([execute], which runs [run] of [Script] on the widget
      values [widgets_of]), the loop that repeats the script after
      [st.rerun()] ([runner], with fuel, and [deliver], its result), one
      event ([browse]) and a sequence of them ([session]) from the page a
      new tab gets ([open_page]).  Theorems: the loop ends after two
      executions at most ([runner_terminates]); what an action causes in
      the browser is an interaction of [Script] ([deliver_interact]),
      which is how [Precedence] carries the invariant of the session
      state to the browser.
    - [Text].  The two places where the script meets bytes.  The file
      the uploader hands to the script, with its content as bytes
      ([upload], [bytes_decode]: lines 93-95), and what the download
      button writes ([str_encode], lines 342-348).  Theorems: the
      execution ends with [UnicodeDecodeError] exactly when the content
      is not well formed ([upload_decodes]); what a download button of a
      browser session offers decodes again when it is uploaded
      ([download_uploads_back]); [Str.lower] and [Str.sub_non_alnum],
      defined on the characters, are functions of the code points
      ([lower_code_points], [sub_non_alnum_code_points]); [Str.strip]
      tells blank code as Python does ([strip_code_points]).
    - [Precedence].  The invariant of the browser sessions
      ([browser_ok]: the invariant of [Sessions], and that the text, the
      widget and the buttons on display agree with the session state) and
      what it gives: which text the next execution works on
      ([what_you_see]), when an edit shows and when it is discarded
      ([edit_text_area]), when an upload fills the text area
      ([upload_fills]), what a clear leaves of an upload
      ([clear_leaves_upload]), which exceptions a session can raise
      ([session_exceptions]), and that the code typed is the code
      optimized ([typed_code_is_optimized]).
    - [Server].  The sessions of several tabs as a finite map of browser
      sessions ([serve], [serve_all]).  Theorems: the users do not
      interfere ([sessions_isolated]); every session of the server is a
      browser session of one user ([server_sessions_reachable]); loading
      the page again starts over ([reload_forgets]).
    - [Progress].  Where a session gets to: reverts come to an end with
      the first entry left ([reverts_reach_bottom]), a press on Explain
      Optimized Code is served ([explain_optimized_served]), a file that
      does not decode can be removed ([remove_recovers]), optimize then
      revert gives the history back ([optimize_revert_roundtrip]).

    ** Conventions and bounds

    - A Python [str] is a [string], a sequence of 8-bit characters: the
      bytes of its UTF-8 encoding ([Text]; the labels of the script with
      an emoji are written that way).  Bytes and code points are
      integers ([Z]), with [Z.land], [Z.lor], [Z.shiftl] and [Z.shiftr]
      where the format has masks and shifts.  [Str.strip] and
      [Str.sub_non_alnum] are exact on every [str]: the white space
      [strip] removes is that of Python 3.11, 29 code points of which 19
      are outside ASCII.  [Str.lower] knows the letters A to Z; Python
      also lower-cases the letters outside ASCII.  Every key of the two
      tables is ASCII.
    - [os.path.splitext] is the POSIX one (separator [/]).
    - [None] is [None] of an [option].  What a chain returns is a
      [PyVal]: a [str], [None], or a [dict] from [str] to [str] or
      [None].  These are the shapes the expression of line 291 tells
      apart, with [None] for a value without [strip] (line 316); a
      value of another type is not a value of the model.
    - Every definition is total and structurally recursive.  The script
      has no loop but the search of lines 212-215, which is
      [Dict.first_item] on the table.  Two loops of the libraries take
      fuel.  [runner] is the loop of the framework around the script:
      [runner_terminates] shows that fuel for two executions is always
      enough (the execution after [st.rerun()] finds [clear_btn] false and
      asks for no further one), so that [deliver], which runs at most
      two, is what the loop returns.  [decode_loop] is the loop of the
      decoder: every code point takes a byte at least, so that the
      number of bytes is enough, and [decode] runs it with that
      ([decode_loop_terminates]: more fuel changes nothing, and less
      fails exactly when the text has more code points).
    - What [st.text_area] returns depends on the state of the widget in
      the browser.  In [Script] to [Sessions] it enters as the function
      [text_area] of [Widgets] from the value the script gives the widget
      to the text it returns, and the buttons are booleans; [pressed]
      says that at most one is true, and the theorems that do not need it
      do not assume it.  [Browser] fixes them by the rules of Streamlit's
      documentation of widget behaviour: a widget is identified by the
      arguments it is created with, so that the text area keeps its text
      as long as it is created with the same value and shows the new
      value otherwise ([text_area_widget]); a widget that an execution
      does not create loses its state; the callback of an edit runs
      before the execution the edit causes; a button is true in the
      execution its press causes and in no other; the user acts on the
      widgets of the page on display only.
    - An uploaded file is read from its start in every execution: the
      decoded content of the file ([decoded], [None] when it is not
      UTF-8) is the same in every execution that sees the file.
      [Script] to [Progress] take [decoded] as given; [upload] of [Text]
      computes it from the bytes of the file.
    - The answers of the model are values of Python; [Utf8Chains] and
      [Utf8Service] of [Text] say that the answer the script stores is a
      [str], as every answer of the library is.
    - The hosted model and the lexer are parameters (classes [Chains] and
      [Lexer]); [TextChains] is the assumption that a chain returns text
      where the script reads it, which [llm_chains] satisfies.  A model
      may answer differently from one execution to the next: [interact]
      and [reachable] take the chains of each execution, and a browser
      session takes them from a [Service], the chains by the number of
      the execution ([TextService] is [TextChains] of each).
    - The constant markup is one constructor of [HtmlBlock] per block in
      the page, and [html_text] of [Markup] is its text.  The page is the
      list of the output calls in the order of the execution; the column
      each call stands in and the options of the widgets that only change
      their look (height, placeholder, help, [use_container_width]) are
      added by [Layout], so that the theorems on pages do not depend on
      them.
    - The server takes the requests of the tabs one at a time; each tab
      has a [Service] of its own, so that nothing is assumed of how the
      answers to different users relate.

    ** Not modelled

    - The hosted model (line 28), which is a network service, and the
      heuristic of Pygments, which is a library: both are parameters of
      every theorem.
    - What a browser draws: the effect of the style sheet on the page
      (among them the rules of lines 469-518, which hide parts of the
      file uploader), the widths and heights the columns and the widgets
      get on the screen.  [Markup] has the text of the style sheet and
      its class rules, not the cascade; [Layout] has the columns and the
      options, not the geometry.
    - The imports of lines 1-6, which have no behaviour of their own.
    - Failures before the page: [st.set_page_config], [load_dotenv],
      the constructor of the client (lines 17-28) and the constructors
      of the templates and chains (lines 223-241) are taken to return.
      [Config] and [Templates] say what they are called with; an
      execution of the model starts where they have succeeded.
    - Exceptions of Pygments other than [ClassNotFound]: [guess_lexer]
      returns a lexer or raises [ClassNotFound] ([GuessError]), and the
      [name] of a lexer is a [str].
    - The case mapping of Unicode outside ASCII.  [lower_code_points]
      says what the model computes in its place.  A lookup in the tables
      of the script differs from Python only for a file name or a lexer
      name with the Kelvin sign U+212A or the dotted capital I U+0130,
      the two code points outside ASCII whose lower case has an ASCII
      letter; the lexer name returned when no table has it (line 218)
      differs for any name with a capital letter outside ASCII.
    - The decoder reports no position and no reason: [None] stands for
      [UnicodeDecodeError] with any arguments.
    - Executions of one session that overlap (Streamlit stops the
      running execution when a new event arrives): an event is taken
      when the execution before it has ended.  The script writes
      nothing between a call of the model and what follows its answer,
      so that an execution stopped during the call leaves the session
      state of one whose chain raises there ([run_optimize_err],
      [run_explain_err]). *)

From Stdlib Require Import Ascii String List Lia.
From stdpp Require Import base tactics option list strings.

(** ** Results of code that can raise *)

Inductive result (E A : Type) : Type :=
| Ok (a : A)
| Err (e : E).
Arguments Ok {E A} a.
Arguments Err {E A} e.

Definition rbind {E A B} (r : result E A) (k : A -> result E B) : result E B :=
  match r with
  | Ok a => k a
  | Err e => Err e
  end.

Definition rmap {E A B} (f : A -> B) (r : result E A) : result E B :=
  rbind r (fun a => Ok (f a)).

Definition is_ok {E A} (r : result E A) : bool :=
  match r with Ok _ => true | Err _ => false end.


(** ** Programs: state, output and early exit

    A block of the script is a [prog]: a function of the state that
    either goes on with a value ([Next]) or ends the run ([Halt]) with
    the reason [h].  In both cases the state reached is kept: what a block
    wrote before it raised stays written. *)

Section prog.
Context {St H : Type}.

Inductive step_result (A : Type) : Type :=
| Next (a : A) (st : St)
| Halt (h : H) (st : St).
#[global] Arguments Next {A} a st.
#[global] Arguments Halt {A} h st.

Definition prog (A : Type) : Type := St -> step_result A.

Definition ret {A} (a : A) : prog A := fun st => Next a st.

Definition bind {A B} (m : prog A) (k : A -> prog B) : prog B :=
  fun st =>
    match m st with
    | Next a st' => k a st'
    | Halt h st' => Halt h st'
    end.

Definition get_state : prog St := fun st => Next st st.

Definition modify (f : St -> St) : prog unit := fun st => Next tt (f st).

Definition halt {A} (h : H) : prog A := fun st => Halt h st.

(** A computation that can raise, run inside a program: [inj] turns the
    exception into the reason of the halt. *)
Definition lift_result {E A} (inj : E -> H) (r : result E A) : prog A :=
  match r with
  | Ok a => ret a
  | Err e => halt (inj e)
  end.

(** An operation that raises when there is no value: [o] or the halt
    [h]. *)
Definition or_halt {A} (h : H) (o : option A) : prog A :=
  match o with
  | Some a => ret a
  | None => halt h
  end.

(** [if c: body] *)
Definition when (c : bool) (body : prog unit) : prog unit :=
  if c then body else ret tt.

(** The state a program ends in. *)
Definition state_of {A} (r : step_result A) : St :=
  match r with
  | Next _ st => st
  | Halt _ st => st
  end.

(** The reason of the halt, if the program halted. *)
Definition halted {A} (r : step_result A) : option H :=
  match r with
  | Next _ _ => None
  | Halt h _ => Some h
  end.

(** [m] keeps the property [I] of the state, however it ends. *)
Definition maintains {A} (I : St -> Prop) (m : prog A) : Prop :=
  forall st, I st -> I (state_of (m st)).

End prog.

Arguments prog : clear implicits.
Arguments step_result : clear implicits.

Declare Scope prog_scope.
Delimit Scope prog_scope with prog.
Notation "x <- e ;; k" := (bind e (fun x => k))
  (at level 100, e at next level, right associativity) : prog_scope.
Notation "e ;; k" := (bind e (fun _ => k))
  (at level 100, right associativity) : prog_scope.

(** ** Python truthiness

    [truthy x] is what [bool(x)] returns, that is what [if x:], [x and y]
    and [not x] test. *)

Class Truthy (A : Type) := truthy : A -> bool.
#[global] Hint Mode Truthy ! : typeclass_instances.

#[export] Instance truthy_bool : Truthy bool := fun b => b.
#[export] Instance truthy_string : Truthy string :=
  fun s => match s with EmptyString => false | String _ _ => true end.
#[export] Instance truthy_list {A} : Truthy (list A) :=
  fun l => match l with [] => false | _ :: _ => true end.
#[export] Instance truthy_option {A} `{Truthy A} : Truthy (option A) :=
  fun o => match o with None => false | Some a => truthy a end.

(** ** Hint database and tactics *)

Create HintDb py discriminated.
Create Rewrite HintDb py.

(** [table_decide] proves a decidable statement about the script's
    literal tables by evaluating its decision procedure. *)
Ltac table_decide := apply (bool_decide_unpack _); vm_compute; exact I.

(** [by_evaluation] proves the hypotheses of a theorem at a concrete
    input by evaluating the definitions. *)
Ltac by_evaluation := vm_compute; repeat split; try discriminate; try reflexivity; try lia.

(** ** Generic lemmas *)

Section result_lemmas.
Context {E A B C : Type}.

Lemma rbind_Ok (a : A) (k : A -> result E B) : rbind (Ok a) k = k a.
Proof. done. Qed.

Lemma rbind_Err (e : E) (k : A -> result E B) : rbind (Err e) k = Err e.
Proof. done. Qed.

Lemma rbind_Ok_inv (r : result E A) (k : A -> result E B) (b : B) :
  rbind r k = Ok b <-> exists a, r = Ok a /\ k a = Ok b.
Proof.
  destruct r; simpl; split; try (intros (? & ? & ?)); try congruence; eauto.
Qed.

End result_lemmas.

#[export] Hint Rewrite @rbind_Ok @rbind_Err : py.

Section prog_lemmas.
Context {St H A B C : Type}.
Implicit Types (m : prog St H A) (st : St).

Lemma bind_ret_l (a : A) (k : A -> prog St H B) st : bind (ret a) k st = k a st.
Proof. done. Qed.

Lemma bind_assoc m (k : A -> prog St H B) (h : B -> prog St H C) st :
  bind (bind m k) h st = bind m (fun a => bind (k a) h) st.
Proof. unfold bind. by destruct (m st). Qed.

Lemma bind_Next m (k : A -> prog St H B) st a st' :
  m st = Next a st' -> bind m k st = k a st'.
Proof. unfold bind. by intros ->. Qed.

Lemma bind_Halt m (k : A -> prog St H B) st h st' :
  m st = Halt h st' -> bind m k st = Halt h st'.
Proof. unfold bind. by intros ->. Qed.

Lemma state_of_bind m (k : A -> prog St H B) st :
  state_of (bind m k st) =
  match m st with
  | Next a st' => state_of (k a st')
  | Halt _ st' => st'
  end.
Proof. unfold bind. by destruct (m st). Qed.

Lemma when_false (body : prog St H unit) st : when false body st = Next tt st.
Proof. done. Qed.

Lemma when_true (body : prog St H unit) st : when true body st = body st.
Proof. done. Qed.

Section maintains_lemmas.
Context (I : St -> Prop).

Lemma maintains_ret (a : A) : maintains I (ret (H:=H) a).
Proof. by intros st. Qed.

Lemma maintains_halt (h : H) : maintains I (halt (A:=A) h).
Proof. by intros st. Qed.

Lemma maintains_get_state : maintains I (get_state (H:=H)).
Proof. by intros st. Qed.

Lemma maintains_modify (f : St -> St) :
  (forall st, I st -> I (f st)) -> maintains I (modify (H:=H) f).
Proof. intros Hf st. apply Hf. Qed.

Lemma maintains_bind m (k : A -> prog St H B) :
  maintains I m -> (forall a, maintains I (k a)) -> maintains I (bind m k).
Proof.
  intros Hm Hk st Hst. rewrite state_of_bind. specialize (Hm st Hst).
  destruct (m st); [by apply Hk | done].
Qed.

(** Reading the state: what follows runs from a state that has the
    property. *)
Lemma maintains_get_state_bind (k : St -> prog St H B) :
  (forall st0, I st0 -> maintains I (k st0)) -> maintains I (bind get_state k).
Proof. intros Hk st Hst. unfold bind, get_state. by apply Hk. Qed.

(** A fallible call: what follows runs with the value it returned. *)
Lemma maintains_lift_result_bind {E} (inj : E -> H) (r : result E A)
    (k : A -> prog St H B) :
  (forall a, r = Ok a -> maintains I (k a)) ->
  maintains I (bind (lift_result inj r) k).
Proof. intros Hk st Hst. destruct r; [by apply Hk | done]. Qed.

Lemma maintains_or_halt_bind (h : H) (o : option A) (k : A -> prog St H B) :
  (forall a, o = Some a -> maintains I (k a)) ->
  maintains I (bind (or_halt h o) k).
Proof. intros Hk st Hst. destruct o; [by apply Hk | done]. Qed.

Lemma maintains_when (c : bool) (body : prog St H unit) :
  maintains I body -> maintains I (when c body).
Proof. destruct c; [done | by intros _ st]. Qed.

Lemma maintains_when_false (body : prog St H unit) : maintains I (when false body).
Proof. by intros st. Qed.

Lemma maintains_lift_result {E} (inj : E -> H) (r : result E A) :
  maintains I (lift_result inj r).
Proof. destruct r; [apply maintains_ret | apply maintains_halt]. Qed.

End maintains_lemmas.

End prog_lemmas.

#[export] Hint Rewrite @bind_ret_l @when_false @when_true : py.

(** [maintains_tac] proves that a block keeps a property from the
    blocks it is made of: it walks the binds and the branches, and leaves
    the assignments to the state to [tac]. *)
Ltac head_of t :=
  lazymatch t with
  | ?f _ => head_of f
  | _ => t
  end.
Ltac maintains_step tac :=
  lazymatch goal with
  | |- maintains _ (bind get_state _) => apply maintains_get_state_bind; intros ? ?
  | |- maintains _ (bind (lift_result _ _) _) =>
      apply maintains_lift_result_bind; intros ? ?
  | |- maintains _ (bind (or_halt _ _) _) =>
      apply maintains_or_halt_bind; intros ? ?
  | |- maintains _ (bind _ _) => apply maintains_bind
  | |- maintains _ (ret _) => apply maintains_ret
  | |- maintains _ (halt _) => apply maintains_halt
  | |- maintains _ get_state => apply maintains_get_state
  | |- maintains _ (when false _) => apply maintains_when_false
  | |- maintains _ (when _ _) => apply maintains_when
  | |- maintains _ (lift_result _ _) => apply maintains_lift_result
  | |- maintains _ (modify _) => apply maintains_modify; tac
  | |- maintains _ (if ?x then _ else _) => destruct x eqn:?
  | |- maintains _ (match ?x with _ => _ end) => destruct x eqn:?
  | |- forall _, _ => intro
  | |- maintains _ ?m => let h := head_of m in unfold h
  end.
Ltac maintains_tac tac := repeat maintains_step tac; eauto with py.

Section table_lemmas.

(** A boolean property of every row of a table, read off a membership. *)
Lemma table_row {K V} (P : K * V -> bool) (d : list (K * V)) k v :
  forallb P d = true -> (k, v) ∈ d -> P (k, v) = true.
Proof.
  rewrite forallb_forall. intros Hall Hin. apply Hall. by apply list_elem_of_In.
Qed.

End table_lemmas.

Section list_lemmas.

(** [omap] keeps the order: the images of a part of a list are a part of
    the images of the list. *)
#[export] Instance omap_sublist {A B} (f : A -> option B) :
  Proper (sublist ==> sublist) (omap f).
Proof.
  induction 1 as [|x l k _ IH|x l k _ IH]; cbn [omap list_omap]; [done|..];
    destruct (f x); by repeat constructor.
Qed.

(** What holds of the elements of a list holds of those of a part of
    it. *)
Lemma sublist_Forall {A} (P : A -> Prop) (l k : list A) :
  l `sublist_of` k -> Forall P k -> Forall P l.
Proof.
  induction 1 as [|x l k _ IH|x l k _ IH]; inversion 1; subst;
    first [done | by constructor; auto | by auto].
Qed.

End list_lemmas.

Section truthy_lemmas.

Lemma truthy_snoc {A} (l : list A) (x : A) : truthy (l ++ [x]) = true.
Proof. by destruct l. Qed.

Lemma truthy_None {A} `{Truthy A} : truthy (@None A) = false.
Proof. done. Qed.

Lemma truthy_Some {A} `{Truthy A} (a : A) : truthy (Some a) = truthy a.
Proof. done. Qed.

End truthy_lemmas.

#[export] Hint Rewrite @truthy_None @truthy_Some : py.
