(* ===== verification/Utf8.v ===== *)
(** * Utf8: the encoding the script reads uploads and writes downloads in

    Line 95 of src/CodeOptimizer.py decodes the content of the uploaded
    file with [decode("utf-8")], which raises [UnicodeDecodeError] on a
    content that is not UTF-8, and [st.download_button] (lines 342-348)
    writes the optimized code, a [str], as UTF-8.  This file has the
    codec: bytes and code points are integers, a byte with its range
    written out ([is_byte]), the encoder and the decoder work on the bits
    with [Z.land], [Z.lor], [Z.shiftl] and [Z.shiftr] as implementations
    of UTF-8 do, and the decoder is strict as Python's is (no overlong
    form, no surrogate, nothing above U+10FFFF).

    The codec is modelled from the definition of UTF-8 (RFC 3629, and
    Table 3-7 of the Unicode standard for the well-formed byte
    sequences).  The theorems: the bit operations compute what the
    arithmetic reference says ([encode_cp_ref], [decode_one_ref]);
    decoding inverts encoding and encoding inverts decoding; the loop of
    the decoder ends, with the number of bytes as fuel; ASCII decodes to
    itself; the decoder accepts exactly the byte sequences of the
    table. *)

From Stdlib Require Import ZArith List Lia.
From stdpp Require Import base tactics option list numbers.
From S2P Require Import Prelude.

#[local] Open Scope Z_scope.

(** ** Bytes and code points *)

(** A byte: an integer of 8 bits. *)
Definition is_byte (b : Z) : Prop := 0 <= b < 256.

(** [lo <= b <= hi] *)
Definition in_range (lo hi b : Z) : bool := bool_decide (lo <= b <= hi).

(** A Unicode scalar value: a code point that is not a surrogate. *)
Definition scalar (c : Z) : Prop := 0 <= c < 0xD800 \/ 0xE000 <= c < 0x110000.

(** ** The encoder *)

(** The continuation byte with the six bits of [c] from bit [k] on. *)
Definition continuation (c k : Z) : Z := Z.lor 0x80 (Z.land (Z.shiftr c k) 0x3F).

Definition encode_cp (c : Z) : list Z :=
  if c <? 0x80 then [c]
  else if c <? 0x800 then
    [Z.lor 0xC0 (Z.shiftr c 6); continuation c 0]
  else if c <? 0x10000 then
    [Z.lor 0xE0 (Z.shiftr c 12); continuation c 6; continuation c 0]
  else
    [Z.lor 0xF0 (Z.shiftr c 18); continuation c 12; continuation c 6; continuation c 0].

(** [s.encode("utf-8")] on the code points of [s]. *)
Definition encode (cps : list Z) : list Z := cps ≫= encode_cp.

(** ** The decoder *)

Definition is_continuation (b : Z) : bool := Z.land b 0xC0 =? 0x80.

(** The six bits a continuation byte carries. *)
Definition payload (b : Z) : Z := Z.land b 0x3F.

Definition is_surrogate (c : Z) : bool := (0xD800 <=? c) && (c <=? 0xDFFF).

(** One code point from the front of [bs], and the bytes after it. *)
Definition decode_one (bs : list Z) : option (Z * list Z) :=
  match bs with
  | [] => None
  | b0 :: r =>
      if b0 <? 0x80 then Some (b0, r)
      else if Z.land b0 0xE0 =? 0xC0 then
        match r with
        | b1 :: r' =>
            let c := Z.lor (Z.shiftl (Z.land b0 0x1F) 6) (payload b1) in
            if is_continuation b1 && (0x80 <=? c) then Some (c, r') else None
        | _ => None
        end
      else if Z.land b0 0xF0 =? 0xE0 then
        match r with
        | b1 :: b2 :: r' =>
            let c := Z.lor (Z.lor (Z.shiftl (Z.land b0 0x0F) 12)
                                  (Z.shiftl (payload b1) 6)) (payload b2) in
            if is_continuation b1 && is_continuation b2 && (0x800 <=? c)
               && negb (is_surrogate c)
            then Some (c, r') else None
        | _ => None
        end
      else if Z.land b0 0xF8 =? 0xF0 then
        match r with
        | b1 :: b2 :: b3 :: r' =>
            let c := Z.lor (Z.lor (Z.lor (Z.shiftl (Z.land b0 0x07) 18)
                                         (Z.shiftl (payload b1) 12))
                                  (Z.shiftl (payload b2) 6)) (payload b3) in
            if is_continuation b1 && is_continuation b2 && is_continuation b3
               && (0x10000 <=? c) && (c <=? 0x10FFFF)
            then Some (c, r') else None
        | _ => None
        end
      else None
  end.

(** The loop of the decoder: code points are read from the front until
    the bytes are used up; [None] is [UnicodeDecodeError]. *)
Fixpoint decode_loop (fuel : nat) (bs : list Z) : option (list Z) :=
  match bs, fuel with
  | [], _ => Some []
  | _, O => None
  | _, S fuel =>
      '(c, r) ← decode_one bs; cps ← decode_loop fuel r; Some (c :: cps)
  end.

(** [bs.decode("utf-8")]: every code point takes a byte at least, so
    the number of bytes is fuel enough. *)
Definition decode (bs : list Z) : option (list Z) := decode_loop (length bs) bs.

(** ** The reference: arithmetic *)

(** The encoder with quotients and remainders in the place of shifts and
    masks. *)
Definition encode_cp_ref (c : Z) : list Z :=
  if decide (c < 128) then [c]
  else if decide (c < 2048) then [192 + c / 64; 128 + c mod 64]
  else if decide (c < 65536) then
    [224 + c / 4096; 128 + (c / 64) mod 64; 128 + c mod 64]
  else
    [240 + c / 262144; 128 + (c / 4096) mod 64; 128 + (c / 64) mod 64; 128 + c mod 64].

(** The decoder with ranges and sums in the place of masks and shifts. *)
Definition decode_one_ref (bs : list Z) : option (Z * list Z) :=
  match bs with
  | [] => None
  | b0 :: r =>
      if decide (b0 < 128) then Some (b0, r)
      else if in_range 192 223 b0 then
        match r with
        | b1 :: r' =>
            let c := (b0 - 192) * 64 + (b1 - 128) in
            if in_range 128 191 b1 && bool_decide (128 <= c) then Some (c, r') else None
        | _ => None
        end
      else if in_range 224 239 b0 then
        match r with
        | b1 :: b2 :: r' =>
            let c := (b0 - 224) * 4096 + (b1 - 128) * 64 + (b2 - 128) in
            if in_range 128 191 b1 && in_range 128 191 b2
               && bool_decide (2048 <= c) && negb (in_range 0xD800 0xDFFF c)
            then Some (c, r') else None
        | _ => None
        end
      else if in_range 240 247 b0 then
        match r with
        | b1 :: b2 :: b3 :: r' =>
            let c := (b0 - 240) * 262144 + (b1 - 128) * 4096 + (b2 - 128) * 64
                     + (b3 - 128) in
            if in_range 128 191 b1 && in_range 128 191 b2 && in_range 128 191 b3
               && bool_decide (65536 <= c <= 0x10FFFF)
            then Some (c, r') else None
        | _ => None
        end
      else None
  end.

(** ** The reference: the table of the well-formed sequences *)

(** Table 3-7 of the Unicode standard: the byte sequences that are
    UTF-8, by the first byte. *)
Fixpoint well_formed (bs : list Z) : bool :=
  match bs with
  | [] => true
  | b0 :: r =>
      if in_range 0x00 0x7F b0 then well_formed r
      else if in_range 0xC2 0xDF b0 then
        match r with
        | b1 :: r' => in_range 0x80 0xBF b1 && well_formed r'
        | _ => false
        end
      else if in_range 0xE0 0xEF b0 then
        match r with
        | b1 :: b2 :: r' =>
            in_range (if decide (b0 = 0xE0) then 0xA0 else 0x80)
                     (if decide (b0 = 0xED) then 0x9F else 0xBF) b1
            && in_range 0x80 0xBF b2 && well_formed r'
        | _ => false
        end
      else if in_range 0xF0 0xF4 b0 then
        match r with
        | b1 :: b2 :: b3 :: r' =>
            in_range (if decide (b0 = 0xF0) then 0x90 else 0x80)
                     (if decide (b0 = 0xF4) then 0x8F else 0xBF) b1
            && in_range 0x80 0xBF b2 && in_range 0x80 0xBF b3 && well_formed r'
        | _ => false
        end
      else false
  end.

(** ** From bits to arithmetic *)

#[local] Ltac Zify.zify_post_hook ::= Z.to_euclidean_division_equations.

Section bits.
Implicit Types (a b c k : Z).

(** The bits of [b] lie below bit [k], those of a multiple of [2 ^ k]
    above. *)
Lemma land_low a b k : 0 <= k -> 0 <= b < 2 ^ k -> Z.land (a * 2 ^ k) b = 0.
Proof.
  intros Hk Hb. destruct (decide (b = 0)) as [->|Hb0]; [apply Z.land_0_r|].
  apply Z.bits_inj'; intros n Hn. rewrite Z.land_spec, Z.bits_0.
  destruct (Z.lt_ge_cases n k); [by rewrite Z.mul_pow2_bits_low by lia|].
  rewrite (Z.bits_above_log2 b n), andb_false_r; [done|lia|].
  apply Z.lt_le_trans with k; [apply Z.log2_lt_pow2|]; lia.
Qed.

(** Bits that do not overlap are added. *)
Lemma lor_add k a b : 0 <= k -> a mod 2 ^ k = 0 -> 0 <= b < 2 ^ k -> Z.lor a b = a + b.
Proof.
  intros Hk Ha Hb. assert (0 < 2 ^ k) by (by apply Z.pow_pos_nonneg).
  replace a with (a / 2 ^ k * 2 ^ k) by lia.
  pose proof (land_low (a / 2 ^ k) b k Hk Hb).
  by rewrite <- Z.lxor_lor, <- Z.add_nocarry_lxor.
Qed.

Lemma land_mod k c : 0 <= k -> Z.land c (2 ^ k - 1) = c mod 2 ^ k.
Proof. intros. rewrite <- Z.land_ones by done. f_equal. rewrite Z.ones_equiv. lia. Qed.

Lemma leb_decide a b : (a <=? b) = bool_decide (a <= b).
Proof. case_bool_decide; lia. Qed.

Lemma ltb_decide a b : (a <? b) = bool_decide (a < b).
Proof. case_bool_decide; lia. Qed.

(** A property of the bytes that holds of the 256 of them. *)
Lemma byte_cases (P : Z -> Prop) `{!forall b, Decision (P b)} :
  bool_decide (Forall P (seqZ 0 256)) = true -> forall b, is_byte b -> P b.
Proof.
  intros HP%bool_decide_eq_true b Hb. rewrite List.Forall_forall in HP.
  apply HP, list_elem_of_In, elem_of_seqZ. unfold is_byte in Hb. lia.
Qed.

(** What the masks of the decoder test and what they leave of a byte. *)
Lemma byte_masks b :
  is_byte b ->
  (Z.land b 0xE0 =? 0xC0) = in_range 192 223 b /\
  (Z.land b 0xF0 =? 0xE0) = in_range 224 239 b /\
  (Z.land b 0xF8 =? 0xF0) = in_range 240 247 b /\
  is_continuation b = in_range 128 191 b /\
  Z.land b 0x1F = b mod 32 /\ Z.land b 0x0F = b mod 16 /\
  Z.land b 0x07 = b mod 8 /\ payload b = b mod 64.
Proof.
  revert b. match goal with |- forall b, is_byte b -> @?P b => apply (byte_cases P) end.
  by vm_compute.
Qed.

End bits.

(** ** The bit operations compute the reference *)

Section reference.
Implicit Types (b c k : Z) (bs r : list Z).

Lemma in_range_spec lo hi b : in_range lo hi b = true <-> lo <= b <= hi.
Proof. apply bool_decide_eq_true. Qed.

Lemma continuation_eq c k :
  0 <= c -> 0 <= k -> continuation c k = 128 + (c / 2 ^ k) mod 64.
Proof.
  intros Hc Hk. unfold continuation. rewrite Z.shiftr_div_pow2 by done.
  change 0x3F with (2 ^ 6 - 1). rewrite land_mod by lia.
  apply (lor_add 6); [lia|done|]. by apply Z.mod_pos_bound.
Qed.

(** The encoder, on the code points of Unicode. *)
Lemma encode_cp_eq c : 0 <= c < 0x110000 -> encode_cp c = encode_cp_ref c.
Proof.
  intros Hc. unfold encode_cp, encode_cp_ref. rewrite !ltb_decide.
  rewrite !continuation_eq, !Z.shiftr_div_pow2 by lia.
  change (2 ^ 0) with 1. change (2 ^ 6) with 64. change (2 ^ 12) with 4096.
  change (2 ^ 18) with 262144. rewrite !Z.div_1_r.
  repeat case_bool_decide; repeat case_decide; try lia; f_equal.
  - apply (lor_add 5); [lia|done|]. change (2 ^ 5) with 32. lia.
  - apply (lor_add 4); [lia|done|]. change (2 ^ 4) with 16. lia.
  - apply (lor_add 3); [lia|done|]. change (2 ^ 3) with 8. lia.
Qed.

Lemma is_surrogate_eq c : is_surrogate c = in_range 0xD800 0xDFFF c.
Proof.
  unfold is_surrogate, in_range. rewrite !leb_decide.
  repeat case_bool_decide; try done; lia.
Qed.

(** The code point of two, three and four bytes. *)
Lemma code_point_2 b0 b1 :
  in_range 192 223 b0 = true -> in_range 128 191 b1 = true ->
  Z.lor (Z.shiftl (b0 mod 32) 6) (b1 mod 64) = (b0 - 192) * 64 + (b1 - 128).
Proof.
  intros H0%in_range_spec H1%in_range_spec. rewrite Z.shiftl_mul_pow2 by lia.
  change (2 ^ 6) with 64. rewrite (lor_add 6) by (change (2 ^ 6) with 64; lia). lia.
Qed.

Lemma code_point_3 b0 b1 b2 :
  in_range 224 239 b0 = true -> in_range 128 191 b1 = true ->
  in_range 128 191 b2 = true ->
  Z.lor (Z.lor (Z.shiftl (b0 mod 16) 12) (Z.shiftl (b1 mod 64) 6)) (b2 mod 64) =
  (b0 - 224) * 4096 + (b1 - 128) * 64 + (b2 - 128).
Proof.
  intros H0%in_range_spec H1%in_range_spec H2%in_range_spec.
  rewrite !Z.shiftl_mul_pow2 by lia. change (2 ^ 6) with 64. change (2 ^ 12) with 4096.
  rewrite (lor_add 12 (_ * 4096)) by (change (2 ^ 12) with 4096; lia).
  rewrite (lor_add 6) by (change (2 ^ 6) with 64; lia). lia.
Qed.

Lemma code_point_4 b0 b1 b2 b3 :
  in_range 240 247 b0 = true -> in_range 128 191 b1 = true ->
  in_range 128 191 b2 = true -> in_range 128 191 b3 = true ->
  Z.lor (Z.lor (Z.lor (Z.shiftl (b0 mod 8) 18) (Z.shiftl (b1 mod 64) 12))
               (Z.shiftl (b2 mod 64) 6)) (b3 mod 64) =
  (b0 - 240) * 262144 + (b1 - 128) * 4096 + (b2 - 128) * 64 + (b3 - 128).
Proof.
  intros H0%in_range_spec H1%in_range_spec H2%in_range_spec H3%in_range_spec.
  rewrite !Z.shiftl_mul_pow2 by lia.
  change (2 ^ 6) with 64. change (2 ^ 12) with 4096. change (2 ^ 18) with 262144.
  rewrite (lor_add 18 (_ * 262144)) by (change (2 ^ 18) with 262144; lia).
  rewrite (lor_add 12 (_ + _)) by (change (2 ^ 12) with 4096; lia).
  rewrite (lor_add 6) by (change (2 ^ 6) with 64; lia). lia.
Qed.

(** The decoder, on bytes. *)
Lemma decode_one_eq bs : Forall is_byte bs -> decode_one bs = decode_one_ref bs.
Proof.
  intros Hbs. destruct Hbs as [|b0 r Hb0 Hr]; [done|]. cbn [decode_one decode_one_ref].
  destruct (byte_masks b0 Hb0) as (-> & -> & -> & _ & -> & -> & -> & _).
  rewrite ltb_decide. change 0x80 with 128. case_bool_decide; [by rewrite decide_True|].
  rewrite decide_False by done.
  destruct (in_range 192 223 b0) eqn:H2; [|destruct (in_range 224 239 b0) eqn:H3;
    [|destruct (in_range 240 247 b0) eqn:H4; [|done]]].
  - destruct Hr as [|b1 r Hb1 Hr]; [done|].
    destruct (byte_masks b1 Hb1) as (_ & _ & _ & -> & _ & _ & _ & ->).
    destruct (in_range 128 191 b1) eqn:H1; [|done].
    by rewrite code_point_2, leb_decide.
  - destruct Hr as [|b1 ? Hb1 [|b2 r Hb2 Hr]]; [done..|].
    destruct (byte_masks b1 Hb1) as (_ & _ & _ & -> & _ & _ & _ & ->).
    destruct (byte_masks b2 Hb2) as (_ & _ & _ & -> & _ & _ & _ & ->).
    destruct (in_range 128 191 b1) eqn:H1; [|done].
    destruct (in_range 128 191 b2) eqn:H2'; [|done].
    by rewrite code_point_3, leb_decide, is_surrogate_eq.
  - destruct Hr as [|b1 ? Hb1 [|b2 ? Hb2 [|b3 r Hb3 Hr]]]; [done..|].
    destruct (byte_masks b1 Hb1) as (_ & _ & _ & -> & _ & _ & _ & ->).
    destruct (byte_masks b2 Hb2) as (_ & _ & _ & -> & _ & _ & _ & ->).
    destruct (byte_masks b3 Hb3) as (_ & _ & _ & -> & _ & _ & _ & ->).
    destruct (in_range 128 191 b1) eqn:H1; [|done].
    destruct (in_range 128 191 b2) eqn:H2'; [|done].
    destruct (in_range 128 191 b3) eqn:H3'; [|done].
    rewrite code_point_4, !leb_decide by done. cbn [andb].
    unfold in_range. by repeat case_bool_decide; try lia.
Qed.

End reference.

(** ** One code point *)

(** The tests of the reference, decided by arithmetic. *)
Ltac decide_by_lia :=
  repeat first
    [ rewrite decide_True by lia | rewrite decide_False by lia
    | rewrite bool_decide_eq_true_2 by lia | rewrite bool_decide_eq_false_2 by lia ];
  cbn [andb negb].

(** The tests that were passed, as inequalities. *)
Ltac tests_passed :=
  repeat match goal with
  | H : _ && _ = true |- _ => apply andb_prop in H as [? ?]
  | H : negb _ = true |- _ => apply negb_true_iff in H
  | H : bool_decide _ = true |- _ => apply bool_decide_eq_true in H
  | H : bool_decide _ = false |- _ => apply bool_decide_eq_false in H
  end.

Section code_point.
Implicit Types (b c : Z) (bs r : list Z).

Lemma decode_one_ref_encode c r :
  scalar c -> decode_one_ref (encode_cp_ref c ++ r) = Some (c, r).
Proof.
  unfold scalar, encode_cp_ref. intros Hc.
  repeat case_decide; cbn [app]; unfold decode_one_ref, in_range; decide_by_lia;
    try done; do 2 f_equal; lia.
Qed.

Lemma decode_one_ref_inv bs c r :
  Forall is_byte bs -> decode_one_ref bs = Some (c, r) ->
  scalar c /\ bs = encode_cp_ref c ++ r.
Proof.
  unfold decode_one_ref, in_range, scalar, encode_cp_ref, is_byte.
  intros Hbs Hd. destruct Hbs as [|b0 ? Hb0 _]; [done|].
  repeat (case_match; try done); simplify_eq; tests_passed;
    (split; [lia|]); decide_by_lia; cbn [app]; repeat f_equal; lia.
Qed.

(** A code point is written in one to four bytes. *)
Lemma encode_cp_ref_bytes c :
  scalar c ->
  Forall is_byte (encode_cp_ref c) /\ (1 <= length (encode_cp_ref c) <= 4)%nat.
Proof.
  unfold scalar, encode_cp_ref, is_byte. intros Hc.
  repeat case_decide; (split; [repeat constructor; lia|cbn [length]; lia]).
Qed.

Lemma scalar_range c : scalar c -> 0 <= c < 0x110000.
Proof. unfold scalar. lia. Qed.

(** Decoding what was encoded, with the bits. *)
Lemma decode_one_encode c r :
  scalar c -> Forall is_byte r -> decode_one (encode_cp c ++ r) = Some (c, r).
Proof.
  intros Hc Hr. rewrite encode_cp_eq by by apply scalar_range.
  rewrite decode_one_eq; [by apply decode_one_ref_encode|].
  apply Forall_app. split; [by apply encode_cp_ref_bytes|done].
Qed.

(** Encoding what was decoded, with the bits. *)
Lemma decode_one_inv bs c r :
  Forall is_byte bs -> decode_one bs = Some (c, r) ->
  scalar c /\ bs = encode_cp c ++ r.
Proof.
  intros Hbs Hd. rewrite decode_one_eq in Hd by done.
  apply decode_one_ref_inv in Hd as [Hc ->]; [|done].
  by rewrite encode_cp_eq by by apply scalar_range.
Qed.

End code_point.

(** ** Sequences *)

Section sequences.
Implicit Types (b c : Z) (bs r cps : list Z) (fuel : nat).

Lemma encode_cons c cps : encode (c :: cps) = encode_cp c ++ encode cps.
Proof. done. Qed.

Lemma encode_bytes cps : Forall scalar cps -> Forall is_byte (encode cps).
Proof.
  induction 1 as [|c cps Hc _ IH]; [done|]. rewrite encode_cons, Forall_app.
  split; [|done]. rewrite encode_cp_eq by by apply scalar_range.
  by apply encode_cp_ref_bytes.
Qed.

(** Every code point takes a byte at least. *)
Lemma decode_one_shorter bs c r :
  decode_one bs = Some (c, r) -> (length r < length bs)%nat.
Proof.
  unfold decode_one. intros Hd.
  repeat (case_match; try done); simplify_eq; cbn [length]; lia.
Qed.

(** The loop ends: with the number of bytes as fuel, or more, it gives
    what [decode] gives. *)
Lemma decode_loop_fuel fuel bs :
  (length bs <= fuel)%nat -> decode_loop fuel bs = decode bs.
Proof.
  unfold decode. remember (length bs) as n eqn:Hn. intros Hle.
  assert (Hlen : (length bs <= n)%nat) by lia. clear Hn.
  revert n bs Hle Hlen. induction fuel as [|fuel IH]; intros [|n] [|b bs] Hle Hlen;
    cbn [length] in *; try done; try lia.
  cbn [decode_loop]. destruct (decode_one (b :: bs)) as [[c r]|] eqn:Hd; [|done].
  apply decode_one_shorter in Hd. cbn [length mbind option_bind] in *.
  by rewrite (IH n r) by lia.
Qed.

(** The decoder, one code point at a time. *)
Lemma decode_step bs :
  bs <> [] ->
  decode bs = '(c, r) ← decode_one bs; cps ← decode r; Some (c :: cps).
Proof.
  intros Hbs. unfold decode at 1. destruct bs as [|b bs]; [done|].
  cbn [length decode_loop]. destruct (decode_one (b :: bs)) as [[c r]|] eqn:Hd; [|done].
  apply decode_one_shorter in Hd. cbn [length mbind option_bind] in *.
  by rewrite decode_loop_fuel by lia.
Qed.

Lemma encode_cp_nonempty c : encode_cp c <> [].
Proof. unfold encode_cp. by repeat case_match. Qed.

Lemma decode_inv bs cps :
  Forall is_byte bs -> decode bs = Some cps -> Forall scalar cps /\ encode cps = bs.
Proof.
  remember (length bs) as n eqn:Hn. revert bs cps Hn.
  induction (lt_wf n) as [n _ IH]. intros bs cps -> Hbs.
  destruct (decide (bs = [])) as [->|Hne]; [by intros [= <-]|].
  rewrite decode_step by done. destruct (decode_one bs) as [[c r]|] eqn:Hd; [|done].
  cbn [mbind option_bind]. destruct (decode r) as [cps'|] eqn:Hr; [|done].
  intros [= <-]. pose proof (decode_one_shorter _ _ _ Hd).
  apply decode_one_inv in Hd as [Hc ->]; [|done]. apply Forall_app in Hbs as [_ Hbr].
  destruct (IH (length r) ltac:(done) r cps' eq_refl Hbr Hr) as [Hs <-].
  by split; [constructor|].
Qed.

End sequences.

(** ** The table *)

Section table.
Implicit Types (b c : Z) (bs r cps : list Z).

(** The ranges the table tells apart, for a first and for a second
    byte, and whether a byte is a continuation byte. *)
Ltac split_lead b H :=
  assert (H : b < 128 \/ 128 <= b <= 191 \/ 192 <= b <= 193 \/ 194 <= b <= 223 \/
              b = 224 \/ 225 <= b <= 236 \/ b = 237 \/ 238 <= b <= 239 \/
              b = 240 \/ 241 <= b <= 243 \/ b = 244 \/ 245 <= b <= 247 \/ 248 <= b)
    by lia.

Ltac split_second b :=
  let H := fresh in
  assert (H : b < 128 \/ 128 <= b <= 143 \/ 144 <= b <= 159 \/ 160 <= b <= 191 \/
              192 <= b) by lia;
  destruct H as [H|[H|[H|[H|H]]]].

Ltac split_cont b := destruct (decide (128 <= b <= 191)).

Ltac two r :=
  let b1 := fresh "b" in
  destruct r as [|b1 r]; [done|]; split_second b1; decide_by_lia; done.

Ltac three r :=
  let b1 := fresh "b" in let b2 := fresh "b" in
  destruct r as [|b1 [|b2 r]]; [done..|];
  split_second b1; split_cont b2; decide_by_lia; done.

Ltac four r :=
  let b1 := fresh "b" in let b2 := fresh "b" in let b3 := fresh "b" in
  destruct r as [|b1 [|b2 [|b3 r]]]; [done..|];
  split_second b1; split_cont b2; split_cont b3; decide_by_lia; done.

(** The table, one code point at a time: its rows are the sequences the
    reference decoder accepts. *)
Lemma well_formed_step b0 r :
  is_byte b0 ->
  well_formed (b0 :: r) =
  match decode_one_ref (b0 :: r) with Some (_, r') => well_formed r' | None => false end.
Proof.
  unfold is_byte. intros Hb0. cbn [well_formed]. unfold decode_one_ref, in_range.
  split_lead b0 Hc.
  destruct Hc as [H|[H|[H|[H|[H|[H|[H|[H|[H|[H|[H|[H|H]]]]]]]]]]]]; decide_by_lia;
    [done|done|two r|two r|three r|three r|three r|three r|four r|four r|four r|four r|done].
Qed.

Lemma decode_one_ref_shorter bs c r :
  Forall is_byte bs -> decode_one_ref bs = Some (c, r) ->
  Forall is_byte r /\ (length r < length bs)%nat.
Proof.
  intros Hbs Hd. split.
  - apply decode_one_ref_inv in Hd as [_ ->]; [|done]. by apply Forall_app in Hbs as [_ ?].
  - rewrite <- decode_one_eq in Hd by done. by eapply decode_one_shorter.
Qed.

(** The decoder accepts the sequences of the table, and no other. *)
Lemma decode_table bs : Forall is_byte bs -> is_Some (decode bs) <-> well_formed bs = true.
Proof.
  remember (length bs) as n eqn:Hn. revert bs Hn.
  induction (lt_wf n) as [n _ IH]. intros [|b0 r] -> Hbs; [done|].
  rewrite decode_step, decode_one_eq, well_formed_step by (done || by inversion Hbs).
  destruct (decode_one_ref (b0 :: r)) as [[c r']|] eqn:Hd; [|by split; [intros []|]].
  destruct (decode_one_ref_shorter _ _ _ Hbs Hd) as [Hr' Hlen].
  rewrite <- (IH (length r') Hlen r' eq_refl Hr'). cbn [mbind option_bind].
  destruct (decode r'); cbn [mbind option_bind]; split; by intros [].
Qed.

End table.

(** ** The codec *)

Section codec.
Implicit Types (b c : Z) (bs r cps : list Z) (fuel : nat).

Lemma decode_encode cps : Forall scalar cps -> decode (encode cps) = Some cps.
Proof.
  induction 1 as [|c cps Hc Hcps IH]; [done|]. rewrite encode_cons.
  rewrite decode_step by (intros [? _]%app_eq_nil; by eapply encode_cp_nonempty).
  rewrite decode_one_encode by (done || by apply encode_bytes).
  cbn [mbind option_bind]. by rewrite IH.
Qed.

Lemma encode_cp_length c : scalar c -> (1 <= length (encode_cp c) <= 4)%nat.
Proof.
  intros Hc. rewrite encode_cp_eq by by apply scalar_range.
  by apply encode_cp_ref_bytes.
Qed.

Lemma encode_length cps :
  Forall scalar cps -> (length cps <= length (encode cps) <= 4 * length cps)%nat.
Proof.
  induction 1 as [|c cps Hc%encode_cp_length _ IH]; [done|].
  rewrite encode_cons, length_app. cbn [length]. lia.
Qed.

(** C23: decoding and encoding are inverse to each other: the bytes [bs]
    decode to the code points [cps] exactly when [cps] are scalar values
    and [bs] is their encoding.  No two byte sequences decode to the
    same text, and no text is lost. *)
Theorem utf8_roundtrip bs cps :
  Forall is_byte bs ->
  decode bs = Some cps <-> Forall scalar cps /\ encode cps = bs.
Proof.
  intros Hbs. split; [by apply decode_inv|]. intros [Hc <-]. by apply decode_encode.
Qed.

(** The loop of the decoder ends: it needs as much fuel as the text has
    code points, and gives with that much or more what [decode] gives,
    an error included; the number of bytes, which [decode] takes, is
    always enough. *)
Theorem decode_loop_terminates fuel bs :
  decode_loop fuel bs =
    (cps ← decode bs; if decide (length cps <= fuel)%nat then Some cps else None) /\
  ((length bs <= fuel)%nat -> decode_loop fuel bs = decode bs).
Proof.
  split; [|apply decode_loop_fuel]. revert bs.
  induction fuel as [|fuel IH]; intros [|b bs]; try done.
  - rewrite decode_step by done. cbn [decode_loop].
    destruct (decode_one _) as [[c r]|]; [|done]. cbn [mbind option_bind].
    destruct (decode r); [|done]. cbn [mbind option_bind length]. case_decide; [lia|done].
  - rewrite decode_step by done. cbn [decode_loop].
    destruct (decode_one _) as [[c r]|]; [|done]. cbn [mbind option_bind].
    rewrite IH. destruct (decode r) as [cps|]; [|done]. cbn [mbind option_bind length].
    by repeat case_decide; try lia.
Qed.

(** A text of [n] code points is written in [n] to [4 * n] bytes, each
    of them in the range of a byte. *)
Theorem encode_bounds cps :
  Forall scalar cps ->
  Forall is_byte (encode cps) /\
  (length cps <= length (encode cps) <= 4 * length cps)%nat.
Proof. intros Hc. split; [by apply encode_bytes|by apply encode_length]. Qed.

(** ASCII is UTF-8: bytes below 128 decode to themselves, one code
    point for each byte, and are encoded as themselves. *)
Theorem decode_ascii bs :
  Forall (fun b => 0 <= b < 128) bs -> decode bs = Some bs /\ encode bs = bs.
Proof.
  intros Hbs. assert (Henc : encode bs = bs).
  { induction Hbs as [|b bs Hb _ IH]; [done|]. cbn beta in Hb. rewrite encode_cons, IH.
    unfold encode_cp. by rewrite (proj2 (Z.ltb_lt b 0x80)) by lia. }
  split; [|done]. rewrite <- Henc at 1. apply decode_encode.
  revert Hbs. apply List.Forall_impl. unfold scalar. intros; lia.
Qed.

(** The decoder accepts exactly the byte sequences of Table 3-7 of the
    Unicode standard; every other content is [UnicodeDecodeError]. *)
Theorem decode_well_formed bs :
  Forall is_byte bs -> decode bs = None <-> well_formed bs = false.
Proof.
  intros Hbs. rewrite <- not_true_iff_false, <- (decode_table bs Hbs).
  by rewrite eq_None_not_Some.
Qed.

End codec.

(** ** ASCII and the bytes from 128 on *)

(** A code point below 128 is its own encoding, and the encoding of any
    other has bytes from 128 on only: no byte of it is an ASCII
    character. *)
Lemma encode_cp_low c : c < 128 -> encode_cp c = [c].
Proof. unfold encode_cp. intros Hc. by rewrite (proj2 (Z.ltb_lt _ _)) by lia. Qed.

Lemma encode_cp_high c : scalar c -> 128 <= c -> Forall (fun b => 128 <= b) (encode_cp c).
Proof.
  intros Hc%scalar_range Hh. rewrite encode_cp_eq by done. unfold encode_cp_ref.
  repeat case_decide; repeat constructor; lia.
Qed.

(** ** Maps that change ASCII only *)

(** A map of the bytes that leaves the bytes from 128 on alone and keeps
    the others below 128 (such as lower-casing the letters A to Z)
    commutes with decoding: on the text it is the same map of the code
    points. *)
Section ascii_map.
Context (f : Z -> Z).
Hypothesis f_low : forall b, 0 <= b < 128 -> 0 <= f b < 128.
Hypothesis f_high : forall b, 128 <= b -> f b = b.
Implicit Types (b c : Z) (bs r cps : list Z).

Lemma ascii_map_byte b : is_byte b -> is_byte (f b).
Proof.
  unfold is_byte. intros Hb. destruct (decide (b < 128)); [|by rewrite f_high by lia].
  pose proof (f_low b). lia.
Qed.

Lemma ascii_map_bytes bs : Forall is_byte bs -> Forall is_byte (f <$> bs).
Proof. intros Hbs. apply Forall_fmap. revert Hbs. apply List.Forall_impl, ascii_map_byte. Qed.

(** A byte that is mapped is a continuation byte when it was one, and
    is then the same byte. *)
Lemma ascii_map_continuation b :
  is_byte b -> in_range 128 191 (f b) = in_range 128 191 b /\
  (in_range 128 191 b = true -> f b = b).
Proof.
  unfold is_byte, in_range. intros Hb. destruct (decide (b < 128)).
  - pose proof (f_low b). by decide_by_lia.
  - rewrite f_high by lia. by split.
Qed.

Ltac same_continuation Hb :=
  let H1 := fresh in let H2 := fresh in
  destruct (ascii_map_continuation _ Hb) as [H1 H2]; rewrite H1; clear H1;
  match type of Hb with
  | is_byte ?b => destruct (in_range 128 191 b); [rewrite H2 by done|done]
  end.

Lemma decode_one_ref_ascii_map bs :
  Forall is_byte bs ->
  decode_one_ref (f <$> bs) = prod_map f (fmap (M:=list) f) <$> decode_one_ref bs.
Proof.
  intros Hbs. destruct Hbs as [|b0 r Hb0 Hr]; [done|]. cbn [fmap list_fmap decode_one_ref].
  destruct (decide (b0 < 128)) as [Hlow|Hhigh].
  { pose proof (f_low b0). unfold is_byte in Hb0. by rewrite decide_True by lia. }
  rewrite f_high, decide_False by lia.
  destruct (in_range 192 223 b0); [|destruct (in_range 224 239 b0);
    [|destruct (in_range 240 247 b0); [|done]]].
  - destruct Hr as [|b1 r Hb1 Hr]; [done|]. cbn [fmap list_fmap]. same_continuation Hb1.
    cbn [andb]. case_bool_decide; [|done]. cbn [fmap option_fmap option_map prod_map fst snd].
    by rewrite f_high.
  - destruct Hr as [|b1 ? Hb1 [|b2 r Hb2 Hr]]; [done..|]. cbn [fmap list_fmap].
    same_continuation Hb1. same_continuation Hb2.
    cbn [andb]. case_bool_decide; [|done]. cbn [andb]. destruct (negb _); [|done].
    cbn [fmap option_fmap option_map prod_map fst snd]. by rewrite f_high by lia.
  - destruct Hr as [|b1 ? Hb1 [|b2 ? Hb2 [|b3 r Hb3 Hr]]]; [done..|]. cbn [fmap list_fmap].
    same_continuation Hb1. same_continuation Hb2. same_continuation Hb3.
    cbn [andb]. case_bool_decide; [|done].
    cbn [fmap option_fmap option_map prod_map fst snd]. by rewrite f_high by lia.
Qed.

Lemma decode_ascii_map bs : Forall is_byte bs -> decode (f <$> bs) = fmap (M:=list) f <$> decode bs.
Proof.
  remember (length bs) as n eqn:Hn. revert bs Hn.
  induction (lt_wf n) as [n _ IH]. intros bs -> Hbs.
  destruct (decide (bs = [])) as [->|Hne]; [done|].
  rewrite !decode_step, !decode_one_eq, decode_one_ref_ascii_map
    by (done || by apply ascii_map_bytes || by destruct bs).
  destruct (decode_one_ref bs) as [[c r]|] eqn:Hd; [|done].
  destruct (decode_one_ref_shorter _ _ _ Hbs Hd) as [Hr Hlen].
  cbn [fmap option_fmap option_map prod_map fst snd mbind option_bind].
  rewrite (IH (length r) Hlen r eq_refl Hr). by destruct (decode r).
Qed.

End ascii_map.

(** ** Examples *)

(** The bytes of [a], [é], the euro sign and an emoji; the overlong form
    of U+0000 is no text. *)
Lemma utf8_roundtrip_witness :
  decode [0x61; 0xC3; 0xA9; 0xE2; 0x82; 0xAC; 0xF0; 0x9F; 0x98; 0x80] =
    Some [0x61; 0xE9; 0x20AC; 0x1F600] /\
  decode [0xC0; 0x80] <> Some [0].
Proof.
  split.
  - apply utf8_roundtrip; [by repeat constructor|].
    split; [repeat constructor; unfold scalar; lia|done].
  - intros [_ He]%utf8_roundtrip; [done|]. repeat constructor; unfold is_byte; lia.
Defined.

Lemma encode_bounds_witness :
  Forall is_byte (encode [0x61; 0xE9; 0x20AC; 0x1F600]) /\
  (4 <= length (encode [0x61; 0xE9; 0x20AC; 0x1F600]%Z) <= 4 * 4)%nat.
Proof.
  apply (encode_bounds [0x61; 0xE9; 0x20AC; 0x1F600]).
  repeat constructor; unfold scalar; lia.
Defined.

Lemma decode_ascii_witness :
  decode [0x78; 0x3D; 0x31] = Some [0x78; 0x3D; 0x31] /\
  encode [0x78; 0x3D; 0x31] = [0x78; 0x3D; 0x31].
Proof. apply decode_ascii. repeat constructor; lia. Defined.

(** An overlong form, a surrogate, a code point above U+10FFFF, a
    continuation byte alone and a sequence cut short are refused. *)
Lemma decode_well_formed_witness :
  decode [0xC0; 0x80] = None /\ decode [0xED; 0xA0; 0x80] = None /\
  decode [0xF4; 0x90; 0x80; 0x80] = None /\ decode [0x80] = None /\
  decode [0xE2; 0x82] = None.
Proof.
  repeat split; apply decode_well_formed; try done; repeat constructor; unfold is_byte; lia.
Defined.
