(* ===== verification/PyString.v ===== *)
(** * PyString: the operations on [str] the script relies on

    [str.lower], [str.strip], [str.rfind], slicing, [os.path.splitext]
    (the POSIX version, [genericpath._splitext] with separator [/] and
    extension separator [.]) and the substitution
    [re.sub(r'[^a-z0-9]', '', s)] of lines 211 and 213.

    A [str] is a [string]: the bytes of its UTF-8 encoding, one
    character of the string per byte ([bytes_of], [code_points]).
    [Str.strip] works on the code points and knows the white space of
    Python, inside ASCII and outside.  [Str.lower], [Str.sub_non_alnum]
    and the search for a dot or a slash work on the characters of the
    string, which is the same for the characters of ASCII, since no
    byte of the encoding of another code point is below 128; [Str.lower]
    leaves the letters outside ASCII alone. *)

From Stdlib Require Import Ascii String List ZArith Lia.
From stdpp Require Import base tactics option list strings.
From S2P Require Import Prelude Utf8.

#[local] Open Scope Z_scope.

(** ** Characters *)

Module Char.

Definition code (c : ascii) : N := N_of_ascii c.

(** [A-Z] *)
Definition is_upper (c : ascii) : bool :=
  (65 <=? code c)%N && (code c <=? 90)%N.

(** [a-z] *)
Definition is_lower (c : ascii) : bool :=
  (97 <=? code c)%N && (code c <=? 122)%N.

(** [0-9] *)
Definition is_digit (c : ascii) : bool :=
  (48 <=? code c)%N && (code c <=? 57)%N.

(** The class [[a-z0-9]] of the regular expression of lines 211 and 213. *)
Definition is_lower_alnum (c : ascii) : bool := is_lower c || is_digit c.

(** [c.lower()] on one character. *)
Definition lower (c : ascii) : ascii :=
  if is_upper c then ascii_of_N (code c + 32) else c.

(** Case analysis over the 256 characters, each case decided by
    computation. *)
Ltac ascii_cases c :=
  destruct c as [[] [] [] [] [] [] [] []]; vm_compute in *; try done.

Lemma lower_char_idemp (c : ascii) : lower (lower c) = lower c.
Proof. ascii_cases c. Qed.

Lemma lower_char_fixes_non_upper (c : ascii) :
  is_upper c = false -> lower c = c.
Proof. by unfold lower; intros ->. Qed.

Lemma lower_alnum_not_upper (c : ascii) :
  is_lower_alnum c = true -> is_upper c = false.
Proof. ascii_cases c. Qed.

Lemma lower_char_dot (c : ascii) : lower c = "."%char -> c = "."%char.
Proof. ascii_cases c. Qed.

Lemma upper_lower_is_lower (c : ascii) :
  is_upper c = true -> is_lower (lower c) = true.
Proof. ascii_cases c. Qed.

End Char.

#[export] Hint Rewrite Char.lower_char_idemp : py.
#[export] Hint Resolve Char.lower_alnum_not_upper : py.

(** ** Strings and bytes *)

(** The byte a character stands for, and back. *)
Definition byte_of (c : ascii) : Z := Z.of_N (Char.code c).
Definition char_of (b : Z) : ascii := ascii_of_N (Z.to_N b).

(** The bytes of a string, and the string of a list of bytes. *)
Definition bytes_of (s : string) : list Z := byte_of <$> list_ascii_of_string s.
Definition string_of (bs : list Z) : string := string_of_list_ascii (char_of <$> bs).

(** The code points of the [str] a string stands for. *)
Definition code_points (s : string) : option (list Z) := decode (bytes_of s).

(** The string stands for a [str]. *)
Definition is_text (s : string) : bool := well_formed (bytes_of s).

(** Strings and bytes are the same data. *)

Lemma byte_of_range c : is_byte (byte_of c).
Proof. unfold is_byte, byte_of, Char.code. pose proof (N_ascii_bounded c). lia. Qed.

Lemma char_of_byte_of c : char_of (byte_of c) = c.
Proof. unfold char_of, byte_of, Char.code. by rewrite N2Z.id, ascii_N_embedding. Qed.

Lemma byte_of_char_of b : is_byte b -> byte_of (char_of b) = b.
Proof.
  unfold is_byte, char_of, byte_of, Char.code. intros Hb.
  rewrite N_ascii_embedding by lia. lia.
Qed.

Lemma bytes_of_bytes s : Forall is_byte (bytes_of s).
Proof. apply Forall_fmap, Forall_true, byte_of_range. Qed.

Lemma string_of_bytes_of s : string_of (bytes_of s) = s.
Proof.
  unfold string_of, bytes_of. induction s as [|c s IH]; [done|].
  cbn [list_ascii_of_string fmap list_fmap string_of_list_ascii] in *.
  by rewrite IH, char_of_byte_of.
Qed.

Lemma bytes_of_string_of bs : Forall is_byte bs -> bytes_of (string_of bs) = bs.
Proof.
  unfold string_of, bytes_of. rewrite list_ascii_of_string_of_list_ascii.
  induction 1 as [|b bs Hb _ IH]; [done|]. cbn [fmap list_fmap] in *.
  by rewrite IH, byte_of_char_of.
Qed.

(** The string of the encoding of code points stands for them. *)
Lemma code_points_string_of cps :
  Forall scalar cps -> code_points (string_of (encode cps)) = Some cps.
Proof.
  intros Hc. unfold code_points.
  by rewrite bytes_of_string_of, decode_encode by (done || by apply encode_bytes).
Qed.

Lemma code_points_inv s cps :
  code_points s = Some cps -> Forall scalar cps /\ s = string_of (encode cps).
Proof.
  intros [Hc He]%decode_inv; [|apply bytes_of_bytes].
  by rewrite He, string_of_bytes_of.
Qed.

(** ** Strings *)

Module Str.

(** [s.lower()] *)
Fixpoint lower (s : string) : string :=
  match s with
  | EmptyString => EmptyString
  | String c s' => String (Char.lower c) (lower s')
  end.

(** [c.isspace()] on a code point: the white space of ASCII (tab to
    carriage return, the separators 28 to 31, space), U+0085, U+00A0,
    U+1680, U+2000 to U+200A, U+2028, U+2029, U+202F, U+205F and
    U+3000. *)
Definition is_space_cp (c : Z) : bool :=
  in_range 0x09 0x0D c || in_range 0x1C 0x20 c || in_range 0x2000 0x200A c ||
  existsb (Z.eqb c) [0x85; 0xA0; 0x1680; 0x2028; 0x2029; 0x202F; 0x205F; 0x3000].

(** [lstrip] and [rstrip] on the code points of a [str]. *)
Fixpoint lstrip_cps (cps : list Z) : list Z :=
  match cps with
  | [] => []
  | c :: r => if is_space_cp c then lstrip_cps r else cps
  end.

Fixpoint rstrip_cps (cps : list Z) : list Z :=
  match cps with
  | [] => []
  | c :: r =>
      match rstrip_cps r with
      | [] => if is_space_cp c then [] else [c]
      | r' => c :: r'
      end
  end.

Definition strip_cps (cps : list Z) : list Z := lstrip_cps (rstrip_cps cps).

(** [s.strip()]: the white space is taken from both ends of the code
    points.  A string that stands for no [str] is left as it is. *)
Definition strip (s : string) : string :=
  match code_points s with
  | Some cps => string_of (encode (strip_cps cps))
  | None => s
  end.

(** [re.sub(r'[^a-z0-9]', '', s)]: every character outside [[a-z0-9]] is
    deleted. *)
Fixpoint sub_non_alnum (s : string) : string :=
  match s with
  | EmptyString => EmptyString
  | String c s' =>
      if Char.is_lower_alnum c then String c (sub_non_alnum s')
      else sub_non_alnum s'
  end.

(** Index of the last occurrence of [c], from the left, if there is one. *)
Fixpoint rindex (c : ascii) (s : string) : option nat :=
  match s with
  | EmptyString => None
  | String a s' =>
      match rindex c s' with
      | Some i => Some (S i)
      | None => if decide (a = c) then Some 0%nat else None
      end
  end.

(** [s.rfind(c)] for a one-character [c]: the highest index of [c] in [s],
    [-1] when there is none. *)
Definition rfind (c : ascii) (s : string) : Z :=
  match rindex c s with
  | Some i => Z.of_nat i
  | None => -1
  end.

(** [s[:n]] for [0 <= n] *)
Fixpoint slice_to (n : nat) (s : string) : string :=
  match n, s with
  | S n', String c s' => String c (slice_to n' s')
  | _, _ => EmptyString
  end.

(** [s[n:]] for [0 <= n] *)
Fixpoint slice_from (n : nat) (s : string) : string :=
  match n, s with
  | S n', String _ s' => slice_from n' s'
  | _, _ => s
  end.

(** [s[i:i+1]] *)
Definition slice1 (i : nat) (s : string) : string :=
  slice_to 1 (slice_from i s).

(** The loop of [genericpath._splitext] that skips the leading dots of
    the file name: [n] is [dotIndex - filenameIndex], the number of
    iterations left.  [true] when a character other than [.] stands
    between the last separator and the last dot, in which case the
    function returns the split. *)
Fixpoint splitext_loop (p : string) (filenameIndex n : nat) : bool :=
  match n with
  | O => false
  | S n' =>
      if decide (slice1 filenameIndex p <> ".") then true
      else splitext_loop p (S filenameIndex) n'
  end.

(** [os.path.splitext(p)] *)
Definition splitext (p : string) : string * string :=
  let sepIndex := rfind "/" p in
  let dotIndex := rfind "." p in
  if (sepIndex <? dotIndex) &&
     splitext_loop p (Z.to_nat (sepIndex + 1)) (Z.to_nat (dotIndex - (sepIndex + 1)))
  then (slice_to (Z.to_nat dotIndex) p, slice_from (Z.to_nat dotIndex) p)
  else (p, EmptyString).

(** Every character of [s] satisfies [P]. *)
Fixpoint all (P : ascii -> bool) (s : string) : bool :=
  match s with
  | EmptyString => true
  | String c s' => P c && all P s'
  end.

(** [c in s] for a one-character [c]. *)
Fixpoint mem (c : ascii) (s : string) : bool :=
  match s with
  | EmptyString => false
  | String a s' => bool_decide (a = c) || mem c s'
  end.

(** The character is the extension separator. *)
Definition is_dot (c : ascii) : bool := bool_decide (c = "."%char).

(** [os.path.basename(p)]: what follows the last [/]. *)
Definition basename (p : string) : string :=
  slice_from (Z.to_nat (rfind "/" p + 1)) p.

(** [str(x)] for an [x] that is a [str] or [None], as [str.format] and
    f-strings compute it. *)
Definition of_option (o : option string) : string :=
  match o with
  | Some s => s
  | None => "None"
  end.

(** *** Lemmas *)

Lemma lower_idemp (s : string) : lower (lower s) = lower s.
Proof. induction s as [|c s IH]; simpl; [done|]. by rewrite Char.lower_char_idemp, IH. Qed.

Lemma lower_length (s : string) : String.length (lower s) = String.length s.
Proof. induction s; simpl; congruence. Qed.

Lemma app_nil_l (s : string) : "" +:+ s = s.
Proof. done. Qed.

Lemma app_cons (c : ascii) (s t : string) : String c s +:+ t = String c (s +:+ t).
Proof. done. Qed.

#[local] Hint Rewrite app_nil_l app_cons : py.

Ltac str_ind s := induction s; autorewrite with py; simpl; autorewrite with py; try congruence.

Lemma app_empty_r (s : string) : s +:+ "" = s.
Proof. str_ind s. Qed.

Lemma app_assoc (s t u : string) : (s +:+ t) +:+ u = s +:+ (t +:+ u).
Proof. str_ind s. Qed.

Lemma app_length (s t : string) :
  String.length (s +:+ t) = (String.length s + String.length t)%nat.
Proof. str_ind s. Qed.

Lemma app_inv_tail (s1 s2 t : string) : s1 +:+ t = s2 +:+ t -> s1 = s2.
Proof.
  revert s2. induction s1 as [|c s1 IH]; intros [|c' s2] Heq; try done.
  - apply (f_equal String.length) in Heq. rewrite !app_length in Heq.
    simpl in Heq. lia.
  - apply (f_equal String.length) in Heq. rewrite !app_length in Heq.
    simpl in Heq. lia.
  - rewrite !app_cons in Heq. injection Heq as -> Heq. f_equal. by apply IH.
Qed.

Lemma slice_to_from (n : nat) (s : string) : slice_to n s +:+ slice_from n s = s.
Proof.
  revert s; induction n; intros [|c s]; simpl; autorewrite with py; try done.
  by rewrite IHn.
Qed.

Lemma slice_to_app (s t : string) : slice_to (String.length s) (s +:+ t) = s.
Proof. str_ind s. Qed.

Lemma slice_from_app (s t : string) : slice_from (String.length s) (s +:+ t) = t.
Proof. str_ind s. Qed.

Lemma rindex_None c s : rindex c s = None <-> mem c s = false.
Proof.
  induction s as [|a s IH]; simpl; [done|].
  destruct (rindex c s); simpl.
  - split; [done|]. by intros [_ ?%IH]%orb_false_iff.
  - rewrite (proj1 IH eq_refl), orb_false_r. by case_decide; case_bool_decide.
Qed.

Lemma rindex_app_last c s t :
  mem c t = false -> rindex c (s +:+ String c t) = Some (String.length s).
Proof.
  intros Ht%rindex_None. induction s as [|a s IH]; autorewrite with py; simpl.
  - rewrite Ht. by case_decide.
  - by rewrite IH.
Qed.

Lemma rindex_Some c s i :
  rindex c s = Some i ->
  exists t u, s = t +:+ String c u /\ String.length t = i /\ mem c u = false.
Proof.
  revert i; induction s as [|a s IH]; simpl; [done|]. intros i.
  destruct (rindex c s) as [j|] eqn:Hj.
  - intros [= <-]. destruct (IH j eq_refl) as (t & u & -> & <- & Hu).
    by exists (String a t), u.
  - case_decide; [|done]. intros [= <-]. subst a.
    exists "", s. by apply rindex_None in Hj.
Qed.

Lemma rindex_lt c s i : rindex c s = Some i -> (i < String.length s)%nat.
Proof.
  intros (t & u & -> & <- & _)%rindex_Some. rewrite app_length. simpl. lia.
Qed.

Lemma rindex_app_absent c s t : mem c t = false -> rindex c (s +:+ t) = rindex c s.
Proof.
  intros Ht. induction s as [|a s IH]; autorewrite with py; simpl.
  - by apply rindex_None.
  - by rewrite IH.
Qed.

Lemma rindex_app_present c s t :
  mem c t = true -> exists j, rindex c (s +:+ t) = Some j /\ (String.length s <= j)%nat.
Proof.
  intros Ht. induction s as [|a s (j & Hj & ?)]; autorewrite with py; simpl.
  - destruct (rindex c t) as [j|] eqn:Hj; [exists j; split; [done | lia]|].
    apply rindex_None in Hj. congruence.
  - exists (S j). rewrite Hj. split; [done | lia].
Qed.

Lemma slice_from_app_le k s t :
  (k <= String.length s)%nat -> slice_from k (s +:+ t) = slice_from k s +:+ t.
Proof.
  revert s; induction k as [|k IH]; intros [|a s] ?; simpl in *; try done; try lia.
  apply IH. lia.
Qed.

Lemma slice_from_length k s :
  String.length (slice_from k s) = (String.length s - k)%nat.
Proof. revert s; induction k; intros [|a s]; simpl; try done. Qed.

Lemma splitext_loop_spec p k n :
  (k + n <= String.length p)%nat ->
  splitext_loop p k n = negb (all is_dot (slice_to n (slice_from k p))).
Proof.
  revert k; induction n as [|n IH]; intros k Hk; simpl; [done|].
  assert (exists a r, slice_from k p = String a r /\ slice_from (S k) p = r)
    as (a & r & Ha & Hr).
  { clear IH. revert p Hk. induction k; intros [|b p] ?; simpl in *; try lia; eauto.
    apply IHk. lia. }
  rewrite IH by lia. unfold slice1. rewrite Ha, Hr. simpl. unfold is_dot at 2.
  destruct (decide (a = "."%char)) as [->|Ha'].
  - rewrite bool_decide_eq_true_2 by done. by rewrite decide_False by auto.
  - rewrite bool_decide_eq_false_2 by done. rewrite decide_True; [done | congruence].
Qed.

Lemma rfind_lt c s : rfind c s < Z.of_nat (String.length s).
Proof.
  unfold rfind. destruct (rindex c s) eqn:E; [|lia]. apply rindex_lt in E. lia.
Qed.

Lemma rfind_ge c s : -1 <= rfind c s.
Proof. unfold rfind. destruct (rindex c s); lia. Qed.

Lemma rfind_app_last c s t :
  mem c t = false -> rfind c (s +:+ String c t) = Z.of_nat (String.length s).
Proof. intros. unfold rfind. by rewrite rindex_app_last. Qed.

Lemma rfind_app_absent c s t : mem c t = false -> rfind c (s +:+ t) = rfind c s.
Proof. intros. unfold rfind. by rewrite rindex_app_absent. Qed.

Lemma rfind_absent c s : mem c s = false -> rfind c s = -1.
Proof. intros H%rindex_None. unfold rfind. by rewrite H. Qed.

Lemma splitext_join (p : string) :
  (splitext p).1 +:+ (splitext p).2 = p.
Proof.
  unfold splitext. case_match; simpl; [apply slice_to_from | apply app_empty_r].
Qed.

Lemma splitext_at_last_dot (stem e : string) :
  mem "." e = false -> mem "/" e = false ->
  splitext (stem +:+ String "." e) =
    if all is_dot (basename stem) then (stem +:+ String "." e, "")
    else (stem, String "." e).
Proof.
  intros He Hs. unfold splitext, basename.
  assert (Hsep : mem "/" (String "." e) = false) by done.
  rewrite (rfind_app_last "." stem e He), (rfind_app_absent "/" stem _ Hsep).
  pose proof (rfind_lt "/" stem). pose proof (rfind_ge "/" stem).
  rewrite (proj2 (Z.ltb_lt _ _)) by done. rewrite andb_true_l.
  rewrite splitext_loop_spec by (rewrite app_length; lia).
  rewrite slice_from_app_le by lia.
  replace (Z.to_nat (Z.of_nat (String.length stem) - (rfind "/" stem + 1)))
    with (String.length (slice_from (Z.to_nat (rfind "/" stem + 1)) stem))
    by (rewrite slice_from_length; lia).
  rewrite slice_to_app, Nat2Z.id, slice_to_app, slice_from_app.
  by destruct (all is_dot _).
Qed.

Lemma splitext_no_dot (p : string) : mem "." p = false -> splitext p = (p, "").
Proof.
  intros H. unfold splitext. rewrite (rfind_absent "." p H).
  pose proof (rfind_ge "/" p). by rewrite (proj2 (Z.ltb_ge _ _)) by lia.
Qed.

Lemma splitext_sep_after_dot (stem e : string) :
  mem "." e = false -> mem "/" e = true ->
  splitext (stem +:+ String "." e) = (stem +:+ String "." e, "").
Proof.
  intros He Hs. unfold splitext. rewrite (rfind_app_last "." stem e He).
  destruct (rindex_app_present "/" (stem +:+ ".") e Hs) as (j & Hj & Hle).
  rewrite app_assoc in Hj. change ("." +:+ e) with (String "." e) in Hj.
  rewrite app_length in Hle. simpl in *.
  unfold rfind at 1. rewrite Hj.
  by rewrite (proj2 (Z.ltb_ge _ _)) by lia.
Qed.

(** [splitext p] is [(p, "")] or splits [p] at its last dot, which is then
    followed by no separator and preceded, in the last component, by a
    character that is not a dot. *)
Lemma splitext_cases (p : string) :
  splitext p = (p, "") \/
  exists stem e, p = stem +:+ String "." e /\ splitext p = (stem, String "." e) /\
    mem "." e = false /\ mem "/" e = false /\ all is_dot (basename stem) = false.
Proof.
  destruct (rindex "." p) as [i|] eqn:Hi.
  - apply rindex_Some in Hi as (stem & e & -> & _ & He).
    destruct (mem "/" e) eqn:Hs; [left; by apply splitext_sep_after_dot|].
    rewrite splitext_at_last_dot by done.
    destruct (all is_dot (basename stem)) eqn:Hb; [by left|].
    right. by exists stem, e.
  - left. by apply splitext_no_dot, rindex_None.
Qed.

(** *** [strip] *)

Lemma lstrip_cps_Forall (P : Z -> Prop) cps : Forall P cps -> Forall P (lstrip_cps cps).
Proof. induction 1; cbn [lstrip_cps]; [done|]. case_match; by try constructor. Qed.

Lemma rstrip_cps_Forall (P : Z -> Prop) cps : Forall P cps -> Forall P (rstrip_cps cps).
Proof.
  induction 1 as [|c r Hc _ IH]; cbn [rstrip_cps]; [done|].
  destruct (rstrip_cps r); [case_match; by repeat constructor|by constructor].
Qed.

(** The result of [strip] is a [str], with the code points [strip_cps]
    leaves. *)
Lemma strip_text s cps :
  code_points s = Some cps -> code_points (strip s) = Some (strip_cps cps).
Proof.
  intros Hd. unfold strip. rewrite Hd. destruct (code_points_inv _ _ Hd) as [Hc _].
  apply code_points_string_of. by apply lstrip_cps_Forall, rstrip_cps_Forall.
Qed.

Lemma lstrip_cps_idemp cps : lstrip_cps (lstrip_cps cps) = lstrip_cps cps.
Proof.
  induction cps as [|c r IH]; [done|]. cbn [lstrip_cps].
  destruct (is_space_cp c) eqn:Hc; [done|]. cbn [lstrip_cps]. by rewrite Hc.
Qed.

Lemma rstrip_cps_idemp cps : rstrip_cps (rstrip_cps cps) = rstrip_cps cps.
Proof.
  induction cps as [|c r IH]; [done|]. cbn [rstrip_cps].
  destruct (rstrip_cps r) as [|a r'] eqn:Hr.
  - destruct (is_space_cp c) eqn:Hc; cbn [rstrip_cps]; by rewrite ?Hc.
  - cbn [rstrip_cps] in *. by rewrite IH.
Qed.

Lemma lstrip_rstrip_cps cps : lstrip_cps (rstrip_cps cps) = rstrip_cps (lstrip_cps cps).
Proof.
  induction cps as [|c r IH]; [done|]. cbn [lstrip_cps rstrip_cps].
  destruct (is_space_cp c) eqn:Hc.
  - rewrite <- IH. destruct (rstrip_cps r); cbn [lstrip_cps]; by rewrite ?Hc.
  - cbn [rstrip_cps]. destruct (rstrip_cps r); cbn [lstrip_cps]; by rewrite Hc.
Qed.

Lemma lstrip_cps_nil cps :
  lstrip_cps cps = [] <-> Forall (fun c => is_space_cp c = true) cps.
Proof.
  induction cps as [|c r IH]; cbn [lstrip_cps]; [done|].
  destruct (is_space_cp c) eqn:Hc.
  - rewrite IH. split; [by constructor|by inversion 1].
  - split; [done|inversion 1; congruence].
Qed.

Lemma rstrip_cps_nil cps :
  rstrip_cps cps = [] <-> Forall (fun c => is_space_cp c = true) cps.
Proof.
  induction cps as [|c r IH]; cbn [rstrip_cps]; [done|].
  destruct (rstrip_cps r) as [|a r'].
  - destruct (is_space_cp c) eqn:Hc.
    + split; [constructor; [done|by apply IH]|done].
    + split; [done|inversion 1; congruence].
  - split; [done|]. inversion 1 as [|?? _ Hr]. by apply IH in Hr.
Qed.

Lemma string_of_encode_nil cps : string_of (encode cps) = "" <-> cps = [].
Proof.
  destruct cps as [|c cps]; [done|]. rewrite encode_cons.
  by destruct (encode_cp c) eqn:He; [destruct (encode_cp_nonempty c)|].
Qed.

(** What is left is empty exactly when every code point is white
    space: this is all the script asks of [strip] (lines 288, 301, 316
    and 317). *)
Lemma strip_blank s cps :
  code_points s = Some cps ->
  strip s = "" <-> Forall (fun c => is_space_cp c = true) cps.
Proof.
  intros Hd. unfold strip, strip_cps. rewrite Hd, string_of_encode_nil, lstrip_cps_nil.
  by rewrite <- rstrip_cps_nil, rstrip_cps_idemp, rstrip_cps_nil.
Qed.

(** Stripping twice is stripping once. *)
Lemma strip_idemp s : strip (strip s) = strip s.
Proof.
  destruct (code_points s) as [cps|] eqn:Hd; [|unfold strip; by rewrite !Hd].
  unfold strip at 1. rewrite (strip_text _ _ Hd). unfold strip. rewrite Hd. do 2 f_equal.
  unfold strip_cps.
  by rewrite <- (lstrip_rstrip_cps (rstrip_cps cps)), rstrip_cps_idemp, lstrip_cps_idemp.
Qed.

Lemma sub_non_alnum_all s : all Char.is_lower_alnum (sub_non_alnum s) = true.
Proof.
  induction s as [|c s IH]; simpl; [done|].
  destruct (Char.is_lower_alnum c) eqn:E; simpl; by rewrite ?E.
Qed.

Lemma sub_non_alnum_fixed s :
  all Char.is_lower_alnum s = true -> sub_non_alnum s = s.
Proof.
  induction s as [|c s IH]; simpl; [done|].
  intros [-> ->%IH]%andb_true_iff. done.
Qed.

Lemma sub_non_alnum_idemp s : sub_non_alnum (sub_non_alnum s) = sub_non_alnum s.
Proof. apply sub_non_alnum_fixed, sub_non_alnum_all. Qed.

Lemma lower_mem c s :
  Char.is_upper c = false -> Char.is_lower c = false ->
  mem c (lower s) = mem c s.
Proof.
  intros Hu Hl. induction s as [|a s IH]; simpl; [done|]. rewrite IH. f_equal.
  apply bool_decide_ext. split; [|intros ->; by apply Char.lower_char_fixes_non_upper].
  destruct (Char.is_upper a) eqn:Ha.
  - intros <-. apply Char.upper_lower_is_lower in Ha. congruence.
  - by rewrite Char.lower_char_fixes_non_upper.
Qed.

Lemma lower_cons_inv s c t :
  lower s = String c t -> exists a u, s = String a u /\ Char.lower a = c /\ lower u = t.
Proof. destruct s as [|a u]; simpl; [done|]. intros [= <- <-]. eauto. Qed.

Lemma all_mem_false (P : ascii -> bool) s c :
  all P s = true -> P c = false -> mem c s = false.
Proof.
  intros Hall Hc. induction s as [|a s IH]; simpl in *; [done|].
  apply andb_true_iff in Hall as [Ha Hs]. rewrite IH by done.
  rewrite bool_decide_eq_false_2; [done | congruence].
Qed.

End Str.
