(* ===== verification/PyData.v ===== *)
(** * PyData: Python's [dict] and [list] as the script uses them

    A [dict] keeps its keys in insertion order and holds each key once;
    it is modelled as an association list.  The script builds its two
    tables with dict literals, looks keys up with [in], [d[k]] and
    [d.get(k)], and walks [d.items()] in order.  [Dict.to_gmap] relates
    the association list to stdpp's finite maps, so that lookups can be
    reasoned about extensionally.

    A [list] is a [list]; the history is only ever appended to, popped
    and read at its last position.

    [PyVal] is the part of Python's universe of values the script can
    hold in [optimized] and [explanation_text]: a [str], [None], or a
    [dict] from [str] to [str] or [None] (what a chain returns). *)

From Stdlib Require Import Ascii String List Lia.
From stdpp Require Import base tactics option list strings gmap.
From S2P Require Import Prelude PyString.

(** ** Dictionaries *)

Module Dict.
Section dict.
Context {K V : Type} `{EqDecision K}.

(** [d.get(k)]: the value of [k], [None] when [k] is not a key. *)
Fixpoint get (k : K) (d : list (K * V)) : option V :=
  match d with
  | [] => None
  | (k', v) :: d' => if decide (k' = k) then Some v else get k d'
  end.

(** [k in d] *)
Definition contains (k : K) (d : list (K * V)) : bool :=
  match get k d with Some _ => true | None => false end.

(** [d[k] = v]: the value is replaced where the key already stands, and
    the pair is added at the end otherwise. *)
Fixpoint setitem (k : K) (v : V) (d : list (K * V)) : list (K * V) :=
  match d with
  | [] => [(k, v)]
  | (k', v') :: d' =>
      if decide (k' = k) then (k, v) :: d' else (k', v') :: setitem k v d'
  end.

(** The dict literal [{k1: v1, ..., kn: vn}]: the pairs are stored from
    left to right. *)
Definition literal (l : list (K * V)) : list (K * V) :=
  foldl (fun d kv => setitem kv.1 kv.2 d) [] l.

(** [d.items()] *)
Definition items (d : list (K * V)) : list (K * V) := d.

(** [d.keys()] *)
Definition keys (d : list (K * V)) : list K := d.*1.

(** [d.values()] *)
Definition values (d : list (K * V)) : list V := d.*2.

(** The first item whose key satisfies [p], as the loop
    [for key, val in d.items(): if p(key): ...; break] finds it. *)
Fixpoint first_item (p : K -> bool) (d : list (K * V)) : option (K * V) :=
  match d with
  | [] => None
  | (k, v) :: d' => if p k then Some (k, v) else first_item p d'
  end.

End dict.

(** The finite map a dict denotes. *)
Definition to_gmap {K V} `{Countable K} (d : list (K * V)) : gmap K V :=
  list_to_map d.

Section dict_lemmas.
Context {K V : Type} `{Countable K}.
Implicit Types (d : list (K * V)) (k : K) (v : V).

Lemma dict_get_to_gmap k d : get k d = to_gmap d !! k.
Proof.
  unfold to_gmap. induction d as [|[k' v'] d IH]; simpl; [done|].
  case_decide; subst; [by rewrite lookup_insert_eq | by rewrite lookup_insert_ne].
Qed.

Lemma dict_get_Some_elem k v d : get k d = Some v -> (k, v) ∈ d.
Proof. rewrite dict_get_to_gmap. apply elem_of_list_to_map_2. Qed.

Lemma dict_get_None k d : get k d = None <-> k ∉ keys d.
Proof. rewrite dict_get_to_gmap. symmetry. apply not_elem_of_list_to_map. Qed.

Lemma dict_elem_get k v d : NoDup (keys d) -> (k, v) ∈ d -> get k d = Some v.
Proof. rewrite dict_get_to_gmap. apply elem_of_list_to_map_1. Qed.

Lemma dict_contains_keys k d : contains k d = true <-> k ∈ keys d.
Proof.
  unfold contains. destruct (get k d) eqn:E.
  - split; [intros _ | done]. apply dict_get_Some_elem in E.
    apply list_elem_of_fmap. by exists (k, v).
  - apply dict_get_None in E. by split.
Qed.

Lemma dict_setitem_get k v d : get k (setitem k v d) = Some v.
Proof.
  induction d as [|[k' v'] d IH]; simpl; [by rewrite decide_True|].
  case_decide; simpl; [by rewrite decide_True | by rewrite decide_False].
Qed.

Lemma dict_setitem_get_ne k k' v d : k <> k' -> get k' (setitem k v d) = get k' d.
Proof.
  intros Hne. induction d as [|[k0 v0] d IH]; simpl; [by rewrite decide_False|].
  repeat (case_decide; simpl; subst); congruence.
Qed.

Lemma dict_setitem_fresh k v d : k ∉ keys d -> setitem k v d = d ++ [(k, v)].
Proof.
  induction d as [|[k' v'] d IH]; simpl; [done|].
  intros [? ?]%not_elem_of_cons. rewrite decide_False by done. by rewrite IH.
Qed.

Lemma dict_literal_snoc (l : list (K * V)) k v :
  literal (l ++ [(k, v)]) = setitem k v (literal l).
Proof. unfold literal. by rewrite foldl_app. Qed.

Lemma dict_literal_get k (l : list (K * V)) : get k (literal l) = get k (reverse l).
Proof.
  induction l as [|[k' v'] l IH] using rev_ind; [done|].
  rewrite dict_literal_snoc, reverse_snoc. simpl. case_decide; subst.
  - apply dict_setitem_get.
  - by rewrite dict_setitem_get_ne.
Qed.

Lemma dict_first_item_Some (p : K -> bool) d k v :
  first_item p d = Some (k, v) <->
  exists d1 d2, d = d1 ++ (k, v) :: d2 /\ p k = true /\
    Forall (fun kv => p kv.1 = false) d1.
Proof.
  revert k v. induction d as [|[k' v'] d IH]; intros k v; simpl.
  - split; [done|]. intros ([|??] & ? & ? & _); done.
  - destruct (p k') eqn:E.
    + split.
      * intros [= <- <-]. by exists [], d.
      * intros ([|[k0 v0] d1] & d2 & Hd & Hp & Hall); simplify_eq/=; [done|].
        apply Forall_cons in Hall as [? _]. simpl in *. congruence.
    + rewrite IH. split.
      * intros (d1 & d2 & -> & ? & ?). exists ((k', v') :: d1), d2.
        split_and!; [done..|]. by constructor.
      * intros ([|[k0 v0] d1] & d2 & Hd & Hp & Hall); simplify_eq/=; [congruence|].
        apply Forall_cons in Hall as [_ ?]. eauto.
Qed.

End dict_lemmas.

(** A loop that stops at the first key [k] with [f k = x] is a lookup of
    [x] in the dict whose keys are mapped through [f]. *)
Lemma dict_first_item_as_get {K K' V} `{EqDecision K'} (f : K -> K') (x : K')
    (d : list (K * V)) :
  snd <$> first_item (fun k => bool_decide (f k = x)) d =
  get x ((fun kv => (f kv.1, kv.2)) <$> d).
Proof.
  induction d as [|[k v] d IH]; simpl; [done|].
  case_bool_decide; case_decide; simplify_eq/=; done.
Qed.

End Dict.

(** ** Lists *)

Module PyList.
Section pylist.
Context {A : Type}.

(** [l.append(x)] *)
Definition append (l : list A) (x : A) : list A := l ++ [x].

(** [l[-1]]; [None] stands for the [IndexError] of an empty list. *)
Definition last_item (l : list A) : option A := last l.

(** [l.pop()]: the last item and the list without it; [None] stands for
    the [IndexError] of an empty list. *)
Definition pop (l : list A) : option (A * list A) :=
  match last l with
  | Some x => Some (x, removelast l)
  | None => None
  end.

Lemma pylist_pop_append l x : pop (append l x) = Some (x, l).
Proof. unfold pop, append. by rewrite last_snoc, removelast_last. Qed.

Lemma pylist_length_append l x : length (append l x) = S (length l).
Proof. unfold append. rewrite length_app. simpl. lia. Qed.

Lemma pylist_pop_Some l x l' : pop l = Some (x, l') <-> l = append l' x.
Proof.
  unfold pop, append. split.
  - destruct (last l) as [y|] eqn:E; [|done]. intros [= <- <-].
    apply last_Some in E as [l' ->]. by rewrite removelast_last.
  - intros ->. by rewrite last_snoc, removelast_last.
Qed.

(** Popping does not touch the items that stay. *)
Lemma pylist_removelast_lookup (l : list A) i :
  (S i < length l)%nat -> removelast l !! i = l !! i.
Proof.
  destruct l as [|x l _] using rev_ind; [simpl; lia|].
  rewrite length_app, removelast_last. simpl. intros. rewrite lookup_app_l; [done|lia].
Qed.

Lemma pylist_removelast_length (l : list A) : length (removelast l) = pred (length l).
Proof.
  destruct l as [|x l _] using rev_ind; [done|].
  rewrite length_app, removelast_last. simpl. lia.
Qed.

End pylist.
End PyList.

(** ** Values and exceptions *)

(** The exceptions a run can end with. *)
Inductive Exn : Type :=
| ServiceError (msg : string)     (* raised by the hosted model *)
| AttributeError (attr : string)  (* a method looked up on a value without it *)
| KeyError (key : string)         (* a missing input of a template *)
| IndexError                      (* [l[-1]] or [l.pop()] on an empty list *)
| UnicodeDecodeError.             (* an uploaded file that is not UTF-8 *)

Inductive PyVal : Type :=
| VStr (s : string)
| VNone
| VDict (d : list (string * option string)).

Module Val.

Definition of_option (o : option string) : PyVal :=
  match o with
  | Some s => VStr s
  | None => VNone
  end.

(** [v["text"] if isinstance(v, dict) and "text" in v else v], the
    expression of lines 291, 305 and 357. *)
Definition text_of (v : PyVal) : PyVal :=
  match v with
  | VDict d =>
      if Dict.contains "text" d
      then match Dict.get "text" d with
           | Some o => of_option o
           | None => v
           end
      else v
  | _ => v
  end.

Definition is_str (v : PyVal) : bool :=
  match v with VStr _ => true | _ => false end.

(** A dict with a [str] under ["text"] yields that [str]. *)
Lemma val_text_of_dict d s :
  Dict.get "text" d = Some (Some s) -> text_of (VDict d) = VStr s.
Proof. unfold text_of, Dict.contains. by intros ->. Qed.

End Val.
