(* ===== verification/Language.v ===== *)
(** * Language: resolution of the language of the code

    Lines 31-33 and 120-220 of src/CodeOptimizer.py: the list of
    supported languages, the table from file extensions to languages, the
    table from lexer names to languages, and the two-step resolution (by
    the extension of the uploaded file first, by the lexer guessed from
    the text otherwise).

    The lexer-guessing library (Pygments) is a collaborator: the class
    [Lexer] says what the script expects of it, and every theorem holds
    for every instance. *)

From Stdlib Require Import Ascii String List ZArith Lia.
From stdpp Require Import base tactics option list strings gmap.
From S2P Require Import Prelude PyString PyData.

(** ** The collaborator *)

(** [guess_lexer] raises [ClassNotFound] when no lexer fits the text. *)
Inductive GuessError : Type := ClassNotFound.

(** What the import of lines 9-14 leaves behind: [guess_lexer] is the
    function of the library, or [None] when the library is not installed.
    The function returns the guessed lexer, of which the script reads the
    [name] only. *)
Class Lexer := {
  guess_lexer : option (string -> result GuessError string)
}.

#[export] Instance truthy_fun {A B} : Truthy (A -> B) := fun _ => true.

(** ** The uploaded file *)

(** The value of [st.file_uploader] when a file is present: its [name] and
    its content decoded as UTF-8 ([None] when the content is not UTF-8, in
    which case [decode] raises). *)
Record UploadedFile : Type := {
  name : string;
  decoded : option string
}.

(** ** The tables *)

(** Lines 31-33. *)
Definition LANGUAGES : list string :=
  ["python"; "javascript"; "java"; "c"; "cpp"; "csharp"; "go"; "ruby"; "php";
   "rust"; "typescript"; "kotlin"; "swift"; "scala"; "perl"; "r"; "bash";
   "html"; "css"; "sql"; "json"; "xml"; "yaml"; "markdown"].

(** Lines 122-150. *)
Definition EXTENSION_TO_LANG : list (string * string) :=
  Dict.literal
  [(".py", "python");
   (".js", "javascript");
   (".java", "java");
   (".c", "c");
   (".cpp", "cpp");
   (".cc", "cpp");
   (".cxx", "cpp");
   (".cs", "csharp");
   (".go", "go");
   (".rb", "ruby");
   (".php", "php");
   (".rs", "rust");
   (".ts", "typescript");
   (".kt", "kotlin");
   (".swift", "swift");
   (".scala", "scala");
   (".pl", "perl");
   (".r", "r");
   (".sh", "bash");
   (".html", "html");
   (".css", "css");
   (".sql", "sql");
   (".json", "json");
   (".xml", "xml");
   (".yaml", "yaml");
   (".yml", "yaml");
   (".md", "markdown")].

(** Lines 164-204. *)
Definition pygments_to_lang : list (string * string) :=
  Dict.literal
  [("python", "python");
   ("py", "python");
   ("python3", "python");
   ("javascript", "javascript");
   ("js", "javascript");
   ("java", "java");
   ("c", "c");
   ("c++", "cpp");
   ("cpp", "cpp");
   ("c#", "csharp");
   ("csharp", "csharp");
   ("c-sharp", "csharp");
   ("c# (c-sharp)", "csharp");
   ("go", "go");
   ("golang", "go");
   ("ruby", "ruby");
   ("rb", "ruby");
   ("php", "php");
   ("rust", "rust");
   ("typescript", "typescript");
   ("ts", "typescript");
   ("kotlin", "kotlin");
   ("swift", "swift");
   ("scala", "scala");
   ("perl", "perl");
   ("r", "r");
   ("bash", "bash");
   ("sh", "bash");
   ("shell", "bash");
   ("html", "html");
   ("xml+html", "html");
   ("css", "css");
   ("sql", "sql");
   ("json", "json");
   ("xml", "xml");
   ("yaml", "yaml");
   ("yml", "yaml");
   ("markdown", "markdown");
   ("md", "markdown")].

(** ** Resolution by extension, lines 152-157 *)

Definition detect_by_extension (uploaded_file : option UploadedFile)
    (detected_language : option string) : option string :=
  match uploaded_file with
  | Some f =>
      if truthy (name f) then
        let ext := (Str.splitext (name f)).2 in
        let ext := Str.lower ext in
        if Dict.contains ext EXTENSION_TO_LANG
        then Dict.get ext EXTENSION_TO_LANG
        else detected_language
      else detected_language
  | None => detected_language
  end.

(** ** Normalisation of a lexer name, lines 205-218 *)

(** Line 206. *)
Definition lookup_direct (pygments_name : string) : option string :=
  Dict.get pygments_name pygments_to_lang.

(** Lines 207-208. *)
Definition lookup_lowered (pygments_name : string)
    (detected_language : option string) : option string :=
  if negb (truthy detected_language)
  then Dict.get (Str.lower pygments_name) pygments_to_lang
  else detected_language.

(** Lines 209-215: the first key of the table that equals the name once
    both are stripped of every character outside [[a-z0-9]]. *)
Definition lookup_stripped (pygments_name : string)
    (detected_language : option string) : option string :=
  if negb (truthy detected_language) then
    let simple_name := Str.sub_non_alnum (Str.lower pygments_name) in
    match
      Dict.first_item
        (fun key => bool_decide (Str.sub_non_alnum (Str.lower key) = simple_name))
        (Dict.items pygments_to_lang)
    with
    | Some (_, val) => Some val
    | None => detected_language
    end
  else detected_language.

(** Lines 216-218. *)
Definition fallback_raw (pygments_name : string)
    (detected_language : option string) : option string :=
  if negb (truthy detected_language) then Some pygments_name
  else detected_language.

(** Lines 206-218. *)
Definition normalize (pygments_name : string) : option string :=
  let detected_language := lookup_direct pygments_name in
  let detected_language := lookup_lowered pygments_name detected_language in
  let detected_language := lookup_stripped pygments_name detected_language in
  fallback_raw pygments_name detected_language.

(** ** Resolution by content, lines 159-220 *)

Section with_lexer.
Context `{Lexer}.

Definition detect_by_content (detected_language : option string)
    (messy_code : string) : option string :=
  if negb (truthy detected_language) && truthy messy_code && truthy guess_lexer
  then
    match guess_lexer with
    | Some guess =>
        match guess messy_code with
        | Ok lexer_name =>
            let pygments_name := Str.lower lexer_name in
            normalize pygments_name
        | Err ClassNotFound => None
        end
    | None => detected_language
    end
  else detected_language.

(** Lines 120 and 152-220: [detected_language] as it stands at line 221. *)
Definition detect_language (uploaded_file : option UploadedFile)
    (messy_code : string) : option string :=
  let detected_language := None in
  let detected_language := detect_by_extension uploaded_file detected_language in
  detect_by_content detected_language messy_code.

End with_lexer.

Arguments detect_language : simpl never.
Arguments detect_by_content : simpl never.
Arguments detect_by_extension : simpl never.
Arguments normalize : simpl never.

(** ** Definitions used to state the properties *)

(** The shape of the keys of [EXTENSION_TO_LANG]: a dot followed by
    characters of [[a-z0-9]]. *)
Definition dot_alnum (s : string) : bool :=
  match s with
  | String "." e => Str.all Char.is_lower_alnum e
  | _ => false
  end.

(** Where the resolution stands between two steps: nothing yet, or a
    supported language. *)
Definition resolved (d : option string) : Prop :=
  d = None \/ exists l, d = Some l /\ l ∈ LANGUAGES.

(** The table of line 164 with every key stripped as line 213 strips it. *)
Definition stripped_table : list (string * string) :=
  (fun kv => (Str.sub_non_alnum (Str.lower kv.1), kv.2)) <$> pygments_to_lang.

(** Reference definition of the normalisation: one lookup of the name,
    one lookup of its stripped form, the name itself. *)
Definition normalize_ref (p : string) : option string :=
  match Dict.get p pygments_to_lang with
  | Some l => Some l
  | None =>
      match Dict.get (Str.sub_non_alnum p) stripped_table with
      | Some l => Some l
      | None => Some p
      end
  end.

(** A lexer for examples: it knows three kinds of text and fails on
    every other. *)
Definition sample_guess (code : string) : result GuessError string :=
  if String.prefix "#include" code then Ok "C++"
  else if String.prefix "using System" code then Ok "C#"
  else if String.prefix "Dear" code then Ok "Text only"
  else Err ClassNotFound.

Definition sample_lexer : Lexer := {| guess_lexer := Some sample_guess |}.

(** Pygments is not installed. *)
Definition no_lexer : Lexer := {| guess_lexer := None |}.

(** An upload for examples: a Python file name on text that looks like
    JavaScript. *)
Definition python_file : UploadedFile :=
  {| name := "script.py"; decoded := Some "function f() { return 1; }" |}.

(** ** Properties of the tables *)
Lemma languages_NoDup : NoDup LANGUAGES.
Proof. table_decide. Qed.

Lemma extension_keys_NoDup : NoDup (Dict.keys EXTENSION_TO_LANG).
Proof. table_decide. Qed.

Lemma pygments_keys_NoDup : NoDup (Dict.keys pygments_to_lang).
Proof. table_decide. Qed.

Lemma extension_values_supported ext lang :
  Dict.get ext EXTENSION_TO_LANG = Some lang -> lang ∈ LANGUAGES.
Proof.
  intros Hin%Dict.dict_get_Some_elem.
  apply (table_row (fun kv => bool_decide (kv.2 ∈ LANGUAGES))) in Hin; [|done].
  by apply bool_decide_eq_true in Hin.
Qed.

Lemma pygments_values_supported key lang :
  Dict.get key pygments_to_lang = Some lang -> lang ∈ LANGUAGES.
Proof.
  intros Hin%Dict.dict_get_Some_elem.
  apply (table_row (fun kv => bool_decide (kv.2 ∈ LANGUAGES))) in Hin; [|done].
  by apply bool_decide_eq_true in Hin.
Qed.

Lemma languages_truthy lang : lang ∈ LANGUAGES -> truthy lang = true.
Proof.
  revert lang. apply Forall_forall. table_decide.
Qed.

Lemma extension_keys_shape ext lang :
  Dict.get ext EXTENSION_TO_LANG = Some lang -> dot_alnum ext = true.
Proof.
  intros Hin%Dict.dict_get_Some_elem.
  by apply (table_row (fun kv => dot_alnum kv.1)) in Hin.
Qed.

Lemma languages_self_alias lang :
  lang ∈ LANGUAGES -> normalize lang = Some lang.
Proof.
  revert lang. apply Forall_forall. table_decide.
Qed.

Lemma languages_have_extension lang :
  lang ∈ LANGUAGES -> exists ext, Dict.get ext EXTENSION_TO_LANG = Some lang.
Proof.
  intros Hin.
  assert (lang ∈ Dict.values EXTENSION_TO_LANG) as Hv.
  { revert lang Hin. apply Forall_forall. table_decide. }
  apply list_elem_of_fmap in Hv as ([ext l] & -> & Hin').
  exists ext. apply Dict.dict_elem_get; [apply extension_keys_NoDup | done].
Qed.

(** An extension whose lower-case form is a key of the table is a dot
    followed by characters that are neither dots nor separators. *)
Lemma extension_shape e lang :
  Dict.get (Str.lower e) EXTENSION_TO_LANG = Some lang ->
  exists u, e = String "." u /\ Str.mem "." u = false /\ Str.mem "/" u = false.
Proof.
  intros Hk%extension_keys_shape. unfold dot_alnum in Hk.
  destruct (Str.lower e) as [|c e0] eqn:He; [done|].
  apply Str.lower_cons_inv in He as (a & u & -> & Ha & <-).
  assert (c = "."%char) as -> by (clear -Hk; Char.ascii_cases c).
  apply Char.lower_char_dot in Ha as ->. exists u. split; [done|].
  rewrite <- (Str.lower_mem "." u), <- (Str.lower_mem "/" u) by done.
  split; by apply (Str.all_mem_false _ _ _ Hk).
Qed.

Section detect.
Context `{Lexer}.

Lemma detect_by_content_resolved lang code :
  truthy lang = true -> detect_by_content (Some lang) code = Some lang.
Proof. intros Hl. unfold detect_by_content. by rewrite truthy_Some, Hl. Qed.

Lemma detect_by_extension_known f d lang :
  Dict.get (Str.lower (Str.splitext (name f)).2) EXTENSION_TO_LANG = Some lang ->
  detect_by_extension (Some f) d = Some lang.
Proof.
  intros Hget. unfold detect_by_extension, Dict.contains.
  destruct (truthy (name f)) eqn:Hn; [by rewrite Hget|].
  destruct (name f); [done | discriminate].
Qed.

Lemma detect_by_extension_resolved u : resolved (detect_by_extension u None).
Proof.
  unfold detect_by_extension. repeat case_match; try by left.
  destruct (Dict.get _ EXTENSION_TO_LANG) as [l|] eqn:E; [right | by left].
  exists l. split; [done|]. by eapply extension_values_supported.
Qed.

Lemma detect_language_by_extension u code l :
  detect_by_extension u None = Some l -> detect_language u code = Some l.
Proof.
  intros Hu. unfold detect_language. rewrite Hu.
  destruct (detect_by_extension_resolved u) as [? | (l' & ? & Hl)]; simplify_eq.
  by apply detect_by_content_resolved, languages_truthy.
Qed.

(** When the lower-case extension of the uploaded file name is a key of the
    extension table, the detected language is its value, whatever the code. *)
Theorem extension_wins f code lang :
  Dict.get (Str.lower (Str.splitext (name f)).2) EXTENSION_TO_LANG = Some lang ->
  detect_language (Some f) code = Some lang.
Proof. intros Hget. by apply detect_language_by_extension, detect_by_extension_known. Qed.

(** C9: a file name that ends in an extension of the table, in any case, resolves to
    the language of the table whatever the code is: the extension wins over
    the lexer. *)
Theorem extension_wins_name stem e d code lang :
  Str.all Str.is_dot (Str.basename stem) = false ->
  Dict.get (Str.lower e) EXTENSION_TO_LANG = Some lang ->
  detect_language (Some {| name := stem +:+ e; decoded := d |}) code = Some lang.
Proof.
  intros Hstem Hget. apply detect_language_by_extension, detect_by_extension_known.
  destruct (extension_shape _ _ Hget) as (u & -> & Hdot & Hsep). simpl.
  by rewrite Str.splitext_at_last_dot, Hstem.
Qed.

Lemma resolved_get key : resolved (Dict.get key pygments_to_lang).
Proof.
  destruct (Dict.get key pygments_to_lang) as [l|] eqn:E; [right | by left].
  exists l. split; [done|]. by eapply pygments_values_supported.
Qed.

Lemma lookup_lowered_resolved p d : resolved d -> resolved (lookup_lowered p d).
Proof. unfold lookup_lowered. case_match; [intros _; apply resolved_get | done]. Qed.

Lemma lookup_stripped_resolved p d : resolved d -> resolved (lookup_stripped p d).
Proof.
  unfold lookup_stripped. intros Hd. case_match; [|done].
  case_match eqn:E; [|done]. destruct p0 as [key val]. right. exists val.
  split; [done|]. apply Dict.dict_first_item_Some in E as (d1 & d2 & Hd' & _).
  apply (pygments_values_supported key), Dict.dict_elem_get;
    [apply pygments_keys_NoDup|]. unfold Dict.items in Hd'. rewrite Hd'.
  apply elem_of_app. right. by left.
Qed.

Lemma normalize_resolved p :
  exists l, normalize p = Some l /\ (l ∈ LANGUAGES \/ l = p).
Proof.
  unfold normalize.
  pose proof (lookup_stripped_resolved p _
    (lookup_lowered_resolved p _ (resolved_get p))) as Hr.
  unfold lookup_direct, fallback_raw.
  destruct (truthy (lookup_stripped _ _)) eqn:Ht.
  - destruct Hr as [Hr | (l & Hr & Hl)]; rewrite Hr in *; [done | eauto].
  - eauto.
Qed.

Lemma lookup_lowered_redundant p :
  Str.lower p = p -> lookup_lowered p (lookup_direct p) = lookup_direct p.
Proof. intros Hp. unfold lookup_lowered, lookup_direct. rewrite Hp. by case_match. Qed.

Lemma lookup_lowered_skip p d : truthy d = true -> lookup_lowered p d = d.
Proof. unfold lookup_lowered. by intros ->. Qed.

Lemma lookup_stripped_skip p d : truthy d = true -> lookup_stripped p d = d.
Proof. unfold lookup_stripped. by intros ->. Qed.

Lemma fallback_raw_skip p d : truthy d = true -> fallback_raw p d = d.
Proof. unfold fallback_raw. by intros ->. Qed.

Lemma normalize_alias key val :
  Dict.get key pygments_to_lang = Some val -> normalize key = Some val.
Proof.
  intros Hget. pose proof (languages_truthy _ (pygments_values_supported _ _ Hget)) as Ht.
  unfold normalize, lookup_direct. rewrite Hget.
  by rewrite lookup_lowered_skip, lookup_stripped_skip, fallback_raw_skip.
Qed.

Lemma lookup_stripped_None p :
  lookup_stripped p None = Dict.get (Str.sub_non_alnum (Str.lower p)) stripped_table.
Proof.
  unfold lookup_stripped, stripped_table, Dict.items.
  rewrite truthy_None. cbn [negb].
  rewrite <- (Dict.dict_first_item_as_get (fun k => Str.sub_non_alnum (Str.lower k))).
  by destruct (Dict.first_item _ _) as [[??]|].
Qed.

Lemma stripped_values_truthy key l :
  Dict.get key stripped_table = Some l -> truthy l = true.
Proof.
  intros Hin%Dict.dict_get_Some_elem.
  by apply (table_row (fun kv => truthy kv.2)) in Hin.
Qed.

(** A lower-case name that is not a key of the table is looked up by its
    stripped form, and returned as it is when that fails too. *)
Lemma normalize_not_alias p :
  Str.lower p = p -> Dict.get p pygments_to_lang = None ->
  normalize p =
  match Dict.get (Str.sub_non_alnum p) stripped_table with
  | Some l => Some l
  | None => Some p
  end.
Proof.
  intros Hp E. unfold normalize. rewrite lookup_lowered_redundant by done.
  unfold lookup_direct. rewrite E, lookup_stripped_None, Hp.
  destruct (Dict.get _ stripped_table) as [l|] eqn:E'; [|done].
  by rewrite fallback_raw_skip by (by eapply stripped_values_truthy).
Qed.

(** C31: on a lower-case lexer name the normalisation of lines 206-218 equals the
    reference [normalize_ref]: one lookup of the name, one lookup of its
    stripped form in the table of stripped keys, the name itself. *)
Theorem normalize_equiv_ref p : Str.lower p = p -> normalize p = normalize_ref p.
Proof.
  intros Hp. unfold normalize_ref.
  destruct (Dict.get p pygments_to_lang) as [l|] eqn:E;
    [by apply normalize_alias | by apply normalize_not_alias].
Qed.

Lemma detect_language_no_extension u code :
  detect_by_extension u None = None ->
  detect_language u code =
    match guess_lexer with
    | Some guess =>
        if truthy code then
          match guess code with
          | Ok lexer_name => normalize (Str.lower lexer_name)
          | Err ClassNotFound => None
          end
        else None
    | None => None
    end.
Proof.
  intros Hu. unfold detect_language, detect_by_content. rewrite Hu, truthy_None.
  destruct guess_lexer as [g|], (truthy code); try done.
Qed.

(** When the lexer raises [ClassNotFound] the detected language is [None]:
    the exception does not leave the detection. *)
Theorem detect_lexer_failure u code guess :
  detect_by_extension u None = None ->
  guess_lexer = Some guess -> guess code = Err ClassNotFound ->
  detect_language u code = None.
Proof.
  intros Hu Hg Hc. rewrite detect_language_no_extension by done.
  rewrite Hg, Hc. by case_match.
Qed.

(** C11: without a known extension, a lexer name whose lower-case form is a key of
    the alias table resolves to the language of that key: spellings that
    differ in case give the same language. *)
Theorem detect_alias_spelling u code guess raw key val :
  detect_by_extension u None = None -> truthy code = true ->
  guess_lexer = Some guess -> guess code = Ok raw ->
  Str.lower raw = key -> Dict.get key pygments_to_lang = Some val ->
  detect_language u code = Some val.
Proof.
  intros Hu Hc Hg Hr <- Hk. rewrite detect_language_no_extension by done.
  rewrite Hg, Hc, Hr. by apply normalize_alias.
Qed.

(** C32: a lexer name that matches no key of the alias table, as it is or
    stripped, is the detected language in lower case. *)
Theorem detect_fallback_lowered u code guess raw :
  detect_by_extension u None = None -> truthy code = true ->
  guess_lexer = Some guess -> guess code = Ok raw ->
  Dict.get (Str.lower raw) pygments_to_lang = None ->
  Dict.get (Str.sub_non_alnum (Str.lower raw)) stripped_table = None ->
  detect_language u code = Some (Str.lower raw).
Proof.
  intros Hu Hc Hg Hr Hd Hs. rewrite detect_language_no_extension by done.
  rewrite Hg, Hc, Hr, normalize_not_alias by (done || apply Str.lower_idemp).
  by rewrite Hs.
Qed.

(** C18: the detected language is [None] exactly when the extension is not known
    and either the code is empty, or there is no lexer, or the lexer
    raises [ClassNotFound]. *)
Theorem detect_language_None_iff u code :
  detect_language u code = None <->
  detect_by_extension u None = None /\
  (code = "" \/ guess_lexer = None \/
   exists guess, guess_lexer = Some guess /\ guess code = Err ClassNotFound).
Proof.
  destruct (detect_by_extension u None) as [l|] eqn:Hu.
  - rewrite (detect_language_by_extension _ _ _ Hu). by split; [|intros []].
  - rewrite detect_language_no_extension by done.
    destruct guess_lexer as [g|] eqn:Hg; [|by split; eauto].
    destruct code as [|c code]; [by split; eauto|]. simpl.
    destruct (g _) as [n|[]] eqn:Hc.
    + destruct (normalize_resolved (Str.lower n)) as (l & -> & _).
      split; [done|]. intros [_ [? | [? | (g' & ? & ?)]]]; simplify_eq. congruence.
    + split; [|done]. intros _. split; [done|]. right. right. eauto.
Qed.

(** C34: a detected language is a member of [LANGUAGES] or the lower-case name
    the lexer returned. *)
Theorem detect_language_range u code l :
  detect_language u code = Some l ->
  l ∈ LANGUAGES \/
  exists guess raw,
    guess_lexer = Some guess /\ guess code = Ok raw /\ l = Str.lower raw.
Proof.
  destruct (detect_by_extension u None) as [l'|] eqn:Hu.
  - rewrite (detect_language_by_extension _ _ _ Hu). intros [= <-]. left.
    destruct (detect_by_extension_resolved u) as [? | (? & ? & ?)]; by simplify_eq.
  - rewrite detect_language_no_extension by done.
    destruct guess_lexer as [g|]; [|done]. destruct (truthy code); [|done].
    destruct (g code) as [raw|[]] eqn:Hg; [|done].
    destruct (normalize_resolved (Str.lower raw)) as (l' & -> & [Hl | ->]);
      intros [= <-]; [by left | right; eauto].
Qed.

End detect.

(** Without Pygments the detection is the detection by extension. *)
Lemma detect_language_no_pygments u code :
  @detect_language no_lexer u code = detect_by_extension u None.
Proof.
  unfold detect_language, detect_by_content. simpl. by rewrite andb_false_r.
Qed.

(** ** The theorems at concrete inputs *)

Lemma extension_wins_witness :
  @detect_language sample_lexer (Some python_file) "function f() { return 1; }" =
  Some "python".
Proof. apply (@extension_wins sample_lexer). by_evaluation. Defined.

Lemma extension_wins_name_witness :
  @detect_language sample_lexer
    (Some {| name := "src/Main" +:+ ".JAVA"; decoded := None |}) "#include <x>" =
  Some "java".
Proof. apply (@extension_wins_name sample_lexer); by_evaluation. Defined.

Lemma normalize_equiv_ref_witness :
  normalize "c# (c-sharp)" = normalize_ref "c# (c-sharp)".
Proof. apply normalize_equiv_ref. by_evaluation. Defined.

Lemma detect_lexer_failure_witness :
  @detect_language sample_lexer None "x=1" = None.
Proof. apply (@detect_lexer_failure sample_lexer None "x=1" sample_guess); by_evaluation. Defined.

Lemma detect_alias_spelling_witness :
  @detect_language sample_lexer None "#include <x>" = Some "cpp".
Proof.
  apply (@detect_alias_spelling sample_lexer None _ sample_guess "C++" "c++");
    by_evaluation.
Defined.

Lemma detect_fallback_lowered_witness :
  @detect_language sample_lexer None "Dear reader" = Some (Str.lower "Text only").
Proof.
  apply (@detect_fallback_lowered sample_lexer None _ sample_guess); by_evaluation.
Defined.

Lemma detect_language_range_witness :
  "text only" ∈ LANGUAGES \/
  exists guess raw,
    @guess_lexer sample_lexer = Some guess /\ guess "Dear reader" = Ok raw /\
    "text only" = Str.lower raw.
Proof. apply (@detect_language_range sample_lexer None). by_evaluation. Defined.

