(* ===== verification/Prompt.v ===== *)
(** * Prompt: the two prompt templates and the chains that run them

    Lines 223-241 of src/CodeOptimizer.py.  A [PromptTemplate] built by
    [from_template] is the list of its literal pieces and of its fields
    ([{language}], [{code}]); formatting replaces every field by [str] of
    the input of that name.  A chain formats its template with the inputs
    it is invoked with, sends the text to the model and returns the
    inputs together with the answer under the key ["text"].

    The hosted model is a collaborator: the class [Chains] is what the
    script calls, [llm_chains] is the chain of the library over any model,
    and the theorems on the script hold for every instance of [Chains]. *)

From Stdlib Require Import Ascii String List ZArith Lia.
From stdpp Require Import base tactics option list strings.
From S2P Require Import Prelude PyString PyData.

(** ** Templates *)

Inductive Segment : Type :=
| Lit (s : string)
| Field (name : string).

Definition Template : Type := list Segment.

(** The inputs of a chain: [{"code": ..., "language": ...}]. *)
Definition Inputs : Type := list (string * option string).

(** [template.format] with the inputs as keyword arguments; a field
    without an input raises [KeyError]. *)
Fixpoint format (t : Template) (inputs : Inputs) : result Exn string :=
  match t with
  | [] => Ok ""
  | Lit s :: t' => rmap (String.append s) (format t' inputs)
  | Field f :: t' =>
      match Dict.get f inputs with
      | Some v => rmap (String.append (Str.of_option v)) (format t' inputs)
      | None => Err (KeyError f)
      end
  end.

(** [template.input_variables] *)
Fixpoint input_variables (t : Template) : list string :=
  match t with
  | [] => []
  | Lit _ :: t' => input_variables t'
  | Field f :: t' => f :: input_variables t'
  end.

(** The line feed written [\n] in the source. *)
Definition nl : string := String "010" "".

(** Lines 223-228. *)
Definition prompt : Template :=
  [Lit "You are a helpful code formatter and explainer. ";
   Lit "Given the following messy or unordered "; Field "language";
   Lit " code, return a clean, well-formatted, and readable version with helpful comments explaining the code. ";
   Lit "Do not add explanations outside the code, just return the cleaned and commented code.";
   Lit nl; Lit nl;
   Lit "Messy code:"; Lit nl; Field "code"; Lit nl; Lit nl;
   Lit "Cleaned and commented code:"].

(** Lines 232-240. *)
Definition explain_prompt : Template :=
  [Lit "You are a helpful programming assistant. ";
   Lit "Explain what the following "; Field "language";
   Lit " code does, step by step, in a visually structured way. ";
   Lit "For each important code line or block, start with a callout (➤) and show the code using inline code formatting (single backticks). ";
   Lit "Then, use bullet points to explain what that line or block does. ";
   Lit "Highlight important terms or concepts in bold. ";
   Lit "Use clear, readable markdown, and make the explanation easy to scan, like a professional code review or tutorial.";
   Lit nl; Lit nl;
   Lit "Code:"; Lit nl; Field "code"; Lit nl; Lit nl;
   Lit "Explanation:"].

(** The inputs the script passes at lines 290, 304 and 356. *)
Definition chain_inputs (code : string) (language : option string) : Inputs :=
  Dict.literal [("code", Some code); ("language", language)].

(** ** Chains *)

(** [chain.invoke] (line 229) and [explain_chain.invoke] (line 241) as
    the script sees them: a value or an exception. *)
Class Chains := {
  chain_invoke : Inputs -> result Exn PyVal;
  explain_chain_invoke : Inputs -> result Exn PyVal
}.

(** [LLMChain(llm, prompt).invoke(inputs)]: the formatted prompt goes to
    the model and the answer comes back under ["text"], after the
    inputs. *)
Definition llm_chain_invoke (llm : string -> result Exn string) (t : Template)
    (inputs : Inputs) : result Exn PyVal :=
  rbind (format t inputs) (fun text =>
  rbind (llm text) (fun answer =>
  Ok (VDict (Dict.setitem "text" (Some answer) inputs)))).

Definition llm_chains (llm : string -> result Exn string) : Chains := {|
  chain_invoke := llm_chain_invoke llm prompt;
  explain_chain_invoke := llm_chain_invoke llm explain_prompt
|}.

(** ** Definitions used to state the properties *)

(** What stands before and after the code in the formatted [prompt]. *)
Definition prompt_head (language : option string) : string :=
  "You are a helpful code formatter and explainer. " +:+
  "Given the following messy or unordered " +:+ Str.of_option language +:+
  " code, return a clean, well-formatted, and readable version with helpful comments explaining the code. " +:+
  "Do not add explanations outside the code, just return the cleaned and commented code." +:+
  nl +:+ nl +:+ "Messy code:" +:+ nl.

Definition prompt_tail : string :=
  nl +:+ nl +:+ "Cleaned and commented code:".

(** A model for examples: it answers every prompt with the same text. *)
Definition constant_llm (answer : string) (text : string) : result Exn string :=
  Ok answer.

(** A model for examples: the service is down. *)
Definition failing_llm (text : string) : result Exn string :=
  Err (ServiceError "quota exceeded").

(** ** Properties *)

Section format_lemmas.
Implicit Types (t : Template) (inputs : Inputs).

Lemma format_app t1 t2 inputs :
  format (t1 ++ t2) inputs =
  rbind (format t1 inputs) (fun s1 => rmap (String.append s1) (format t2 inputs)).
Proof.
  induction t1 as [|[s|f] t1 IH]; simpl.
  - by destruct (format t2 inputs).
  - rewrite IH. destruct (format t1 inputs), (format t2 inputs); simpl; try done.
    by rewrite Str.app_assoc.
  - destruct (Dict.get f inputs); [|done]. rewrite IH.
    destruct (format t1 inputs), (format t2 inputs); simpl; try done.
    by rewrite Str.app_assoc.
Qed.

(** Formatting succeeds exactly when every field has an input. *)
Lemma format_ok_iff t inputs :
  is_ok (format t inputs) = true <->
  Forall (fun f => Dict.contains f inputs = true) (input_variables t).
Proof.
  induction t as [|[s|f] t IH]; simpl.
  - by split.
  - by destruct (format t inputs).
  - rewrite Forall_cons, <- IH. unfold Dict.contains.
    destruct (Dict.get f inputs), (format t inputs); simpl; intuition.
Qed.

Lemma prompt_variables : input_variables prompt = ["language"; "code"].
Proof. done. Qed.

Lemma explain_prompt_variables :
  input_variables explain_prompt = ["language"; "code"].
Proof. done. Qed.

(** The formatted cleaning prompt is the code between a head that
    depends on the language only and a fixed tail. *)
Theorem format_prompt_spec code language :
  format prompt (chain_inputs code language) =
  Ok (prompt_head language +:+ code +:+ prompt_tail).
Proof.
  unfold prompt, prompt_head, prompt_tail. simpl. f_equal.
  by rewrite !Str.app_assoc.
Qed.

(** Two codes give two prompts: the model is asked about the code it was
    given. *)
Theorem format_prompt_inj code1 code2 language :
  format prompt (chain_inputs code1 language) =
  format prompt (chain_inputs code2 language) -> code1 = code2.
Proof.
  rewrite !format_prompt_spec. intros [= Heq].
  apply (inj (String.append _)) in Heq. by apply Str.app_inv_tail in Heq.
Qed.

(** A language that is not resolved reaches the model as the word
    [None]. *)
Lemma prompt_head_None :
  prompt_head None =
  "You are a helpful code formatter and explainer. Given the following messy or unordered None code, return a clean, well-formatted, and readable version with helpful comments explaining the code. Do not add explanations outside the code, just return the cleaned and commented code." +:+ nl +:+ nl +:+ "Messy code:" +:+ nl.
Proof. done. Qed.

End format_lemmas.

Section chain_lemmas.
Context (llm : string -> result Exn string).

(** The cleaning chain sends the model the head of the prompt with the
    language, the code and the tail, and returns the inputs with the answer
    under the key text; it fails only when the model does. *)
Lemma llm_chain_invoke_prompt code language :
  llm_chain_invoke llm prompt (chain_inputs code language) =
  rmap (fun answer =>
          VDict (Dict.setitem "text" (Some answer) (chain_inputs code language)))
       (llm (prompt_head language +:+ code +:+ prompt_tail)).
Proof. unfold llm_chain_invoke. by rewrite format_prompt_spec. Qed.

(** What the script reads from the result of the library's chain is the
    answer of the model, a [str]. *)
Lemma llm_chain_text_of t inputs v :
  llm_chain_invoke llm t inputs = Ok v -> exists answer, Val.text_of v = VStr answer.
Proof.
  unfold llm_chain_invoke. intros (text & _ & (answer & _ & [= <-])%rbind_Ok_inv)%rbind_Ok_inv.
  exists answer. apply Val.val_text_of_dict, Dict.dict_setitem_get.
Qed.

End chain_lemmas.
