(* ===== verification/Templates.v ===== *)
(** * Templates: the text of the prompt templates and how it is read

    [PromptTemplate.from_template] (lines 223 and 232) is given a text
    in the syntax of Python's format strings: [{name}] is a field, [{{]
    and [}}] stand for a brace, everything else is literal.  [Prompt]
    has the two templates as the pieces that come out of it; this file
    has the text the source writes ([prompt_text], [explain_prompt_text]),
    the reader ([from_template], a structural pass over the text with a
    mode, one character at a time) and the writer ([to_text]).

    The theorems show that reading and writing are inverse to each other
    on the templates in normal form (no empty and no adjacent literal
    pieces, plain field names), that the reader fails on no other text
    than one it cannot have written, and that the text of the source
    reads as the templates of [Prompt]: the chains of the script format
    what the source says.

    Conversions, format specifications and attribute or index lookups in
    a field ([{x!r}], [{x:>4}], [{x.y}], [{x[0]}]) are refused as
    [Unsupported]: the script uses none. *)

From Stdlib Require Import Ascii String List.
From stdpp Require Import base tactics option list strings.
From S2P Require Import Prelude PyString PyData Prompt.

(** ** Reading *)

(** Why a text is not a template. *)
Inductive FormatError : Type :=
| SingleOpen      (* Single '{' encountered in format string *)
| SingleClose     (* Single '}' encountered in format string *)
| Unclosed        (* expected '}' before end of string *)
| NestedOpen      (* unexpected '{' in field name *)
| Unsupported.    (* a conversion, a format specification or a lookup *)

(** What a character is to the reader. *)
Inductive Cat : Type := Open | Close | Special | Plain.

Definition cat_of (c : ascii) : Cat :=
  if decide (c = "{"%char) then Open
  else if decide (c = "}"%char) then Close
  else if bool_decide (c ∈ ["!"; ":"; "."; "["]%char) then Special
  else Plain.

(** Where the reader is: in literal text, after one opening or one
    closing brace, or in a field whose name starts with [name]. *)
Inductive ReaderMode : Type :=
| InLit
| AfterOpen
| AfterClose
| InField (name : string).

(** The character [c] before a template. *)
Definition cons_char (c : ascii) (t : Template) : Template :=
  match t with
  | Lit s :: t' => Lit (String c s) :: t'
  | _ => Lit (String c "") :: t
  end.

Definition push (c : ascii) (r : result FormatError Template) :
    result FormatError Template :=
  rmap (cons_char c) r.

Fixpoint parse (m : ReaderMode) (s : string) : result FormatError Template :=
  match s with
  | EmptyString =>
      match m with
      | InLit => Ok []
      | AfterOpen => Err SingleOpen
      | AfterClose => Err SingleClose
      | InField _ => Err Unclosed
      end
  | String c s' =>
      match m, cat_of c with
      | InLit, Open => parse AfterOpen s'
      | InLit, Close => parse AfterClose s'
      | InLit, _ => push c (parse InLit s')
      | AfterOpen, Open => push c (parse InLit s')
      | AfterOpen, Close => rmap (cons (Field "")) (parse InLit s')
      | AfterOpen, Plain => parse (InField (String c "")) s'
      | AfterOpen, Special => Err Unsupported
      | AfterClose, Close => push c (parse InLit s')
      | AfterClose, _ => Err SingleClose
      | InField name, Close => rmap (cons (Field name)) (parse InLit s')
      | InField name, Plain => parse (InField (name +:+ String c "")) s'
      | InField _, Open => Err NestedOpen
      | InField _, Special => Err Unsupported
      end
  end.

(** [PromptTemplate.from_template(text)], up to the pieces. *)
Definition from_template (text : string) : result FormatError Template :=
  parse InLit text.

(** [PromptTemplate.from_template(text).format] on the inputs. *)
Definition format_text (text : string) (inputs : Inputs) :
    result FormatError (result Exn string) :=
  rmap (fun t => format t inputs) (from_template text).

(** ** Writing *)

(** A literal piece with its braces doubled. *)
Fixpoint escape (s : string) : string :=
  match s with
  | EmptyString => EmptyString
  | String c s' =>
      match cat_of c with
      | Open | Close => String c (String c (escape s'))
      | _ => String c (escape s')
      end
  end.

(** [template.template]: the text of a template. *)
Fixpoint to_text (t : Template) : string :=
  match t with
  | [] => ""
  | Lit s :: t' => escape s +:+ to_text t'
  | Field name :: t' => String "{" (name +:+ String "}" (to_text t'))
  end.

(** ** Normal form *)

Definition is_plain (c : ascii) : bool :=
  match cat_of c with Plain => true | _ => false end.

Definition plain_name (name : string) : bool := Str.all is_plain name.

Definition starts_with_lit (t : Template) : bool :=
  match t with Lit _ :: _ => true | _ => false end.

(** The templates the reader gives: no literal piece is empty or follows
    another, and the names of the fields are plain. *)
Fixpoint template_nf (t : Template) : bool :=
  match t with
  | [] => true
  | Lit s :: t' =>
      negb (bool_decide (s = "")) && negb (starts_with_lit t') && template_nf t'
  | Field name :: t' => plain_name name && template_nf t'
  end.

(** The literal text [s] before a template. *)
Definition cons_string (s : string) (t : Template) : Template :=
  match s, t with
  | EmptyString, _ => t
  | _, Lit s' :: t' => Lit (s +:+ s') :: t'
  | _, _ => Lit s :: t
  end.

(** The normal form of a template: adjacent literal pieces are joined
    and empty ones dropped. *)
Fixpoint merge (t : Template) : Template :=
  match t with
  | [] => []
  | Lit s :: t' => cons_string s (merge t')
  | Field name :: t' => Field name :: merge t'
  end.

(** ** The text of the source *)

(** Lines 224-227. *)
Definition prompt_text : string :=
  "You are a helpful code formatter and explainer. " +:+
  "Given the following messy or unordered {language} code, return a clean, well-formatted, and readable version with helpful comments explaining the code. " +:+
  "Do not add explanations outside the code, just return the cleaned and commented code." +:+ nl +:+ nl +:+
  "Messy code:" +:+ nl +:+ "{code}" +:+ nl +:+ nl +:+ "Cleaned and commented code:".

(** Lines 233-239. *)
Definition explain_prompt_text : string :=
  "You are a helpful programming assistant. " +:+
  "Explain what the following {language} code does, step by step, in a visually structured way. " +:+
  "For each important code line or block, start with a callout (➤) and show the code using inline code formatting (single backticks). " +:+
  "Then, use bullet points to explain what that line or block does. " +:+
  "Highlight important terms or concepts in bold. " +:+
  "Use clear, readable markdown, and make the explanation easy to scan, like a professional code review or tutorial." +:+ nl +:+ nl +:+
  "Code:" +:+ nl +:+ "{code}" +:+ nl +:+ nl +:+ "Explanation:".

(** ** The chains of the source *)

(** [LLMChain(llm=llm, prompt=t)] and [LLMChain(llm=llm, prompt=t')]. *)
Definition template_chains (llm : string -> result Exn string) (t t' : Template) : Chains := {|
  chain_invoke := llm_chain_invoke llm t;
  explain_chain_invoke := llm_chain_invoke llm t'
|}.

(** Lines 223-241: the two templates are read from their text and the
    chains are made over them. *)
Definition source_chains (llm : string -> result Exn string) : result FormatError Chains :=
  rbind (from_template prompt_text) (fun t =>
  rbind (from_template explain_prompt_text) (fun t' =>
  Ok (template_chains llm t t'))).

(** ** What the reader has read so far *)

Definition mode_text (m : ReaderMode) : string :=
  match m with
  | InLit => ""
  | AfterOpen => "{"
  | AfterClose => "}"
  | InField name => String "{" name
  end.

Definition mode_ok (m : ReaderMode) : bool :=
  match m with InField name => plain_name name | _ => true end.

(** ** Properties *)

(** [String.append] does not simplify: its two equations are rewritten. *)
Ltac str_simpl := rewrite ?Str.app_cons, ?Str.app_nil_l.

Section reading.
Implicit Types (c : ascii) (s name rest : string) (t : Template) (m : ReaderMode).
Implicit Types (r : result FormatError Template).

Lemma push_Ok_inv c r t : push c r = Ok t -> exists t', r = Ok t' /\ t = cons_char c t'.
Proof. destruct r; [|done]. intros [= <-]. eauto. Qed.

Lemma rmap_cons_Ok_inv (x : Segment) r t :
  rmap (cons x) r = Ok t -> exists t', r = Ok t' /\ t = x :: t'.
Proof. destruct r; [|done]. intros [= <-]. eauto. Qed.

(** A character of a literal piece is written as itself, a brace
    twice. *)
Lemma to_text_cons_char c t :
  to_text (cons_char c t) =
  match cat_of c with
  | Open | Close => String c (String c (to_text t))
  | _ => String c (to_text t)
  end.
Proof. destruct t as [|[s|name] t]; cbn [cons_char to_text escape]; by destruct (cat_of c). Qed.

Lemma cat_of_Open c : cat_of c = Open -> c = "{"%char.
Proof. unfold cat_of. by repeat case_decide; try case_match. Qed.

Lemma cat_of_Close c : cat_of c = Close -> c = "}"%char.
Proof. unfold cat_of. by repeat case_decide; try case_match. Qed.

Lemma is_plain_Plain c : cat_of c = Plain -> is_plain c = true.
Proof. unfold is_plain. by intros ->. Qed.

Lemma plain_name_snoc name c :
  plain_name (name +:+ String c "") = plain_name name && is_plain c.
Proof.
  unfold plain_name. induction name as [|a name IH]; str_simpl; cbn [Str.all].
  - by destruct (is_plain c).
  - by rewrite IH, andb_assoc.
Qed.

Lemma template_nf_cons_char c t : template_nf t = true -> template_nf (cons_char c t) = true.
Proof.
  destruct t as [|[s|name] t]; cbn [cons_char template_nf starts_with_lit]; try done.
  rewrite !andb_true_iff. by intros [[_ ?] ?].
Qed.

(** Ltac for the cases of one step of the reader. *)
Ltac parse_cases Hc :=
  cbn [parse]; destruct (cat_of _) eqn:Hc;
  try discriminate;
  try (intros (?t & ?Ht & ->)%push_Ok_inv);
  try (intros (?t & ?Ht & ->)%rmap_cons_Ok_inv).

(** The reader loses nothing: what it has read and what is left are the
    text of the template it gives. *)
Lemma parse_to_text s m t : parse m s = Ok t -> to_text t = mode_text m +:+ s.
Proof.
  revert m t. induction s as [|c s IH]; intros m t.
  { destruct m; cbn [parse]; by intros [= <-]. }
  destruct m as [| | |name]; parse_cases Hc;
    rewrite ?to_text_cons_char, ?Hc; cbn [to_text mode_text]; str_simpl;
    try (apply cat_of_Open in Hc as ->); try (apply cat_of_Close in Hc as ->);
    try (by erewrite IH by done; str_simpl);
    try (by intros ->%IH; cbn [mode_text]; str_simpl; rewrite ?Str.app_assoc).
Qed.

(** What the reader gives is in normal form. *)
Lemma parse_nf s m t : mode_ok m = true -> parse m s = Ok t -> template_nf t = true.
Proof.
  revert m t. induction s as [|c s IH]; intros m t Hm.
  { destruct m; cbn [parse]; by intros [= <-]. }
  destruct m as [| | |name]; cbn [mode_ok] in Hm; parse_cases Hc; cbn [template_nf];
    try (by apply template_nf_cons_char, (IH InLit));
    try (by rewrite ?Hm; apply (IH InLit));
    intros Hp; eapply IH in Hp; try done; cbn [mode_ok plain_name Str.all].
  - by rewrite is_plain_Plain.
  - by rewrite plain_name_snoc, Hm, is_plain_Plain.
Qed.

(** The characters of [s] before what is read from the rest. *)
Lemma parse_escape s rest :
  parse InLit (escape s +:+ rest) = foldr push (parse InLit rest) (String.list_ascii_of_string s).
Proof.
  induction s as [|c s IH]; [done|]. cbn [escape String.list_ascii_of_string foldr].
  destruct (cat_of c) eqn:Hc; str_simpl; cbn [parse]; by rewrite ?Hc, IH.
Qed.

Lemma push_literal s t :
  s <> "" -> starts_with_lit t = false ->
  foldr push (Ok t) (String.list_ascii_of_string s) = Ok (Lit s :: t).
Proof.
  intros Hs Ht. induction s as [|c s IH]; [done|]. cbn [String.list_ascii_of_string foldr].
  destruct s as [|c' s]; [by destruct t as [|[]]|]. by rewrite IH.
Qed.

Lemma parse_name name n rest :
  plain_name n = true ->
  parse (InField name) (n +:+ String "}" rest) =
  rmap (cons (Field (name +:+ n))) (parse InLit rest).
Proof.
  revert name. induction n as [|c n IH]; intros name.
  - intros _. str_simpl. by rewrite Str.app_empty_r.
  - str_simpl. cbn [plain_name Str.all parse]. unfold is_plain at 1.
    intros [Hc Hn]%andb_true_iff. destruct (cat_of c); try done.
    rewrite IH by done. by rewrite Str.app_assoc.
Qed.

Lemma parse_field n rest :
  plain_name n = true ->
  parse InLit (String "{" (n +:+ String "}" rest)) = rmap (cons (Field n)) (parse InLit rest).
Proof.
  intros Hn. change (parse InLit (String "{" ?s)) with (parse AfterOpen s).
  destruct n as [|c n]; [done|]. revert Hn.
  str_simpl. cbn [plain_name Str.all parse]. unfold is_plain at 1.
  intros [Hc Hn]%andb_true_iff. destruct (cat_of c); try done.
  by rewrite parse_name.
Qed.

(** Formatting does not see how the literal text is cut into pieces. *)
Lemma format_cons_string s t inputs :
  format (cons_string s t) inputs = format (Lit s :: t) inputs.
Proof.
  destruct s as [|c s]; cbn [cons_string].
  - cbn [format]. by destruct (format t inputs).
  - destruct t as [|[s'|name] t]; try done. cbn [format].
    destruct (format t inputs); [|done]. cbn [rmap rbind]. by rewrite Str.app_assoc.
Qed.

Lemma format_merge t inputs : format (merge t) inputs = format t inputs.
Proof.
  induction t as [|[s|name] t IH]; cbn [merge]; [done|..].
  - rewrite format_cons_string. cbn [format]. by rewrite IH.
  - cbn [format]. by rewrite IH.
Qed.

(** Reading what was written gives the template back. *)
Theorem from_template_to_text t :
  template_nf t = true -> from_template (to_text t) = Ok t.
Proof.
  unfold from_template. induction t as [|[s|name] t IH]; [done|..]; cbn [template_nf to_text].
  - rewrite !andb_true_iff, !negb_true_iff, bool_decide_eq_false. intros [[Hs Hl] Ht].
    rewrite parse_escape, IH by done. by apply push_literal.
  - intros [Hn Ht]%andb_true_iff. by rewrite parse_field, IH.
Qed.

(** The reader accepts exactly what the writer writes: a text reads as
    the template [t] if and only if [t] is in normal form and the text
    is the text of [t]. *)
Theorem from_template_iff text t :
  from_template text = Ok t <-> template_nf t = true /\ to_text t = text.
Proof.
  split.
  - intros Ht. split; [by eapply (parse_nf _ InLit)|]. by apply parse_to_text in Ht.
  - intros [Hnf <-]. by apply from_template_to_text.
Qed.

(** The texts of lines 224-227 and 233-239 read as the templates of
    [Prompt], their literal pieces joined. *)
Lemma source_templates :
  from_template prompt_text = Ok (merge prompt) /\
  from_template explain_prompt_text = Ok (merge explain_prompt).
Proof. by vm_compute. Qed.

(** The text of lines 224-227 formatted with a code and a language: the
    code stands between the head and the tail as it is, braces
    included, since the inputs are not read as templates. *)
Lemma source_prompt_formatted code language :
  format_text prompt_text (chain_inputs code language) =
  Ok (Ok (prompt_head language +:+ code +:+ prompt_tail)).
Proof.
  unfold format_text. destruct source_templates as [-> _]. cbn [rmap rbind]. f_equal.
  rewrite format_merge. apply format_prompt_spec.
Qed.

Lemma llm_chain_invoke_merge llm t inputs :
  llm_chain_invoke llm (merge t) inputs = llm_chain_invoke llm t inputs.
Proof. unfold llm_chain_invoke. by rewrite format_merge. Qed.

(** The chains made from the text of the source are the chains of
    [Prompt]: the reader accepts both texts, and the chains over what it
    reads answer every input as [llm_chains] does. *)
Theorem source_chains_equiv llm :
  exists chains, source_chains llm = Ok chains /\
    forall inputs,
      @chain_invoke chains inputs = @chain_invoke (llm_chains llm) inputs /\
      @explain_chain_invoke chains inputs = @explain_chain_invoke (llm_chains llm) inputs.
Proof.
  unfold source_chains. destruct source_templates as [-> ->]. cbn [rbind].
  eexists; split; [done|]. intros inputs. cbn [chain_invoke explain_chain_invoke
    template_chains llm_chains]. by rewrite !llm_chain_invoke_merge.
Qed.

(** C40: what the cleaning chain of the source sends to the model: the text
    of lines 224-227 with the language and the code in the place of the
    fields, that is the code between a head that depends on the language
    only and a fixed tail, whatever braces the code has; the answer comes
    back under the key text, after the inputs, and the chain fails only
    when the model does. *)
Theorem source_prompt_sent llm code language :
  rmap (fun chains => @chain_invoke chains (chain_inputs code language)) (source_chains llm) =
  Ok (rmap (fun answer =>
              VDict (Dict.setitem "text" (Some answer) (chain_inputs code language)))
           (llm (prompt_head language +:+ code +:+ prompt_tail))).
Proof.
  unfold source_chains. destruct source_templates as [-> ->]. cbn [rbind rmap]. f_equal.
  cbn [chain_invoke template_chains]. rewrite llm_chain_invoke_merge.
  unfold llm_chain_invoke. by rewrite format_prompt_spec.
Qed.

End reading.

(** ** Examples *)

(** The texts the reader refuses, one for each error. *)
Lemma from_template_errors :
  from_template "a {" = Err SingleOpen /\
  from_template "a } b" = Err SingleClose /\
  from_template "a { b" = Err Unclosed /\
  from_template "{a{b}}" = Err NestedOpen /\
  from_template "{x!r}" = Err Unsupported.
Proof. by vm_compute. Qed.

Lemma from_template_to_text_witness :
  from_template "{{ {language}: {code} }}" =
  Ok [Lit "{ "; Field "language"; Lit ": "; Field "code"; Lit " }"].
Proof.
  apply (from_template_to_text [Lit "{ "; Field "language"; Lit ": "; Field "code"; Lit " }"]).
  by vm_compute.
Defined.
