(* ===== verification/Config.v ===== *)
(** * Config: the configuration the script reads at each execution

    Lines 16-28 run at the top of every execution: the page is
    configured, the file [.env] is loaded into the environment, the API
    key is read from it, and the client of the hosted model is made with
    the name of the model, the temperature and the key.  The hosted
    model itself is a network service: it enters as a parameter, a
    function from the settings of the client and a prompt to an answer
    or an exception, and [configured_chains] are the two chains of the
    script over it. *)

From Stdlib Require Import String List QArith.
From stdpp Require Import base tactics option strings.
From S2P Require Import Prelude PyString PyData Prompt.

(** ** The page *)

(** The arguments of [st.set_page_config] (lines 17-21). *)
Record PageConfig : Type := {
  layout : string;
  page_title : string;
  page_icon : string
}.

Definition page_config : PageConfig :=
  {| layout := "wide"; page_title := "Universal Code Cleaner"; page_icon := "🧹" |}.

(** ** The environment *)

(** The variables of a process, or the assignments of a file [.env]. *)
Definition Environ : Type := string -> option string.

(** [load_dotenv()] (line 24): the assignments of the file are added to
    the environment; a variable the environment has already keeps its
    value ([override] is [False] by default). *)
Definition load_dotenv (dotenv environ : Environ) : Environ :=
  fun name => from_option Some (dotenv name) (environ name).

(** [os.getenv(name)]: [None] when the variable is not set. *)
Definition getenv (environ : Environ) (name : string) : option string := environ name.

(** Line 25. *)
Definition GOOGLE_API_KEY (dotenv environ : Environ) : option string :=
  getenv (load_dotenv dotenv environ) "GOOGLE_API_KEY".

(** ** The client of the model *)

(** The arguments of [ChatGoogleGenerativeAI] (line 28). *)
Record ChatModel : Type := {
  model : string;
  temperature : Q;
  google_api_key : option string
}.

Definition llm (dotenv environ : Environ) : ChatModel :=
  {| model := "gemini-1.5-flash"; temperature := 2 # 10;
     google_api_key := GOOGLE_API_KEY dotenv environ |}.

(** The hosted model: what a client with given settings answers to a
    prompt. *)
Definition Backend : Type := ChatModel -> string -> result Exn string.

(** The chains of lines 229 and 241 over the client of line 28. *)
Definition configured_chains (backend : Backend) (dotenv environ : Environ) : Chains :=
  llm_chains (backend (llm dotenv environ)).

(** ** Properties *)

Section environment.
Implicit Types (dotenv environ : Environ) (backend : Backend).

(** Where the key comes from: the environment of the process first, the
    file [.env] when the process has none, and [None] when neither has
    it, in which case the client is made without a key. *)
Lemma api_key_source dotenv environ :
  GOOGLE_API_KEY dotenv environ =
  match environ "GOOGLE_API_KEY" with
  | Some key => Some key
  | None => dotenv "GOOGLE_API_KEY"
  end.
Proof. unfold GOOGLE_API_KEY, getenv, load_dotenv. by destruct (environ _). Qed.

(** The file [.env] matters to the chains through the key only: two
    files that agree on [GOOGLE_API_KEY] give the same chains, and a key
    set in the environment hides the file altogether. *)
Lemma configured_chains_ext backend dotenv dotenv' environ :
  (environ "GOOGLE_API_KEY" = None ->
   dotenv "GOOGLE_API_KEY" = dotenv' "GOOGLE_API_KEY") ->
  configured_chains backend dotenv environ = configured_chains backend dotenv' environ.
Proof.
  intros Hkey. unfold configured_chains, llm. rewrite !api_key_source.
  destruct (environ _); [done|]. by rewrite Hkey.
Qed.

End environment.
