(* ===== verification/Session.v ===== *)
(** * Session: the session state and the history of optimisations

    [st.session_state] of src/CodeOptimizer.py holds four keys: [history]
    (lines 36-37), [clear_triggered] (40-41), [text_input_value] (44-45)
    and [show_explanation_only] (284-285).  The framework keeps them
    between two executions of the script ([Stored], where a key may be
    absent); lines 36-45 give the first three a value at the start of
    every execution ([init_session_state]), after which the script works
    on a [SessionState].  This file holds the state, the entries of the
    history and the assignments the script makes to the state. *)

From Stdlib Require Import Ascii String List ZArith Lia.
From stdpp Require Import base tactics option list strings.
From S2P Require Import Prelude PyString PyData.

(** ** Data *)

(** One entry of the history, the dict of lines 293-297. *)
Record Entry : Type := {
  messy : string;
  cleaned : PyVal;
  language : option string
}.

(** The session state between two executions. *)
Record Stored : Type := {
  st_history : option (list Entry);
  st_clear_triggered : option bool;
  st_text_input_value : option string;
  st_show_explanation_only : option bool
}.

(** The session state inside an execution, after line 45. *)
Record SessionState : Type := {
  history : list Entry;
  clear_triggered : bool;
  text_input_value : string;
  show_explanation_only : option bool
}.

(** The state of a browser session that has not run the script yet. *)
Definition empty_store : Stored := {|
  st_history := None;
  st_clear_triggered := None;
  st_text_input_value := None;
  st_show_explanation_only := None
|}.

(** Lines 36-45: each key gets its default unless it is present. *)
Definition init_session_state (s : Stored) : SessionState := {|
  history := default [] (st_history s);
  clear_triggered := default false (st_clear_triggered s);
  text_input_value := default "" (st_text_input_value s);
  show_explanation_only := st_show_explanation_only s
|}.

(** What the framework keeps when the execution ends. *)
Definition store (s : SessionState) : Stored := {|
  st_history := Some (history s);
  st_clear_triggered := Some (clear_triggered s);
  st_text_input_value := Some (text_input_value s);
  st_show_explanation_only := show_explanation_only s
|}.

(** The callback of the text area, line 116, which the framework calls
    before the execution when the user has edited the text:
    [text_input_value] takes the content of the widget. *)
Definition on_change (main_code_input : string) (s : Stored) : Stored := {|
  st_history := st_history s;
  st_clear_triggered := st_clear_triggered s;
  st_text_input_value := Some main_code_input;
  st_show_explanation_only := st_show_explanation_only s
|}.

(** ** Assignments to the session state *)

Definition set_history (h : list Entry) (s : SessionState) : SessionState := {|
  history := h;
  clear_triggered := clear_triggered s;
  text_input_value := text_input_value s;
  show_explanation_only := show_explanation_only s
|}.

Definition set_clear_triggered (b : bool) (s : SessionState) : SessionState := {|
  history := history s;
  clear_triggered := b;
  text_input_value := text_input_value s;
  show_explanation_only := show_explanation_only s
|}.

Definition set_text_input_value (v : string) (s : SessionState) : SessionState := {|
  history := history s;
  clear_triggered := clear_triggered s;
  text_input_value := v;
  show_explanation_only := show_explanation_only s
|}.

Definition set_show_explanation_only (b : bool) (s : SessionState) : SessionState := {|
  history := history s;
  clear_triggered := clear_triggered s;
  text_input_value := text_input_value s;
  show_explanation_only := Some b
|}.

(** Lines 293-297: [st.session_state.history.append({...})]. *)
Definition append_entry (e : Entry) (s : SessionState) : SessionState :=
  set_history (PyList.append (history s) e) s.

(** Lines 271-275: the three assignments of the clear handler. *)
Definition clear_session (s : SessionState) : SessionState :=
  set_clear_triggered true (set_text_input_value "" (set_history [] s)).

(** Lines 280-281. *)
Definition reset_clear_flag (s : SessionState) : SessionState :=
  if clear_triggered s then set_clear_triggered false s else s.

(** Lines 284-285. *)
Definition init_show_flag (s : SessionState) : SessionState :=
  match show_explanation_only s with
  | None => set_show_explanation_only false s
  | Some _ => s
  end.

(** [st.session_state.get('show_explanation_only', False)], line 318. *)
Definition get_show_explanation_only (s : SessionState) : bool :=
  default false (show_explanation_only s).

(** ** Definitions used to state the properties *)

(** An entry the comparison view can show: its cleaned code is a [str]. *)
Definition entry_ok (e : Entry) : bool := Val.is_str (cleaned e).

(** Every entry of the history holds a [str] as its cleaned code. *)
Definition history_ok (s : SessionState) : Prop :=
  Forall (fun e => entry_ok e = true) (history s).

(** The stored state of a session that holds [s] with the clear flag
    down and the explanation flag present: what an execution that passes
    lines 280-285 and assigns nothing else leaves. *)
Definition settled (s : SessionState) : Stored := {|
  st_history := Some (history s);
  st_clear_triggered := Some false;
  st_text_input_value := Some (text_input_value s);
  st_show_explanation_only := Some (get_show_explanation_only s)
|}.

(** ** Properties *)

Section session_lemmas.
Implicit Types (s : SessionState) (e : Entry).

Lemma init_store s : init_session_state (store s) = s.
Proof. by destruct s. Qed.

Lemma append_entry_history e s : history (append_entry e s) = history s ++ [e].
Proof. done. Qed.

Lemma reset_clear_flag_cleared s : clear_triggered (reset_clear_flag s) = false.
Proof. unfold reset_clear_flag. by destruct (clear_triggered s) eqn:E. Qed.

Lemma reset_clear_flag_history s : history (reset_clear_flag s) = history s.
Proof. unfold reset_clear_flag. by destruct (clear_triggered s). Qed.

Lemma init_show_flag_get s :
  get_show_explanation_only (init_show_flag s) = get_show_explanation_only s.
Proof.
  unfold init_show_flag, get_show_explanation_only.
  destruct (show_explanation_only s) eqn:E; simpl; by rewrite ?E.
Qed.

Lemma store_settled s : store (init_show_flag (reset_clear_flag s)) = settled s.
Proof.
  unfold init_show_flag, reset_clear_flag, settled, get_show_explanation_only.
  by destruct s as [h [] t []].
Qed.

End session_lemmas.
