(* ===== verification/Script.v ===== *)
(** * Script: one execution of src/CodeOptimizer.py

    The script is executed from its first line to its last on every
    interaction.  [script] composes its blocks in the order of the source;
    every block is a program over the state of the execution
    ([RunState]: the session state and the page rendered so far) that can
    end the execution early: [st.stop()] (line 311), [st.rerun()] (line
    277) or an exception.  [run] is one execution from the stored session
    state to the stored session state, and [interact] is what one user
    action causes: the callback of the text area if the text was edited,
    one execution, and a second one if the first asked for a rerun.

    The widgets are inputs of the execution ([Widgets]): the uploaded
    file, the text the text area returns for the value it is given, and
    the five buttons. *)

From Stdlib Require Import Ascii String List ZArith Lia.
From stdpp Require Import base tactics option list strings.
From S2P Require Import Prelude PyString PyData Language Prompt Session.

#[local] Open Scope prog_scope.

(** ** Data *)

(** Why an execution ended before the last line. *)
Inductive HaltReason : Type :=
| Stop              (* st.stop() *)
| Rerun             (* st.rerun() *)
| Raise (e : Exn).   (* an exception that nothing catches *)

(** The constant blocks of markup the script writes: lines 48-61, 64-82,
    87-91, 306 and 325, 309 and 351, 362-367, 370-520. *)
Inductive HtmlBlock : Type :=
| HeaderHtml
| FeaturesHtml
| PasteHeadingHtml
| ComparisonOpenHtml
| DivCloseHtml
| FooterHtml
| DarkCss.

(** What the script puts on the page, one constructor per output call. *)
Inductive Element : Type :=
| EHtml (b : HtmlBlock)
| EMarkdown (body : PyVal)
| EFileUploader
| ETextArea (value : string)
| EButton (label : string)
| EWarning (msg : string)
| ESuccess (msg : string)
| EInfo (msg : string)
| ESpinner (msg : string)
| ECode (body : PyVal) (language : option string)
| EDownloadButton (data : PyVal) (file_name : string) (mime : string).

(** The messages of lines 257 and 266. *)
Definition msg_nothing_to_revert : string := "⚠️ No previous version to revert to.".
Definition msg_reverted : string := "✅ Reverted to previous version.".

(** The widgets as the framework hands them to one execution. *)
Record Widgets : Type := {
  uploaded_file : option UploadedFile;
  text_area : string -> string;
  optimize_btn : bool;
  explain_btn : bool;
  revert_btn : bool;
  clear_btn : bool;
  explain_optimized_btn : bool
}.

(** What the user did to cause the execution: at most one button is
    pressed at a time. *)
Inductive Action : Type :=
| Idle
| PressOptimize
| PressExplain
| PressRevert
| PressClear
| PressExplainOptimized.

#[export] Instance action_eq_dec : EqDecision Action.
Proof. solve_decision. Defined.

(** The buttons of [w] are those of the action [a]. *)
Definition pressed (a : Action) (w : Widgets) : Prop :=
  optimize_btn w = bool_decide (a = PressOptimize) /\
  explain_btn w = bool_decide (a = PressExplain) /\
  revert_btn w = bool_decide (a = PressRevert) /\
  clear_btn w = bool_decide (a = PressClear) /\
  explain_optimized_btn w = bool_decide (a = PressExplainOptimized).

(** The widgets of a page with the file [f] in the uploader, the text
    [text] in the text area whatever its default, and the action [a]. *)
Definition widgets (f : option UploadedFile) (text : string) (a : Action) : Widgets := {|
  uploaded_file := f;
  text_area := fun _ => text;
  optimize_btn := bool_decide (a = PressOptimize);
  explain_btn := bool_decide (a = PressExplain);
  revert_btn := bool_decide (a = PressRevert);
  clear_btn := bool_decide (a = PressClear);
  explain_optimized_btn := bool_decide (a = PressExplainOptimized)
|}.

(** The state of an execution. *)
Record RunState : Type := {
  session : SessionState;
  page : list Element
}.

(** The module-level variables the handlers read and assign. *)
Record Locals : Type := {
  messy_code : string;
  detected_language : option string;
  optimized : option PyVal
}.

(** The entry line 293 appends when the chain returns [v]. *)
Definition new_entry (l : Locals) (v : PyVal) : Entry :=
  {| messy := messy_code l; cleaned := Val.text_of v;
     language := detected_language l |}.

Abbreviation script_of A := (prog RunState HaltReason A).

Definition update_session (f : SessionState -> SessionState) : script_of unit :=
  modify (fun st => {| session := f (session st); page := page st |}).

Definition emit (e : Element) : script_of unit :=
  modify (fun st => {| session := session st; page := page st ++ [e] |}).

Definition raise {A} (e : Exn) : script_of A := halt (Raise e).

(** An operation on a list that raises [IndexError] on the empty list. *)
Abbreviation or_index_error o := (or_halt (Raise IndexError) o).

(** ** The blocks of the script *)

(** Lines 48-82. *)
Definition render_header : script_of unit :=
  emit (EHtml HeaderHtml);;
  emit (EHtml FeaturesHtml).

(** Lines 85-97: the heading, the uploader, and [uploaded_code]. *)
Definition read_upload (w : Widgets) : script_of string :=
  emit (EHtml PasteHeadingHtml);;
  emit EFileUploader;;
  match uploaded_file w with
  | Some f =>
      match decoded f with
      | Some text => ret text
      | None => raise UnicodeDecodeError
      end
  | None => ret ""
  end.

(** Lines 100-103. *)
Definition get_initial_code (w : Widgets) (uploaded_code : string)
    (s : SessionState) : string :=
  if bool_decide (is_Some (uploaded_file w)) && truthy uploaded_code
  then uploaded_code
  else text_input_value s.

(** Lines 106-117: [messy_code] is what the text area returns. *)
Definition code_input (w : Widgets) (uploaded_code : string) : script_of string :=
  st <- get_state;;
  let value :=
    if clear_triggered (session st) then ""
    else get_initial_code w uploaded_code (session st) in
  emit (ETextArea value);;
  ret (text_area w value).

(** Lines 244-253. *)
Definition render_actions : script_of unit :=
  emit (EMarkdown (VStr "### ⚡ Actions"));;
  emit (EButton "🧹 Optimize Code");;
  emit (EButton "📖 Explain Code");;
  emit (EButton "↩️ Revert");;
  emit (EButton "🗑️ Clear All").

(** Lines 256-257. *)
Definition revert_warning (w : Widgets) : script_of unit :=
  st <- get_state;;
  when (revert_btn w && (length (history (session st)) <=? 1)%nat)
    (emit (EWarning msg_nothing_to_revert)).

(** Lines 260-266. *)
Definition revert (w : Widgets) (l : Locals) : script_of Locals :=
  st <- get_state;;
  if revert_btn w && (1 <? length (history (session st)))%nat then
    popped <- or_index_error (PyList.pop (history (session st)));;
    update_session (set_history popped.2);;
    prev <- or_index_error (PyList.last_item popped.2);;
    emit (ESuccess msg_reverted);;
    ret {| messy_code := messy prev;
           detected_language := language prev;
           optimized := Some (cleaned prev) |}
  else ret l.

(** Lines 269-277. *)
Definition clear_all (w : Widgets) : script_of unit :=
  when (clear_btn w)
    (update_session clear_session;;
     halt Rerun).

Section with_collaborators.
Context `{Lexer} `{Chains}.

(** Lines 288-298. *)
Definition optimize (w : Widgets) (l : Locals) : script_of Locals :=
  if optimize_btn w && truthy (Str.strip (messy_code l)) then
    emit (ESpinner "🧹 Optimizing your code...");;
    result <- lift_result Raise
      (chain_invoke (chain_inputs (messy_code l) (detected_language l)));;
    let optimized := Val.text_of result in
    update_session (append_entry {| messy := messy_code l;
                                    cleaned := optimized;
                                    language := detected_language l |});;
    update_session (set_show_explanation_only false);;
    ret {| messy_code := messy_code l;
           detected_language := detected_language l;
           optimized := Some optimized |}
  else ret l.

(** Lines 301-311. *)
Definition explain (w : Widgets) (l : Locals) : script_of unit :=
  when (explain_btn w && truthy (Str.strip (messy_code l)))
    (update_session (set_show_explanation_only true);;
     emit (ESpinner "📖 Analyzing your code...");;
     explanation <- lift_result Raise
       (explain_chain_invoke (chain_inputs (messy_code l) (detected_language l)));;
     let explanation_text := Val.text_of explanation in
     emit (EHtml ComparisonOpenHtml);;
     emit (EMarkdown (VStr "### 📖 Code Explanation"));;
     emit (EMarkdown explanation_text);;
     emit (EHtml DivCloseHtml);;
     update_session (set_show_explanation_only false);;
     halt Stop).

(** Lines 354-359, with [optimized] the [str] the comparison shows. *)
Definition explain_optimized (w : Widgets) (optimized : string)
    (language : option string) : script_of unit :=
  when (explain_optimized_btn w)
    (emit (ESpinner "📖 Analyzing your optimized code...");;
     explanation <- lift_result Raise
       (explain_chain_invoke (chain_inputs optimized language));;
     let explanation_text := Val.text_of explanation in
     emit (EMarkdown (VStr "### 📖 Optimized Code Explanation"));;
     emit (EMarkdown explanation_text)).

(** Line 345: the file name of the download, an f-string. *)
Definition download_name (detected_language : option string) : string :=
  "optimized_code." +:+ Str.of_option detected_language.

(** Lines 320-351: the two columns and the download button. *)
Definition render_comparison (last : Entry) : script_of unit :=
  emit (EHtml ComparisonOpenHtml);;
  emit (EMarkdown (VStr "### 📊 Code Comparison"));;
  emit (EMarkdown (VStr "**📝 Original Code**"));;
  emit (ECode (VStr (messy last)) (language last));;
  emit (EMarkdown (VStr "**✨ Optimized & Commented Code**"));;
  emit (ECode (cleaned last) (language last));;
  emit (EButton "📖 Explain Optimized Code");;
  emit (EMarkdown (VStr "### 💾 Download"));;
  emit (EDownloadButton (cleaned last) (download_name (language last)) "text/plain");;
  emit (EInfo "💡 Your optimized code is ready for download!");;
  emit (EHtml DivCloseHtml).

(** Lines 314-359.  The condition of line 314 is evaluated from left to
    right: an empty history ends it, and [strip] is looked up on the
    cleaned code of the last entry before anything else is tested. *)
Definition comparison (w : Widgets) (l : Locals) : script_of Locals :=
  st <- get_state;;
  match PyList.last_item (history (session st)) with
  | None => ret l
  | Some last =>
      match cleaned last with
      | VStr text =>
          if truthy (Str.strip text) && truthy (Str.strip (messy last))
             && negb (get_show_explanation_only (session st))
          then
            render_comparison last;;
            explain_optimized w text (language last);;
            ret {| messy_code := messy_code l;
                   detected_language := language last;
                   optimized := Some (cleaned last) |}
          else ret l
      | VNone | VDict _ => raise (AttributeError "strip")
      end
  end.

(** Lines 362-367. *)
Definition render_footer : script_of unit := emit (EHtml FooterHtml).

(** Lines 370-520. *)
Definition render_css : script_of unit := emit (EHtml DarkCss).

(** Lines 48-253: everything before the handlers.  The result is the
    variables the handlers start from. *)
Definition before_handlers (w : Widgets) : script_of Locals :=
  render_header;;
  uploaded_code <- read_upload w;;
  messy_code <- code_input w uploaded_code;;
  let detected_language := detect_language (uploaded_file w) messy_code in
  render_actions;;
  ret {| messy_code := messy_code;
         detected_language := detected_language;
         optimized := None |}.

(** Lines 256-520: the handlers of the four buttons, the comparison view
    and the end of the page. *)
Definition handlers (w : Widgets) (l : Locals) : script_of unit :=
  revert_warning w;;
  l <- revert w l;;
  clear_all w;;
  update_session reset_clear_flag;;
  update_session init_show_flag;;
  l <- optimize w l;;
  explain w l;;
  _ <- comparison w l;;
  render_footer;;
  render_css.

(** The script, lines 48-520, on a session state that lines 36-45 have
    initialised. *)
Definition script (w : Widgets) : script_of unit :=
  l <- before_handlers w;;
  handlers w l.

(** ** Executions *)

(** How an execution ended. *)
Inductive Outcome : Type :=
| Completed
| Halted (h : HaltReason).

Record RunResult : Type := {
  final : Stored;
  rendered : list Element;
  outcome : Outcome
}.

(** How a program ended. *)
Definition outcome_of {A} (r : step_result RunState HaltReason A) : Outcome :=
  match halted r with
  | None => Completed
  | Some h => Halted h
  end.

(** One execution of the script on the stored session state. *)
Definition run (w : Widgets) (s : Stored) : RunResult :=
  let r := script w {| session := init_session_state s; page := [] |} in
  {| final := store (session (state_of r));
     rendered := page (state_of r);
     outcome := outcome_of r |}.

End with_collaborators.

(** The widgets of the execution that follows [st.rerun()]: no button is
    pressed. *)
Definition without_buttons (w : Widgets) : Widgets := {|
  uploaded_file := uploaded_file w;
  text_area := text_area w;
  optimize_btn := false;
  explain_btn := false;
  revert_btn := false;
  clear_btn := false;
  explain_optimized_btn := false
|}.

(** The callback of the text area, called when the user has changed the
    text. *)
Definition apply_edit (edited : option string) (s : Stored) : Stored :=
  match edited with
  | Some text => on_change text s
  | None => s
  end.

(** What one user action causes.  [edited] is the new content of the
    text area when the user has changed it.  The model may answer
    differently in the second execution, hence the two instances. *)
Definition interact `{Lexer} (c1 c2 : Chains) (w : Widgets)
    (edited : option string) (s : Stored) : RunResult :=
  let r := @run _ c1 w (apply_edit edited s) in
  match outcome r with
  | Halted Rerun => @run _ c2 (without_buttons w) (final r)
  | _ => r
  end.

(** ** Definitions used to state the properties *)

(** The chains return a [str] where the script reads the text. *)
Class TextChains (C : Chains) : Prop := {
  chain_text inputs v :
    chain_invoke inputs = Ok v -> Val.is_str (Val.text_of v) = true;
  explain_chain_text inputs v :
    explain_chain_invoke inputs = Ok v -> Val.is_str (Val.text_of v) = true
}.

(** The chains and the stored states of the examples. *)
Definition answering (answer : string) : Chains := llm_chains (constant_llm answer).
Definition failing : Chains := llm_chains failing_llm.

Definition first_entry : Entry :=
  {| messy := "x=1"; cleaned := VStr "x = 1"; language := Some "python" |}.

Definition second_entry : Entry :=
  {| messy := "y=2"; cleaned := VStr "y = 2  # two"; language := Some "python" |}.

Definition stored_history (h : list Entry) : Stored :=
  store {| history := h; clear_triggered := false; text_input_value := "typed";
           show_explanation_only := Some false |}.

(** The chains of the library return the answer of the model as text. *)
#[export] Instance llm_text_chains llm : TextChains (llm_chains llm).
Proof.
  split; intros inputs v Hv; by apply llm_chain_text_of in Hv as [answer ->].
Qed.

(** [uploaded_code] of line 95 or 97, when the content decodes. *)
Definition uploaded_code_of (w : Widgets) : option string :=
  match uploaded_file w with
  | Some f => decoded f
  | None => Some ""
  end.

(** The value the text area is given at line 111. *)
Definition text_area_value (w : Widgets) (s : SessionState) : string :=
  if clear_triggered s then ""
  else get_initial_code w (default "" (uploaded_code_of w)) s.

(** [messy_code] after line 117. *)
Definition typed_code (w : Widgets) (s : SessionState) : string :=
  text_area w (text_area_value w s).

(** What lines 48-97 put on the page. *)
Definition upload_page : list Element :=
  [EHtml HeaderHtml; EHtml FeaturesHtml; EHtml PasteHeadingHtml; EFileUploader].

(** What lines 106-253 put on the page. *)
Definition actions_page (w : Widgets) (s : SessionState) : list Element :=
  [ETextArea (text_area_value w s);
   EMarkdown (VStr "### ⚡ Actions");
   EButton "🧹 Optimize Code"; EButton "📖 Explain Code";
   EButton "↩️ Revert"; EButton "🗑️ Clear All"].

Ltac prog_simpl :=
  unfold emit, update_session, raise, or_halt, modify, get_state, ret, halt,
    bind, when, lift_result; simpl; rewrite <- ?app_assoc; simpl.

Section equations.
Context `{Lexer} `{Chains}.
Implicit Types (w : Widgets) (l : Locals) (st : RunState).

Definition initial_locals w (s : SessionState) : Locals :=
  {| messy_code := typed_code w s;
     detected_language := detect_language (uploaded_file w) (typed_code w s);
     optimized := None |}.

Lemma before_handlers_Next w st c :
  uploaded_code_of w = Some c ->
  before_handlers w st =
  Next (initial_locals w (session st))
    {| session := session st;
       page := page st ++ upload_page ++ actions_page w (session st) |}.
Proof.
  intros Hc. unfold before_handlers, render_header, read_upload, code_input,
    render_actions, initial_locals, actions_page, typed_code, text_area_value.
  rewrite Hc. unfold uploaded_code_of in Hc.
  destruct (uploaded_file w) as [f|]; simplify_eq/=; [rewrite Hc|]; by prog_simpl.
Qed.

Lemma before_handlers_Halt w st :
  uploaded_code_of w = None ->
  before_handlers w st =
  Halt (Raise UnicodeDecodeError)
    {| session := session st; page := page st ++ upload_page |}.
Proof.
  unfold uploaded_code_of, before_handlers, render_header, read_upload.
  destruct (uploaded_file w) as [f|]; [|done]. intros ->. by prog_simpl.
Qed.


Lemma revert_warning_eq w st :
  revert_warning w st =
  Next tt {| session := session st;
             page := page st ++
               if revert_btn w && (length (history (session st)) <=? 1)%nat
               then [EWarning msg_nothing_to_revert] else [] |}.
Proof.
  unfold revert_warning. prog_simpl. case_match; simpl; [done|].
  rewrite app_nil_r. by destruct st.
Qed.

Lemma revert_skip w l st :
  revert_btn w && (1 <? length (history (session st)))%nat = false ->
  revert w l st = Next l st.
Proof. intros Hc. unfold revert, bind, get_state. cbv beta. by rewrite Hc. Qed.

Lemma revert_pop w l st h prev cur :
  revert_btn w = true -> history (session st) = h ++ [prev; cur] ->
  revert w l st =
  Next {| messy_code := messy prev; detected_language := language prev;
          optimized := Some (cleaned prev) |}
       {| session := set_history (h ++ [prev]) (session st);
          page := page st ++ [ESuccess msg_reverted] |}.
Proof.
  intros Hb Hh. unfold revert, bind, get_state. cbv beta. rewrite Hb, Hh.
  replace (h ++ [prev; cur]) with (PyList.append (h ++ [prev]) cur)
    by (unfold PyList.append; by rewrite <- app_assoc).
  rewrite PyList.pylist_length_append, PyList.pylist_pop_append.
  rewrite (proj2 (Nat.ltb_lt 1 _)) by (rewrite length_app; simpl; lia).
  unfold PyList.last_item. prog_simpl. by rewrite last_snoc.
Qed.

Lemma clear_all_skip w st : clear_btn w = false -> clear_all w st = Next tt st.
Proof. unfold clear_all. by intros ->. Qed.

Lemma clear_all_rerun w st :
  clear_btn w = true ->
  clear_all w st =
  Halt Rerun {| session := clear_session (session st); page := page st |}.
Proof. unfold clear_all. by intros ->. Qed.

Lemma optimize_skip w l st :
  optimize_btn w && truthy (Str.strip (messy_code l)) = false ->
  optimize w l st = Next l st.
Proof. unfold optimize. by intros ->. Qed.

Lemma optimize_ok w l st v :
  optimize_btn w = true -> truthy (Str.strip (messy_code l)) = true ->
  chain_invoke (chain_inputs (messy_code l) (detected_language l)) = Ok v ->
  optimize w l st =
  Next {| messy_code := messy_code l; detected_language := detected_language l;
          optimized := Some (Val.text_of v) |}
       {| session := set_show_explanation_only false
                       (append_entry (new_entry l v) (session st));
          page := page st ++ [ESpinner "🧹 Optimizing your code..."] |}.
Proof. intros Hb Hc Hv. unfold optimize. rewrite Hb, Hc, Hv. by prog_simpl. Qed.

Lemma optimize_err w l st e :
  optimize_btn w = true -> truthy (Str.strip (messy_code l)) = true ->
  chain_invoke (chain_inputs (messy_code l) (detected_language l)) = Err e ->
  optimize w l st =
  Halt (Raise e)
       {| session := session st;
          page := page st ++ [ESpinner "🧹 Optimizing your code..."] |}.
Proof. intros Hb Hc Hv. unfold optimize. rewrite Hb, Hc, Hv. by prog_simpl. Qed.

Lemma explain_skip w l st :
  explain_btn w && truthy (Str.strip (messy_code l)) = false ->
  explain w l st = Next tt st.
Proof. unfold explain. by intros ->. Qed.

(** What lines 303-309 put on the page. *)
Definition explanation_page (v : PyVal) : list Element :=
  [ESpinner "📖 Analyzing your code..."; EHtml ComparisonOpenHtml;
   EMarkdown (VStr "### 📖 Code Explanation"); EMarkdown (Val.text_of v);
   EHtml DivCloseHtml].

Lemma explain_ok w l st v :
  explain_btn w = true -> truthy (Str.strip (messy_code l)) = true ->
  explain_chain_invoke (chain_inputs (messy_code l) (detected_language l)) = Ok v ->
  explain w l st =
  Halt Stop {| session := set_show_explanation_only false (session st);
               page := page st ++ explanation_page v |}.
Proof.
  intros Hb Hc Hv. unfold explain. rewrite Hb, Hc, Hv. by prog_simpl.
Qed.

Lemma explain_err w l st e :
  explain_btn w = true -> truthy (Str.strip (messy_code l)) = true ->
  explain_chain_invoke (chain_inputs (messy_code l) (detected_language l)) = Err e ->
  explain w l st =
  Halt (Raise e)
       {| session := set_show_explanation_only true (session st);
          page := page st ++ [ESpinner "📖 Analyzing your code..."] |}.
Proof. intros Hb Hc Hv. unfold explain. rewrite Hb, Hc, Hv. by prog_simpl. Qed.

End equations.
