(* ===== verification/Invariant.v ===== *)
(** * Invariant: properties of the history that every block keeps

    A property of the entries of the history that holds of every entry
    the optimize handler can append is kept by every block of the script,
    hence by the script, however the execution ends: revert only removes
    an entry, clear removes them all, and nothing else writes the
    history.  The proof walks the blocks ([maintains_tac]); it does not
    go through the controller. *)

From Stdlib Require Import Ascii String List ZArith Lia.
From stdpp Require Import base tactics option list strings.
From S2P Require Import Prelude PyString PyData Language Prompt Session Script.

#[local] Open Scope prog_scope.

(** ** Definitions used to state the properties *)

(** A property of the session state, as a property of the state of the
    execution. *)
Definition on_session (J : SessionState -> Prop) (st : RunState) : Prop :=
  J (session st).

(** Every entry of the history has the property [P]. *)
Definition history_all (P : Entry -> Prop) (s : SessionState) : Prop :=
  Forall P (history s).

(** An entry the handler of optimize can append. *)
Definition appended `{Chains} (e : Entry) : Prop :=
  exists l v,
    truthy (Str.strip (messy_code l)) = true /\
    chain_invoke (chain_inputs (messy_code l) (detected_language l)) = Ok v /\
    e = new_entry l v.

(** ** The blocks keep the property *)

Section history_invariant.
Context `{Lexer} `{Chains} (P : Entry -> Prop).
Hypothesis P_appended : forall e, appended e -> P e.
Implicit Types (w : Widgets) (l : Locals).

Lemma Forall_pop (h : list Entry) x h' :
  Forall P h -> PyList.pop h = Some (x, h') -> Forall P h'.
Proof.
  intros Hs Hp%PyList.pylist_pop_Some. rewrite Hp in Hs.
  unfold PyList.append in Hs. by apply Forall_app in Hs as [? _].
Qed.

Lemma Forall_append (h : list Entry) l v (b : bool) :
  Forall P h -> b && truthy (Str.strip (messy_code l)) = true ->
  chain_invoke (chain_inputs (messy_code l) (detected_language l)) = Ok v ->
  Forall P (PyList.append h (new_entry l v)).
Proof.
  intros Hs [_ Hc]%andb_true_iff Hv. apply Forall_app. split; [done|].
  apply Forall_singleton, P_appended. by exists l, v.
Qed.

(** The assignments of the script to the session state keep the
    property; the output calls do not touch the session state. *)
Ltac history_tac :=
  unfold on_session, history_all, clear_session, reset_clear_flag, init_show_flag in *;
  intros; repeat case_match;
  repeat match goal with p : _ * _ |- _ => destruct p end;
  cbn [session history set_history set_clear_triggered set_text_input_value
       set_show_explanation_only append_entry fst snd] in *;
  first [ done | by constructor | by eauto using Forall_pop, Forall_append ].

(** Every block of the script, and so the script, keeps the property. *)
Lemma script_history_all w : maintains (on_session (history_all P)) (script w).
Proof. maintains_tac history_tac. Qed.

(** One execution keeps the property. *)
Lemma run_history_all w (s0 : Stored) :
  history_all P (init_session_state s0) ->
  history_all P (init_session_state (final (run w s0))).
Proof.
  intros Hs. unfold run. cbn [final]. rewrite init_store.
  by apply (script_history_all w {| session := init_session_state s0; page := [] |}).
Qed.

End history_invariant.

Section appended_lemmas.
Context `{Chains}.

Lemma appended_nonblank e : appended e -> truthy (Str.strip (messy e)) = true.
Proof. by intros (l & v & Hc & _ & ->). Qed.

Lemma appended_ok `{!TextChains _} e : appended e -> entry_ok e = true.
Proof. intros (l & v & _ & Hv & ->). by apply chain_text in Hv. Qed.

End appended_lemmas.
