(* ===== verification/Controller.v ===== *)
(** * Controller: the session controller the script implements

    The specification describes a session controller with four
    operations (optimize, explain, revert, clear) over the history.  Here
    the operations are functions on the session state ([revert_step],
    [optimize_step], [explain_step], [clear_session]) and [step] composes
    them the way one execution of the script does: it gives the session
    state the execution leaves and the way the execution ends.
    [page_step] gives what the execution puts on the page.  The
    refinement theorem [run_refines_step] shows that [run] does what
    [step] and [page_step] say; the properties of one execution are then
    proved on them and stated of [run] (Run, Page, Sessions). *)

From Stdlib Require Import Ascii String List ZArith Lia.
From stdpp Require Import base tactics option list strings.
From S2P Require Import Prelude PyString PyData Language Prompt Session Script.

#[local] Open Scope prog_scope.

(** ** The controller *)

(** The variables a reverted entry gives the rest of the execution. *)
Definition locals_of_entry (prev : Entry) : Locals :=
  {| messy_code := messy prev; detected_language := language prev;
     optimized := Some (cleaned prev) |}.

(** Lines 280-285: what every execution that is not cleared does to the
    two flags before the handlers of optimize and explain. *)
Definition ready (s : SessionState) : SessionState :=
  init_show_flag (reset_clear_flag s).

(** The condition of lines 314-319 on a last entry whose cleaned code is
    the [str] [text]. *)
Definition comparison_shown (text : string) (last : Entry) (s : SessionState) : bool :=
  truthy (Str.strip text) && truthy (Str.strip (messy last))
  && negb (get_show_explanation_only s).

(** What lines 320-351 put on the page for the entry [last]. *)
Definition comparison_view (last : Entry) : list Element :=
  [EHtml ComparisonOpenHtml;
   EMarkdown (VStr "### 📊 Code Comparison");
   EMarkdown (VStr "**📝 Original Code**");
   ECode (VStr (messy last)) (language last);
   EMarkdown (VStr "**✨ Optimized & Commented Code**");
   ECode (cleaned last) (language last);
   EButton "📖 Explain Optimized Code";
   EMarkdown (VStr "### 💾 Download");
   EDownloadButton (cleaned last) (download_name (language last)) "text/plain";
   EInfo "💡 Your optimized code is ready for download!";
   EHtml DivCloseHtml].

(** What lines 362-520 put on the page of an execution that gets there. *)
Definition end_page (o : Outcome) : list Element :=
  match o with
  | Completed => [EHtml FooterHtml; EHtml DarkCss]
  | Halted _ => []
  end.

(** The end of a program with the outcome [o] in the state [st]. *)
Definition finish (o : Outcome) (st : RunState) : step_result RunState HaltReason unit :=
  match o with
  | Completed => Next tt st
  | Halted h => Halt h st
  end.

(** The state [st] with the session state [s] and [es] added to the page. *)
Definition put (s : SessionState) (es : list Element) (st : RunState) : RunState :=
  {| session := s; page := page st ++ es |}.

Section controller.
Context `{Lexer} `{Chains}.
Implicit Types (w : Widgets) (l : Locals) (s : SessionState) (st : RunState).

(** Revert: with more than one entry, the last one is dropped and the
    one before it becomes the current one. *)
Definition revert_step w l s : SessionState * Locals :=
  if revert_btn w && (1 <? length (history s))%nat then
    (set_history (removelast (history s)) s,
     from_option locals_of_entry l (last (removelast (history s))))
  else (s, l).

(** Lines 256-266 on the page: the warning or the message of success. *)
Definition revert_page w s : list Element :=
  (if revert_btn w && (length (history s) <=? 1)%nat
   then [EWarning msg_nothing_to_revert] else []) ++
  (if revert_btn w && (1 <? length (history s))%nat
   then [ESuccess msg_reverted] else []).

(** Optimize: the answer of the chain is appended to the history. *)
Definition optimize_step w l s : result Exn (SessionState * Locals) :=
  if optimize_btn w && truthy (Str.strip (messy_code l)) then
    match chain_invoke (chain_inputs (messy_code l) (detected_language l)) with
    | Ok v =>
        Ok (set_show_explanation_only false (append_entry (new_entry l v) s),
            {| messy_code := messy_code l;
               detected_language := detected_language l;
               optimized := Some (Val.text_of v) |})
    | Err e => Err e
    end
  else Ok (s, l).

(** Line 289 on the page. *)
Definition optimize_page w l : list Element :=
  if optimize_btn w && truthy (Str.strip (messy_code l))
  then [ESpinner "🧹 Optimizing your code..."] else [].

(** Lines 354-359: the explanation of the optimized code ends the
    execution when the chain raises. *)
Definition explain_optimized_outcome w text lang : Outcome :=
  if explain_optimized_btn w then
    match explain_chain_invoke (chain_inputs text lang) with
    | Ok _ => Completed
    | Err x => Halted (Raise x)
    end
  else Completed.

Definition explain_optimized_page w text lang : list Element :=
  if explain_optimized_btn w then
    ESpinner "📖 Analyzing your optimized code..." ::
    match explain_chain_invoke (chain_inputs text lang) with
    | Ok v => [EMarkdown (VStr "### 📖 Optimized Code Explanation");
               EMarkdown (Val.text_of v)]
    | Err _ => []
    end
  else [].

(** How the comparison view ends: with [AttributeError] when the cleaned
    code of the last entry is not a [str], with the exception of the
    chain when the explanation of the optimized code fails. *)
Definition comparison_outcome w s : Outcome :=
  match last (history s) with
  | None => Completed
  | Some e =>
      match cleaned e with
      | VStr text =>
          if comparison_shown text e s
          then explain_optimized_outcome w text (language e)
          else Completed
      | VNone | VDict _ => Halted (Raise (AttributeError "strip"))
      end
  end.

(** Lines 314-359 on the page. *)
Definition comparison_page w s : list Element :=
  match last (history s) with
  | None => []
  | Some e =>
      match cleaned e with
      | VStr text =>
          if comparison_shown text e s
          then comparison_view e ++ explain_optimized_page w text (language e)
          else []
      | VNone | VDict _ => []
      end
  end.

(** Explain: the history is not touched and the execution stops; the
    flag is lowered again when the chain answers and stays raised when it
    fails.  [otherwise] is how the execution ends when the handler does
    not run. *)
Definition explain_step w l s (otherwise : Outcome) : SessionState * Outcome :=
  if explain_btn w && truthy (Str.strip (messy_code l)) then
    match explain_chain_invoke (chain_inputs (messy_code l) (detected_language l)) with
    | Ok _ => (set_show_explanation_only false s, Halted Stop)
    | Err e => (set_show_explanation_only true s, Halted (Raise e))
    end
  else (s, otherwise).

(** Lines 301-311 on the page; [otherwise] is what the rest of the
    script puts there when the handler does not run. *)
Definition explain_page w l (otherwise : list Element) : list Element :=
  if explain_btn w && truthy (Str.strip (messy_code l)) then
    match explain_chain_invoke (chain_inputs (messy_code l) (detected_language l)) with
    | Ok v => explanation_page v
    | Err _ => [ESpinner "📖 Analyzing your code..."]
    end
  else otherwise.

(** One execution: the session state it leaves and the way it ends, as a
    function of the widgets and of the session state it starts from. *)
Definition step w s : SessionState * Outcome :=
  match uploaded_code_of w with
  | None => (s, Halted (Raise UnicodeDecodeError))
  | Some _ =>
      let '(s1, l1) := revert_step w (initial_locals w s) s in
      if clear_btn w then (clear_session s1, Halted Rerun)
      else
        match optimize_step w l1 (ready s1) with
        | Ok (s2, l2) => explain_step w l2 s2 (comparison_outcome w s2)
        | Err e => (ready s1, Halted (Raise e))
        end
  end.

(** The execution gets as far as the condition of lines 314-319: the
    upload decodes, clear all (line 277) does not start the script again,
    the chain of optimize does not raise and the handler of explain, which
    ends in [st.stop()] or in the exception of its chain, does not run. *)
Definition reaches_comparison w s : bool :=
  match uploaded_code_of w with
  | None => false
  | Some _ =>
      let '(s1, l1) := revert_step w (initial_locals w s) s in
      negb (clear_btn w) &&
      match optimize_step w l1 (ready s1) with
      | Ok (_, l2) => negb (explain_btn w && truthy (Str.strip (messy_code l2)))
      | Err _ => false
      end
  end.

(** One execution: what it puts on the page. *)
Definition page_step w s : list Element :=
  upload_page ++
  match uploaded_code_of w with
  | None => []
  | Some _ =>
      actions_page w s ++ revert_page w s ++
      let '(s1, l1) := revert_step w (initial_locals w s) s in
      if clear_btn w then []
      else
        optimize_page w l1 ++
        match optimize_step w l1 (ready s1) with
        | Ok (s2, l2) =>
            explain_page w l2
              (comparison_page w s2 ++ end_page (comparison_outcome w s2))
        | Err _ => []
        end
  end.

(** ** The script implements the controller *)

Lemma put_put s es s' es' st : put s' es' (put s es st) = put s' (es ++ es') st.
Proof. unfold put. simpl. by rewrite app_assoc. Qed.

Lemma put_nil st : put (session st) [] st = st.
Proof. unfold put. rewrite app_nil_r. by destruct st. Qed.

Lemma revert_eq w l st :
  (revert_warning w;; revert w l) st =
  Next (revert_step w l (session st)).2
       (put (revert_step w l (session st)).1 (revert_page w (session st)) st).
Proof.
  rewrite (bind_Next _ _ _ _ _ (revert_warning_eq w st)).
  unfold revert_step, revert_page, put.
  destruct (revert_btn w) eqn:Hb; [|rewrite revert_skip by (by rewrite Hb); simpl;
    by rewrite !app_nil_r].
  destruct (1 <? length (history (session st)))%nat eqn:Hlen.
  - rewrite (proj2 (Nat.leb_gt _ _)) by by apply Nat.ltb_lt.
    apply Nat.ltb_lt in Hlen.
    destruct (history (session st)) as [|e0 h _] eqn:Hh using rev_ind; [simpl in *; lia|].
    destruct h as [|prev h _] using rev_ind;
      [rewrite length_app in Hlen; simpl in *; lia|].
    rewrite <- app_assoc in Hh. simpl in Hh.
    rewrite (revert_pop w l _ h prev e0 Hb) by done. simpl.
    by rewrite removelast_last, last_snoc, !app_nil_r.
  - rewrite revert_skip by (by rewrite Hb; simpl). simpl.
    rewrite (proj2 (Nat.leb_le _ _)) by (apply Nat.ltb_ge in Hlen; lia).
    by rewrite !app_nil_r.
Qed.

Lemma optimize_eq w l st :
  optimize w l st =
  match optimize_step w l (session st) with
  | Ok (s', l') => Next l' (put s' (optimize_page w l) st)
  | Err e => Halt (Raise e) (put (session st) (optimize_page w l) st)
  end.
Proof.
  unfold optimize_step, optimize_page.
  destruct (optimize_btn w && truthy (Str.strip (messy_code l))) eqn:Hc.
  - apply andb_true_iff in Hc as [Hb Hc].
    destruct (chain_invoke _) as [v|e] eqn:Hv.
    + by rewrite (optimize_ok _ _ _ _ Hb Hc Hv).
    + by rewrite (optimize_err _ _ _ _ Hb Hc Hv).
  - rewrite optimize_skip by done. by rewrite put_nil.
Qed.

Lemma explain_optimized_eq w text lang st :
  explain_optimized w text lang st =
  finish (explain_optimized_outcome w text lang)
    (put (session st) (explain_optimized_page w text lang) st).
Proof.
  unfold explain_optimized, explain_optimized_outcome, explain_optimized_page.
  destruct (explain_optimized_btn w); [|by rewrite put_nil].
  unfold put. destruct (explain_chain_invoke _); by prog_simpl.
Qed.

Lemma render_comparison_eq e st :
  render_comparison e st = Next tt (put (session st) (comparison_view e) st).
Proof. unfold render_comparison, put. by prog_simpl. Qed.

Lemma tail_eq w l st :
  (_ <- comparison w l;; render_footer;; render_css) st =
  finish (comparison_outcome w (session st))
    (put (session st)
       (comparison_page w (session st) ++ end_page (comparison_outcome w (session st)))
       st).
Proof.
  unfold render_footer, render_css.
  unfold comparison, comparison_outcome, comparison_page, bind at 1 2, get_state.
  unfold PyList.last_item. destruct (last (history (session st))) as [e|];
    [|unfold put; by prog_simpl].
  destruct (cleaned e) as [text| |d] eqn:Hc;
    try (unfold put, raise, halt; simpl; by rewrite app_nil_r; destruct st).
  fold (comparison_shown text e (session st)).
  destruct (comparison_shown text e (session st)); [|unfold put; by prog_simpl].
  rewrite (bind_Next _ _ _ _ _ (render_comparison_eq e st)).
  unfold bind at 1 2. rewrite explain_optimized_eq, put_put.
  destruct (explain_optimized_outcome _ _ _); unfold put; prog_simpl; [done|].
  by rewrite app_nil_r.
Qed.

Lemma explain_eq w l st :
  (explain w l;; _ <- comparison w l;; render_footer;; render_css) st =
  finish (explain_step w l (session st) (comparison_outcome w (session st))).2
    (put (explain_step w l (session st) (comparison_outcome w (session st))).1
       (explain_page w l
          (comparison_page w (session st) ++
           end_page (comparison_outcome w (session st)))) st).
Proof.
  unfold explain_step, explain_page.
  destruct (explain_btn w && truthy (Str.strip (messy_code l))) eqn:Hc.
  - apply andb_true_iff in Hc as [Hb Hc].
    destruct (explain_chain_invoke _) as [v|e] eqn:Hv.
    + by rewrite (bind_Halt _ _ _ _ _ (explain_ok _ _ _ _ Hb Hc Hv)).
    + by rewrite (bind_Halt _ _ _ _ _ (explain_err _ _ _ _ Hb Hc Hv)).
  - rewrite (bind_Next _ _ _ _ _ (explain_skip _ _ _ Hc)). apply tail_eq.
Qed.

(** The script, as a function of the session state: what it leaves, what
    it adds to the page and how it ends. *)
Lemma script_eq w st :
  script w st =
  finish (step w (session st)).2
    (put (step w (session st)).1 (page_step w (session st)) st).
Proof.
  unfold script, step, page_step.
  destruct (uploaded_code_of w) as [c|] eqn:Hu;
    [|rewrite (bind_Halt _ _ _ _ _ (before_handlers_Halt _ _ Hu)); by rewrite app_nil_r].
  rewrite (bind_Next _ _ _ _ _ (before_handlers_Next _ _ _ Hu)).
  unfold handlers. rewrite <- bind_assoc, (bind_Next _ _ _ _ _ (revert_eq _ _ _)).
  cbn [session]. destruct (revert_step _ _ _) as [s1 l1]. cbn [fst snd].
  destruct (clear_btn w) eqn:Hclear.
  - rewrite (bind_Halt _ _ _ _ _ (clear_all_rerun _ _ Hclear)).
    unfold put. simpl. by rewrite !app_nil_r, <- !app_assoc.
  - rewrite (bind_Next _ _ _ _ _ (clear_all_skip _ _ Hclear)).
    unfold bind at 1, update_session at 1, modify.
    unfold bind at 1, update_session at 1, modify. cbn [session page put].
    fold (ready s1). unfold bind at 1. rewrite optimize_eq. cbn [session].
    destruct (optimize_step _ _ _) as [[s2 l2]|e].
    + rewrite explain_eq. unfold put. simpl. by rewrite <- !app_assoc.
    + unfold put. simpl. by rewrite app_nil_r, <- !app_assoc.
Qed.

Lemma run_final w (s0 : Stored) :
  final (run w s0) = store (step w (init_session_state s0)).1.
Proof. unfold run. rewrite script_eq. cbn [session]. by destruct (step _ _).2. Qed.

Lemma run_session w (s0 : Stored) :
  init_session_state (final (run w s0)) = (step w (init_session_state s0)).1.
Proof. by rewrite run_final, init_store. Qed.

Lemma run_outcome w (s0 : Stored) :
  outcome (run w s0) = (step w (init_session_state s0)).2.
Proof. unfold run. rewrite script_eq. cbn [session]. by destruct (step _ _).2. Qed.

Lemma run_rendered w (s0 : Stored) :
  rendered (run w s0) = page_step w (init_session_state s0).
Proof. unfold run. rewrite script_eq. cbn [session]. by destruct (step _ _).2. Qed.

(** C1: one execution on the stored session state is one step of the
    controller: the session state it leaves, the page it renders and the
    way it ends are those [step] and [page_step] compute. *)
Theorem run_refines_step w (s0 : Stored) :
  run w s0 =
  {| final := store (step w (init_session_state s0)).1;
     rendered := page_step w (init_session_state s0);
     outcome := (step w (init_session_state s0)).2 |}.
Proof.
  rewrite <- run_final, <- run_rendered, <- run_outcome. by destruct (run w s0).
Qed.

(** ** The operations of the controller *)

Lemma store_ready s : store (ready s) = settled s.
Proof. apply store_settled. Qed.

Lemma ready_history s : history (ready s) = history s.
Proof. unfold ready, init_show_flag. rewrite <- (reset_clear_flag_history s). by case_match. Qed.

Lemma ready_cleared s : clear_triggered (ready s) = false.
Proof.
  unfold ready, init_show_flag. rewrite <- (reset_clear_flag_cleared s). by case_match.
Qed.

Lemma ready_text s : text_input_value (ready s) = text_input_value s.
Proof.
  unfold ready, init_show_flag, reset_clear_flag.
  by destruct (clear_triggered s), (show_explanation_only s) eqn:E; simpl; rewrite ?E.
Qed.

Lemma ready_show s : get_show_explanation_only (ready s) = get_show_explanation_only s.
Proof.
  unfold ready. rewrite init_show_flag_get. unfold reset_clear_flag. by case_match.
Qed.

Lemma comparison_shown_ready text x s :
  comparison_shown text x (ready s) = comparison_shown text x s.
Proof. unfold comparison_shown. by rewrite ready_show. Qed.

Lemma comparison_shown_set_history text x h s :
  comparison_shown text x (set_history h s) = comparison_shown text x s.
Proof. done. Qed.

Lemma revert_step_history w l s :
  history (revert_step w l s).1 =
  if revert_btn w && (1 <? length (history s))%nat
  then removelast (history s) else history s.
Proof. unfold revert_step. by case_match. Qed.

Lemma revert_step_text w l s :
  text_input_value (revert_step w l s).1 = text_input_value s.
Proof. unfold revert_step. by case_match. Qed.

Lemma optimize_step_cases w l s :
  match optimize_step w l s with
  | Ok (s', l') =>
      (s' = s /\ l' = l /\
       optimize_btn w && truthy (Str.strip (messy_code l)) = false) \/
      (exists v,
         optimize_btn w = true /\ truthy (Str.strip (messy_code l)) = true /\
         chain_invoke (chain_inputs (messy_code l) (detected_language l)) = Ok v /\
         s' = set_show_explanation_only false (append_entry (new_entry l v) s) /\
         messy_code l' = messy_code l)
  | Err e =>
      optimize_btn w = true /\ truthy (Str.strip (messy_code l)) = true /\
      chain_invoke (chain_inputs (messy_code l) (detected_language l)) = Err e
  end.
Proof.
  unfold optimize_step.
  destruct (optimize_btn w && truthy (Str.strip (messy_code l))) eqn:Hc; [|by left].
  apply andb_true_iff in Hc as [Hb Hc].
  destruct (chain_invoke _) as [v|e] eqn:Hv; [right; by exists v|done].
Qed.

Lemma explain_step_history w l s o : history (explain_step w l s o).1 = history s.
Proof. unfold explain_step. by repeat case_match. Qed.

Lemma explain_step_text w l s o :
  text_input_value (explain_step w l s o).1 = text_input_value s.
Proof. unfold explain_step. by repeat case_match. Qed.

(** An execution that reaches the condition of the comparison view ends
    the way the view does, on the session state it leaves. *)
Lemma step_reaches w s :
  reaches_comparison w s = true -> (step w s).2 = comparison_outcome w (step w s).1.
Proof.
  unfold reaches_comparison, step, explain_step. destruct (uploaded_code_of w); [|done].
  destruct (revert_step _ _ _) as [s1 l1]. destruct (clear_btn w); [done|].
  destruct (optimize_step _ _ _) as [[s2 l2]|e]; [|done].
  by destruct (explain_btn w && truthy _).
Qed.

End controller.
