(* ===== verification/Run.v ===== *)
(** * Run: what one execution does for each action of the user

    The theorems of this file are stated of [run], one execution of the
    script, and proved on [step], the controller the script implements
    (Controller).  They give the session state an execution leaves and
    the way it ends for each button, on the branch where the handler
    does its work and on every branch where it does not, and the
    properties of the history that hold whatever is pressed. *)

From Stdlib Require Import Ascii String List ZArith Lia.
From stdpp Require Import base tactics option list strings.
From S2P Require Import Prelude PyString PyData Language Prompt Session.
From S2P Require Import Script Invariant Controller.

(** Unfolds one step of the controller for the action named by [Hp]. *)
Ltac step_tac Hp Hu :=
  unfold step, revert_step, optimize_step, explain_step;
  destruct Hp as (-> & -> & -> & -> & ?); rewrite Hu;
  repeat first [rewrite bool_decide_eq_true_2 by done
               |rewrite bool_decide_eq_false_2 by done];
  cbn [andb].

Section step_by_action.
Context `{Lexer} `{Chains}.
Implicit Types (w : Widgets) (s : SessionState) (c : string).

Lemma step_decode_error w s :
  uploaded_code_of w = None -> step w s = (s, Halted (Raise UnicodeDecodeError)).
Proof. unfold step. by intros ->. Qed.

Lemma step_clear w s c :
  uploaded_code_of w = Some c -> clear_btn w = true ->
  step w s = (clear_session s, Halted Rerun).
Proof.
  intros Hu Hc. unfold step, revert_step. rewrite Hu, Hc.
  by destruct (revert_btn w && _).
Qed.

Lemma step_idle w s c :
  pressed Idle w -> uploaded_code_of w = Some c ->
  step w s = (ready s, comparison_outcome w (ready s)).
Proof. intros Hp Hu. by step_tac Hp Hu. Qed.

Lemma step_explain_optimized w s c :
  pressed PressExplainOptimized w -> uploaded_code_of w = Some c ->
  step w s = (ready s, comparison_outcome w (ready s)).
Proof. intros Hp Hu. by step_tac Hp Hu. Qed.

Lemma step_revert w s c :
  pressed PressRevert w -> uploaded_code_of w = Some c ->
  step w s =
  let s' := if (1 <? length (history s))%nat
            then set_history (removelast (history s)) s else s in
  (ready s', comparison_outcome w (ready s')).
Proof. intros Hp Hu. step_tac Hp Hu. cbv zeta. by destruct (1 <? _)%nat. Qed.

Lemma step_optimize w s c :
  pressed PressOptimize w -> uploaded_code_of w = Some c ->
  step w s =
  let l := initial_locals w s in
  if truthy (Str.strip (messy_code l)) then
    match chain_invoke (chain_inputs (messy_code l) (detected_language l)) with
    | Ok v =>
        let s' := set_show_explanation_only false
                    (append_entry (new_entry l v) (ready s)) in
        (s', comparison_outcome w s')
    | Err e => (ready s, Halted (Raise e))
    end
  else (ready s, comparison_outcome w (ready s)).
Proof.
  intros Hp Hu. step_tac Hp Hu. cbv zeta.
  destruct (truthy _); [destruct (chain_invoke _)|]; done.
Qed.

Lemma step_explain w s c :
  pressed PressExplain w -> uploaded_code_of w = Some c ->
  step w s =
  let l := initial_locals w s in
  if truthy (Str.strip (messy_code l)) then
    match explain_chain_invoke (chain_inputs (messy_code l) (detected_language l)) with
    | Ok _ => (set_show_explanation_only false (ready s), Halted Stop)
    | Err e => (set_show_explanation_only true (ready s), Halted (Raise e))
    end
  else (ready s, comparison_outcome w (ready s)).
Proof. intros Hp Hu. by step_tac Hp Hu. Qed.

End step_by_action.

(** ** The history after one step, whatever is pressed *)

Section step_history.
Context `{Lexer} `{Chains}.
Implicit Types (w : Widgets) (s : SessionState) (c : string).

(** Without clear, a step drops the last entry or not, and then appends
    an entry or not. *)
Lemma step_history w s c :
  uploaded_code_of w = Some c -> clear_btn w = false ->
  exists es,
    history (step w s).1 =
      (if revert_btn w && (1 <? length (history s))%nat
       then removelast (history s) else history s) ++ es /\
    (es = [] \/ optimize_btn w = true /\ exists e, appended e /\ es = [e]).
Proof.
  intros Hu Hc. unfold step. rewrite Hu, Hc, <- (revert_step_history w (initial_locals w s)).
  destruct (revert_step _ _ _) as [s1 l1]. cbn [fst].
  pose proof (optimize_step_cases w l1 (ready s1)) as Ho.
  destruct (optimize_step _ _ _) as [[s2 l2]|e]; cbn [fst];
    [|exists []; rewrite app_nil_r, ready_history; auto].
  rewrite explain_step_history.
  destruct Ho as [(-> & _)|(v & Hb & Hc' & Hv & -> & _)].
  - exists []. rewrite app_nil_r, ready_history. auto.
  - exists [new_entry l1 v]. simpl. rewrite ready_history. unfold PyList.append.
    split; [done|]. right. split; [done|]. eexists. split; [|done]. by exists l1, v.
Qed.

Lemma step_history_clear_or_decode w s :
  uploaded_code_of w = None \/ clear_btn w = true ->
  history (step w s).1 = history s \/ history (step w s).1 = [].
Proof.
  destruct (uploaded_code_of w) as [c|] eqn:Hu.
  - intros [|Hc]; [done|]. right. by rewrite (step_clear _ _ _ Hu Hc).
  - intros _. left. by rewrite step_decode_error.
Qed.

(** The script writes [text_input_value] in the handler of clear only. *)
Lemma step_text w s :
  text_input_value (step w s).1 =
  if bool_decide (is_Some (uploaded_code_of w)) && clear_btn w then ""
  else text_input_value s.
Proof.
  unfold step. destruct (uploaded_code_of w) as [c|]; [|done].
  rewrite bool_decide_eq_true_2 by eauto. cbn [andb].
  pose proof (revert_step_text w (initial_locals w s) s) as Hr.
  destruct (revert_step _ _ _) as [s1 l1]. cbn [fst] in Hr.
  destruct (clear_btn w); [done|].
  pose proof (optimize_step_cases w l1 (ready s1)) as Ho.
  destruct (optimize_step _ _ _) as [[s2 l2]|e]; cbn [fst]; [|by rewrite ready_text].
  rewrite explain_step_text.
  destruct Ho as [(-> & _)|(v & _ & _ & _ & -> & _)]; simpl; by rewrite ready_text.
Qed.

(** The clear flag is up after a step exactly when the step cleared. *)
Lemma step_clear_flag w s :
  clear_triggered (step w s).1 =
  match uploaded_code_of w with
  | Some _ => clear_btn w
  | None => clear_triggered s
  end.
Proof.
  unfold step. destruct (uploaded_code_of w) as [c|]; [|done].
  destruct (revert_step _ _ _) as [s1 l1]. destruct (clear_btn w); [done|].
  pose proof (optimize_step_cases w l1 (ready s1)) as Ho.
  destruct (optimize_step _ _ _) as [[s2 l2]|e]; cbn [fst]; [|by rewrite ready_cleared].
  unfold explain_step.
  destruct Ho as [(-> & _)|(v & _ & _ & _ & -> & _)];
    repeat case_match; simpl; by rewrite ready_cleared.
Qed.

End step_history.

(** ** One execution, by action *)

Section run_by_action.
Context `{Lexer} `{Chains}.
Implicit Types (w : Widgets) (c : string).

(** C3: pressing revert on a history of two entries or more drops the last
    entry and nothing else; the entry before it becomes the last one. *)
Theorem run_revert_pops w (s0 : Stored) c h prev cur :
  pressed PressRevert w -> uploaded_code_of w = Some c ->
  history (init_session_state s0) = h ++ [prev; cur] ->
  final (run w s0) = settled (set_history (h ++ [prev]) (init_session_state s0)).
Proof.
  intros Hp Hu Hh. rewrite <- store_ready, run_final, (step_revert _ _ _ Hp Hu), Hh.
  rewrite (proj2 (Nat.ltb_lt 1 _)) by (rewrite length_app; simpl; lia).
  change (h ++ [prev; cur]) with (h ++ [prev] ++ [cur]).
  by rewrite app_assoc, removelast_last.
Qed.

(** C4: pressing clear empties the history, empties the stored text, raises
    the clear flag and asks for a rerun, whatever else is pressed. *)
Theorem run_clear w (s0 : Stored) c :
  uploaded_code_of w = Some c -> clear_btn w = true ->
  final (run w s0) =
    {| st_history := Some [];
       st_clear_triggered := Some true;
       st_text_input_value := Some "";
       st_show_explanation_only := st_show_explanation_only s0 |} /\
  outcome (run w s0) = Halted Rerun.
Proof.
  intros Hu Hc. by rewrite run_final, run_outcome, (step_clear _ _ _ Hu Hc).
Qed.

(** C2: pressing optimize on code that is not blank, when the chain
    answers, appends one entry to the history (the code of the text area,
    the text read from the answer, the detected language) and lowers the
    explanation flag. *)
Theorem run_optimize_ok w (s0 : Stored) c v :
  pressed PressOptimize w -> uploaded_code_of w = Some c ->
  truthy (Str.strip (typed_code w (init_session_state s0))) = true ->
  chain_invoke
    (chain_inputs (typed_code w (init_session_state s0))
       (detect_language (uploaded_file w) (typed_code w (init_session_state s0))))
    = Ok v ->
  st_history (final (run w s0)) =
    Some (history (init_session_state s0) ++
          [{| messy := typed_code w (init_session_state s0);
              cleaned := Val.text_of v;
              language := detect_language (uploaded_file w)
                            (typed_code w (init_session_state s0)) |}]) /\
  st_show_explanation_only (final (run w s0)) = Some false.
Proof.
  intros Hp Hu Hc Hv. rewrite run_final, (step_optimize _ _ _ Hp Hu). cbv zeta.
  cbn [initial_locals messy_code detected_language]. rewrite Hc, Hv.
  cbn [fst store st_history st_show_explanation_only]. split; [|done].
  cbn [set_show_explanation_only history]. by rewrite append_entry_history, ready_history.
Qed.

(** C25: when the chain raises during optimize, the execution ends with that
    exception and the history is the one from before. *)
Theorem run_optimize_err w (s0 : Stored) c e :
  pressed PressOptimize w -> uploaded_code_of w = Some c ->
  truthy (Str.strip (typed_code w (init_session_state s0))) = true ->
  chain_invoke
    (chain_inputs (typed_code w (init_session_state s0))
       (detect_language (uploaded_file w) (typed_code w (init_session_state s0))))
    = Err e ->
  final (run w s0) = settled (init_session_state s0) /\
  outcome (run w s0) = Halted (Raise e).
Proof.
  intros Hp Hu Hc Hv.
  rewrite <- store_ready, run_final, run_outcome, (step_optimize _ _ _ Hp Hu).
  cbv zeta. cbn [initial_locals messy_code detected_language]. by rewrite Hc, Hv.
Qed.

(** C13: pressing optimize on blank code does nothing: the chain is not
    called and the session state is the one an execution without a button
    leaves. *)
Theorem run_optimize_blank w (s0 : Stored) c :
  pressed PressOptimize w -> uploaded_code_of w = Some c ->
  truthy (Str.strip (typed_code w (init_session_state s0))) = false ->
  final (run w s0) = settled (init_session_state s0).
Proof.
  intros Hp Hu Hc. rewrite <- store_ready, run_final, (step_optimize _ _ _ Hp Hu).
  cbv zeta. cbn [initial_locals messy_code]. by rewrite Hc.
Qed.

(** C12: pressing explain, when the chain answers, stops the execution with
    the history untouched and the explanation flag lowered again. *)
Theorem run_explain_ok w (s0 : Stored) c v :
  pressed PressExplain w -> uploaded_code_of w = Some c ->
  truthy (Str.strip (typed_code w (init_session_state s0))) = true ->
  explain_chain_invoke
    (chain_inputs (typed_code w (init_session_state s0))
       (detect_language (uploaded_file w) (typed_code w (init_session_state s0))))
    = Ok v ->
  final (run w s0) =
    settled (set_show_explanation_only false (init_session_state s0)) /\
  outcome (run w s0) = Halted Stop.
Proof.
  intros Hp Hu Hc Hv. rewrite run_final, run_outcome, (step_explain _ _ _ Hp Hu).
  cbv zeta. cbn [initial_locals messy_code detected_language]. rewrite Hc, Hv.
  split; [|done]. cbn [fst]. rewrite <- store_ready.
  unfold ready, init_show_flag, reset_clear_flag.
  by destruct (init_session_state s0) as [h [] t []].
Qed.

(** C10: when the chain raises during explain, the explanation flag stays
    raised in the stored session state: the line that lowers it is not
    reached. *)
Theorem run_explain_err w (s0 : Stored) c e :
  pressed PressExplain w -> uploaded_code_of w = Some c ->
  truthy (Str.strip (typed_code w (init_session_state s0))) = true ->
  explain_chain_invoke
    (chain_inputs (typed_code w (init_session_state s0))
       (detect_language (uploaded_file w) (typed_code w (init_session_state s0))))
    = Err e ->
  st_show_explanation_only (final (run w s0)) = Some true /\
  outcome (run w s0) = Halted (Raise e).
Proof.
  intros Hp Hu Hc Hv. rewrite run_final, run_outcome, (step_explain _ _ _ Hp Hu).
  cbv zeta. cbn [initial_locals messy_code detected_language]. by rewrite Hc, Hv.
Qed.

(** An uploaded file that is not UTF-8 ends the execution with
    [UnicodeDecodeError] before any handler runs; the session state is the
    one lines 36-45 initialised. *)
Theorem run_decode_error w (s0 : Stored) :
  uploaded_code_of w = None ->
  final (run w s0) = store (init_session_state s0) /\
  outcome (run w s0) = Halted (Raise UnicodeDecodeError).
Proof. intros Hu. by rewrite run_final, run_outcome, step_decode_error. Qed.

End run_by_action.

(** ** One execution, whatever is pressed *)

Section step_invariants.
Context `{Lexer} `{Chains}.
Implicit Types (w : Widgets) (s : SessionState) (P : Entry -> Prop).

(** The explanation flag is left up by the steps that raise only. *)
Lemma step_show w s :
  get_show_explanation_only s = false ->
  (forall e, (step w s).2 <> Halted (Raise e)) ->
  get_show_explanation_only (step w s).1 = false.
Proof.
  unfold step. destruct (uploaded_code_of w); [|done].
  assert (get_show_explanation_only (revert_step w (initial_locals w s) s).1 =
          get_show_explanation_only s) as Hr by (unfold revert_step; by case_match).
  destruct (revert_step _ _ _) as [s1 l1]. cbn [fst] in Hr. rewrite <- Hr.
  destruct (clear_btn w); [done|]. rewrite <- (ready_show s1).
  pose proof (optimize_step_cases w l1 (ready s1)) as Ho.
  destruct (optimize_step _ _ _) as [[s2 l2]|e]; [|intros _ Hne; by destruct (Hne e)].
  unfold explain_step. intros Hflag Hne.
  destruct (explain_btn w && _);
    [destruct (explain_chain_invoke _) as [v|e]; [done|by destruct (Hne e)]|].
  by destruct Ho as [(-> & _)|(v & _ & _ & _ & -> & _)].
Qed.

(** How a step can end. *)
Lemma step_outcome w s :
  (step w s).2 = comparison_outcome w (step w s).1 \/
  (step w s).2 = Halted Rerun \/ (step w s).2 = Halted Stop \/
  (step w s).2 = Halted (Raise UnicodeDecodeError) \/
  exists e inputs,
    (step w s).2 = Halted (Raise e) /\
    (chain_invoke inputs = Err e \/ explain_chain_invoke inputs = Err e).
Proof.
  unfold step. destruct (uploaded_code_of w); [|auto].
  destruct (revert_step _ _ _) as [s1 l1]. destruct (clear_btn w); [auto|].
  pose proof (optimize_step_cases w l1 (ready s1)) as Ho.
  destruct (optimize_step _ _ _) as [[s2 l2]|e];
    [|destruct Ho as (_ & _ & Ho); do 4 right; eauto].
  unfold explain_step. destruct (explain_btn w && _); [|auto].
  destruct (explain_chain_invoke _) eqn:He; [auto|]. do 4 right. eauto.
Qed.

(** With a well-formed history the comparison view raises only what the
    chain raises. *)
Lemma comparison_outcome_raise w s e :
  history_ok s -> comparison_outcome w s = Halted (Raise e) ->
  exists inputs, explain_chain_invoke inputs = Err e.
Proof.
  unfold comparison_outcome, history_ok, entry_ok.
  destruct (last (history s)) as [x|] eqn:Hl; [|done].
  apply last_Some in Hl as [h ->]. rewrite Forall_app, Forall_singleton.
  intros [_ Hx]. destruct (cleaned x); try done. case_match; [|done].
  unfold explain_optimized_outcome. case_match; [|done].
  destruct (explain_chain_invoke _) eqn:He; [done|]. intros [= <-]. eauto.
Qed.

End step_invariants.

Section run_invariants.
Context `{Lexer} `{Chains}.
Implicit Types (w : Widgets) (i : nat).

(** C8: an execution that is not cleared never rewrites an entry of the
    history: every entry but the last is where it was, with the same
    content. *)
Theorem run_history_old w (s0 : Stored) i :
  clear_btn w = false ->
  (S i < length (history (init_session_state s0)))%nat ->
  history (init_session_state (final (run w s0))) !! i =
  history (init_session_state s0) !! i.
Proof.
  intros Hc Hi. rewrite run_session.
  destruct (uploaded_code_of w) as [c|] eqn:Hu; [|by rewrite step_decode_error].
  destruct (step_history w (init_session_state s0) c Hu Hc) as (es & -> & _).
  case_match.
  - rewrite lookup_app_l by (rewrite PyList.pylist_removelast_length; lia).
    by apply PyList.pylist_removelast_lookup.
  - apply lookup_app_l. lia.
Qed.

(** C39: one execution appends at most one entry to the history. *)
Theorem run_history_length w (s0 : Stored) :
  (length (history (init_session_state (final (run w s0)))) <=
   S (length (history (init_session_state s0))))%nat.
Proof.
  rewrite run_session.
  destruct (uploaded_code_of w) as [c|] eqn:Hu, (clear_btn w) eqn:Hc;
    try (destruct (step_history_clear_or_decode w (init_session_state s0))
           as [-> | ->]; by (simpl; auto with lia)).
  destruct (step_history w (init_session_state s0) c Hu Hc) as (es & -> & Hes).
  rewrite length_app.
  assert (length es <= 1)%nat by (destruct Hes as [->|(_ & e & _ & ->)]; simpl; lia).
  case_match; [rewrite PyList.pylist_removelast_length|]; lia.
Qed.

(** When the chains return text, every entry of the history holds a
    [str] as its cleaned code after an execution if it did before. *)
Theorem run_history_ok `{!TextChains _} w (s0 : Stored) :
  history_ok (init_session_state s0) ->
  history_ok (init_session_state (final (run w s0))).
Proof.
  apply run_history_all. intros e. apply appended_ok.
Qed.

(** The script writes [text_input_value] in the handler of clear only:
    what the user types reaches it through the callback of the text area
    and no other way. *)
Theorem run_text_input_value w (s0 : Stored) :
  text_input_value (init_session_state (final (run w s0))) =
  if bool_decide (is_Some (uploaded_code_of w)) && clear_btn w then ""
  else text_input_value (init_session_state s0).
Proof. rewrite run_session. apply step_text. Qed.

(** On a history whose cleaned codes are text, with chains that return
    text, a step raises nothing but the decoding error of the upload and
    the exceptions of the chains. *)
Lemma step_exceptions `{!TextChains _} w s e :
  history_ok s -> (step w s).2 = Halted (Raise e) ->
  e = UnicodeDecodeError \/
  exists inputs, chain_invoke inputs = Err e \/ explain_chain_invoke inputs = Err e.
Proof.
  intros Hok. assert (history_ok (step w s).1) as Hok'.
  { rewrite <- (init_store s), <- run_session in *.
    apply run_history_all; [intros x; apply appended_ok|done]. }
  destruct (step_outcome w s) as [-> | [-> | [-> | [-> | (e' & inputs & -> & He)]]]];
    try done.
  - intros (inputs & He)%comparison_outcome_raise; eauto.
  - intros [= <-]. by left.
  - intros [= <-]. eauto.
Qed.

(** On a history whose cleaned codes are text, with chains that return
    text, an execution raises nothing but the decoding error of the upload
    and the exceptions of the chains. *)
Theorem run_exceptions `{!TextChains _} w (s0 : Stored) e :
  history_ok (init_session_state s0) ->
  outcome (run w s0) = Halted (Raise e) ->
  e = UnicodeDecodeError \/
  exists inputs, chain_invoke inputs = Err e \/ explain_chain_invoke inputs = Err e.
Proof. rewrite run_outcome. apply step_exceptions. Qed.

(** C36: once the last entry of the history holds a cleaned code that is
    not a [str], every execution that reaches the condition of the
    comparison view (line 316) ends in [AttributeError], whatever was
    pressed: an execution that only redraws the page, a revert that
    leaves or uncovers such an entry, an optimize or an explain on a
    blank text, and the optimize that appends the entry itself. *)
Theorem run_poisoned w (s0 : Stored) x :
  reaches_comparison w (init_session_state s0) = true ->
  last (history (init_session_state (final (run w s0)))) = Some x ->
  entry_ok x = false ->
  outcome (run w s0) = Halted (Raise (AttributeError "strip")).
Proof.
  rewrite run_outcome, run_session. intros Hr%step_reaches Hl Hx. rewrite Hr.
  unfold comparison_outcome. rewrite Hl. unfold entry_ok in Hx. by destruct (cleaned x).
Qed.

End run_invariants.

(** ** The theorems at concrete inputs *)

Lemma run_revert_pops_witness :
  final (@run sample_lexer failing (widgets None "" PressRevert)
           (stored_history [first_entry; second_entry])) =
  settled (set_history [first_entry]
             (init_session_state (stored_history [first_entry; second_entry]))).
Proof.
  apply (@run_revert_pops sample_lexer failing _ _ "" [] first_entry second_entry);
    by_evaluation.
Defined.

Lemma run_clear_witness :
  final (@run sample_lexer failing (widgets None "x=1" PressClear)
           (stored_history [first_entry])) =
    {| st_history := Some []; st_clear_triggered := Some true;
       st_text_input_value := Some "";
       st_show_explanation_only := Some false |} /\
  outcome (@run sample_lexer failing (widgets None "x=1" PressClear)
             (stored_history [first_entry])) = Halted Rerun.
Proof.
  apply (@run_clear sample_lexer failing _ (stored_history [first_entry]) "");
    by_evaluation.
Defined.

Lemma run_optimize_ok_witness :
  st_history (final (@run sample_lexer (answering "x = 1")
                       (widgets (Some python_file) "x=1" PressOptimize) empty_store)) =
    Some [first_entry] /\
  st_show_explanation_only
    (final (@run sample_lexer (answering "x = 1")
              (widgets (Some python_file) "x=1" PressOptimize) empty_store)) =
    Some false.
Proof.
  apply (@run_optimize_ok sample_lexer (answering "x = 1")
           (widgets (Some python_file) "x=1" PressOptimize) empty_store
           "function f() { return 1; }"
           (VDict [("code", Some "x=1"); ("language", Some "python");
                   ("text", Some "x = 1")]));
    by_evaluation.
Defined.

Lemma run_optimize_err_witness :
  final (@run sample_lexer failing (widgets None "x=1" PressOptimize)
           (stored_history [first_entry])) =
    settled (init_session_state (stored_history [first_entry])) /\
  outcome (@run sample_lexer failing (widgets None "x=1" PressOptimize)
             (stored_history [first_entry])) =
    Halted (Raise (ServiceError "quota exceeded")).
Proof.
  apply (@run_optimize_err sample_lexer failing _ _ ""); by_evaluation.
Defined.

Lemma run_optimize_blank_witness :
  final (@run sample_lexer (answering "x = 1") (widgets None "   " PressOptimize)
           (stored_history [first_entry])) =
  settled (init_session_state (stored_history [first_entry])).
Proof.
  apply (@run_optimize_blank sample_lexer (answering "x = 1") _ _ ""); by_evaluation.
Defined.

Lemma run_explain_ok_witness :
  final (@run sample_lexer (answering "It assigns 1 to x.")
           (widgets None "x=1" PressExplain) (stored_history [first_entry])) =
    settled (set_show_explanation_only false
               (init_session_state (stored_history [first_entry]))) /\
  outcome (@run sample_lexer (answering "It assigns 1 to x.")
             (widgets None "x=1" PressExplain) (stored_history [first_entry])) =
    Halted Stop.
Proof.
  apply (@run_explain_ok sample_lexer (answering "It assigns 1 to x.") _ _ ""
           (VDict [("code", Some "x=1"); ("language", None);
                   ("text", Some "It assigns 1 to x.")]));
    by_evaluation.
Defined.

Lemma run_explain_err_witness :
  st_show_explanation_only
    (final (@run sample_lexer failing (widgets None "x=1" PressExplain)
              (stored_history [first_entry]))) = Some true /\
  outcome (@run sample_lexer failing (widgets None "x=1" PressExplain)
             (stored_history [first_entry])) =
    Halted (Raise (ServiceError "quota exceeded")).
Proof.
  apply (@run_explain_err sample_lexer failing _ _ ""); by_evaluation.
Defined.

Lemma run_decode_error_witness :
  final (@run sample_lexer failing
           (widgets (Some {| name := "a.bin"; decoded := None |}) "" PressOptimize)
           (stored_history [first_entry])) =
    store (init_session_state (stored_history [first_entry])) /\
  outcome (@run sample_lexer failing
             (widgets (Some {| name := "a.bin"; decoded := None |}) "" PressOptimize)
             (stored_history [first_entry])) =
    Halted (Raise UnicodeDecodeError).
Proof. apply (@run_decode_error sample_lexer failing); by_evaluation. Defined.

Lemma run_history_old_witness :
  history (init_session_state
             (final (@run sample_lexer (answering "z = 3")
                       (widgets None "z=3" PressOptimize)
                       (stored_history [first_entry; second_entry]))))
    !! 0%nat =
  history (init_session_state (stored_history [first_entry; second_entry])) !! 0%nat.
Proof. apply (@run_history_old sample_lexer (answering "z = 3")); by_evaluation. Defined.

Lemma run_history_ok_witness :
  history_ok
    (init_session_state
       (final (@run sample_lexer (answering "z = 3") (widgets None "z=3" PressOptimize)
                 (stored_history [first_entry])))).
Proof.
  apply (@run_history_ok sample_lexer (answering "z = 3") (llm_text_chains _)).
  by repeat constructor.
Defined.

Lemma run_exceptions_witness :
  ServiceError "quota exceeded" = UnicodeDecodeError \/
  exists inputs,
    @chain_invoke failing inputs = Err (ServiceError "quota exceeded") \/
    @explain_chain_invoke failing inputs = Err (ServiceError "quota exceeded").
Proof.
  apply (@run_exceptions sample_lexer failing (llm_text_chains _)
           (widgets None "x=1" PressOptimize) (stored_history [first_entry]));
    [by repeat constructor | by_evaluation].
Defined.

Lemma run_poisoned_witness :
  let none := {| chain_invoke := fun _ => Ok VNone; explain_chain_invoke := fun _ => Ok VNone |} in
  let poisoned := {| messy := "x=1"; cleaned := VNone; language := None |} in
  let raised := Halted (Raise (AttributeError "strip")) in
  outcome (@run sample_lexer failing (widgets None "" Idle) (stored_history [poisoned])) = raised /\
  outcome (@run sample_lexer failing (widgets None "x=1" PressRevert)
             (stored_history [poisoned])) = raised /\
  outcome (@run sample_lexer failing (widgets None "x=1" PressRevert)
             (stored_history [poisoned; first_entry])) = raised /\
  outcome (@run sample_lexer failing (widgets None "  " PressExplain)
             (stored_history [poisoned])) = raised /\
  outcome (@run sample_lexer none (widgets None "x=1" PressOptimize) empty_store) = raised.
Proof.
  cbv zeta.
  repeat apply conj;
    eapply (run_poisoned _ _ {| messy := "x=1"; cleaned := VNone; language := _ |});
    reflexivity.
Defined.
