(* ===== verification/Page.v ===== *)
(** * Page: what one execution renders

    The page of an execution is the list of the elements the script
    emits, in order.  The theorems of this file give the whole page for
    each action of the user, from [page_step] (Controller): where the
    text area stands and what it is given, when the comparison view is
    shown and of which entry, what the explanation replaces, and that the
    footer and the style sheet are emitted by the executions that reach
    the last line only. *)

From Stdlib Require Import Ascii String List ZArith Lia.
From stdpp Require Import base tactics option list strings.
From S2P Require Import Prelude PyString PyData Language Prompt Session.
From S2P Require Import Script Invariant Controller Run.

(** ** Definitions used to state the properties *)

(** The element is the style sheet of lines 370-520. *)
Definition is_css (e : Element) : bool :=
  match e with
  | EHtml DarkCss => true
  | _ => false
  end.

(** The page of an execution that shows the comparison of the entry [x]
    after the output [es] of a handler and reaches the last line. *)
Definition full_page (w : Widgets) (s : SessionState) (es : list Element)
    (x : Entry) : list Element :=
  upload_page ++ actions_page w s ++ es ++ comparison_view x ++
  [EHtml FooterHtml; EHtml DarkCss].

(** The languages whose tag is the extension the table has for them. *)
Definition own_extension : list string :=
  ["java"; "c"; "cpp"; "go"; "php"; "swift"; "scala"; "r"; "html"; "css"; "sql";
   "json"; "xml"; "yaml"].

(** Unfolds the page of one step for the action named by [Hp]. *)
Ltac page_tac Hp Hu :=
  unfold page_step, revert_page, revert_step, optimize_page, optimize_step,
    explain_page, explain_step;
  destruct Hp as (-> & -> & -> & -> & ?); rewrite Hu;
  repeat first [rewrite bool_decide_eq_true_2 by done
               |rewrite bool_decide_eq_false_2 by done];
  cbn [andb].

Section page_by_action.
Context `{Lexer} `{Chains}.
Implicit Types (w : Widgets) (s : SessionState) (c : string).

(** The comparison view of a last entry that holds text, when nothing
    asks for the explanation of the optimized code. *)
Lemma comparison_page_shown w s h x text :
  explain_optimized_btn w = false ->
  history s = h ++ [x] -> cleaned x = VStr text ->
  comparison_page w s ++ end_page (comparison_outcome w s) =
  (if comparison_shown text x s then comparison_view x else []) ++
  [EHtml FooterHtml; EHtml DarkCss].
Proof.
  intros Hb Hh Hx. unfold comparison_page, comparison_outcome.
  rewrite Hh, last_snoc, Hx.
  unfold explain_optimized_page, explain_optimized_outcome. rewrite Hb.
  destruct (comparison_shown text x s); [|done]. by rewrite app_nil_r.
Qed.

Lemma page_step_idle w s c :
  pressed Idle w -> uploaded_code_of w = Some c ->
  page_step w s =
  upload_page ++ actions_page w s ++
  comparison_page w (ready s) ++ end_page (comparison_outcome w (ready s)).
Proof. intros Hp Hu. by page_tac Hp Hu. Qed.

Lemma page_step_explain_optimized w s c :
  pressed PressExplainOptimized w -> uploaded_code_of w = Some c ->
  page_step w s =
  upload_page ++ actions_page w s ++
  comparison_page w (ready s) ++ end_page (comparison_outcome w (ready s)).
Proof. intros Hp Hu. by page_tac Hp Hu. Qed.

Lemma page_step_revert w s c h prev cur :
  pressed PressRevert w -> uploaded_code_of w = Some c ->
  history s = h ++ [prev; cur] ->
  page_step w s =
  upload_page ++ actions_page w s ++ [ESuccess msg_reverted] ++
  comparison_page w (ready (set_history (h ++ [prev]) s)) ++
  end_page (comparison_outcome w (ready (set_history (h ++ [prev]) s))).
Proof.
  intros Hp Hu Hh. page_tac Hp Hu.
  rewrite Hh, (assoc_L app h [prev] [cur] : h ++ [prev; cur] = _).
  rewrite removelast_last, !length_app.
  by rewrite (proj2 (Nat.ltb_lt 1 _)), (proj2 (Nat.leb_gt _ 1)) by (simpl; lia).
Qed.

Lemma page_step_revert_nothing w s c :
  pressed PressRevert w -> uploaded_code_of w = Some c ->
  (length (history s) <= 1)%nat ->
  page_step w s =
  upload_page ++ actions_page w s ++ [EWarning msg_nothing_to_revert] ++
  comparison_page w (ready s) ++ end_page (comparison_outcome w (ready s)).
Proof.
  intros Hp Hu Hlen. page_tac Hp Hu.
  by rewrite (proj2 (Nat.ltb_ge 1 _)), (proj2 (Nat.leb_le _ 1)) by lia.
Qed.

Lemma page_step_optimize w s c v :
  pressed PressOptimize w -> uploaded_code_of w = Some c ->
  truthy (Str.strip (typed_code w s)) = true ->
  chain_invoke (chain_inputs (typed_code w s)
                  (detect_language (uploaded_file w) (typed_code w s))) = Ok v ->
  page_step w s =
  let s' := set_show_explanation_only false
              (append_entry (new_entry (initial_locals w s) v) (ready s)) in
  upload_page ++ actions_page w s ++ [ESpinner "🧹 Optimizing your code..."] ++
  comparison_page w s' ++ end_page (comparison_outcome w s').
Proof.
  intros Hp Hu Hc Hv. page_tac Hp Hu.
  cbn [initial_locals messy_code detected_language]. by rewrite Hc, Hv.
Qed.

Lemma page_step_explain w s c :
  pressed PressExplain w -> uploaded_code_of w = Some c ->
  truthy (Str.strip (typed_code w s)) = true ->
  page_step w s =
  upload_page ++ actions_page w s ++
  match explain_chain_invoke
          (chain_inputs (typed_code w s)
             (detect_language (uploaded_file w) (typed_code w s))) with
  | Ok v => explanation_page v
  | Err _ => [ESpinner "📖 Analyzing your code..."]
  end.
Proof.
  intros Hp Hu Hc. page_tac Hp Hu.
  cbn [initial_locals messy_code detected_language]. by rewrite Hc.
Qed.

End page_by_action.

(** ** The page, by action *)

Section run_page.
Context `{Lexer} `{Chains}.
Implicit Types (w : Widgets) (c text : string) (x : Entry).

(** The text area is the fifth element of every page of an execution
    whose upload decodes, and it is given the value of line 111. *)
Theorem run_page_text_area w (s0 : Stored) c :
  uploaded_code_of w = Some c ->
  rendered (run w s0) !! 4%nat =
  Some (ETextArea (text_area_value w (init_session_state s0))).
Proof. intros Hu. rewrite run_rendered. unfold page_step. by rewrite Hu. Qed.

(** An uploaded file with content fills the text area on every
    execution, whatever text the session holds: the typed text is the
    default only when there is no upload. *)
Theorem text_area_value_upload w (s : SessionState) f c :
  uploaded_file w = Some f -> decoded f = Some c -> c <> "" ->
  clear_triggered s = false ->
  text_area_value w s = c.
Proof.
  intros Hf Hd Hc Hclear. unfold text_area_value, get_initial_code, uploaded_code_of.
  rewrite Hclear, Hf, Hd. simpl. by destruct c.
Qed.

(** An execution without a pressed button shows the comparison view of
    the last entry of the history, between the actions and the footer,
    when its two codes are not blank and the explanation flag is down. *)
Theorem run_idle_page w (s0 : Stored) c h x text :
  pressed Idle w -> uploaded_code_of w = Some c ->
  history (init_session_state s0) = h ++ [x] -> cleaned x = VStr text ->
  comparison_shown text x (init_session_state s0) = true ->
  rendered (run w s0) = full_page w (init_session_state s0) [] x.
Proof.
  intros Hp Hu Hh Hx Hshown. rewrite run_rendered, (page_step_idle _ _ _ Hp Hu).
  rewrite (comparison_page_shown w _ h x text); try done.
  - by rewrite comparison_shown_ready, Hshown.
  - by destruct Hp as (_ & _ & _ & _ & ->).
  - by rewrite ready_history.
Qed.

(** While the explanation flag is up the comparison view is not shown,
    whatever the history holds. *)
Lemma run_idle_page_hidden w (s0 : Stored) c h x text :
  pressed Idle w -> uploaded_code_of w = Some c ->
  history (init_session_state s0) = h ++ [x] -> cleaned x = VStr text ->
  st_show_explanation_only s0 = Some true ->
  rendered (run w s0) =
  upload_page ++ actions_page w (init_session_state s0) ++
  [EHtml FooterHtml; EHtml DarkCss].
Proof.
  intros Hp Hu Hh Hx Hflag. rewrite run_rendered, (page_step_idle _ _ _ Hp Hu).
  rewrite (comparison_page_shown w _ h x text); try done.
  - rewrite comparison_shown_ready. unfold comparison_shown, get_show_explanation_only.
    cbn [init_session_state show_explanation_only]. rewrite Hflag.
    by rewrite andb_false_r.
  - by destruct Hp as (_ & _ & _ & _ & ->).
  - by rewrite ready_history.
Qed.

(** C30: after an optimize that succeeds the page shows the comparison view
    of the entry just appended, whatever the explanation flag was, when
    the text of the answer is not blank. *)
Theorem run_optimize_page w (s0 : Stored) c v text :
  pressed PressOptimize w -> uploaded_code_of w = Some c ->
  truthy (Str.strip (typed_code w (init_session_state s0))) = true ->
  chain_invoke
    (chain_inputs (typed_code w (init_session_state s0))
       (detect_language (uploaded_file w) (typed_code w (init_session_state s0))))
    = Ok v ->
  Val.text_of v = VStr text -> truthy (Str.strip text) = true ->
  rendered (run w s0) =
  full_page w (init_session_state s0) [ESpinner "🧹 Optimizing your code..."]
    {| messy := typed_code w (init_session_state s0);
       cleaned := VStr text;
       language := detect_language (uploaded_file w)
                     (typed_code w (init_session_state s0)) |}.
Proof.
  intros Hp Hu Hc Hv Ht Htext.
  rewrite run_rendered, (page_step_optimize _ _ _ _ Hp Hu Hc Hv). cbv zeta.
  rewrite (comparison_page_shown w _ (history (ready (init_session_state s0)))
             (new_entry (initial_locals w (init_session_state s0)) v) text); try done.
  - unfold comparison_shown, new_entry. cbn [messy initial_locals messy_code].
    rewrite Htext, Hc. unfold full_page, new_entry. by rewrite Ht.
  - by destruct Hp as (_ & _ & _ & _ & ->).
Qed.

(** An explanation replaces the rest of the page: after the actions
    come the spinner and the explanation, and neither the comparison view
    nor the footer nor the style sheet. *)
Theorem run_explain_page w (s0 : Stored) c v :
  pressed PressExplain w -> uploaded_code_of w = Some c ->
  truthy (Str.strip (typed_code w (init_session_state s0))) = true ->
  explain_chain_invoke
    (chain_inputs (typed_code w (init_session_state s0))
       (detect_language (uploaded_file w) (typed_code w (init_session_state s0))))
    = Ok v ->
  rendered (run w s0) =
  upload_page ++ actions_page w (init_session_state s0) ++ explanation_page v.
Proof.
  intros Hp Hu Hc Hv. by rewrite run_rendered, (page_step_explain _ _ _ Hp Hu Hc), Hv.
Qed.

(** After a revert that pops, the page shows the message of success
    and the comparison view of the entry that is now the last one. *)
Theorem run_revert_page w (s0 : Stored) c h prev cur text :
  pressed PressRevert w -> uploaded_code_of w = Some c ->
  history (init_session_state s0) = h ++ [prev; cur] ->
  cleaned prev = VStr text ->
  comparison_shown text prev (init_session_state s0) = true ->
  rendered (run w s0) =
  full_page w (init_session_state s0) [ESuccess msg_reverted] prev.
Proof.
  intros Hp Hu Hh Hx Hshown.
  rewrite run_rendered, (page_step_revert _ _ _ _ _ _ Hp Hu Hh).
  rewrite (comparison_page_shown w _ h prev text); try done.
  - by rewrite comparison_shown_ready, comparison_shown_set_history, Hshown.
  - by destruct Hp as (_ & _ & _ & _ & ->).
  - by rewrite ready_history.
Qed.

(** C17: pressing revert on a history of one entry or none changes nothing
    in the session state and puts the warning on the page, right after
    the actions. *)
Theorem run_revert_nothing w (s0 : Stored) c :
  pressed PressRevert w -> uploaded_code_of w = Some c ->
  (length (history (init_session_state s0)) <= 1)%nat ->
  final (run w s0) = settled (init_session_state s0) /\
  rendered (run w s0) !! 10%nat = Some (EWarning msg_nothing_to_revert).
Proof.
  intros Hp Hu Hlen.
  rewrite <- store_ready, run_final, run_rendered, (step_revert _ _ _ Hp Hu).
  rewrite (page_step_revert_nothing _ _ _ Hp Hu Hlen).
  by rewrite (proj2 (Nat.ltb_ge 1 _)) by lia.
Qed.

(** Pressing the button of the comparison view explains the optimized
    code of the last entry: the explanation comes between the comparison
    view and the footer, the execution reaches the last line and the
    session state is as before. *)
Theorem run_explain_optimized w (s0 : Stored) c h x text v :
  pressed PressExplainOptimized w -> uploaded_code_of w = Some c ->
  history (init_session_state s0) = h ++ [x] -> cleaned x = VStr text ->
  comparison_shown text x (init_session_state s0) = true ->
  explain_chain_invoke (chain_inputs text (language x)) = Ok v ->
  final (run w s0) = settled (init_session_state s0) /\
  rendered (run w s0) =
    upload_page ++ actions_page w (init_session_state s0) ++ comparison_view x ++
    [ESpinner "📖 Analyzing your optimized code...";
     EMarkdown (VStr "### 📖 Optimized Code Explanation");
     EMarkdown (Val.text_of v);
     EHtml FooterHtml; EHtml DarkCss].
Proof.
  intros Hp Hu Hh Hx Hshown Hv.
  rewrite <- store_ready, run_final, run_rendered.
  rewrite (step_explain_optimized _ _ _ Hp Hu), (page_step_explain_optimized _ _ _ Hp Hu).
  split; [done|]. destruct Hp as (_ & _ & _ & _ & Hb). simpl in Hb.
  unfold comparison_page, comparison_outcome, explain_optimized_page,
    explain_optimized_outcome.
  rewrite ready_history, Hh, last_snoc, Hx, comparison_shown_ready, Hshown, Hb, Hv.
  by rewrite <- !app_assoc.
Qed.

End run_page.

(** ** The end of the page *)

Section end_of_page.
Context `{Lexer} `{Chains}.
Implicit Types (w : Widgets) (s : SessionState).

Ltac css_free := intros; repeat (case_match; try done).

Lemma revert_page_css w s : existsb is_css (revert_page w s) = false.
Proof. unfold revert_page. css_free. Qed.

Lemma optimize_page_css w l : existsb is_css (optimize_page w l) = false.
Proof. unfold optimize_page. css_free. Qed.

Lemma comparison_page_css w s : existsb is_css (comparison_page w s) = false.
Proof. unfold comparison_page, explain_optimized_page. css_free. Qed.

Lemma end_page_css o :
  existsb is_css (end_page o) = match o with Completed => true | Halted _ => false end.
Proof. by destruct o. Qed.

Lemma explain_css w l s o es :
  existsb is_css es = match o with Completed => true | Halted _ => false end ->
  existsb is_css (explain_page w l es) =
  match (explain_step w l s o).2 with Completed => true | Halted _ => false end.
Proof. unfold explain_page, explain_step. css_free. Qed.

(** The style sheet is on the page of the steps that complete, and of no
    other. *)
Lemma page_step_css w s :
  existsb is_css (page_step w s) =
  match (step w s).2 with Completed => true | Halted _ => false end.
Proof.
  unfold page_step, step. destruct (uploaded_code_of w); [|done].
  rewrite !existsb_app, revert_page_css. cbn [existsb upload_page actions_page is_css orb].
  destruct (revert_step _ _ _) as [s1 l1]. destruct (clear_btn w); [done|].
  rewrite existsb_app, optimize_page_css.
  destruct (optimize_step _ _ _) as [[s2 l2]|e]; [|done]. apply explain_css.
  by rewrite existsb_app, comparison_page_css, end_page_css.
Qed.

(** C29: the style sheet of lines 370-520 is on the page exactly when the
    execution reaches the last line: after an explanation, a clear or an
    exception the page is rendered without it. *)
Theorem run_css_iff w (s0 : Stored) :
  existsb is_css (rendered (run w s0)) = true <-> outcome (run w s0) = Completed.
Proof.
  rewrite run_rendered, run_outcome, page_step_css.
  by destruct (step w (init_session_state s0)).2.
Qed.

End end_of_page.

(** ** The download and the uploader *)

(** C37: the file name of the download does not lead back to the language
    for every language.  The name is [optimized_code.] followed by the
    language tag (line 345), and for a tag of [LANGUAGES] the extension
    table resolves the name of the downloaded file to the tag exactly
    when the tag is its own extension: a download named
    [optimized_code.python] is not a Python file for the uploader. *)
Theorem download_reupload lang d :
  lang ∈ LANGUAGES ->
  detect_by_extension (Some {| name := download_name (Some lang); decoded := d |}) None =
  if bool_decide (lang ∈ own_extension) then Some lang else None.
Proof.
  intros Hl. unfold LANGUAGES in Hl.
  repeat (apply elem_of_cons in Hl as [->|Hl]; [by vm_compute|]).
  by apply elem_of_nil in Hl.
Qed.

(** ** The theorems at concrete inputs *)

Lemma run_page_text_area_witness :
  rendered (@run sample_lexer failing (widgets (Some python_file) "" Idle) empty_store)
    !! 4%nat =
  Some (ETextArea "function f() { return 1; }").
Proof.
  etrans; [apply (@run_page_text_area sample_lexer failing _ empty_store
                     "function f() { return 1; }")|]; by_evaluation.
Defined.

Lemma text_area_value_upload_witness :
  text_area_value (widgets (Some python_file) "" Idle)
    {| history := []; clear_triggered := false; text_input_value := "typed";
       show_explanation_only := None |} =
  "function f() { return 1; }".
Proof. apply (text_area_value_upload _ _ python_file); by_evaluation. Defined.

Lemma run_idle_page_witness :
  rendered (@run sample_lexer failing (widgets None "" Idle)
              (stored_history [first_entry])) =
  full_page (widgets None "" Idle) (init_session_state (stored_history [first_entry]))
    [] first_entry.
Proof.
  apply (@run_idle_page sample_lexer failing _ _ "" [] first_entry "x = 1");
    by_evaluation.
Defined.

Lemma run_optimize_page_witness :
  rendered (@run sample_lexer (answering "x = 1")
              (widgets (Some python_file) "x=1" PressOptimize) empty_store) =
  full_page (widgets (Some python_file) "x=1" PressOptimize)
    (init_session_state empty_store) [ESpinner "🧹 Optimizing your code..."]
    first_entry.
Proof.
  apply (@run_optimize_page sample_lexer (answering "x = 1")
           (widgets (Some python_file) "x=1" PressOptimize) empty_store
           "function f() { return 1; }"
           (VDict [("code", Some "x=1"); ("language", Some "python");
                   ("text", Some "x = 1")]) "x = 1");
    by_evaluation.
Defined.

Lemma run_explain_page_witness :
  rendered (@run sample_lexer (answering "It assigns 1 to x.")
              (widgets None "x=1" PressExplain) (stored_history [first_entry])) =
  upload_page ++
  actions_page (widgets None "x=1" PressExplain)
    (init_session_state (stored_history [first_entry])) ++
  explanation_page (VStr "It assigns 1 to x.").
Proof.
  apply (@run_explain_page sample_lexer (answering "It assigns 1 to x.") _ _ ""
           (VDict [("code", Some "x=1"); ("language", None);
                   ("text", Some "It assigns 1 to x.")]));
    by_evaluation.
Defined.

Lemma run_revert_page_witness :
  rendered (@run sample_lexer failing (widgets None "" PressRevert)
              (stored_history [first_entry; second_entry])) =
  full_page (widgets None "" PressRevert)
    (init_session_state (stored_history [first_entry; second_entry]))
    [ESuccess msg_reverted] first_entry.
Proof.
  apply (@run_revert_page sample_lexer failing _ _ "" [] first_entry second_entry
           "x = 1");
    by_evaluation.
Defined.

Lemma run_revert_nothing_witness :
  final (@run sample_lexer failing (widgets None "" PressRevert)
           (stored_history [first_entry])) =
    settled (init_session_state (stored_history [first_entry])) /\
  rendered (@run sample_lexer failing (widgets None "" PressRevert)
              (stored_history [first_entry])) !! 10%nat =
    Some (EWarning msg_nothing_to_revert).
Proof. apply (@run_revert_nothing sample_lexer failing _ _ ""); by_evaluation. Defined.

Lemma run_explain_optimized_witness :
  final (@run sample_lexer (answering "It assigns 1 to x.")
           (widgets None "" PressExplainOptimized) (stored_history [first_entry])) =
    settled (init_session_state (stored_history [first_entry])) /\
  rendered (@run sample_lexer (answering "It assigns 1 to x.")
              (widgets None "" PressExplainOptimized) (stored_history [first_entry])) =
    upload_page ++
    actions_page (widgets None "" PressExplainOptimized)
      (init_session_state (stored_history [first_entry])) ++
    comparison_view first_entry ++
    [ESpinner "📖 Analyzing your optimized code...";
     EMarkdown (VStr "### 📖 Optimized Code Explanation");
     EMarkdown (VStr "It assigns 1 to x.");
     EHtml FooterHtml; EHtml DarkCss].
Proof.
  apply (@run_explain_optimized sample_lexer (answering "It assigns 1 to x.") _ _ ""
           [] first_entry "x = 1"
           (VDict [("code", Some "x = 1"); ("language", Some "python");
                   ("text", Some "It assigns 1 to x.")]));
    by_evaluation.
Defined.

Lemma download_reupload_witness :
  detect_by_extension
    (Some {| name := download_name (Some "python"); decoded := Some "x = 1" |}) None =
  if bool_decide ("python" ∈ own_extension) then Some "python" else None.
Proof. apply download_reupload. table_decide. Defined.
