(* ===== verification/Markup.v ===== *)
(** * Markup: the text of the constant HTML and of the style sheet

    The script writes seven constant blocks of markup with
    [st.markdown(..., unsafe_allow_html=True)]: the header and the
    features (lines 48-82), the heading of the input (87-91), the opening
    and the closing tag around an explanation and around the comparison
    view (306, 309, 325, 351), the footer (362-367) and the style sheet
    (370-520).  [Script] names them ([HtmlBlock]); this file holds their
    text, character by character, and what can be said of it: how the
    [div] elements nest, in each block and on each page, and which
    classes the markup uses and the style sheet defines.

    A string of Rocq cannot hold a double quote next to another one, so
    the quote is the constant [q] and the lines of a block are joined by
    [unlines]. *)

From Stdlib Require Import Ascii String List.
From stdpp Require Import base tactics option list strings.
From S2P Require Import Prelude PyString PyData Language Prompt Session.
From S2P Require Import Script Controller Run Page.

(** ** The text *)

(** The double quote; the end of a line is [nl] of [Prompt]. *)
Definition q : string := String (ascii_of_nat 34) "".

(** The lines [ls], each followed by the end of a line. *)
Definition unlines (ls : list string) : string :=
  foldr (fun l s => l +:+ nl +:+ s) "" ls.

(** Lines 48-61. *)
Definition header_html : string :=
  nl +:+ unlines [
    "<div class=" +:+ q +:+ "main-header" +:+ q +:+ ">";
    "    <div style=" +:+ q +:+ "display: flex; justify-content: space-between; align-items: center;" +:+ q +:+ ">";
    "        <div>";
    "            <h1 style=" +:+ q +:+ "color: white; margin: 0; font-size: 2.5rem; font-weight: 700;" +:+ q +:+ ">🧹 Universal Code Optimizer</h1>";
    "            <p style=" +:+ q +:+ "color: #e3f2fd; margin: 0; font-size: 1.2rem;" +:+ q +:+ ">AI-Powered Code Optimization & Documentation</p>";
    "        </div>";
    "        <div style=" +:+ q +:+ "text-align: right;" +:+ q +:+ ">";
    "            <h3 style=" +:+ q +:+ "color: white; margin: 0;" +:+ q +:+ ">✨ Features</h3>";
    "            <p style=" +:+ q +:+ "color: #e3f2fd; margin: 0; font-size: 0.9rem;" +:+ q +:+ ">• Multi-language Support<br>• Smart Optimization<br>• Auto Documentation</p>";
    "        </div>";
    "    </div>";
    "</div>"
  ].

(** Lines 64-82. *)
Definition features_html : string :=
  nl +:+ unlines [
    "<div class=" +:+ q +:+ "feature-card" +:+ q +:+ ">";
    "    <h2 style=" +:+ q +:+ "color: #007acc; margin-bottom: 1rem;" +:+ q +:+ ">🚀 What We Do</h2>";
    "    <div style=" +:+ q +:+ "display: grid; grid-template-columns: repeat(auto-fit, minmax(250px, 1fr)); gap: 1rem;" +:+ q +:+ ">";
    "        <div style=" +:+ q +:+ "background: rgba(0, 122, 204, 0.1); padding: 1rem; border-radius: 8px; border-left: 4px solid #007acc;" +:+ q +:+ ">";
    "            <h4 style=" +:+ q +:+ "margin: 0 0 0.5rem 0;" +:+ q +:+ ">🎯 Smart Optimization</h4>";
    "            <p style=" +:+ q +:+ "margin: 0; font-size: 0.9rem;" +:+ q +:+ ">Automatically optimize and structure your code for better readability</p>";
    "        </div>";
    "        <div style=" +:+ q +:+ "background: rgba(0, 122, 204, 0.1); padding: 1rem; border-radius: 8px; border-left: 4px solid #007acc;" +:+ q +:+ ">";
    "            <h4 style=" +:+ q +:+ "margin: 0 0 0.5rem 0;" +:+ q +:+ ">📝 Auto Documentation</h4>";
    "            <p style=" +:+ q +:+ "margin: 0; font-size: 0.9rem;" +:+ q +:+ ">Generate comprehensive comments and documentation</p>";
    "        </div>";
    "        <div style=" +:+ q +:+ "background: rgba(0, 122, 204, 0.1); padding: 1rem; border-radius: 8px; border-left: 4px solid #007acc;" +:+ q +:+ ">";
    "            <h4 style=" +:+ q +:+ "margin: 0 0 0.5rem 0;" +:+ q +:+ ">🔍 Multi-Language</h4>";
    "            <p style=" +:+ q +:+ "margin: 0; font-size: 0.9rem;" +:+ q +:+ ">Support for 20+ programming languages</p>";
    "        </div>";
    "    </div>";
    "</div>"
  ].

(** Lines 87-91.  The closing quotes are indented, hence the four spaces at
    the end. *)
Definition paste_heading_html : string :=
  nl +:+ unlines [
    "    <div style='margin-top:1.2rem; margin-bottom:0; display:flex; align-items:center;'>";
    "      <h2 style='color:#007acc; font-size:1.6rem; margin:0; display:inline; vertical-align:middle;'>Paste Your Code</h2>";
    "    </div>"
  ] +:+ "    ".

(** Lines 306 and 325. *)
Definition comparison_open_html : string :=
  "<div class=" +:+ q +:+ "comparison-section" +:+ q +:+ ">".

(** Lines 309 and 351. *)
Definition div_close_html : string := "</div>".

(** Lines 362-367. *)
Definition footer_html : string :=
  nl +:+ unlines [
    "<div style=" +:+ q +:+ "text-align: center; margin-top: 3rem; padding: 2rem; border-top: 1px solid #404040;" +:+ q +:+ ">";
    "    <p style=" +:+ q +:+ "color: #666; margin: 0;" +:+ q +:+ ">🧹 Universal Code Optimizer - Powered by AI</p>";
    "    <p style=" +:+ q +:+ "color: #666; margin: 0; font-size: 0.9rem;" +:+ q +:+ ">Optimize, format, and document your code with ease</p>";
    "</div>"
  ].

(** Lines 370-519: the text of [dark_css]. *)
Definition dark_css : string :=
  nl +:+ unlines [
    "<style>";
    ".stApp {";
    "    background: linear-gradient(135deg, #1e1e1e 0%, #2d2d2d 100%);";
    "    color: #ffffff;";
    "}";
    ".main-header {";
    "    background: linear-gradient(135deg, #007acc 0%, #005a9e 100%);";
    "    padding: 2rem;";
    "    border-radius: 15px;";
    "    margin-bottom: 2rem;";
    "    box-shadow: 0 8px 32px rgba(0, 122, 204, 0.3);";
    "}";
    ".feature-card {";
    "    background: rgba(45, 45, 45, 0.8);";
    "    border: 1px solid #404040;";
    "    border-radius: 10px;";
    "    padding: 1.5rem;";
    "    margin: 1rem 0;";
    "    backdrop-filter: blur(10px);";
    "}";
    ".stTextArea textarea {";
    "    background-color: #2d2d2d !important;";
    "    color: #ffffff !important;";
    "    border-color: #404040 !important;";
    "    border-radius: 8px !important;";
    "}";
    ".stSelectbox select {";
    "    background-color: #2d2d2d !important;";
    "    color: #ffffff !important;";
    "    border-radius: 8px !important;";
    "}";
    ".stButton button {";
    "    background: linear-gradient(135deg, #007acc 0%, #005a9e 100%) !important;";
    "    color: #ffffff !important;";
    "    border-radius: 8px !important;";
    "    border: none !important;";
    "    padding: 0.5rem 1.5rem !important;";
    "    font-weight: 600 !important;";
    "    transition: all 0.3s ease !important;";
    "}";
    ".stButton button:hover {";
    "    transform: translateY(-2px) !important;";
    "    box-shadow: 0 4px 12px rgba(0, 122, 204, 0.4) !important;";
    "}";
    ".stDownloadButton button {";
    "    background: linear-gradient(135deg, #007acc 0%, #005a9e 100%) !important;";
    "    color: #ffffff !important;";
    "    border-radius: 8px !important;";
    "    border: none !important;";
    "    padding: 0.5rem 1.5rem !important;";
    "    font-weight: 600 !important;";
    "    transition: all 0.3s ease !important;";
    "}";
    ".stDownloadButton button:hover {";
    "    transform: translateY(-2px) !important;";
    "    box-shadow: 0 4px 12px rgba(0, 122, 204, 0.4) !important;";
    "}";
    ".stMarkdown {";
    "    color: #ffffff !important;";
    "}";
    ".stCode {";
    "    background-color: #2d2d2d !important;";
    "    border-radius: 8px !important;";
    "}";
    ".stAlert {";
    "    background-color: rgba(45, 45, 45, 0.9) !important;";
    "    border-color: #404040 !important;";
    "    border-radius: 8px !important;";
    "}";
    ".stSuccess {";
    "    background-color: rgba(30, 58, 30, 0.9) !important;";
    "    border-color: #2d5a2d !important;";
    "    border-radius: 8px !important;";
    "}";
    ".stWarning {";
    "    background-color: rgba(58, 42, 30, 0.9) !important;";
    "    border-color: #5a3a2d !important;";
    "    border-radius: 8px !important;";
    "}";
    ".stError {";
    "    background-color: rgba(58, 30, 30, 0.9) !important;";
    "    border-color: #5a2d2d !important;";
    "    border-radius: 8px !important;";
    "}";
    ".upload-section {";
    "    background: rgba(45, 45, 45, 0.6);";
    "    border-radius: 15px;";
    "    padding: 2rem;";
    "    margin: 1rem 0;";
    "    border: 1px solid #404040;";
    "}";
    ".comparison-section {";
    "    background: rgba(45, 45, 45, 0.4);";
    "    border-radius: 15px;";
    "    padding: 2rem;";
    "    margin: 1rem 0;";
    "    border: 1px solid #404040;";
    "}";
    "/* Hide drag-and-drop area, show only the Browse files button */";
    "section[data-testid=" +:+ q +:+ "stFileUploaderDropzone" +:+ q +:+ "] > div:first-child {";
    "    display: none !important;";
    "}";
    "/* Hide drag-and-drop text, icon, and file size limit in file uploader */";
    "section[data-testid=" +:+ q +:+ "stFileUploaderDropzone" +:+ q +:+ "] div[role=" +:+ q +:+ "presentation" +:+ q +:+ "],";
    "section[data-testid=" +:+ q +:+ "stFileUploaderDropzone" +:+ q +:+ "] svg,";
    "section[data-testid=" +:+ q +:+ "stFileUploaderDropzone" +:+ q +:+ "] span,";
    "section[data-testid=" +:+ q +:+ "stFileUploaderDropzone" +:+ q +:+ "] p,";
    "section[data-testid=" +:+ q +:+ "stFileUploaderDropzone" +:+ q +:+ "] small {";
    "    display: none !important;";
    "}";
    "section[data-testid=" +:+ q +:+ "stFileUploaderDropzone" +:+ q +:+ "] {";
    "    padding: 0 !important;";
    "    margin: 0 !important;";
    "    min-height: 0 !important;";
    "    background: none !important;";
    "    height: 2.2rem !important;";
    "    display: flex !important;";
    "    align-items: center !important;";
    "}";
    "/* Hide all file details and filename/size displays in the uploader */";
    "section[data-testid=" +:+ q +:+ "stFileUploader" +:+ q +:+ "] div[data-testid=" +:+ q +:+ "stFileUploaderDetails" +:+ q +:+ "],";
    "section[data-testid=" +:+ q +:+ "stFileUploader" +:+ q +:+ "] .uploadedFileName,";
    "section[data-testid=" +:+ q +:+ "stFileUploader" +:+ q +:+ "] .uploadedFileSize,";
    "section[data-testid=" +:+ q +:+ "stFileUploader" +:+ q +:+ "] ul,";
    "section[data-testid=" +:+ q +:+ "stFileUploader" +:+ q +:+ "] [data-testid=" +:+ q +:+ "stFileUploaderFileName" +:+ q +:+ "],";
    "section[data-testid=" +:+ q +:+ "stFileUploader" +:+ q +:+ "] [data-testid=" +:+ q +:+ "stFileUploaderFileSize" +:+ q +:+ "] {";
    "    display: none !important;";
    "}";
    "/* Only show the Browse files button, make it full width and centered */";
    "section[data-testid=" +:+ q +:+ "stFileUploader" +:+ q +:+ "] button {";
    "    width: 100% !important;";
    "    margin: 0 auto !important;";
    "    display: block !important;";
    "}";
    "/* Hide any filename display in or near the file uploader */";
    "section[data-testid=" +:+ q +:+ "stFileUploader" +:+ q +:+ "] .uploadedFileName,";
    "section[data-testid=" +:+ q +:+ "stFileUploader" +:+ q +:+ "] [data-testid=" +:+ q +:+ "stFileUploaderFileName" +:+ q +:+ "],";
    "section[data-testid=" +:+ q +:+ "stFileUploader" +:+ q +:+ "] ul,";
    "section[data-testid=" +:+ q +:+ "stFileUploader" +:+ q +:+ "] li,";
    "section[data-testid=" +:+ q +:+ "stFileUploader" +:+ q +:+ "] div[role=" +:+ q +:+ "list" +:+ q +:+ "],";
    "section[data-testid=" +:+ q +:+ "stFileUploader" +:+ q +:+ "] div[role=" +:+ q +:+ "listitem" +:+ q +:+ "] {";
    "    display: none !important;";
    "    height: 0 !important;";
    "    margin: 0 !important;";
    "    padding: 0 !important;";
    "    overflow: hidden !important;";
    "}";
    "</style>"
  ].

(** The text of a block. *)
Definition html_text (b : HtmlBlock) : string :=
  match b with
  | HeaderHtml => header_html
  | FeaturesHtml => features_html
  | PasteHeadingHtml => paste_heading_html
  | ComparisonOpenHtml => comparison_open_html
  | DivCloseHtml => div_close_html
  | FooterHtml => footer_html
  | DarkCss => dark_css
  end.

(** ** Reading the text *)

(** The text [s] read from the left with [d] elements [div] open: the
    number of them open at its end, and [None] when a closing tag comes
    with none open. *)
Fixpoint scan (s : string) (d : nat) : option nat :=
  match s with
  | EmptyString => Some d
  | String _ s' =>
      if String.prefix "</div" s then
        match d with O => None | S d' => scan s' d' end
      else if String.prefix "<div" s then scan s' (S d)
      else scan s' d
  end.

(** Only the blocks written with [unsafe_allow_html=True] are markup: the
    text of the other elements is escaped. *)
Definition element_scan (e : Element) (d : nat) : option nat :=
  match e with
  | EHtml b => scan (html_text b) d
  | _ => Some d
  end.

(** A page read from the top. *)
Fixpoint page_scan (page : list Element) (d : nat) : option nat :=
  match page with
  | [] => Some d
  | e :: es => element_scan e d ≫= page_scan es
  end.

(** The text up to the first double quote. *)
Fixpoint until_quote (s : string) : string :=
  match s with
  | EmptyString => EmptyString
  | String c s' => if Ascii.eqb c (ascii_of_nat 34) then EmptyString
                   else String c (until_quote s')
  end.

(** The values of the [class] attributes of a text, in order. *)
Fixpoint classes (s : string) : list string :=
  match s with
  | EmptyString => []
  | String _ s' =>
      (if String.prefix ("class=" +:+ q) s
       then [until_quote (Str.slice_from 7 s)] else []) ++ classes s'
  end.

(** The blocks, in the order of the source. *)
Definition html_blocks : list HtmlBlock :=
  [HeaderHtml; FeaturesHtml; PasteHeadingHtml; ComparisonOpenHtml; DivCloseHtml;
   FooterHtml; DarkCss].

(** The classes the markup uses. *)
Definition classes_used : list string :=
  remove_dups (flat_map (fun b => classes (html_text b)) html_blocks).

(** The selectors of the rules of a style sheet that start with a class:
    the lines that start with a dot, up to the brace. *)
Fixpoint until_brace (s : string) : string :=
  match s with
  | EmptyString => EmptyString
  | String c s' => if String.prefix " {" s then EmptyString
                   else String c (until_brace s')
  end.

Fixpoint class_rules (s : string) : list string :=
  match s with
  | EmptyString => []
  | String _ s' =>
      (if String.prefix (nl +:+ ".") s
       then [until_brace (Str.slice_from 2 s)] else []) ++ class_rules s'
  end.

(** The classes of the rules that are not classes of the framework
    (those start with [st]). *)
Definition own_rules : list string :=
  filter (fun c => String.prefix "st" c = false) (class_rules dark_css).

(** ** Nesting *)

Section nesting.
Implicit Types (s : string) (b : HtmlBlock) (e : Element) (es : list Element).
Implicit Types (d n k : nat).

Lemma scan_shift s d n k : scan s d = Some n -> scan s (d + k) = Some (n + k).
Proof.
  revert d. induction s as [|a s IH]; intros d; cbn [scan]; [naive_solver|].
  destruct (String.prefix "</div" _); [destruct d; [done|apply IH]|].
  destruct (String.prefix "<div" _); [apply (IH (S d))|apply IH].
Qed.

(** The blocks one by one: the opening tag of lines 306 and 325 leaves
    an element open, the closing tag of lines 309 and 351 closes one, and
    every other block closes what it opens. *)
Lemma scan_html b d :
  scan (html_text b) d =
  match b with
  | ComparisonOpenHtml => Some (S d)
  | DivCloseHtml => match d with O => None | S d' => Some d' end
  | _ => Some d
  end.
Proof.
  destruct b; try (by destruct d);
    by apply (scan_shift _ 0 _ d); vm_compute.
Qed.

Lemma page_scan_app es es' d :
  page_scan (es ++ es') d = page_scan es d ≫= page_scan es'.
Proof.
  revert d. induction es as [|e es IH]; intros d; [done|]. cbn [app page_scan].
  destruct (element_scan e d); cbn [mbind option_bind]; [apply IH|done].
Qed.

(** A page that closes what it opens can follow any page. *)
Lemma page_scan_after es es' d :
  page_scan es d = Some d -> page_scan (es ++ es') d = page_scan es' d.
Proof. intros Hes. by rewrite page_scan_app, Hes. Qed.

End nesting.

(** The nesting of a page made of elements given one by one. *)
Ltac nesting :=
  intros; repeat (case_match; try done);
  cbn [page_scan element_scan app mbind option_bind];
  repeat (rewrite scan_html; cbn [mbind option_bind]); done.

Section page_nesting.
Context `{Lexer} `{Chains}.
Implicit Types (w : Widgets) (s : SessionState) (l : Locals) (d : nat).

Lemma upload_page_nesting d : page_scan upload_page d = Some d.
Proof. unfold upload_page. nesting. Qed.

Lemma actions_page_nesting w s d : page_scan (actions_page w s) d = Some d.
Proof. unfold actions_page. nesting. Qed.

Lemma revert_page_nesting w s d : page_scan (revert_page w s) d = Some d.
Proof. unfold revert_page. nesting. Qed.

Lemma optimize_page_nesting w l d : page_scan (optimize_page w l) d = Some d.
Proof. unfold optimize_page. nesting. Qed.

Lemma comparison_page_nesting w s d : page_scan (comparison_page w s) d = Some d.
Proof. unfold comparison_page, comparison_view, explain_optimized_page. nesting. Qed.

Lemma end_page_nesting o d : page_scan (end_page o) d = Some d.
Proof. unfold end_page. nesting. Qed.

Lemma explain_page_nesting w l es d :
  page_scan es d = Some d -> page_scan (explain_page w l es) d = Some d.
Proof. unfold explain_page, explanation_page. nesting. Qed.

(** Every page closes the elements it opens, however the execution
    ends. *)
Lemma page_step_nesting w s d : page_scan (page_step w s) d = Some d.
Proof.
  unfold page_step. rewrite page_scan_after by apply upload_page_nesting.
  destruct (uploaded_code_of w); [|done].
  rewrite page_scan_after by apply actions_page_nesting.
  rewrite page_scan_after by apply revert_page_nesting.
  destruct (revert_step _ _ _) as [s1 l1]. destruct (clear_btn w); [done|].
  rewrite page_scan_after by apply optimize_page_nesting.
  destruct (optimize_step _ _ _) as [[s2 l2]|e]; [|done].
  apply explain_page_nesting.
  rewrite page_scan_after by apply comparison_page_nesting. apply end_page_nesting.
Qed.

(** C33: the page of every execution is well nested: read from the top, no
    closing tag comes with no [div] open and none is left open at the
    end; this holds of the executions that stop on the way too (after an
    explanation, a clear or an exception). *)
Theorem run_well_nested w (s0 : Stored) : page_scan (rendered (run w s0)) 0 = Some 0.
Proof. rewrite run_rendered. apply page_step_nesting. Qed.

End page_nesting.

(** The two tags of the comparison section are alone in their calls of
    [st.markdown]: the opening tag is a block of its own that leaves one
    [div] open, the closing tag a block of its own that closes a [div] it
    has not opened, and every other block, read alone, is well nested. *)
Theorem html_text_nesting b :
  scan (html_text b) 0 =
  match b with
  | ComparisonOpenHtml => Some 1
  | DivCloseHtml => None
  | _ => Some 0
  end.
Proof. by destruct b; vm_compute. Qed.

(** The style sheet has a rule for every class the markup uses, and one
    rule of its own for a class no markup uses, [upload-section]. *)
Theorem classes_styled :
  classes_used = ["main-header"; "feature-card"; "comparison-section"] /\
  own_rules = ["main-header"; "feature-card"; "upload-section"; "comparison-section"].
Proof. by vm_compute. Qed.
