(* ===== verification/Keys.v ===== *)
(** * Keys: the identity of the widgets of a page

    Streamlit gives every widget of an execution an identity: the key
    when the call passes [key=], and otherwise the kind of the widget
    with the arguments of the call, of which the label is the one that
    tells the widgets of this script apart.  An execution that creates
    two widgets with the same key, or two widgets without a key with the
    same kind and arguments, ends with [DuplicateWidgetID].

    The script passes three keys ([main_file_uploader], line 93,
    [main_code_input], line 115, [explain_optimized_btn], line 336) and
    creates five widgets without one: the four action buttons (lines
    247-253) and the download button (lines 342-348).  This file names
    the identity of each element of a page and shows that no execution,
    however it ends, creates a widget twice; with it the exceptions of
    an execution are those of [Run] and [Precedence], and the state the
    browser keeps under [main_code_input] belongs to one widget. *)

From Stdlib Require Import String List.
From stdpp Require Import base tactics option list strings.
From S2P Require Import Prelude PyString PyData Language Prompt Session.
From S2P Require Import Script Controller Run Page.

(** ** Identity *)

(** The kinds of widget the script creates. *)
Inductive WidgetKind : Type :=
| FileUploader
| TextArea
| Button
| DownloadButton.

#[export] Instance WidgetKind_eq_dec : EqDecision WidgetKind.
Proof. solve_decision. Defined.

(** The label of line 336, the only button with a key. *)
Definition explain_optimized_label : string := "📖 Explain Optimized Code".

(** The [key=] argument of the call that creates [e] (lines 93, 115 and
    336); the other calls pass none.  An element of the page carries no
    key: the call is known by the kind of the element, and the button
    of line 336 by its label. *)
Definition key_of (e : Element) : option string :=
  match e with
  | EFileUploader => Some "main_file_uploader"
  | ETextArea _ => Some "main_code_input"
  | EButton label =>
      if decide (label = explain_optimized_label)
      then Some "explain_optimized_btn" else None
  | _ => None
  end.

(** The kind and the label of a widget; the elements that only display
    have none. *)
Definition widget_of (e : Element) : option (WidgetKind * string) :=
  match e with
  | EFileUploader => Some (FileUploader, " ")
  | ETextArea _ => Some (TextArea, " ")
  | EButton label => Some (Button, label)
  | EDownloadButton _ _ _ => Some (DownloadButton, "📥 Download Optimized Code")
  | _ => None
  end.

(** The identity of a widget: its kind, its key and its label. *)
Definition widget_id (e : Element) : option (WidgetKind * option string * string) :=
  '(kind, label) ← widget_of e; Some (kind, key_of e, label).

(** The keys and the identities of a page, in order. *)
Definition user_keys (page : list Element) : list string := omap key_of page.
Definition widget_ids (page : list Element) :
  list (WidgetKind * option string * string) := omap widget_id page.

(** The execution of a page goes through: no key and no identity comes
    twice. *)
Definition no_duplicate_widget (page : list Element) : Prop :=
  NoDup (user_keys page) /\ NoDup (widget_ids page).

#[export] Instance no_duplicate_widget_dec page : Decision (no_duplicate_widget page).
Proof. unfold no_duplicate_widget. apply _. Defined.

(** The widgets of the script in the order of the source: the uploader,
    the text area, the four actions, and the two of the comparison
    view. *)
Definition script_widgets : list Element :=
  [EFileUploader; ETextArea "";
   EButton "🧹 Optimize Code"; EButton "📖 Explain Code";
   EButton "↩️ Revert"; EButton "🗑️ Clear All";
   EButton explain_optimized_label;
   EDownloadButton VNone "" "text/plain"].

(** ** Every page creates a part of the widgets of the script, in order *)

Section identity.
Context `{Lexer} `{Chains}.
Implicit Types (w : Widgets) (s : SessionState) (l : Locals).
Implicit Types (e : Element) (es : list Element).

Lemma key_of_id e : key_of e = widget_id e ≫= fun i => i.1.2.
Proof. by destruct e. Qed.

(** The keys are read off the identities. *)
Lemma user_keys_ids es : user_keys es = omap (fun i => i.1.2) (widget_ids es).
Proof.
  unfold user_keys, widget_ids. induction es as [|e es IH]; [done|].
  cbn [omap list_omap]. rewrite key_of_id, IH. by destruct (widget_id e).
Qed.

Lemma widget_ids_app es es' : widget_ids (es ++ es') = widget_ids es ++ widget_ids es'.
Proof. apply omap_app. Qed.

(** A page whose widgets are a part of the widgets of the script, in
    order, has no duplicate. *)
Lemma sublist_no_duplicate es :
  widget_ids es `sublist_of` widget_ids script_widgets -> no_duplicate_widget es.
Proof.
  intros Hsub. split; [rewrite user_keys_ids|].
  - eapply sublist_NoDup; [|by apply omap_sublist, Hsub].
    by apply (bool_decide_unpack _); vm_compute.
  - eapply sublist_NoDup; [|done]. by apply (bool_decide_unpack _); vm_compute.
Qed.

Lemma revert_page_ids w s : widget_ids (revert_page w s) = [].
Proof. unfold revert_page. by repeat case_match. Qed.

Lemma optimize_page_ids w l : widget_ids (optimize_page w l) = [].
Proof. unfold optimize_page. by case_match. Qed.

Lemma end_page_ids o : widget_ids (end_page o) = [].
Proof. by destruct o. Qed.

Lemma explain_optimized_page_ids w text lang :
  widget_ids (explain_optimized_page w text lang) = [].
Proof. unfold explain_optimized_page. by repeat case_match. Qed.

Lemma comparison_page_ids w s :
  widget_ids (comparison_page w s) `sublist_of` drop 6 (widget_ids script_widgets).
Proof.
  unfold comparison_page. repeat case_match; try apply sublist_nil_l.
  by rewrite widget_ids_app, explain_optimized_page_ids.
Qed.

Lemma explain_page_ids w l es k :
  widget_ids es `sublist_of` k -> widget_ids (explain_page w l es) `sublist_of` k.
Proof. unfold explain_page. intros. repeat case_match; by try apply sublist_nil_l. Qed.

(** What follows the action buttons creates widgets of the comparison
    view only. *)
Lemma handlers_page_ids w s :
  widget_ids
    (revert_page w s ++
     let '(s1, l1) := revert_step w (initial_locals w s) s in
     if clear_btn w then []
     else optimize_page w l1 ++
          match optimize_step w l1 (ready s1) with
          | Ok (s2, l2) =>
              explain_page w l2
                (comparison_page w s2 ++ end_page (comparison_outcome w s2))
          | Err _ => []
          end)
  `sublist_of` drop 6 (widget_ids script_widgets).
Proof.
  rewrite widget_ids_app, revert_page_ids. destruct (revert_step _ _ _) as [s1 l1].
  destruct (clear_btn w); [apply sublist_nil_l|].
  rewrite widget_ids_app, optimize_page_ids.
  destruct (optimize_step _ _ _) as [[s2 l2]|x]; [|apply sublist_nil_l].
  apply explain_page_ids.
  rewrite widget_ids_app, end_page_ids, app_nil_r. apply comparison_page_ids.
Qed.

Lemma page_step_ids w s :
  widget_ids (page_step w s) `sublist_of` widget_ids script_widgets.
Proof.
  unfold page_step. rewrite widget_ids_app.
  apply (sublist_app _ [_] _ (drop 1 (widget_ids script_widgets))); [done|].
  destruct (uploaded_code_of w); [|apply sublist_nil_l].
  rewrite widget_ids_app.
  apply (sublist_app _ (take 5 (drop 1 (widget_ids script_widgets)))); [done|].
  apply handlers_page_ids.
Qed.

(** C24: no execution ends with [DuplicateWidgetID]: whatever the widgets of
    the browser and the session state, and however the execution ends,
    no two widgets of its page have the same key and no two have the
    same kind, key and label. *)
Theorem run_no_duplicate_widget w (s0 : Stored) :
  no_duplicate_widget (rendered (run w s0)).
Proof. rewrite run_rendered. apply sublist_no_duplicate, page_step_ids. Qed.

End identity.
