(* ===== verification/Layout.v ===== *)
(** * Layout: the columns of the page and the options of the widgets

    [Script] and [Controller] give the page as the list of the output
    calls.  This file adds where each call puts its element: on the page
    itself or in a column of one of the four rows the script makes with
    [st.columns] (lines 85, 245, 328 and 340), and the options of the
    widgets that change their look only.  [layout_step] is the page of
    [page_step] with the place of every element; the theorems show that
    it is that page, that the names the script unpacks a row into are as
    many as its columns, that a column is never filled from two places
    of the script, and what stands side by side. *)

From Stdlib Require Import String List.
From stdpp Require Import base tactics option list strings.
From S2P Require Import Prelude PyString PyData Language Prompt Session.
From S2P Require Import Script Controller Run.

(** ** Rows and places *)

(** The rows of columns, one per call of [st.columns]. *)
Inductive Row : Type :=
| UploadRow        (* line 85: the heading and the uploader *)
| ActionsRow       (* line 245: the four action buttons *)
| ComparisonRow    (* line 328: the original and the optimized code *)
| DownloadRow.     (* line 340: the download button and its note *)

#[export] Instance Row_eq_dec : EqDecision Row.
Proof. solve_decision. Defined.

(** The argument of [st.columns]: the relative widths of the columns
    ([st.columns(2)] is two columns of the same width). *)
Definition weights (r : Row) : list nat :=
  match r with
  | UploadRow => [6; 1]
  | ActionsRow => [1; 1; 1; 1]
  | ComparisonRow => [1; 1]
  | DownloadRow => [1; 3]
  end.

(** [gap=] of the call. *)
Definition gap (r : Row) : option string :=
  match r with
  | UploadRow => Some "small"
  | _ => None
  end.

(** The names the result of the call is unpacked into. *)
Definition unpacked (r : Row) : list string :=
  match r with
  | UploadRow => ["col_head"; "col_upload"]
  | ActionsRow => ["col1"; "col2"; "col3"; "col4"]
  | ComparisonRow => ["c1"; "c2"]
  | DownloadRow => ["col1"; "col2"]
  end.

(** Where an output call puts its element: on the page, or in the
    column [i] of a row (the block [with] the call stands in). *)
Inductive Place : Type :=
| Main
| Column (r : Row) (i : nat).

#[export] Instance Place_eq_dec : EqDecision Place.
Proof. solve_decision. Defined.

(** Elements outside every [with] block. *)
Definition main (es : list Element) : list (Place * Element) := pair Main <$> es.

(** ** The blocks of the page with their places *)

(** Lines 48-97. *)
Definition upload_layout : list (Place * Element) :=
  [(Main, EHtml HeaderHtml); (Main, EHtml FeaturesHtml);
   (Column UploadRow 0, EHtml PasteHeadingHtml);
   (Column UploadRow 1, EFileUploader)].

(** Lines 106-253. *)
Definition actions_layout (w : Widgets) (s : SessionState) : list (Place * Element) :=
  [(Main, ETextArea (text_area_value w s));
   (Main, EMarkdown (VStr "### ⚡ Actions"));
   (Column ActionsRow 0, EButton "🧹 Optimize Code");
   (Column ActionsRow 1, EButton "📖 Explain Code");
   (Column ActionsRow 2, EButton "↩️ Revert");
   (Column ActionsRow 3, EButton "🗑️ Clear All")].

(** Lines 325-351. *)
Definition comparison_view_layout (last : Entry) : list (Place * Element) :=
  [(Main, EHtml ComparisonOpenHtml);
   (Main, EMarkdown (VStr "### 📊 Code Comparison"));
   (Column ComparisonRow 0, EMarkdown (VStr "**📝 Original Code**"));
   (Column ComparisonRow 0, ECode (VStr (messy last)) (language last));
   (Column ComparisonRow 1, EMarkdown (VStr "**✨ Optimized & Commented Code**"));
   (Column ComparisonRow 1, ECode (cleaned last) (language last));
   (Column ComparisonRow 1, EButton "📖 Explain Optimized Code");
   (Main, EMarkdown (VStr "### 💾 Download"));
   (Column DownloadRow 0,
    EDownloadButton (cleaned last) (download_name (language last)) "text/plain");
   (Column DownloadRow 1, EInfo "💡 Your optimized code is ready for download!");
   (Main, EHtml DivCloseHtml)].

Section layout.
Context `{Lexer} `{Chains}.
Implicit Types (w : Widgets) (l : Locals) (s : SessionState).

(** Lines 314-359: the explanation of the optimized code is outside the
    columns ("full width"). *)
Definition comparison_layout w s : list (Place * Element) :=
  match last (history s) with
  | None => []
  | Some e =>
      match cleaned e with
      | VStr text =>
          if comparison_shown text e s
          then comparison_view_layout e ++ main (explain_optimized_page w text (language e))
          else []
      | VNone | VDict _ => []
      end
  end.

(** Lines 301-311, which use no column. *)
Definition explain_layout w l (otherwise : list (Place * Element)) :
    list (Place * Element) :=
  if explain_btn w && truthy (Str.strip (messy_code l))
  then main (explain_page w l [])
  else otherwise.

(** One execution: what it puts where. *)
Definition layout_step w s : list (Place * Element) :=
  upload_layout ++
  match uploaded_code_of w with
  | None => []
  | Some _ =>
      actions_layout w s ++ main (revert_page w s) ++
      let '(s1, l1) := revert_step w (initial_locals w s) s in
      if clear_btn w then []
      else
        main (optimize_page w l1) ++
        match optimize_step w l1 (ready s1) with
        | Ok (s2, l2) =>
            explain_layout w l2
              (comparison_layout w s2 ++ main (end_page (comparison_outcome w s2)))
        | Err _ => []
        end
  end.

End layout.

(** ** Options *)

(** The value of an option of a widget. *)
Inductive OptionValue : Type :=
| OInt (n : nat)
| OBool (b : bool)
| OStr (s : string)
| ONone.

(** The options of the call that makes [e] which change the look of the
    widget only (lines 93, 112-114, 247-253, 336 and 347). *)
Definition options (e : Element) : list (string * OptionValue) :=
  match e with
  | EFileUploader =>
      [("type", ONone); ("help", OStr "Upload any code file to get started")]
  | ETextArea _ =>
      [("height", OInt 300);
       ("placeholder", OStr "Paste your messy or unformatted code here...");
       ("help", OStr "Enter the code you want to optimize and document")]
  | EButton label =>
      if decide (label = "📖 Explain Optimized Code") then []
      else [("use_container_width", OBool true)]
  | EDownloadButton _ _ _ => [("use_container_width", OBool true)]
  | _ => []
  end.

(** ** Definitions used to state the properties *)

(** The place is on the page or in a column the row has. *)
Definition place_ok (p : Place) : bool :=
  match p with
  | Main => true
  | Column r i => bool_decide (i < length (weights r))
  end.

(** The columns a layout fills, in the order of the page. *)
Definition column_places (page : list (Place * Element)) : list (Row * nat) :=
  omap (fun pe => match pe.1 with
                  | Column r i => Some (r, i)
                  | Main => None
                  end) page.

(** The [with] blocks of the script in the order of the source, one
    entry per output call in the block. *)
Definition script_columns : list (Row * nat) :=
  [(UploadRow, 0); (UploadRow, 1);
   (ActionsRow, 0); (ActionsRow, 1); (ActionsRow, 2); (ActionsRow, 3);
   (ComparisonRow, 0); (ComparisonRow, 0);
   (ComparisonRow, 1); (ComparisonRow, 1); (ComparisonRow, 1);
   (DownloadRow, 0); (DownloadRow, 1)].

(** The part of the widths of its row a column gets, as a fraction. *)
Definition share (r : Row) (i : nat) : nat * nat :=
  (default 0 (weights r !! i), foldr Nat.add 0 (weights r)).

(** ** The layout is the page *)

Section layout_lemmas.
Context `{Lexer} `{Chains}.
Implicit Types (w : Widgets) (l : Locals) (s : SessionState) (es : list Element).

Lemma main_page es : (main es).*2 = es.
Proof. unfold main. rewrite <- list_fmap_compose. apply list_fmap_id. Qed.

Lemma comparison_layout_page w s : (comparison_layout w s).*2 = comparison_page w s.
Proof.
  unfold comparison_layout, comparison_page. repeat case_match; try done.
  by rewrite fmap_app, main_page.
Qed.

Lemma explain_layout_page w l o : (explain_layout w l o).*2 = explain_page w l o.*2.
Proof. unfold explain_layout, explain_page. case_match; [apply main_page|done]. Qed.

Lemma layout_step_page w s : (layout_step w s).*2 = page_step w s.
Proof.
  unfold layout_step, page_step. rewrite fmap_app. f_equal.
  destruct (uploaded_code_of w); [|done]. rewrite !fmap_app, main_page. do 2 f_equal.
  destruct (revert_step _ _ _) as [s1 l1]. destruct (clear_btn w); [done|].
  rewrite fmap_app, main_page. f_equal.
  destruct (optimize_step _ _ _) as [[s2 l2]|x]; [|done].
  by rewrite explain_layout_page, fmap_app, comparison_layout_page, main_page.
Qed.

Lemma column_places_app (p q : list (Place * Element)) :
  column_places (p ++ q) = column_places p ++ column_places q.
Proof. apply omap_app. Qed.

Lemma column_places_main es : column_places (main es) = [].
Proof. by induction es. Qed.

Lemma comparison_layout_columns w s :
  column_places (comparison_layout w s) `sublist_of` drop 6 script_columns.
Proof.
  unfold comparison_layout. repeat case_match; try apply sublist_nil_l.
  by rewrite column_places_app, column_places_main.
Qed.

Lemma explain_layout_columns w l o k :
  column_places o `sublist_of` k -> column_places (explain_layout w l o) `sublist_of` k.
Proof.
  unfold explain_layout. intros. case_match; [|done].
  rewrite column_places_main. apply sublist_nil_l.
Qed.

(** Every page fills a part of the columns of the script, in the order
    of the source. *)
Lemma layout_step_columns w s :
  column_places (layout_step w s) `sublist_of` script_columns.
Proof.
  unfold layout_step. rewrite column_places_app.
  apply (sublist_app _ (take 2 script_columns) _ (drop 2 script_columns)); [done|].
  destruct (uploaded_code_of w); [|apply sublist_nil_l].
  rewrite !column_places_app, column_places_main.
  apply (sublist_app _ (take 4 (drop 2 script_columns))); [done|]. cbn [app].
  destruct (revert_step _ _ _) as [s1 l1]. destruct (clear_btn w); [apply sublist_nil_l|].
  rewrite column_places_app, column_places_main. cbn [app].
  destruct (optimize_step _ _ _) as [[s2 l2]|x]; [|apply sublist_nil_l].
  apply explain_layout_columns.
  rewrite column_places_app, column_places_main, app_nil_r. apply comparison_layout_columns.
Qed.

Lemma place_ok_columns (page : list (Place * Element)) :
  Forall (fun ri => ri.2 < length (weights ri.1)) (column_places page) ->
  Forall (fun pe => place_ok pe.1 = true) page.
Proof.
  induction page as [|[[|r i] e] page IH]; cbn [column_places omap list_omap fst];
    [done|by constructor; auto|].
  intros [Hi Hp]%Forall_cons. constructor; [by apply bool_decide_eq_true|by apply IH].
Qed.

(** The page of an execution is its layout without the places. *)
Theorem layout_refines_page w (s0 : Stored) :
  (layout_step w (init_session_state s0)).*2 = rendered (run w s0).
Proof. by rewrite run_rendered, layout_step_page. Qed.

(** The rows are unpacked into as many names as they have columns, so
    that no call of [st.columns] ends with [ValueError]; every element of
    a page is on the page itself or in a column its row has; and the
    columns are filled in the order of the source, no [with] block
    twice. *)
Theorem layout_columns w s :
  (forall r, length (unpacked r) = length (weights r)) /\
  Forall (fun pe => place_ok pe.1 = true) (layout_step w s) /\
  column_places (layout_step w s) `sublist_of` script_columns.
Proof.
  split; [by intros []|]. split; [|apply layout_step_columns].
  apply place_ok_columns. eapply sublist_Forall; [apply layout_step_columns|].
  by apply (bool_decide_unpack _); vm_compute.
Qed.

(** The widths: the heading takes six parts of seven and the uploader
    one; the download button a quarter of its row. *)
Example shares :
  share UploadRow 0 = (6, 7) /\ share UploadRow 1 = (1, 7) /\ share DownloadRow 0 = (1, 4).
Proof. done. Qed.

End layout_lemmas.
