(* ===== verification/Sessions.v ===== *)
(** * Sessions: sequences of executions

    A browser session is a sequence of user actions, each of which
    causes one execution of the script, or two when the first asks for a
    rerun ([interact]).  This file holds the state machine of the
    specification and the proof that the executions follow it, the stored
    states a session can reach with the invariants they satisfy (by
    induction on the sequence of actions), and the scenarios of the
    specification. *)

From Stdlib Require Import Ascii String List ZArith Lia.
From stdpp Require Import base tactics option list strings.
From S2P Require Import Prelude PyString PyData Language Prompt Session.
From S2P Require Import Script Invariant Controller Run Page.

(** ** Definitions used to state the properties *)

(** *** The state machine of the specification

    [EMPTY --optimize(success)--> HAS_HISTORY],
    [HAS_HISTORY --optimize(success)--> HAS_HISTORY (append)],
    [HAS_HISTORY --revert(len>1)--> HAS_HISTORY (pop)],
    [HAS_HISTORY --revert(len<=1)--> HAS_HISTORY (no-op)],
    [(EMPTY|HAS_HISTORY) --explain--> SHOWING_EXPLANATION --(render
    complete)--> previous state],
    [(EMPTY|HAS_HISTORY) --clearAll--> EMPTY]; the initial state is
    [EMPTY]. *)

(** The two states in which no explanation is shown. *)
Inductive Resting : Type :=
| EMPTY
| HAS_HISTORY.

(** The states of the machine; the third remembers the state the end of
    the rendering leads back to. *)
Inductive Mode : Type :=
| At (r : Resting)
| SHOWING_EXPLANATION (previous : Resting).

Coercion At : Resting >-> Mode.

(** The labels of the transitions. *)
Inductive Transition : Type :=
| TOptimize          (* optimize(success) *)
| TRevertPop         (* revert(len>1) *)
| TRevertNoop        (* revert(len<=1) *)
| TExplain           (* explain *)
| TRenderComplete    (* (render complete) *)
| TClearAll.         (* clearAll *)

#[export] Instance Resting_eq_dec : EqDecision Resting.
Proof. solve_decision. Defined.
#[export] Instance Mode_eq_dec : EqDecision Mode.
Proof. solve_decision. Defined.
#[export] Instance Transition_eq_dec : EqDecision Transition.
Proof. solve_decision. Defined.

(** The transitions, as the specification lists them.  There is none
    for revert in [EMPTY], and none but the end of the rendering in
    [SHOWING_EXPLANATION]. *)
Inductive machine_step : Mode -> Transition -> Mode -> Prop :=
| ms_optimize_first : machine_step EMPTY TOptimize HAS_HISTORY
| ms_optimize_append : machine_step HAS_HISTORY TOptimize HAS_HISTORY
| ms_revert_pop : machine_step HAS_HISTORY TRevertPop HAS_HISTORY
| ms_revert_noop : machine_step HAS_HISTORY TRevertNoop HAS_HISTORY
| ms_explain r : machine_step (At r) TExplain (SHOWING_EXPLANATION r)
| ms_render_complete r : machine_step (SHOWING_EXPLANATION r) TRenderComplete (At r)
| ms_clear r : machine_step (At r) TClearAll EMPTY.

(** What a transition does to the number of entries of the history
    (append, pop, no-op), with the guard of the two reverts. *)
Definition history_effect (t : Transition) (n : nat) : option nat :=
  match t with
  | TOptimize => Some (S n)
  | TRevertPop => if (1 <? n)%nat then Some (pred n) else None
  | TRevertNoop => if (n <=? 1)%nat then Some n else None
  | TExplain | TRenderComplete => Some n
  | TClearAll => Some 0%nat
  end.

(** A sequence of transitions of the machine, from a state and a number
    of entries to a state and a number of entries. *)
Inductive machine_path : Mode * nat -> list Transition -> Mode * nat -> Prop :=
| mp_nil c : machine_path c [] c
| mp_cons m n t m1 n1 ts c :
    machine_step m t m1 -> history_effect t n = Some n1 ->
    machine_path (m1, n1) ts c -> machine_path (m, n) (t :: ts) c.

(** The machine as a function: the state after a transition, when the
    machine has it. *)
Definition machine_next (m : Mode) (t : Transition) : option Mode :=
  match m, t with
  | At _, TOptimize => Some (At HAS_HISTORY)
  | At HAS_HISTORY, (TRevertPop | TRevertNoop) => Some (At HAS_HISTORY)
  | At r, TExplain => Some (SHOWING_EXPLANATION r)
  | SHOWING_EXPLANATION r, TRenderComplete => Some (At r)
  | At _, TClearAll => Some (At EMPTY)
  | _, _ => None
  end.

Fixpoint machine_run (c : Mode * nat) (ts : list Transition) : option (Mode * nat) :=
  match ts with
  | [] => Some c
  | t :: ts =>
      m1 ← machine_next c.1 t; n1 ← history_effect t c.2; machine_run (m1, n1) ts
  end.

(** *** The session state and the execution, as the machine sees them *)

(** The state of the machine for a session state: [SHOWING_EXPLANATION]
    while the flag of line 302 is up, and otherwise by the history. *)
Definition resting (s : SessionState) : Resting :=
  if truthy (history s) then HAS_HISTORY else EMPTY.

Definition mode_of (s : SessionState) : Mode :=
  if get_show_explanation_only s then SHOWING_EXPLANATION (resting s)
  else At (resting s).

(** The state and the number of entries, with the flag and without. *)
Definition config_of (s : SessionState) : Mode * nat :=
  (mode_of s, length (history s)).
Definition resting_config (s : SessionState) : Mode * nat :=
  (At (resting s), length (history s)).

(** The transition lowers the flag when the script takes it: lines 298
    and 302-310. *)
Definition writes_flag (t : Transition) : bool :=
  match t with
  | TOptimize | TExplain => true
  | _ => false
  end.

Section transitions.
Context `{Lexer} `{Chains}.
Implicit Types (w : Widgets) (s : SessionState) (l : Locals).

(** Lines 256-266: the revert that pops, and the one that only warns;
    on an empty history the machine has no transition and the script
    changes nothing. *)
Definition revert_transitions w s : list Transition :=
  if revert_btn w then
    if (1 <? length (history s))%nat then [TRevertPop]
    else if truthy (history s) then [TRevertNoop] else []
  else [].

(** Lines 288-298: an optimize is a transition when the chain answers. *)
Definition optimize_transitions w l : list Transition :=
  if optimize_btn w && truthy (Str.strip (messy_code l)) then
    match chain_invoke (chain_inputs (messy_code l) (detected_language l)) with
    | Ok _ => [TOptimize]
    | Err _ => []
    end
  else [].

(** Lines 301-311: the explanation is shown from line 302 on, and the
    rendering is complete at line 310, which a chain that raises does
    not reach. *)
Definition explain_transitions w l : list Transition :=
  if explain_btn w && truthy (Str.strip (messy_code l)) then
    match explain_chain_invoke (chain_inputs (messy_code l) (detected_language l)) with
    | Ok _ => [TExplain; TRenderComplete]
    | Err _ => [TExplain]
    end
  else [].

(** The transitions one execution takes, in the order of the handlers. *)
Definition transitions w s : list Transition :=
  match uploaded_code_of w with
  | None => []
  | Some _ =>
      let '(s1, l1) := revert_step w (initial_locals w s) s in
      revert_transitions w s ++
      if clear_btn w then [TClearAll]
      else
        optimize_transitions w l1 ++
        match optimize_step w l1 (ready s1) with
        | Ok (_, l2) => explain_transitions w l2
        | Err _ => []
        end
  end.

End transitions.

(** The execution with the widgets [w] from the session state [s] is an
    optimize that succeeds with the answer [v]. *)
Definition optimizes `{Lexer} `{Chains} (w : Widgets) (s : SessionState)
    (v : PyVal) : Prop :=
  pressed PressOptimize w /\ is_Some (uploaded_code_of w) /\
  truthy (Str.strip (typed_code w s)) = true /\
  chain_invoke (chain_inputs (typed_code w s)
                  (detect_language (uploaded_file w) (typed_code w s))) = Ok v.

(** The stored session state is well formed: the cleaned codes are text,
    the original codes are not blank and the clear flag is down. *)
Definition stored_ok (s : Stored) : Prop :=
  history_ok (init_session_state s) /\
  Forall (fun e => truthy (Str.strip (messy e)) = true)
    (history (init_session_state s)) /\
  clear_triggered (init_session_state s) = false.

(** The stored states of a session: the one of a new session, and what
    an action of the user makes of one of them, with chains that return
    text. *)
Inductive reachable `{Lexer} : Stored -> Prop :=
| reach_new : reachable empty_store
| reach_interact s (c1 c2 : Chains) w edited :
    TextChains c1 -> TextChains c2 -> reachable s ->
    reachable (final (interact c1 c2 w edited s)).

(** ** One action of the user *)

Section interact_lemmas.
Context `{Lexer}.
Implicit Types (w : Widgets).

Lemma pressed_without_buttons w : pressed Idle (without_buttons w).
Proof. done. Qed.

Lemma uploaded_without_buttons w :
  uploaded_code_of (without_buttons w) = uploaded_code_of w.
Proof. done. Qed.

(** A step asks for a rerun exactly when clear is pressed and the upload
    decodes. *)
Lemma step_rerun_iff `{Chains} w s :
  (step w s).2 = Halted Rerun <-> is_Some (uploaded_code_of w) /\ clear_btn w = true.
Proof.
  destruct (uploaded_code_of w) as [c|] eqn:Hu;
    [|rewrite step_decode_error by done; split; [done|by intros [[] _]]].
  destruct (clear_btn w) eqn:Hc; [by rewrite (step_clear _ _ _ Hu Hc)|].
  split; [|by intros []]. unfold step. rewrite Hu, Hc.
  destruct (revert_step _ _ _) as [s1 l1].
  unfold explain_step, comparison_outcome, explain_optimized_outcome.
  by repeat case_match.
Qed.

Lemma interact_rerun c1 c2 w edited (s : Stored) c :
  uploaded_code_of w = Some c -> clear_btn w = true ->
  interact c1 c2 w edited s =
  @run _ c2 (without_buttons w)
    (store (clear_session (init_session_state (apply_edit edited s)))).
Proof.
  intros Hu Hc. unfold interact.
  by rewrite run_outcome, run_final, (step_clear _ _ _ Hu Hc).
Qed.

Lemma interact_once c1 c2 w edited (s : Stored) :
  ~ (is_Some (uploaded_code_of w) /\ clear_btn w = true) ->
  interact c1 c2 w edited s = @run _ c1 w (apply_edit edited s).
Proof.
  intros Hn. unfold interact.
  destruct (outcome _) as [|[]] eqn:Ho; try done.
  rewrite run_outcome in Ho. by apply step_rerun_iff in Ho.
Qed.

End interact_lemmas.

(** ** The executions follow the machine of the specification *)

Section machine.
Context `{Lexer} `{Chains}.
Implicit Types (w : Widgets) (s : SessionState) (a : Action).

Implicit Types (l : Locals) (ts : list Transition) (c : Mode * nat).

(** The function and the relation are the same machine. *)
Lemma machine_next_step m t m1 : machine_next m t = Some m1 <-> machine_step m t m1.
Proof.
  split; [|by intros []; try destruct r].
  destruct m as [[]|[]], t; intros [= <-]; constructor.
Qed.

Lemma machine_run_path c ts c1 : machine_run c ts = Some c1 <-> machine_path c ts c1.
Proof.
  revert c. induction ts as [|t ts IH]; intros [m n]; cbn [machine_run fst snd].
  - split; [by intros [= <-]; constructor|by inversion 1].
  - split.
    + destruct (machine_next m t) as [m1|] eqn:Hm; [|done].
      destruct (history_effect t n) as [n1|] eqn:Hn; [|done].
      intros Hr%IH. by apply (mp_cons _ _ _ m1 n1); [apply machine_next_step|..].
    + inversion 1 as [|??????? Hs Hn Hp]; subst.
      apply machine_next_step in Hs. rewrite Hs, Hn. by apply IH.
Qed.

Lemma machine_path_app c ts c1 ts' c2 :
  machine_path c ts c1 -> machine_path c1 ts' c2 -> machine_path c (ts ++ ts') c2.
Proof. induction 1; [done|]. intros. by econstructor; eauto. Qed.

Lemma resting_config_eq s s' :
  history s' = history s -> resting_config s' = resting_config s.
Proof. unfold resting_config, resting. by intros ->. Qed.

(** The handlers, one by one, on the state without the flag. *)
Lemma revert_path w l s :
  machine_path (resting_config s) (revert_transitions w s)
    (resting_config (revert_step w l s).1).
Proof.
  unfold resting_config, resting, revert_transitions. rewrite revert_step_history.
  destruct (revert_btn w); [|constructor]. cbn [andb].
  destruct (history s) as [|x [|y h]] eqn:Hh; try by repeat econstructor.
  change (1 <? length (x :: y :: h))%nat with true. cbv iota.
  rewrite (@PyList.pylist_removelast_length Entry). by repeat econstructor.
Qed.

Lemma clear_path s :
  machine_path (resting_config s) [TClearAll] (resting_config (clear_session s)).
Proof. by repeat econstructor. Qed.

Lemma optimize_path w l s :
  match optimize_step w l s with
  | Ok (s2, _) =>
      machine_path (resting_config s) (optimize_transitions w l) (resting_config s2) /\
      if existsb writes_flag (optimize_transitions w l)
      then get_show_explanation_only s2 = false else s2 = s
  | Err _ => optimize_transitions w l = []
  end.
Proof.
  unfold optimize_step, optimize_transitions.
  destruct (optimize_btn w && truthy _); [|by split; [constructor|]].
  destruct (chain_invoke _) as [v|e]; [|done]. split; [|done].
  unfold resting_config, resting. cbn [set_show_explanation_only history].
  rewrite append_entry_history, truthy_snoc, length_app, Nat.add_1_r.
  by destruct (truthy (history s)); repeat econstructor.
Qed.

Lemma explain_path w l s o :
  machine_path (resting_config s) (explain_transitions w l)
    (if existsb writes_flag (explain_transitions w l)
     then config_of (explain_step w l s o).1 else resting_config s) /\
  (existsb writes_flag (explain_transitions w l) = false -> (explain_step w l s o).1 = s).
Proof.
  unfold explain_step, explain_transitions.
  destruct (explain_btn w && truthy _); [|by split; [constructor|]].
  destruct (explain_chain_invoke _) as [v|e]; (split; [|done]); by repeat econstructor.
Qed.

Lemma revert_transitions_flag w s : existsb writes_flag (revert_transitions w s) = false.
Proof. unfold revert_transitions. by repeat case_match. Qed.

Lemma revert_step_show w l s :
  get_show_explanation_only (revert_step w l s).1 = get_show_explanation_only s.
Proof. unfold revert_step. by case_match. Qed.

Lemma config_of_down s : get_show_explanation_only s = false -> config_of s = resting_config s.
Proof. unfold config_of, resting_config, mode_of. by intros ->. Qed.

(** One step of the controller takes the transitions of the machine
    from the state the history gives.  It ends in the state of the
    session when a transition writes the flag; otherwise the flag is as
    it was. *)
Lemma step_follows_machine w s :
  machine_path (resting_config s) (transitions w s)
    (if existsb writes_flag (transitions w s)
     then config_of (step w s).1 else resting_config (step w s).1) /\
  (existsb writes_flag (transitions w s) = false ->
   get_show_explanation_only (step w s).1 = get_show_explanation_only s).
Proof.
  unfold step, transitions. destruct (uploaded_code_of w); [|by split; [constructor|]].
  pose proof (revert_path w (initial_locals w s) s) as Hr.
  pose proof (revert_step_show w (initial_locals w s) s) as Hf.
  destruct (revert_step _ _ _) as [s1 l1]. cbn [fst] in Hr, Hf.
  rewrite existsb_app, revert_transitions_flag. cbn [orb]. destruct (clear_btn w).
  { split; [|done]. eapply machine_path_app; [done|apply clear_path]. }
  pose proof (optimize_path w l1 (ready s1)) as Ho.
  rewrite (resting_config_eq s1 (ready s1)) in Ho by apply ready_history.
  destruct (optimize_step _ _ _) as [[s2 l2]|e].
  - destruct Ho as [Ho Hw]. rewrite existsb_app.
    destruct (explain_path w l2 s2 (comparison_outcome w s2)) as [He Hs].
    destruct (existsb writes_flag (explain_transitions w l2)) eqn:Hx.
    + rewrite orb_true_r. split; [|done]. by repeat (eapply machine_path_app; [done|]).
    + rewrite orb_false_r, Hs by done. clear Hs.
      destruct (existsb writes_flag (optimize_transitions w l1)).
      * split; [|done]. rewrite config_of_down by done.
        by repeat (eapply machine_path_app; [done|]).
      * subst s2. split; [by repeat (eapply machine_path_app; [done|])|].
        intros _. by rewrite ready_show.
  - rewrite Ho, app_nil_r. cbn [app existsb fst].
    rewrite (resting_config_eq s1 (ready s1)) by apply ready_history.
    split; [done|]. intros _. by rewrite ready_show.
Qed.

(** C28: every execution, however it ends, follows the state machine of
    the specification as long as no explanation is pending: from a
    session state with the flag down, the transitions it takes (with the
    effect on the number of entries the specification gives them) lead
    from the state of the machine before to the state after.  The machine
    leaves [SHOWING_EXPLANATION] when the rendering is complete; the
    script stays in it when the chain of explain raised, and from such a
    state, with the flag up, the rendering completes with the next
    optimize or explain, and until then revert and clear act on the
    history as they do in the resting states, for which the machine has
    no transition. *)
Theorem run_follows_machine w (s0 : Stored) :
  let s := init_session_state s0 in
  let s' := init_session_state (final (run w s0)) in
  (get_show_explanation_only s = false ->
   machine_path (config_of s) (transitions w s) (config_of s')) /\
  (get_show_explanation_only s = true ->
   if existsb writes_flag (transitions w s)
   then machine_path (config_of s) (TRenderComplete :: transitions w s) (config_of s')
   else mode_of s' = SHOWING_EXPLANATION (resting s') /\
        machine_path (resting_config s) (transitions w s) (resting_config s')).
Proof.
  cbv zeta. rewrite run_session.
  destruct (step_follows_machine w (init_session_state s0)) as [Hp Hf].
  split; intros Hs.
  - rewrite config_of_down by done. destruct (existsb _ _); [done|].
    by rewrite config_of_down by by rewrite Hf.
  - destruct (existsb _ _).
    + eapply mp_cons; [|done|exact Hp]. unfold mode_of. rewrite Hs. constructor.
    + split; [|done]. unfold mode_of. by rewrite Hf, Hs.
Qed.

End machine.

(** ** The states a session reaches *)

Section reachability.
Context `{Lexer}.
Implicit Types (w : Widgets).

Lemma stored_ok_empty : stored_ok empty_store.
Proof. by repeat split; constructor. Qed.

Lemma stored_ok_run `{Chains} `{!TextChains _} w (s : Stored) :
  stored_ok s -> (step w (init_session_state s)).2 <> Halted Rerun ->
  stored_ok (final (run w s)).
Proof.
  intros (Hok & Hnb & Hc) Hr. unfold stored_ok. split_and!.
  - apply run_history_all; [intros e; apply appended_ok|done].
  - by apply (run_history_all _ appended_nonblank).
  - rewrite run_session, step_clear_flag. destruct (uploaded_code_of w) eqn:Hu; [|done].
    destruct (clear_btn w) eqn:Hclear; [|done]. destruct Hr.
    apply step_rerun_iff. eauto.
Qed.

Lemma stored_ok_cleared s : stored_ok (store (ready (clear_session s))).
Proof.
  unfold stored_ok, history_ok. rewrite init_store, !ready_history, ready_cleared.
  by repeat split; constructor.
Qed.

Lemma stored_ok_edit edited (s : Stored) : stored_ok s -> stored_ok (apply_edit edited s).
Proof. by destruct edited. Qed.

(** One action of the user keeps the stored state well formed. *)
Lemma stored_ok_interact (c1 c2 : Chains) w edited (s : Stored) :
  TextChains c1 -> TextChains c2 -> stored_ok s ->
  stored_ok (final (interact c1 c2 w edited s)).
Proof.
  intros ?? Hs%(stored_ok_edit edited).
  destruct (decide (is_Some (uploaded_code_of w) /\ clear_btn w = true))
    as [[[c Hu] Hc]|Hn].
  - rewrite (interact_rerun _ _ _ _ _ _ Hu Hc), run_final.
    rewrite (step_idle _ _ c (pressed_without_buttons w)), init_store by done.
    apply stored_ok_cleared.
  - rewrite interact_once by done. apply stored_ok_run; [done|].
    by rewrite step_rerun_iff.
Qed.

(** C26: every stored state a session reaches is well formed: the cleaned
    code of every entry of the history is text, its original code is not
    blank, and the clear flag is down between two actions. *)
Theorem reachable_ok (s : Stored) : reachable s -> stored_ok s.
Proof.
  induction 1 as [|s c1 c2 w edited ?? _ IH];
    [apply stored_ok_empty | by apply stored_ok_interact].
Qed.

End reachability.

(** ** Clear and the rerun *)

Section clear.
Context `{Lexer}.
Implicit Types (w : Widgets).

(** Pressing clear causes two executions, after which the history is
    empty, the stored text is empty, the clear flag is down again, and the
    text area has been given the empty string even if a file is in the
    uploader; the second execution reaches the last line. *)
Theorem interact_clear (c1 c2 : Chains) w edited (s : Stored) c :
  uploaded_code_of w = Some c -> clear_btn w = true ->
  st_history (final (interact c1 c2 w edited s)) = Some [] /\
  st_text_input_value (final (interact c1 c2 w edited s)) = Some "" /\
  st_clear_triggered (final (interact c1 c2 w edited s)) = Some false /\
  rendered (interact c1 c2 w edited s) !! 4%nat = Some (ETextArea "") /\
  outcome (interact c1 c2 w edited s) = Completed.
Proof.
  intros Hu Hc. rewrite (interact_rerun _ _ _ _ _ _ Hu Hc).
  rewrite run_final, run_rendered, run_outcome, init_store.
  rewrite (step_idle _ _ c (pressed_without_buttons w)) by done.
  cbn [fst snd store st_history st_text_input_value st_clear_triggered].
  rewrite ready_history, ready_text, ready_cleared.
  unfold comparison_outcome, page_step. rewrite ready_history.
  by rewrite uploaded_without_buttons, Hu.
Qed.

End clear.

(** ** The scenarios of the specification *)

Section scenarios.
Context `{Lexer} `{Chains}.
Implicit Types (w : Widgets) (s : SessionState) (v : PyVal).

Lemma step_optimizes_history w s v :
  optimizes w s v ->
  history (step w s).1 = history s ++ [new_entry (initial_locals w s) v].
Proof.
  intros (Hp & [c Hu] & Hc & Hv). rewrite (step_optimize _ _ _ Hp Hu). cbv zeta.
  cbn [initial_locals messy_code detected_language]. rewrite Hc, Hv.
  cbn [fst set_show_explanation_only history].
  by rewrite append_entry_history, ready_history.
Qed.

Lemma step_revert_history w s c :
  pressed PressRevert w -> uploaded_code_of w = Some c ->
  history (step w s).1 =
  if (1 <? length (history s))%nat then removelast (history s) else history s.
Proof.
  intros Hp Hu. rewrite (step_revert _ _ _ Hp Hu). cbv zeta. cbn [fst].
  rewrite ready_history. by case_match.
Qed.

Lemma explain_keeps_history w s c :
  pressed PressExplain w -> uploaded_code_of w = Some c ->
  history (step w s).1 = history (ready s).
Proof.
  intros Hp Hu. rewrite (step_explain _ _ _ Hp Hu). cbv zeta. by repeat case_match.
Qed.

(** Optimize twice, then revert once: the history is the one from
    before with the entry of the first optimize at its end, so that the
    active view is the result of the first optimize. *)
Theorem optimize_twice_revert w1 w2 w3 (s0 : Stored) v1 v2 c :
  optimizes w1 (init_session_state s0) v1 ->
  optimizes w2 (init_session_state (final (run w1 s0))) v2 ->
  pressed PressRevert w3 -> uploaded_code_of w3 = Some c ->
  history (init_session_state
             (final (run w3 (final (run w2 (final (run w1 s0))))))) =
  history (init_session_state s0) ++
  [new_entry (initial_locals w1 (init_session_state s0)) v1].
Proof.
  intros H1 H2 Hp Hu. rewrite run_session, (step_revert_history _ _ _ Hp Hu).
  rewrite run_session, (step_optimizes_history _ _ _ H2).
  rewrite run_session, (step_optimizes_history _ _ _ H1).
  rewrite removelast_last, <- app_assoc, !length_app.
  by rewrite (proj2 (Nat.ltb_lt 1 _)) by (simpl; lia).
Qed.

(** Revert on an empty history: the page carries the warning, nothing
    is raised and the history is empty as before. *)
Theorem revert_on_empty_history w (s0 : Stored) c :
  pressed PressRevert w -> uploaded_code_of w = Some c ->
  history (init_session_state s0) = [] ->
  final (run w s0) = settled (init_session_state s0) /\
  rendered (run w s0) =
    upload_page ++ actions_page w (init_session_state s0) ++
    [EWarning msg_nothing_to_revert; EHtml FooterHtml; EHtml DarkCss] /\
  outcome (run w s0) = Completed.
Proof.
  intros Hp Hu Hh.
  rewrite <- store_ready, run_final, run_rendered, run_outcome, (step_revert _ _ _ Hp Hu).
  rewrite (page_step_revert_nothing _ _ _ Hp Hu) by (rewrite Hh; simpl; lia).
  cbv zeta. rewrite Hh. change (1 <? length [])%nat with false. cbv iota.
  unfold comparison_page, comparison_outcome. by rewrite !ready_history, Hh.
Qed.

(** C35: after an explain whose chain raises, the comparison view is gone
    from the page of the following executions, although the history still
    holds the entry it showed: the explanation flag was left up. *)
Theorem explain_failure_hides_comparison w1 w2 (s0 : Stored) c1 c2 e h x text :
  pressed PressExplain w1 -> uploaded_code_of w1 = Some c1 ->
  truthy (Str.strip (typed_code w1 (init_session_state s0))) = true ->
  explain_chain_invoke
    (chain_inputs (typed_code w1 (init_session_state s0))
       (detect_language (uploaded_file w1) (typed_code w1 (init_session_state s0))))
    = Err e ->
  pressed Idle w2 -> uploaded_code_of w2 = Some c2 ->
  history (init_session_state s0) = h ++ [x] -> cleaned x = VStr text ->
  rendered (run w2 (final (run w1 s0))) =
  upload_page ++ actions_page w2 (init_session_state (final (run w1 s0))) ++
  [EHtml FooterHtml; EHtml DarkCss].
Proof.
  intros Hp1 Hu1 Hc He Hp2 Hu2 Hh Hx.
  apply (run_idle_page_hidden w2 _ c2 h x text); try done.
  - by rewrite run_session, (explain_keeps_history _ _ _ Hp1 Hu1), ready_history.
  - rewrite run_final, (step_explain _ _ _ Hp1 Hu1). cbv zeta.
    cbn [initial_locals messy_code detected_language]. by rewrite Hc, He.
Qed.

End scenarios.

(** ** The theorems at concrete inputs *)

Lemma run_follows_machine_witness :
  let explain := widgets None "x=1" PressExplain in
  let pending := final (@run sample_lexer failing explain (stored_history [first_entry])) in
  machine_path (At EMPTY, 0%nat) [TOptimize] (At HAS_HISTORY, 1%nat) /\
  machine_path (At HAS_HISTORY, 1%nat) [TExplain] (SHOWING_EXPLANATION HAS_HISTORY, 1%nat) /\
  machine_path (At HAS_HISTORY, 2%nat) [TRevertPop; TExplain; TRenderComplete]
    (At HAS_HISTORY, 1%nat) /\
  get_show_explanation_only (init_session_state pending) = true /\
  machine_path (SHOWING_EXPLANATION HAS_HISTORY, 1%nat) [TRenderComplete; TOptimize]
    (At HAS_HISTORY, 2%nat) /\
  (mode_of (init_session_state
              (final (@run sample_lexer (answering "x = 1")
                        (widgets None "x=1" PressRevert) pending))) =
     SHOWING_EXPLANATION HAS_HISTORY /\
   machine_path (At HAS_HISTORY, 1%nat) [TRevertNoop] (At HAS_HISTORY, 1%nat)).
Proof.
  cbv zeta. repeat apply conj; [| | |reflexivity| | |].
  - exact (proj1 (@run_follows_machine sample_lexer (answering "x = 1")
                    (widgets None "x=1" PressOptimize) empty_store) eq_refl).
  - exact (proj1 (@run_follows_machine sample_lexer failing
                    (widgets None "x=1" PressExplain) (stored_history [first_entry]))
             eq_refl).
  - exact (proj1 (@run_follows_machine sample_lexer (answering "x = 1")
                    {| uploaded_file := None; text_area := fun _ => "x=1";
                       optimize_btn := false; explain_btn := true; revert_btn := true;
                       clear_btn := false; explain_optimized_btn := false |}
                    (stored_history [first_entry; second_entry])) eq_refl).
  - exact (proj2 (@run_follows_machine sample_lexer (answering "x = 1")
                    (widgets None "x=1" PressOptimize)
                    (final (@run sample_lexer failing (widgets None "x=1" PressExplain)
                              (stored_history [first_entry])))) eq_refl).
  - exact (proj1 (proj2 (@run_follows_machine sample_lexer (answering "x = 1")
                    (widgets None "x=1" PressRevert)
                    (final (@run sample_lexer failing (widgets None "x=1" PressExplain)
                              (stored_history [first_entry])))) eq_refl)).
  - exact (proj2 (proj2 (@run_follows_machine sample_lexer (answering "x = 1")
                    (widgets None "x=1" PressRevert)
                    (final (@run sample_lexer failing (widgets None "x=1" PressExplain)
                              (stored_history [first_entry])))) eq_refl)).
Defined.

Lemma reachable_ok_witness :
  stored_ok
    (final (@interact sample_lexer (answering "x = 1") failing
              (widgets None "x=1" PressOptimize) (Some "x=1") empty_store)).
Proof.
  apply (@reachable_ok sample_lexer).
  apply reach_interact; [apply llm_text_chains .. | apply reach_new].
Defined.

Lemma interact_clear_witness :
  st_history (final (@interact sample_lexer failing failing
                       (widgets (Some python_file) "x=1" PressClear) None
                       (stored_history [first_entry]))) = Some [] /\
  st_text_input_value (final (@interact sample_lexer failing failing
                       (widgets (Some python_file) "x=1" PressClear) None
                       (stored_history [first_entry]))) = Some "" /\
  st_clear_triggered (final (@interact sample_lexer failing failing
                       (widgets (Some python_file) "x=1" PressClear) None
                       (stored_history [first_entry]))) = Some false /\
  rendered (@interact sample_lexer failing failing
              (widgets (Some python_file) "x=1" PressClear) None
              (stored_history [first_entry])) !! 4%nat = Some (ETextArea "") /\
  outcome (@interact sample_lexer failing failing
             (widgets (Some python_file) "x=1" PressClear) None
             (stored_history [first_entry])) = Completed.
Proof.
  apply (@interact_clear sample_lexer failing failing _ None _
           "function f() { return 1; }");
    by_evaluation.
Defined.

Lemma optimize_twice_revert_witness :
  history (init_session_state
    (final (@run sample_lexer (answering "x = 1") (widgets None "" PressRevert)
      (final (@run sample_lexer (answering "x = 1") (widgets None "x = 1" PressOptimize)
        (final (@run sample_lexer (answering "x = 1") (widgets None "x=1" PressOptimize)
                  empty_store))))))) =
  history (init_session_state empty_store) ++
  [@new_entry
     (@initial_locals sample_lexer (widgets None "x=1" PressOptimize)
        (init_session_state empty_store))
     (VDict [("code", Some "x=1"); ("language", None); ("text", Some "x = 1")])].
Proof.
  apply (@optimize_twice_revert sample_lexer (answering "x = 1") _ _ _ _ _
           (VDict [("code", Some "x = 1"); ("language", None); ("text", Some "x = 1")])
           "");
    by_evaluation; by eexists.
Defined.

Lemma revert_on_empty_history_witness :
  final (@run sample_lexer failing (widgets None "" PressRevert) empty_store) =
    settled (init_session_state empty_store) /\
  rendered (@run sample_lexer failing (widgets None "" PressRevert) empty_store) =
    upload_page ++
    actions_page (widgets None "" PressRevert) (init_session_state empty_store) ++
    [EWarning msg_nothing_to_revert; EHtml FooterHtml; EHtml DarkCss] /\
  outcome (@run sample_lexer failing (widgets None "" PressRevert) empty_store) =
    Completed.
Proof.
  apply (@revert_on_empty_history sample_lexer failing _ _ ""); by_evaluation.
Defined.

Lemma explain_failure_hides_comparison_witness :
  rendered (@run sample_lexer failing (widgets None "x=1" Idle)
              (final (@run sample_lexer failing (widgets None "x=1" PressExplain)
                        (stored_history [first_entry])))) =
  upload_page ++
  actions_page (widgets None "x=1" Idle)
    (init_session_state
       (final (@run sample_lexer failing (widgets None "x=1" PressExplain)
                 (stored_history [first_entry])))) ++
  [EHtml FooterHtml; EHtml DarkCss].
Proof.
  apply (@explain_failure_hides_comparison sample_lexer failing
           (widgets None "x=1" PressExplain) (widgets None "x=1" Idle) _ "" ""
           (ServiceError "quota exceeded") [] first_entry "x = 1");
    by_evaluation.
Defined.
