(* ===== verification/Browser.v ===== *)
(** * Browser: the widgets between two executions

    [Script] takes the widgets of one execution as an input.  This file
    models where they come from: the browser session that Streamlit keeps
    for one user, with the file in the uploader (key
    [main_file_uploader]), the state of the text area (key
    [main_code_input], lines 106-117), the page on display, and the
    session state of the script.

    The rules of the framework that the script relies on are modelled
    from Streamlit's documentation of widget behaviour:

    - a widget is identified by the arguments it is created with; a call
      of [st.text_area] whose [value] argument differs from the one of the
      previous execution creates a new widget that shows [value], a call
      with the same argument returns what the user left in the widget
      ([text_area_widget]);
    - a widget that an execution does not create loses its state
      ([execute]);
    - the callback [on_change] runs before the execution that the edit
      causes, and sees the new text under the key of the widget
      ([apply_event]);
    - a button returns [True] in the execution its press causes and in
      no other; [st.rerun()] starts a new execution without any button
      ([runner], [deliver]);
    - the user can act on the widgets of the page on display only
      ([enabled]).

    [browse] is what one event of the user makes of the browser session,
    [session] a sequence of events, [reachable_browser] the sessions a
    user can get to from a new tab. *)

From Stdlib Require Import Ascii String List ZArith Lia.
From stdpp Require Import base tactics option list strings.
From S2P Require Import Prelude PyString PyData Language Prompt Session.
From S2P Require Import Script Invariant Controller Run Page Sessions.

(** ** Data *)

(** The state of the text area: the [value] argument of the call that
    created it, and the text it holds (what
    [st.session_state.main_code_input] reads). *)
Record WidgetState : Type := {
  created_with : string;
  main_code_input : string
}.

(** One browser session. *)
Record Browser : Type := {
  stored : Stored;                     (* st.session_state, the keys of the script *)
  uploader : option UploadedFile;      (* the file in the uploader *)
  area : option WidgetState;           (* the text area, when the page has one *)
  shown : list Element;                (* the page on display *)
  ended : Outcome;                     (* how the last execution ended *)
  clock : nat                          (* the executions so far *)
}.

(** The hosted model over time: the chains as they answer in the
    execution number [n] of the session. *)
Class Service : Type := { chains_at : nat -> Chains }.

(** The service returns text where the script reads it, always. *)
Class TextService (S : Service) : Prop :=
  text_service n :: TextChains (chains_at n).

(** What the user can do between two executions. *)
Inductive Event : Type :=
| Edit (text : string)          (* leaves the text area with a new text *)
| Upload (f : UploadedFile)     (* puts a file in the uploader *)
| Remove                        (* takes the file out of the uploader *)
| Press (a : Action).           (* presses a button; [Idle] asks for a rerun *)

(** ** The widgets *)

(** [st.text_area(value=value, key="main_code_input")] on the widget
    state [a]: the text of the widget when it was created with the same
    value, and a new widget that holds [value] otherwise. *)
Definition text_area_widget (a : option WidgetState) (value : string) : string :=
  match a with
  | Some t => if decide (created_with t = value) then main_code_input t else value
  | None => value
  end.

(** The state of the text area after the call. *)
Definition called_with (a : option WidgetState) (value : string) : WidgetState :=
  {| created_with := value; main_code_input := text_area_widget a value |}.

(** The widgets the framework hands to the execution that the action [a]
    causes. *)
Definition widgets_of (b : Browser) (a : Action) : Widgets := {|
  uploaded_file := uploader b;
  text_area := text_area_widget (area b);
  optimize_btn := bool_decide (a = PressOptimize);
  explain_btn := bool_decide (a = PressExplain);
  revert_btn := bool_decide (a = PressRevert);
  clear_btn := bool_decide (a = PressClear);
  explain_optimized_btn := bool_decide (a = PressExplainOptimized)
|}.

(** The value the text area of a page was given, when the page has one. *)
Fixpoint text_area_on (page : list Element) : option string :=
  match page with
  | [] => None
  | ETextArea value :: _ => Some value
  | _ :: page => text_area_on page
  end.

Definition is_button (label : string) (e : Element) : bool :=
  match e with
  | EButton l => bool_decide (l = label)
  | _ => false
  end.

(** The page has a button with this label. *)
Definition button_on (label : string) (page : list Element) : bool :=
  existsb (is_button label) page.

Definition is_uploader (e : Element) : bool :=
  match e with
  | EFileUploader => true
  | _ => false
  end.

(** The labels of lines 247-253 and 336. *)
Definition label_of (a : Action) : option string :=
  match a with
  | Idle => None
  | PressOptimize => Some "🧹 Optimize Code"
  | PressExplain => Some "📖 Explain Code"
  | PressRevert => Some "↩️ Revert"
  | PressClear => Some "🗑️ Clear All"
  | PressExplainOptimized => Some "📖 Explain Optimized Code"
  end.

(** ** Executions *)

Section with_service.
Context `{Lexer} `{Service}.

(** One execution of the script in the browser session [b]: the session
    state and the page are those the execution leaves, the text area
    keeps a state only if the execution created it. *)
Definition execute (a : Action) (b : Browser) : Browser * Outcome :=
  let r := @run _ (chains_at (clock b)) (widgets_of b a) (stored b) in
  ({| stored := final r;
      uploader := uploader b;
      area := called_with (area b) <$> text_area_on (rendered r);
      shown := rendered r;
      ended := outcome r;
      clock := S (clock b) |},
   outcome r).

(** The loop of the framework: the script is executed again, without
    any button, as long as it ends with [st.rerun()]. *)
Fixpoint runner (fuel : nat) (a : Action) (b : Browser) : option Browser :=
  match fuel with
  | O => None
  | S fuel =>
      let '(b1, o) := execute a b in
      match o with
      | Halted Rerun => runner fuel Idle b1
      | _ => Some b1
      end
  end.

(** What the action [a] causes: one execution, and a second one when the
    first ends at line 277. *)
Definition deliver (a : Action) (b : Browser) : Browser :=
  let '(b1, o) := execute a b in
  match o with
  | Halted Rerun => (execute Idle b1).1
  | _ => b1
  end.

(** ** Events *)

(** The user can do [e]: the widget is on the page, and an edit changes
    the text. *)
Definition enabled (e : Event) (b : Browser) : bool :=
  match e with
  | Edit text =>
      match area b with
      | Some t => negb (bool_decide (text = main_code_input t))
      | None => false
      end
  | Upload _ => existsb is_uploader (shown b)
  | Remove => existsb is_uploader (shown b) && bool_decide (is_Some (uploader b))
  | Press a =>
      match label_of a with
      | Some label => button_on label (shown b)
      | None => true
      end
  end.

(** What the event changes before the execution it causes.  An edit
    changes the text of the widget and runs the callback of line 116. *)
Definition apply_event (e : Event) (b : Browser) : Browser :=
  match e with
  | Edit text =>
      {| stored := on_change text (stored b);
         uploader := uploader b;
         area := (fun t => {| created_with := created_with t;
                              main_code_input := text |}) <$> area b;
         shown := shown b;
         ended := ended b;
         clock := clock b |}
  | Upload f =>
      {| stored := stored b; uploader := Some f; area := area b;
         shown := shown b; ended := ended b; clock := clock b |}
  | Remove =>
      {| stored := stored b; uploader := None; area := area b;
         shown := shown b; ended := ended b; clock := clock b |}
  | Press _ => b
  end.

(** The button of the execution an event causes. *)
Definition action_of (e : Event) : Action :=
  match e with
  | Press a => a
  | _ => Idle
  end.

(** One event of the user. *)
Definition browse (e : Event) (b : Browser) : Browser :=
  if enabled e b then deliver (action_of e) (apply_event e b) else b.

(** A sequence of events. *)
Fixpoint session (es : list Event) (b : Browser) : Browser :=
  match es with
  | [] => b
  | e :: es => session es (browse e b)
  end.

(** A new tab, before the first execution. *)
Definition new_browser : Browser := {|
  stored := empty_store;
  uploader := None;
  area := None;
  shown := [];
  ended := Completed;
  clock := 0
|}.

(** The page the user gets when the tab opens. *)
Definition open_page : Browser := deliver Idle new_browser.

(** The browser sessions a user can get to. *)
Inductive reachable_browser : Browser -> Prop :=
| rb_open : reachable_browser open_page
| rb_browse e b : reachable_browser b -> reachable_browser (browse e b).

End with_service.

(** ** Definitions used to state the properties *)

(** The code of the file in the uploader: [uploaded_code] of lines 94-97,
    [None] when the file does not decode. *)
Definition upload_of (b : Browser) : option string :=
  uploaded_code_of (widgets_of b Idle).

(** The session state the next execution starts from. *)
Definition session_of (b : Browser) : SessionState := init_session_state (stored b).

(** The value the next execution gives the text area (line 111). *)
Definition next_value (b : Browser) : string :=
  text_area_value (widgets_of b Idle) (session_of b).

(** [messy_code] of the next execution: what the handlers of optimize
    and explain work on. *)
Definition next_code (b : Browser) : string :=
  typed_code (widgets_of b Idle) (session_of b).

(** The text the user sees in the text area. *)
Definition visible_text (b : Browser) : option string := main_code_input <$> area b.

(** The entry the comparison view shows for the session state [s]. *)
Definition comparison_entry (s : SessionState) : option Entry :=
  match last (history s) with
  | Some e =>
      match cleaned e with
      | VStr text => if comparison_shown text e s then Some e else None
      | VNone | VDict _ => None
      end
  | None => None
  end.

(** A service for the examples: the same chains in every execution. *)
Definition steady (c : Chains) : Service := {| chains_at := fun _ => c |}.

#[export] Instance steady_text llm : TextService (steady (llm_chains llm)).
Proof. intros n. apply llm_text_chains. Qed.

(** The new text an event hands to the callback of the text area. *)
Definition edited_of (e : Event) : option string :=
  match e with
  | Edit text => Some text
  | _ => None
  end.

(** The exception [e] is one that a chain of the service raises. *)
Definition service_error `{Service} (e : Exn) : Prop :=
  exists n inputs,
    @chain_invoke (chains_at n) inputs = Err e \/
    @explain_chain_invoke (chains_at n) inputs = Err e.

(** The four buttons of lines 247-253 are on the page. *)
Definition actions_on (page : list Element) : bool :=
  forallb (fun a => from_option (fun l => button_on l page) true (label_of a))
    [PressOptimize; PressExplain; PressRevert; PressClear].

(** ** One execution in the browser *)

Lemma run_result_eq (r r' : RunResult) :
  final r = final r' -> rendered r = rendered r' -> outcome r = outcome r' -> r = r'.
Proof. destruct r, r'; simpl; congruence. Qed.

Section pages.
Context `{Lexer} `{Chains}.
Implicit Types (w : Widgets) (s : SessionState) (a : Action).

(** An execution depends on the text area through [messy_code] only,
    and only when optimize or explain is pressed. *)
Lemma run_ext a w w' (s0 : Stored) :
  pressed a w -> pressed a w' -> uploaded_file w = uploaded_file w' ->
  (a = PressOptimize \/ a = PressExplain ->
   typed_code w (init_session_state s0) = typed_code w' (init_session_state s0)) ->
  run w s0 = run w' s0.
Proof.
  intros Hp Hp' Hf Ht.
  assert (Hs : step w (init_session_state s0) = step w' (init_session_state s0) /\
               page_step w (init_session_state s0) = page_step w' (init_session_state s0)).
  { unfold step, page_step, initial_locals, actions_page, text_area_value,
      get_initial_code, uploaded_code_of, revert_step, revert_page, optimize_step,
      optimize_page, explain_step, explain_page, comparison_outcome, comparison_page,
      explain_optimized_outcome, explain_optimized_page.
    destruct Hp as (-> & -> & -> & -> & ->), Hp' as (-> & -> & -> & -> & ->).
    rewrite <- Hf. destruct a; cbn [bool_decide decide_rel andb];
      repeat first [rewrite bool_decide_eq_true_2 by done
                   |rewrite bool_decide_eq_false_2 by done]; cbn [andb];
      try done; [rewrite <- Ht by auto; done ..|by destruct (1 <? _)%nat]. }
  destruct Hs as [Hs Hpage].
  by apply run_result_eq; rewrite ?run_final, ?run_rendered, ?run_outcome, ?Hs, ?Hpage.
Qed.

(** The text area is on the page of the executions whose upload
    decodes, with the value of line 111. *)
Lemma text_area_on_page_step w s :
  text_area_on (page_step w s) =
  (fun _ => text_area_value w s) <$> uploaded_code_of w.
Proof. unfold page_step. by destruct (uploaded_code_of w). Qed.

Lemma uploader_on_page_step w s : existsb is_uploader (page_step w s) = true.
Proof. done. Qed.

(** The four action buttons are on the page of the executions whose
    upload decodes. *)
Lemma actions_on_page_step w s :
  actions_on (page_step w s) = bool_decide (is_Some (uploaded_code_of w)).
Proof.
  unfold page_step, actions_on, button_on. destruct (uploaded_code_of w); [|done].
  cbn [forallb label_of from_option]. rewrite !existsb_app.
  cbn [actions_page existsb is_button]. rewrite !bool_decide_eq_true_2 by done.
  cbn [orb andb]. by rewrite !orb_true_r.
Qed.

End pages.

(** ** The executions of a browser session *)

Section executions.
Context `{Lexer} `{Service}.
Implicit Types (a : Action) (b : Browser) (e : Event).

Lemma pressed_widgets_of b a : pressed a (widgets_of b a).
Proof. done. Qed.

(** One execution in the browser, by the controller. *)
Lemma execute_stored a b :
  stored (execute a b).1 =
  store (@step _ (chains_at (clock b)) (widgets_of b a) (session_of b)).1.
Proof. apply run_final. Qed.

Lemma execute_session a b :
  session_of (execute a b).1 =
  (@step _ (chains_at (clock b)) (widgets_of b a) (session_of b)).1.
Proof. apply run_session. Qed.

Lemma execute_outcome a b :
  (execute a b).2 = (@step _ (chains_at (clock b)) (widgets_of b a) (session_of b)).2.
Proof. apply run_outcome. Qed.

Lemma execute_shown a b :
  shown (execute a b).1 =
  @page_step _ (chains_at (clock b)) (widgets_of b a) (session_of b).
Proof. apply run_rendered. Qed.

Lemma execute_ended a b : ended (execute a b).1 = (execute a b).2.
Proof. done. Qed.

Lemma execute_area a b :
  area (execute a b).1 =
  (fun _ => called_with (area b) (next_value b)) <$> upload_of b.
Proof.
  unfold execute. cbn [fst area].
  by rewrite run_rendered, text_area_on_page_step, <- option_fmap_compose.
Qed.

Lemma execute_upload a b : upload_of (execute a b).1 = upload_of b.
Proof. done. Qed.

(** An execution asks for another one exactly when clear is pressed and
    the upload decodes. *)
Lemma execute_rerun_iff a b :
  (execute a b).2 = Halted Rerun <-> is_Some (upload_of b) /\ a = PressClear.
Proof.
  rewrite execute_outcome, step_rerun_iff.
  cbn [clear_btn widgets_of]. by rewrite bool_decide_eq_true.
Qed.

Lemma deliver_once a b :
  ~ (is_Some (upload_of b) /\ a = PressClear) -> deliver a b = (execute a b).1.
Proof.
  intros Hn. unfold deliver. destruct (execute a b) as [b1 o] eqn:He.
  destruct o as [|[]]; try done. destruct Hn. apply execute_rerun_iff. by rewrite He.
Qed.

Lemma deliver_twice b :
  is_Some (upload_of b) ->
  deliver PressClear b = (execute Idle (execute PressClear b).1).1.
Proof.
  intros Hu. unfold deliver. destruct (execute PressClear b) as [b1 o] eqn:He.
  assert (o = Halted Rerun) as ->; [|done].
  change o with (b1, o).2. rewrite <- He. by apply execute_rerun_iff.
Qed.

(** The execution after [st.rerun()] asks for no further one. *)
Lemma execute_idle_settles b : (execute Idle b).2 <> Halted Rerun.
Proof. rewrite execute_rerun_iff. by intros [_ ?]. Qed.

(** The session state clear leaves for its rerun, and the value the
    rerun gives the text area. *)
Lemma execute_clear_session b c :
  upload_of b = Some c ->
  session_of (execute PressClear b).1 = clear_session (session_of b).
Proof.
  intros Hu. by rewrite execute_session, (step_clear (widgets_of b PressClear) _ c Hu eq_refl).
Qed.

Lemma next_value_cleared b :
  clear_triggered (session_of b) = true -> next_value b = "".
Proof. unfold next_value, text_area_value. by intros ->. Qed.

(** What clear and its rerun leave: the session state of a new session
    and a text area created with the empty string. *)
Lemma deliver_clear_session b c :
  upload_of b = Some c ->
  session_of (deliver PressClear b) = ready (clear_session (session_of b)).
Proof.
  intros Hu. rewrite deliver_twice, execute_session, (execute_clear_session _ c) by eauto.
  by rewrite (step_idle (widgets_of (execute PressClear b).1 Idle) _ c
                (pressed_widgets_of _ _) Hu).
Qed.

Lemma deliver_clear_area b c :
  upload_of b = Some c ->
  area (deliver PressClear b) =
  Some (called_with (Some (called_with (area b) (next_value b))) "").
Proof.
  intros Hu. rewrite deliver_twice, execute_area, execute_upload, Hu by eauto.
  rewrite next_value_cleared by (by rewrite (execute_clear_session _ c)).
  by rewrite execute_area, Hu.
Qed.

Lemma reachable_session es b : reachable_browser b -> reachable_browser (session es b).
Proof. revert b. induction es; simpl; eauto using reachable_browser. Qed.

(** A new tab starts from the defaults of lines 36-45. *)
Lemma open_page_session : session_of open_page = ready (init_session_state empty_store).
Proof.
  unfold open_page. rewrite deliver_once by (by intros [_ ?]).
  by rewrite execute_session, (step_idle (widgets_of new_browser Idle) _ "" (pressed_widgets_of _ _) eq_refl).
Qed.

(** ** The loop of the framework ends *)

(** C7: the loop of the framework ends after two executions at most,
    whatever the session and the action: with fuel for two executions or
    more it returns the browser session that [deliver] gives, and one
    execution is not enough exactly when clear is pressed on an upload
    that decodes. *)
Theorem runner_terminates fuel a b :
  runner (S (S fuel)) a b = Some (deliver a b) /\
  (runner 1 a b = None <-> is_Some (upload_of b) /\ a = PressClear).
Proof.
  rewrite <- execute_rerun_iff. unfold deliver. cbn [runner].
  destruct (execute a b) as [b1 o]. cbn [snd].
  pose proof (execute_idle_settles b1) as Hs.
  destruct (execute Idle b1) as [b2 o2]. cbn [fst snd] in *.
  destruct o as [|[]]; try done. by destruct o2 as [|[]].
Qed.

(** ** An action in the browser is an interaction of [Script] *)

Lemma stored_apply_event e b :
  stored (apply_event e b) = apply_edit (edited_of e) (stored b).
Proof. by destruct e. Qed.

(** What an action causes in the browser is what [interact] says of the
    widgets of the browser. *)
Lemma deliver_interact a b :
  stored (deliver a b) =
  final (interact (chains_at (clock b)) (chains_at (S (clock b)))
           (widgets_of b a) None (stored b)).
Proof.
  unfold deliver, interact, execute. cbn [apply_edit fst snd].
  destruct (outcome _) as [|[]]; try done. cbn [stored clock].
  f_equal. apply (run_ext Idle); try done. by intros [|].
Qed.

End executions.
