(* ===== verification/Text.v ===== *)
(** * Text: a [str] as its UTF-8 bytes, the upload and the download

    The development writes a Python [str] as a [string] of Rocq: the
    bytes of the UTF-8 encoding of the [str] ([bytes_of] of [PyString]).
    A string is a text ([is_text]) when its bytes are well formed, and
    then it stands for the code points [code_points] gives; the
    literals of the script with characters outside ASCII (the labels of
    the buttons) are written that way in [Script] and [Markup].

    This file has the two places where the script meets bytes:

    - line 95, [uploaded_file.read().decode("utf-8")]: the content of
      the file is a list of bytes, the decoder is [Utf8.decode], and
      [upload] is the file the uploader hands to the script, with
      [decoded] computed from the content instead of given;
    - lines 342-348, [st.download_button(data=optimized, ...)]: the
      framework writes [data.encode()] to the file ([str_encode]).

    The theorems show that the execution ends with [UnicodeDecodeError]
    exactly on the contents Table 3-7 excludes; that [lower] and the
    substitution of line 211, which [PyString] defines on the characters
    of a string, are functions of the code points of the [str] ([lower]
    knows the letters A to Z, where Python also lower-cases the letters
    outside ASCII); that [strip] tells blank code from code as Python
    does; and that what a download button of a browser session offers
    can be uploaded again, when the answers of the model are texts. *)

From Stdlib Require Import Ascii String List ZArith Lia.
From stdpp Require Import base tactics option list strings numbers.
From S2P Require Import Prelude Utf8 PyString PyData Language Prompt Session.
From S2P Require Import Script Invariant Controller Run Browser.

(** ** The upload and the download *)

(** [s.encode()], what the download button writes for a [str] (lines
    342-348). *)
Definition str_encode (s : string) : list Z := from_option encode [] (code_points s).

(** [content.decode("utf-8")] of line 95; [None] is [UnicodeDecodeError]. *)
Definition bytes_decode (content : list Z) : option string :=
  cps ← decode content; Some (string_of (encode cps)).

(** The file the uploader hands to the script (lines 93-95) for a file
    of the user with this name and content. *)
Definition upload (name : string) (content : list Z) : UploadedFile :=
  {| name := name; decoded := bytes_decode content |}.

(** ** The string functions on code points *)

(** [lower] on a code point, as [PyString] has it: the letters A to Z. *)
Definition lower_cp (c : Z) : Z := if in_range 65 90 c then (c + 32)%Z else c.

(** The class [[a-z0-9]] of lines 211 and 213. *)
Definition is_lower_alnum_cp (c : Z) : bool := in_range 97 122 c || in_range 48 57 c.

(** ** Definitions used to state the properties *)

(** A value that is a [str]. *)
Definition text_val (v : PyVal) : bool :=
  match v with
  | VStr s => is_text s
  | VNone | VDict _ => false
  end.

(** The chain of optimize answers with a [str] where the script reads
    the code. *)
Class Utf8Chains (C : Chains) : Prop := {
  chain_utf8 inputs v : chain_invoke inputs = Ok v -> text_val (Val.text_of v) = true
}.

(** The service answers with a [str], always. *)
Class Utf8Service (S : Service) : Prop := {
  utf8_service n : Utf8Chains (chains_at n)
}.

(** The data and the file name of the download buttons of a page. *)
Definition downloads (page : list Element) : list (PyVal * string) :=
  omap (fun e => match e with
                 | EDownloadButton data file_name _ => Some (data, file_name)
                 | _ => None
                 end) page.

(** What a page offers for download (lines 344 and 345), given the last
    entry of the history: its cleaned code under the name of line 345. *)
Definition offered (last : option Entry) : list (PyVal * string) :=
  from_option (fun e => [(cleaned e, download_name (language e))]) [] last.

(** The cleaned code of an entry is a [str]. *)
Definition cleaned_text (e : Entry) : Prop := text_val (cleaned e) = true.

(** A file that is not UTF-8: the byte 0xE9 is [é] in Latin-1 and opens
    a sequence of three bytes in UTF-8. *)
Definition latin1_content : list Z := [99; 97; 102; 0xE9]%Z.

(** ** Encoding and decoding a [str] *)

Lemma is_text_code_points s : is_text s = true <-> is_Some (code_points s).
Proof. symmetry. apply decode_table, bytes_of_bytes. Qed.

Lemma bytes_decode_eq content :
  Forall is_byte content ->
  bytes_decode content = if well_formed content then Some (string_of content) else None.
Proof.
  intros Hb. unfold bytes_decode. pose proof (decode_table content Hb) as Ht.
  destruct (decode content) as [cps|] eqn:Hd.
  - rewrite (proj1 Ht) by done. cbn [mbind option_bind].
    by destruct (decode_inv _ _ Hb Hd) as [_ ->].
  - destruct (well_formed content); [|done]. by destruct (proj2 Ht eq_refl).
Qed.

Lemma str_encode_text s : is_text s = true -> str_encode s = bytes_of s.
Proof.
  intros [cps Hd]%is_text_code_points. unfold str_encode. rewrite Hd.
  by destruct (decode_inv _ _ (bytes_of_bytes s) Hd).
Qed.

Lemma bytes_decode_str_encode s : is_text s = true -> bytes_decode (str_encode s) = Some s.
Proof.
  intros Hs. rewrite str_encode_text, bytes_decode_eq by (done || apply bytes_of_bytes).
  unfold is_text in Hs. by rewrite Hs, string_of_bytes_of.
Qed.

(** ** [lower] on the code points *)

Lemma byte_of_lower c : byte_of (Char.lower c) = lower_cp (byte_of c).
Proof. Char.ascii_cases c. Qed.

Lemma bytes_of_lower s : bytes_of (Str.lower s) = lower_cp <$> bytes_of s.
Proof.
  unfold bytes_of. induction s as [|c s IH]; [done|].
  cbn [Str.lower list_ascii_of_string fmap list_fmap] in *. by rewrite IH, byte_of_lower.
Qed.

Lemma lower_cp_low b : (0 <= b < 128 -> 0 <= lower_cp b < 128)%Z.
Proof. unfold lower_cp, in_range. case_bool_decide; lia. Qed.

Lemma lower_cp_high b : (128 <= b)%Z -> lower_cp b = b.
Proof. unfold lower_cp, in_range. intros. by rewrite bool_decide_eq_false_2 by lia. Qed.

(** ** The class [[a-z0-9]] on the code points *)

Lemma byte_of_is_lower_alnum c : Char.is_lower_alnum c = is_lower_alnum_cp (byte_of c).
Proof. Char.ascii_cases c. Qed.

Lemma bytes_of_sub_non_alnum s :
  bytes_of (Str.sub_non_alnum s) = List.filter is_lower_alnum_cp (bytes_of s).
Proof.
  induction s as [|c s IH]; [done|]. cbn [Str.sub_non_alnum].
  change (bytes_of (String c s)) with (byte_of c :: bytes_of s). cbn [List.filter].
  rewrite <- byte_of_is_lower_alnum, <- IH. by destruct (Char.is_lower_alnum c).
Qed.

Lemma is_lower_alnum_cp_high b : (128 <= b)%Z -> is_lower_alnum_cp b = false.
Proof. unfold is_lower_alnum_cp, in_range. intros. by rewrite !bool_decide_eq_false_2 by lia. Qed.

(** The bytes of a code point, by its size. *)
Lemma encode_cp_cases c :
  scalar c ->
  (c < 128)%Z /\ encode_cp c = [c] \/
  (128 <= c)%Z /\ exists b bs, encode_cp c = b :: bs /\ Forall (fun b => 128 <= b)%Z (b :: bs).
Proof.
  intros Hc. destruct (decide (c < 128)%Z); [left; by auto using encode_cp_low|right].
  split; [lia|]. pose proof (encode_cp_high c Hc) as Hh.
  destruct (encode_cp c) as [|b bs] eqn:He; [by destruct (encode_cp_nonempty c)|].
  exists b, bs. split; [done|]. apply Hh. lia.
Qed.

Lemma filter_Forall (P : Z -> Prop) p cps : Forall P cps -> Forall P (List.filter p cps).
Proof. induction 1; cbn [List.filter]; [done|]. case_match; by try constructor. Qed.

Lemma filter_alnum_high xs :
  Forall (fun b => 128 <= b)%Z xs -> List.filter is_lower_alnum_cp xs = [].
Proof.
  induction 1 as [|x xs Hx _ IH]; [done|]. cbn [List.filter].
  by rewrite is_lower_alnum_cp_high.
Qed.

Lemma filter_encode cps :
  Forall scalar cps ->
  List.filter is_lower_alnum_cp (encode cps) = encode (List.filter is_lower_alnum_cp cps).
Proof.
  induction 1 as [|c cps Hc _ IH]; [done|]. rewrite encode_cons, List.filter_app, IH.
  cbn [List.filter]. destruct (encode_cp_cases c Hc) as [[Hl He]|(Hh & b & bs & He & Hb)].
  - rewrite He. cbn [List.filter]. destruct (is_lower_alnum_cp c); [|done].
    by rewrite encode_cons, He.
  - rewrite <- He in Hb. by rewrite filter_alnum_high, is_lower_alnum_cp_high.
Qed.

(** ** The chains of the library *)

#[export] Instance llm_utf8_chains llm :
  (forall text answer, llm text = Ok answer -> is_text answer = true) ->
  Utf8Chains (llm_chains llm).
Proof.
  intros Hllm. split. intros inputs v. cbn [chain_invoke llm_chains]. unfold llm_chain_invoke.
  intros (text & _ & (answer & Ha & [= <-])%rbind_Ok_inv)%rbind_Ok_inv.
  rewrite (Val.val_text_of_dict _ answer) by apply Dict.dict_setitem_get. by eapply Hllm.
Qed.

#[export] Instance steady_utf8 llm :
  (forall text answer, llm text = Ok answer -> is_text answer = true) ->
  Utf8Service (steady (llm_chains llm)).
Proof. intros Hllm. split. intros n. by apply llm_utf8_chains. Qed.

Lemma constant_llm_text answer :
  is_text answer = true ->
  forall text a, constant_llm answer text = Ok a -> is_text a = true.
Proof. by intros Ha text a [= <-]. Qed.

(** ** The download button offers the code of the last entry *)

Section downloads.
Context `{Lexer} `{Chains}.
Implicit Types (w : Widgets) (s : SessionState) (l : Locals) (es : list Element).

Lemma downloads_app es es' : downloads (es ++ es') = downloads es ++ downloads es'.
Proof. apply omap_app. Qed.

Lemma explain_optimized_downloads w text lang :
  downloads (explain_optimized_page w text lang) = [].
Proof. unfold explain_optimized_page. by repeat case_match. Qed.

Lemma comparison_downloads w s :
  downloads (comparison_page w s) `sublist_of`
  offered (list.last (history s)).
Proof.
  unfold comparison_page. destruct (list.last (history s)) as [e|]; [|done].
  repeat case_match; try apply sublist_nil_l.
  by rewrite downloads_app, explain_optimized_downloads.
Qed.

Lemma explain_downloads w l es k :
  downloads es `sublist_of` k -> downloads (explain_page w l es) `sublist_of` k.
Proof.
  unfold explain_page, explanation_page. intros. repeat case_match; by try apply sublist_nil_l.
Qed.

(** The download buttons of a page offer the cleaned code of the last
    entry of the history the execution leaves, under the name of line
    345. *)
Lemma page_step_downloads w s :
  downloads (page_step w s) `sublist_of`
  offered (list.last (history (step w s).1)).
Proof.
  unfold page_step, step. destruct (uploaded_code_of w); [|apply sublist_nil_l].
  rewrite !downloads_app. change (downloads upload_page) with (@nil (PyVal * string)).
  change (downloads (actions_page w s)) with (@nil (PyVal * string)).
  assert (downloads (revert_page w s) = []) as -> by (unfold revert_page; by repeat case_match).
  destruct (revert_step _ _ _) as [s1 l1]. destruct (clear_btn w); [apply sublist_nil_l|].
  rewrite downloads_app.
  assert (downloads (optimize_page w l1) = []) as -> by (unfold optimize_page; by case_match).
  destruct (optimize_step _ _ _) as [[s2 l2]|x]; [|apply sublist_nil_l].
  rewrite explain_step_history. apply explain_downloads.
  rewrite downloads_app. destruct (comparison_outcome w s2) as [|h];
    cbn [end_page downloads omap list_omap]; rewrite app_nil_r; apply comparison_downloads.
Qed.

End downloads.

(** ** The cleaned codes of a browser session are texts *)

Section browser_history.
Context `{Lexer} `{S : Service} (P : Entry -> Prop).
Hypothesis P_appended : forall n e, @appended (chains_at n) e -> P e.
Implicit Types (b : Browser) (a : Action) (e : Event).

Lemma execute_history_all a b :
  history_all P (session_of b) -> history_all P (session_of (execute a b).1).
Proof. apply (@run_history_all _ (chains_at (clock b))), P_appended. Qed.

Lemma deliver_history_all a b :
  history_all P (session_of b) -> history_all P (session_of (deliver a b)).
Proof.
  intros Hb%(execute_history_all a). unfold deliver.
  destruct (execute a b) as [b1 o]. destruct o as [|[]]; try done.
  by apply (execute_history_all Idle).
Qed.

Lemma apply_event_history e b :
  history (session_of (apply_event e b)) = history (session_of b).
Proof. by destruct e. Qed.

(** A property of the entries the service can cause holds of every
    entry of a browser session. *)
Lemma reachable_history_all b : reachable_browser b -> history_all P (session_of b).
Proof.
  induction 1 as [|e b _ IH].
  - apply deliver_history_all. constructor.
  - unfold browse. destruct (enabled e b); [|done].
    apply deliver_history_all. unfold history_all. by rewrite apply_event_history.
Qed.

End browser_history.

Section browser_downloads.
Context `{Lexer} `{S : Service}.
Implicit Types (b : Browser) (a : Action).

Lemma execute_downloads a b :
  downloads (shown (execute a b).1) `sublist_of`
  offered (list.last (history (session_of (execute a b).1))).
Proof. rewrite execute_shown, execute_session. apply page_step_downloads. Qed.

Lemma deliver_downloads a b :
  downloads (shown (deliver a b)) `sublist_of`
  offered (list.last (history (session_of (deliver a b)))).
Proof.
  pose proof (execute_downloads a b) as He. unfold deliver.
  destruct (execute a b) as [b1 o]. destruct o as [|[]]; try done.
  apply execute_downloads.
Qed.

(** The page a browser session displays offers the cleaned code of the
    last entry of its history. *)
Lemma reachable_downloads b :
  reachable_browser b ->
  downloads (shown b) `sublist_of` offered (list.last (history (session_of b))).
Proof.
  induction 1 as [|e b _ IH]; [apply deliver_downloads|].
  unfold browse. destruct (enabled e b); [apply deliver_downloads|done].
Qed.

(** Without a button the comparison view ends the execution only when
    the cleaned code is no [str]. *)
Lemma idle_comparison_outcome (C : Chains) b s :
  comparison_outcome (widgets_of b Idle) s <> Halted (Raise UnicodeDecodeError).
Proof. unfold comparison_outcome, explain_optimized_outcome. by repeat case_match. Qed.

End browser_downloads.

Lemma appended_text `{Chains} `{!Utf8Chains _} e : appended e -> cleaned_text e.
Proof. intros (l & v & _ & Hv & ->). by apply chain_utf8 in Hv. Qed.

(** ** The codec and the program *)

Section text.
Context `{Lexer}.
Implicit Types (w : Widgets) (s : string) (content : list Z) (b : Browser).

(** [lower] of the model is the map of the code points that moves the
    letters A to Z and leaves every other code point alone, and a string
    is a text exactly when its [lower] is: on a [str] whose upper-case
    letters are those of ASCII it is [str.lower] of Python. *)
Theorem lower_code_points s :
  code_points (Str.lower s) = fmap (M:=list) lower_cp <$> code_points s.
Proof.
  unfold code_points. rewrite bytes_of_lower.
  apply decode_ascii_map; auto using lower_cp_low, lower_cp_high, bytes_of_bytes.
Qed.

(** [strip] is [str.strip] of Python: it removes the white space of
    Unicode from both ends of the code points of a [str], the result is
    a [str], and it is empty, which is what the script tests, exactly
    when every code point is white space. *)
Theorem strip_code_points s cps :
  code_points s = Some cps ->
  code_points (Str.strip s) = Some (Str.strip_cps cps) /\
  (truthy (Str.strip s) = false <-> Forall (fun c => Str.is_space_cp c = true) cps).
Proof.
  intros Hd. split; [by apply Str.strip_text|].
  rewrite <- (Str.strip_blank s cps Hd). unfold truthy, truthy_string.
  by destruct (Str.strip s).
Qed.

(** The substitution of lines 211 and 213 deletes the code points outside
    [[a-z0-9]] of a [str], as [re.sub] does. *)
Theorem sub_non_alnum_code_points s cps :
  code_points s = Some cps ->
  code_points (Str.sub_non_alnum s) = Some (List.filter is_lower_alnum_cp cps).
Proof.
  intros Hd. destruct (decode_inv _ _ (bytes_of_bytes s) Hd) as [Hs He].
  unfold code_points. rewrite bytes_of_sub_non_alnum, <- He, filter_encode by done.
  apply decode_encode. by apply filter_Forall.
Qed.

(** A [str] that is written to a file and read back is the same [str],
    and the content of a file that decodes is what encoding the result
    gives: no two contents decode to the same [str]. *)
Theorem str_roundtrip s content :
  (is_text s = true -> bytes_decode (str_encode s) = Some s) /\
  (Forall is_byte content -> bytes_decode content = Some s ->
   is_text s = true /\ str_encode s = content).
Proof.
  split; [apply bytes_decode_str_encode|]. intros Hb. rewrite bytes_decode_eq by done.
  destruct (well_formed content) eqn:Hw; [|done]. intros [= <-].
  assert (is_text (string_of content) = true) as Ht
    by (unfold is_text; by rewrite bytes_of_string_of).
  split; [done|]. by rewrite str_encode_text, bytes_of_string_of.
Qed.

(** C22: the upload of line 95: the script goes on with the content as
    [uploaded_code] when the bytes of the file are well formed for Table
    3-7, and otherwise the execution ends with [UnicodeDecodeError]
    after the uploader is on the page, and the session state is as it
    was. *)
Theorem upload_decodes `{Chains} w name content (s0 : Stored) :
  Forall is_byte content ->
  uploaded_file w = Some (upload name content) ->
  uploaded_code_of w = (if well_formed content then Some (string_of content) else None) /\
  (well_formed content = false ->
   final (run w s0) = store (init_session_state s0) /\
   outcome (run w s0) = Halted (Raise UnicodeDecodeError) /\
   rendered (run w s0) = upload_page).
Proof.
  intros Hb Hw. assert (uploaded_code_of w =
    if well_formed content then Some (string_of content) else None) as Hu.
  { unfold uploaded_code_of. rewrite Hw. by apply bytes_decode_eq. }
  split; [done|]. intros Hn. rewrite Hn in Hu.
  rewrite run_final, run_outcome, run_rendered, step_decode_error by done.
  unfold page_step. by rewrite Hu, app_nil_r.
Qed.

(** C38: what a download button of a browser session offers is a [str], and
    the file the browser saves can be uploaded again under its name: the
    content decodes to the same [str], so that the execution after the
    upload does not end with [UnicodeDecodeError]. *)
Theorem download_uploads_back `{S : Service} `{!Utf8Service S} b data file_name :
  reachable_browser b ->
  (data, file_name) ∈ downloads (shown b) ->
  exists s, data = VStr s /\
    decoded (upload file_name (str_encode s)) = Some s /\
    (execute Idle (apply_event (Upload (upload file_name (str_encode s))) b)).2 <>
      Halted (Raise UnicodeDecodeError).
Proof.
  intros Hb Hd.
  assert (exists e, data = cleaned e /\ cleaned_text e) as (e & -> & He).
  { pose proof (reachable_history_all cleaned_text
      (fun n => @appended_text _ (utf8_service n)) b Hb) as Hall.
    pose proof (elem_of_sublist _ _ _ Hd (reachable_downloads b Hb)) as He.
    destruct (list.last (history (session_of b))) as [e|] eqn:Hl; [|by apply elem_of_nil in He].
    cbn [offered from_option] in He. apply list_elem_of_singleton in He.
    injection He as Hdata _. exists e. split; [done|].
    apply last_Some_elem_of in Hl. by apply (proj1 (list.Forall_forall _ _) Hall). }
  unfold cleaned_text in He. destruct (cleaned e) as [s| |]; try done.
  exists s. pose proof (bytes_decode_str_encode s He) as Hs. do 2 (split; [done|]).
  rewrite execute_outcome, (step_idle _ _ s) by done. apply idle_comparison_outcome.
Qed.

End text.

(** ** The theorems at concrete inputs *)

(** The strings of the development with characters outside ASCII are
    texts: the label of line 247 is an emoji and sixteen letters. *)
Example label_code_points :
  code_points "🧹 Optimize Code" =
  Some ([0x1F9F9; 32] ++ bytes_of "Optimize Code")%Z.
Proof. by vm_compute. Qed.

(** [lower] leaves the letters outside ASCII as they are. *)
Example lower_outside_ascii :
  code_points "CAFÉ" = Some [67; 65; 70; 0xC9]%Z /\
  code_points (Str.lower "CAFÉ") = Some [99; 97; 102; 0xC9]%Z.
Proof. by vm_compute. Qed.

(** Line 95 decodes with [utf-8], not [utf-8-sig]: the byte order mark
    some editors put at the start of a file is decoded to U+FEFF, the
    first character of the uploaded code, and [strip] does not remove
    it, so that a file with the mark alone is code that is not blank. *)
Example mark_is_code :
  bytes_decode ([0xEF; 0xBB; 0xBF] ++ bytes_of "x = 1")%Z =
    Some (string_of [0xEF; 0xBB; 0xBF]%Z ++ "x = 1")%string /\
  code_points (string_of [0xEF; 0xBB; 0xBF]%Z) = Some [0xFEFF]%Z /\
  truthy (Str.strip (string_of [0xEF; 0xBB; 0xBF]%Z)) = true.
Proof. by vm_compute. Qed.

(** The no-break space U+00A0 around [café] is stripped, and code of
    no-break spaces and line ends is blank. *)
Lemma strip_code_points_witness :
  code_points
    (Str.strip (string_of [0xC2; 0xA0; 32]%Z +:+ "café" +:+ string_of [0xC2; 0xA0]%Z)) =
    Some [99; 97; 102; 0xE9]%Z /\
  truthy (Str.strip (string_of [0xC2; 0xA0; 10; 0xE2; 0x80; 0x83]%Z)) = false.
Proof.
  split.
  - by apply (strip_code_points _ [0xA0; 32; 99; 97; 102; 0xE9; 0xA0]%Z).
  - by apply (strip_code_points _ [0xA0; 10; 0x2003]%Z); [|repeat constructor].
Defined.

Lemma sub_non_alnum_code_points_witness :
  code_points (Str.sub_non_alnum "c++ é 17") = Some [99; 49; 55]%Z.
Proof.
  by apply (sub_non_alnum_code_points "c++ é 17" [99; 43; 43; 32; 0xE9; 32; 49; 55]%Z).
Defined.

Lemma str_roundtrip_witness :
  bytes_decode (str_encode "café") = Some "café" /\
  (is_text "café" = true /\ str_encode "café" = [99; 97; 102; 0xC3; 0xA9]%Z).
Proof.
  destruct (str_roundtrip "café" [99; 97; 102; 0xC3; 0xA9]%Z) as [H1 H2].
  split; [by apply H1|]. apply H2; [|done]. repeat constructor; unfold is_byte; lia.
Defined.

Lemma upload_decodes_witness :
  outcome (@run sample_lexer failing
             (widgets (Some (upload "notes.txt" latin1_content)) "" Idle) empty_store) =
    Halted (Raise UnicodeDecodeError) /\
  rendered (@run sample_lexer failing
              (widgets (Some (upload "notes.txt" latin1_content)) "" Idle) empty_store) =
    upload_page.
Proof.
  destruct (@upload_decodes sample_lexer failing
              (widgets (Some (upload "notes.txt" latin1_content)) "" Idle)
              "notes.txt" latin1_content empty_store) as [_ Hn];
    [repeat constructor; unfold is_byte; lia|done|].
  by destruct (Hn eq_refl) as (_ & ? & ?).
Defined.

Lemma download_uploads_back_witness :
  exists s, VStr "x = 1" = VStr s /\
    decoded (upload "optimized_code.None" (str_encode s)) = Some s /\
    (@execute sample_lexer (steady (answering "x = 1")) Idle
       (apply_event (Upload (upload "optimized_code.None" (str_encode s)))
          (@session sample_lexer (steady (answering "x = 1"))
             [Edit "x=1"; Press PressOptimize]
             (@open_page sample_lexer (steady (answering "x = 1")))))).2 <>
      Halted (Raise UnicodeDecodeError).
Proof.
  apply (@download_uploads_back sample_lexer _
           (steady_utf8 _ (constant_llm_text "x = 1" eq_refl))).
  - apply reachable_session, rb_open.
  - vm_compute. apply list_elem_of_here.
Defined.
