(* ===== verification/Precedence.v ===== *)
(** * Precedence: the text area between typing, upload and clear

    Line 99 of src/CodeOptimizer.py says of the text area: "file upload
    fills it, but typing wins".  The script has no code for this rule: it
    gives the widget the uploaded code or the stored text as its [value]
    (lines 100-111) and relies on the framework, which keeps the text of
    a widget as long as the [value] it is created with stays the same.
    This file proves what the rule amounts to in every browser session:
    the invariant that ties the widget to the session state
    ([browser_ok]), which text the next execution works on
    ([what_you_see]), what an edit, an upload and a clear make of the
    text area. *)

From Stdlib Require Import Ascii String List ZArith Lia.
From stdpp Require Import base tactics option list strings.
From S2P Require Import Prelude PyString PyData Language Prompt Session.
From S2P Require Import Script Invariant Controller Run Page Sessions Browser.

(** ** Definitions used to state the properties *)

(** The text of the widget is the value it was created with or the text
    the callback stored: nothing else ever gets into it. *)
Definition text_ok (b : Browser) : Prop :=
  match area b with
  | Some t =>
      main_code_input t = created_with t \/
      main_code_input t = text_input_value (session_of b)
  | None => True
  end.

(** The text area and the session state agree: the widget exists when
    the upload decodes, it is the one on the page, it was created with
    the value the next execution will give it, or with the empty string
    by the rerun of a clear. *)
Definition area_ok (b : Browser) : Prop :=
  match area b with
  | Some t =>
      is_Some (upload_of b) /\
      text_area_on (shown b) = Some (created_with t) /\
      (created_with t = next_value b \/
       created_with t = "" /\ text_input_value (session_of b) = "")
  | None => upload_of b = None /\ text_area_on (shown b) = None
  end.

(** The page on display is the page of the session: the uploader is on
    it, the action buttons are on it when the upload decodes, and the
    button of line 336 is on it only with the comparison view. *)
Definition page_ok (b : Browser) : Prop :=
  existsb is_uploader (shown b) = true /\
  actions_on (shown b) = bool_decide (is_Some (upload_of b)) /\
  (button_on "📖 Explain Optimized Code" (shown b) = true ->
   is_Some (upload_of b) /\ is_Some (comparison_entry (session_of b))).

(** The invariant of the browser sessions. *)
Definition browser_ok (b : Browser) : Prop :=
  stored_ok (stored b) /\ text_ok b /\ area_ok b /\ page_ok b.

(** The text on display is the code the next execution works on. *)
Definition in_effect (b : Browser) : Prop := visible_text b = Some (next_code b).

#[export] Instance in_effect_dec b : Decision (in_effect b).
Proof. unfold in_effect. apply _. Defined.

(** The session of the examples: a file is uploaded, then Clear All. *)
Definition cleared_over_upload : Browser :=
  @session sample_lexer (steady (answering "x = 1"))
    [Upload python_file; Press PressClear]
    (@open_page sample_lexer (steady (answering "x = 1"))).

(** ** The buttons of a page *)

Section buttons.
Context `{Lexer} `{Chains}.
Implicit Types (w : Widgets) (s : SessionState) (label : string).

#[local] Ltac no_button := intros; repeat (case_match; try done).

Lemma button_on_app label (p q : list Element) :
  button_on label (p ++ q) = button_on label p || button_on label q.
Proof. apply existsb_app. Qed.

Lemma revert_page_button label w s : button_on label (revert_page w s) = false.
Proof. unfold revert_page. no_button. Qed.

Lemma optimize_page_button label w l : button_on label (optimize_page w l) = false.
Proof. unfold optimize_page. no_button. Qed.

Lemma end_page_button label o : button_on label (end_page o) = false.
Proof. by destruct o. Qed.

Lemma comparison_entry_Some s x :
  comparison_entry s = Some x ->
  exists h text,
    history s = h ++ [x] /\ cleaned x = VStr text /\ comparison_shown text x s = true.
Proof.
  unfold comparison_entry. intros Hx.
  destruct (last (history s)) as [e|] eqn:Hl; [|done].
  apply last_Some in Hl as [h Hh]. exists h.
  destruct (cleaned e) as [text| |] eqn:Hc; try done. exists text.
  destruct (comparison_shown text e s) eqn:Hs; by simplify_eq.
Qed.

Lemma comparison_page_button w s :
  button_on "📖 Explain Optimized Code" (comparison_page w s) = true ->
  is_Some (comparison_entry s).
Proof. unfold comparison_page, comparison_entry. no_button. Qed.

Lemma upload_page_button label : button_on label upload_page = false.
Proof. done. Qed.

Lemma actions_page_button w s :
  button_on "📖 Explain Optimized Code" (actions_page w s) = false.
Proof.
  unfold actions_page. cbn [button_on existsb is_button].
  by rewrite !bool_decide_eq_false_2 by done.
Qed.

(** The button of line 336 is on the page only of an execution that
    shows the comparison view of the session state it leaves. *)
Lemma page_step_button w s :
  button_on "📖 Explain Optimized Code" (page_step w s) = true ->
  is_Some (uploaded_code_of w) /\ is_Some (comparison_entry (step w s).1).
Proof.
  unfold page_step, step. rewrite button_on_app, upload_page_button.
  destruct (uploaded_code_of w); [|done]. intros Hb. split; [done|]. revert Hb.
  rewrite !button_on_app, actions_page_button, revert_page_button.
  destruct (revert_step _ _ _) as [s1 l1]. destruct (clear_btn w); [done|].
  rewrite button_on_app, optimize_page_button.
  destruct (optimize_step _ _ _) as [[s2 l2]|e]; [|done].
  unfold explain_page, explain_step. repeat case_match; try done.
  rewrite button_on_app, end_page_button, orb_false_r.
  apply comparison_page_button.
Qed.

End buttons.

(** ** The invariant of the browser sessions *)

Section invariant.
Context `{Lexer} `{Service}.
Implicit Types (a : Action) (b : Browser) (e : Event).

Lemma text_area_widget_cases (t : option WidgetState) value :
  text_area_widget t value = value \/
  exists x, t = Some x /\ created_with x = value /\
            text_area_widget t value = main_code_input x.
Proof. destruct t as [x|]; [|by left]. simpl. case_decide; eauto. Qed.

(** The value of line 111 depends on the session state through the
    clear flag and the stored text. *)
Lemma next_value_ext b b' :
  uploader b = uploader b' ->
  clear_triggered (session_of b) = clear_triggered (session_of b') ->
  text_input_value (session_of b) = text_input_value (session_of b') ->
  next_value b = next_value b'.
Proof.
  unfold next_value, text_area_value, get_initial_code, uploaded_code_of.
  cbn [widgets_of uploaded_file]. by intros -> -> ->.
Qed.

(** An empty value at line 111 means that the stored text is empty. *)
Lemma next_value_empty b :
  clear_triggered (session_of b) = false -> next_value b = "" ->
  text_input_value (session_of b) = "".
Proof.
  unfold next_value, text_area_value, get_initial_code. intros ->.
  case_match eqn:Hc; [|done]. intros Hv. rewrite Hv in Hc. by rewrite andb_false_r in Hc.
Qed.

Lemma execute_flag a b c :
  upload_of b = Some c ->
  clear_triggered (session_of (execute a b).1) = bool_decide (a = PressClear).
Proof.
  intros Hu. rewrite execute_session, step_clear_flag.
  change (uploaded_code_of (widgets_of b a)) with (upload_of b). by rewrite Hu.
Qed.

Lemma execute_text a b :
  a <> PressClear ->
  text_input_value (session_of (execute a b).1) = text_input_value (session_of b).
Proof.
  intros Ha. rewrite execute_session, step_text. cbn [clear_btn widgets_of].
  by rewrite (bool_decide_eq_false_2 _ Ha), andb_false_r.
Qed.

Lemma deliver_upload a b : upload_of (deliver a b) = upload_of b.
Proof.
  by destruct (decide (is_Some (upload_of b) /\ a = PressClear)) as [[Hu ->]|Hn];
    [rewrite deliver_twice by done|rewrite deliver_once by done].
Qed.

Lemma page_ok_execute a b : page_ok (execute a b).1.
Proof.
  unfold page_ok. rewrite execute_shown, execute_upload, execute_session. split_and!.
  - apply uploader_on_page_step.
  - apply actions_on_page_step.
  - apply page_step_button.
Qed.

Lemma page_ok_deliver a b : page_ok (deliver a b).
Proof.
  destruct (decide (is_Some (upload_of b) /\ a = PressClear)) as [[Hu ->]|Hn];
    [rewrite deliver_twice by done|rewrite deliver_once by done]; apply page_ok_execute.
Qed.

Lemma area_ok_execute a b :
  a <> PressClear -> clear_triggered (session_of b) = false ->
  area_ok (execute a b).1.
Proof.
  intros Ha Hc. unfold area_ok.
  rewrite execute_area, execute_upload, execute_shown, text_area_on_page_step.
  change (uploaded_code_of (widgets_of b a)) with (upload_of b).
  destruct (upload_of b) as [c|] eqn:Hu; [|done]. split_and!; [done..|left].
  apply next_value_ext; [done| |by rewrite execute_text].
  by rewrite (execute_flag _ _ c), bool_decide_eq_false_2.
Qed.

Lemma text_ok_execute a b : a <> PressClear -> text_ok b -> text_ok (execute a b).1.
Proof.
  intros Ha Hb. unfold text_ok in *. rewrite execute_area, execute_text by done.
  destruct (upload_of b); [|done]. simpl.
  destruct (text_area_widget_cases (area b) (next_value b)) as [->|(t & Ht & Hv & ->)];
    [by left|]. rewrite Ht in Hb. rewrite <- Hv. destruct Hb; auto.
Qed.

Lemma area_ok_clear b c : upload_of b = Some c -> area_ok (deliver PressClear b).
Proof.
  intros Hu. unfold area_ok.
  rewrite (deliver_clear_area _ c), deliver_upload, (deliver_clear_session _ c) by done.
  rewrite Hu, ready_text, deliver_twice, execute_shown, text_area_on_page_step by eauto.
  change (uploaded_code_of (widgets_of _ Idle)) with (upload_of b). rewrite Hu.
  split_and!; [done| |by right]. cbv [fmap option_fmap option_map]. f_equal.
  apply next_value_cleared. by rewrite (execute_clear_session _ c).
Qed.

Lemma text_ok_clear b c :
  upload_of b = Some c -> clear_triggered (session_of b) = false -> text_ok b ->
  text_ok (deliver PressClear b).
Proof.
  intros Hu Hc Hb. unfold text_ok in *. rewrite (deliver_clear_area _ c) by done. left.
  cbn [called_with created_with main_code_input text_area_widget].
  case_decide as Hv; [|done].
  destruct (text_area_widget_cases (area b) (next_value b)) as [->|(t & Ht & Hd & ->)];
    [done|]. rewrite Ht in Hb. destruct Hb as [->| ->]; [congruence|].
  by apply next_value_empty.
Qed.

(** An upload that does not decode leaves a page without text area. *)
Lemma area_ok_undecoded a b :
  upload_of b = None -> text_ok (execute a b).1 /\ area_ok (execute a b).1.
Proof.
  intros Hu. unfold text_ok, area_ok.
  rewrite execute_area, execute_shown, execute_upload, text_area_on_page_step.
  change (uploaded_code_of (widgets_of b a)) with (upload_of b). by rewrite Hu.
Qed.

Lemma text_area_ok_deliver a b :
  clear_triggered (session_of b) = false -> text_ok b ->
  text_ok (deliver a b) /\ area_ok (deliver a b).
Proof.
  intros Hc Ht. destruct (upload_of b) as [c|] eqn:Hu.
  - destruct (decide (a = PressClear)) as [->|Ha];
      [by split; [apply (text_ok_clear _ c)|apply (area_ok_clear _ c)]|].
    rewrite deliver_once by (by intros [_ ?]).
    by split; [apply text_ok_execute|apply area_ok_execute].
  - rewrite deliver_once by (rewrite Hu; by intros [[] _]). by apply area_ok_undecoded.
Qed.

(** What an action causes keeps the invariant, whatever the event before
    it did to the widgets. *)
Lemma browser_ok_deliver `{!TextService _} a b :
  stored_ok (stored b) -> text_ok b -> browser_ok (deliver a b).
Proof.
  intros Hs Ht. pose proof Hs as (_ & _ & Hc).
  destruct (text_area_ok_deliver a b Hc Ht). split_and!; [|done..|apply page_ok_deliver].
  rewrite deliver_interact. by apply stored_ok_interact; try apply text_service.
Qed.

Lemma text_ok_apply_event e b : text_ok b -> text_ok (apply_event e b).
Proof.
  unfold text_ok, session_of. destruct e; try done.
  cbn [apply_event area stored]. destruct (area b); [|done]. by right.
Qed.

Lemma browse_ok `{!TextService _} e b : browser_ok b -> browser_ok (browse e b).
Proof.
  intros Hb. unfold browse. destruct (enabled e b); [|done].
  destruct Hb as (Hs & Ht & _). apply browser_ok_deliver.
  - rewrite stored_apply_event. by apply stored_ok_edit.
  - by apply text_ok_apply_event.
Qed.

End invariant.

(** ** Typing, upload and clear *)

Section precedence.
Context `{Lexer} `{Service} `{!TextService _}.
Implicit Types (a : Action) (b : Browser) (e : Event) (t : WidgetState).

Lemma reachable_browser_inv b : reachable_browser b -> browser_ok b.
Proof.
  induction 1; [|by apply browse_ok]. apply browser_ok_deliver; [|done].
  apply stored_ok_empty.
Qed.

Lemma browser_ok_flag b : browser_ok b -> clear_triggered (session_of b) = false.
Proof. by intros ((_ & _ & ?) & _). Qed.

(** The value of line 111 between two events: the code of the upload
    when it is not empty, the stored text otherwise. *)
Lemma next_value_eq b c :
  upload_of b = Some c -> clear_triggered (session_of b) = false ->
  next_value b = if truthy c then c else text_input_value (session_of b).
Proof.
  unfold next_value, text_area_value, get_initial_code, upload_of, uploaded_code_of.
  cbn [widgets_of uploaded_file]. intros Hu ->. rewrite Hu. cbn [default].
  destruct (uploader b); [done|]. by simplify_eq.
Qed.

Lemma truthy_string_true (c : string) : truthy c = true <-> c <> "".
Proof. by destruct c. Qed.

Lemma truthy_string_false (c : string) : truthy c = false <-> c = "".
Proof. by destruct c. Qed.

(** [messy_code] of the next execution, by the state of the widget. *)
Lemma next_code_area b t :
  area b = Some t ->
  next_code b =
  if decide (created_with t = next_value b) then main_code_input t else next_value b.
Proof. unfold next_code, typed_code. cbn [text_area widgets_of]. by intros ->. Qed.

Lemma next_code_none b : area b = None -> next_code b = next_value b.
Proof. unfold next_code, typed_code. cbn [text_area widgets_of]. by intros ->. Qed.

(** The text on display is in effect exactly when the widget was created
    with the value the next execution gives it. *)
Lemma in_effect_created b t :
  browser_ok b -> area b = Some t ->
  in_effect b <-> created_with t = next_value b.
Proof.
  intros (_ & Ht & Ha & _) Hb. unfold in_effect, visible_text.
  rewrite (next_code_area b t Hb). unfold text_ok, area_ok in *. rewrite Hb in *. cbn.
  case_decide as Hv; [done|]. split; [|done]. intros [= Hn]. destruct Ha as (_ & _ & [?|[Hd He]]); [done|].
  destruct Ht; congruence.
Qed.

(** A text on display that is not in effect is the empty text that the
    rerun of a clear left over the code of an upload. *)
Lemma not_in_effect b t :
  browser_ok b -> area b = Some t -> ~ in_effect b ->
  main_code_input t = "" /\ created_with t = "" /\ next_code b = next_value b /\
  next_value b <> "" /\ upload_of b = Some (next_value b).
Proof.
  intros Hb Ht Hn. pose proof Hb as (_ & Htext & Harea & _).
  rewrite (in_effect_created _ t) in Hn by done. unfold text_ok, area_ok in *.
  rewrite Ht in *. destruct Harea as (Hu & _ & [?|[Hd He]]); [done|].
  assert (next_value b <> "") by congruence.
  split_and!; [destruct Htext; congruence|done| |done|].
  - by rewrite (next_code_area b t), decide_False.
  - destruct Hu as [c Hu]. rewrite Hu, (next_value_eq b c Hu (browser_ok_flag b Hb)) in *.
    by destruct (truthy c); [|congruence].
Qed.

(** After an event that is not a clear the text on display is in
    effect. *)
Lemma in_effect_execute a b :
  a <> PressClear -> clear_triggered (session_of b) = false ->
  is_Some (upload_of b) -> in_effect (execute a b).1.
Proof.
  intros Ha Hc [c Hu]. unfold in_effect, visible_text.
  rewrite (next_code_area _ (called_with (area b) (next_value b)))
    by (by rewrite execute_area, Hu).
  rewrite execute_area, Hu. cbv [fmap option_fmap option_map called_with created_with].
  replace (next_value (execute a b).1) with (next_value b); [by rewrite decide_True|].
  apply next_value_ext; [done| |by rewrite execute_text].
  by rewrite (execute_flag _ _ c), bool_decide_eq_false_2.
Qed.

Lemma browser_ok_visible b text :
  browser_ok b -> visible_text b = Some text ->
  exists t, area b = Some t /\ main_code_input t = text.
Proof. unfold visible_text. intros _. destruct (area b) as [t|]; [|done]. intros [= <-]. eauto. Qed.

Lemma area_ok_upload b t : browser_ok b -> area b = Some t -> is_Some (upload_of b).
Proof. intros (_ & _ & Ha & _) Ht. unfold area_ok in Ha. rewrite Ht in Ha. by destruct Ha. Qed.

(** After an execution the text area shows the code the execution
    worked on. *)
Lemma visible_execute a b c :
  upload_of b = Some c -> visible_text (execute a b).1 = Some (next_code b).
Proof. intros Hu. unfold visible_text. by rewrite execute_area, Hu. Qed.

Lemma area_edit b t text :
  area b = Some t ->
  area (apply_event (Edit text) b) =
  Some {| created_with := created_with t; main_code_input := text |}.
Proof. cbn [apply_event area]. by intros ->. Qed.

(** The action buttons can be pressed when the upload decodes. *)
Lemma enabled_action a b :
  browser_ok b -> is_Some (upload_of b) ->
  a <> PressExplainOptimized -> enabled (Press a) b = true.
Proof.
  intros (_ & _ & _ & _ & Ha & _) Hu Hn. rewrite bool_decide_eq_true_2 in Ha by done.
  unfold actions_on in Ha. cbn [forallb from_option label_of] in Ha.
  apply andb_prop in Ha as [Ho Ha]. apply andb_prop in Ha as [He Ha].
  apply andb_prop in Ha as [Hr Ha]. apply andb_prop in Ha as [Hc _].
  by destruct a.
Qed.

Lemma open_page_ok : browser_ok open_page.
Proof. apply browser_ok_deliver; [apply stored_ok_empty|done]. Qed.

(** C5: in every browser session the widgets, the page and the session
    state agree ([browser_ok]): the history is well formed, the text of
    the text area is the value it was created with or the text the
    callback stored, the widget was created with the value of the next
    execution or blanked by a clear, and the buttons on the page are
    those the session state allows. *)
Theorem session_ok es : browser_ok (session es open_page).
Proof.
  generalize open_page_ok. generalize open_page.
  induction es as [|e es IH]; intros b Hb; [done|]. by apply IH, browse_ok.
Qed.

(** The code the next execution works on is the text on display,
    except when the display is the empty text that a clear left over the
    code of an uploaded file: then it is the code of the file. *)
Theorem what_you_see b text :
  reachable_browser b -> visible_text b = Some text ->
  next_code b = text \/
  text = "" /\ next_code b <> "" /\ upload_of b = Some (next_code b).
Proof.
  intros Hb%reachable_browser_inv Hv.
  destruct (decide (in_effect b)) as [He|Hn]; [left; unfold in_effect in He; congruence|].
  destruct (browser_ok_visible b text Hb Hv) as (t & Ht & <-).
  destruct (not_in_effect b t Hb Ht Hn) as (-> & _ & -> & ? & ?). by right.
Qed.

(** An edit, in a browser session that satisfies the invariant. *)
Lemma browse_edit b text :
  browser_ok b -> enabled (Edit text) b = true ->
  visible_text (browse (Edit text) b) =
    Some (if decide (in_effect b) then text else next_code b) /\
  in_effect (browse (Edit text) b).
Proof.
  intros Hb He. unfold browse. rewrite He.
  cbn [enabled] in He. destruct (area b) as [t|] eqn:Ht; [|done].
  destruct (area_ok_upload b t Hb Ht) as [c Hu]. pose proof (browser_ok_flag b Hb) as Hc.
  rewrite deliver_once by (by intros [_ ?]).
  set (b' := apply_event (Edit text) b).
  split; [|by apply in_effect_execute; [..|exists c]]. rewrite (visible_execute _ b' c Hu).
  rewrite (next_code_area b' _ (area_edit b t text Ht)). cbn [created_with main_code_input].
  rewrite (next_value_eq b' c Hu Hc).
  change (text_input_value (session_of b')) with text.
  rewrite (decide_ext _ _ _ _ (in_effect_created b t Hb Ht)).
  pose proof (not_in_effect b t Hb Ht) as Hn. rewrite (in_effect_created b t Hb Ht) in Hn.
  rewrite (next_value_eq b c Hu Hc) in *. f_equal.
  destruct (truthy c) eqn:Hcode; repeat case_decide; try done;
    (destruct Hn as (_ & _ & Hn & Hne & Hup); [done|]); rewrite Hu in Hup;
    simplify_eq; [done|apply truthy_string_true in Hne; congruence..].
Qed.

(** C6: typing wins when the text on display is in effect: the text area
    then shows the typed text, whatever the uploader holds.  After a
    clear with a file in the uploader it loses: the text area shows the
    code of the file instead.  Either way the text on display is in
    effect afterwards. *)
Theorem edit_text_area b text :
  reachable_browser b -> enabled (Edit text) b = true ->
  visible_text (browse (Edit text) b) =
    Some (if decide (in_effect b) then text else next_code b) /\
  in_effect (browse (Edit text) b).
Proof. intros Hb%reachable_browser_inv. by apply browse_edit. Qed.

Lemma upload_of_file b f c : uploader b = Some f -> decoded f = Some c -> upload_of b = Some c.
Proof. unfold upload_of, uploaded_code_of. cbn [widgets_of uploaded_file]. by intros ->. Qed.

Lemma next_value_upload b c :
  upload_of b = Some c -> c <> "" -> clear_triggered (session_of b) = false ->
  next_value b = c.
Proof. intros Hu Hc%truthy_string_true Hf. by rewrite (next_value_eq b c Hu Hf), Hc. Qed.

(** An upload fills the text area: after a file with code is put in
    the uploader the text area shows the code of the file, unless the
    uploader held a file with the same code before and the text on
    display was in effect; then the text stays. *)
Theorem upload_fills b f c :
  reachable_browser b -> decoded f = Some c -> c <> "" ->
  visible_text (browse (Upload f) b) =
  if decide (upload_of b = Some c /\ in_effect b) then visible_text b else Some c.
Proof.
  intros Hb%reachable_browser_inv Hf Hc. pose proof Hb as (_ & Htext & Harea & Hup & _).
  unfold browse. cbn [enabled]. rewrite Hup. set (b' := apply_event (Upload f) b).
  assert (Hu : upload_of b' = Some c) by by apply (upload_of_file b' f).
  rewrite deliver_once by (by intros [_ ?]). rewrite (visible_execute _ b' c Hu).
  pose proof (next_value_upload b' c Hu Hc (browser_ok_flag b Hb)) as Hv.
  destruct (area b) as [t|] eqn:Ht.
  2:{ rewrite decide_False; [by rewrite (next_code_none b' Ht), Hv|].
      unfold in_effect, visible_text. rewrite Ht. by intros [_ ?]. }
  rewrite (next_code_area b' t Ht), Hv.
  rewrite (decide_ext (upload_of b = Some c /\ in_effect b)
             (upload_of b = Some c /\ created_with t = next_value b))
    by (by rewrite (in_effect_created b t Hb Ht)).
  unfold visible_text, text_ok, area_ok in *. rewrite Ht in *.
  destruct Harea as ([c' Hu'] & _ & Hcreated).
  rewrite Hu', (next_value_eq b c' Hu' (browser_ok_flag b Hb)) in *.
  destruct (truthy c') eqn:Hc'; [|apply truthy_string_false in Hc' as ->];
    repeat case_decide; destruct_and?; simplify_eq; try done; f_equal;
    destruct Hcreated as [?|[? ?]], Htext; try congruence.
  all: match goal with Hn : ~ (_ /\ _) |- _ => by destruct Hn; split; congruence end.
Qed.

(** C14: the uploader survives Clear All.  After a clear with a
    file with code in the uploader the history is empty and the text area
    is blank, but the code the next execution works on is the code of the
    file: the next press of optimize or explain sends the file. *)
Theorem clear_leaves_upload b f c :
  reachable_browser b -> uploader b = Some f -> decoded f = Some c -> c <> "" ->
  visible_text (browse (Press PressClear) b) = Some "" /\
  next_code (browse (Press PressClear) b) = c /\
  history (session_of (browse (Press PressClear) b)) = [].
Proof.
  intros Hb%reachable_browser_inv Hf Hd Hc.
  pose proof (upload_of_file b f c Hf Hd) as Hu. unfold browse.
  rewrite enabled_action by eauto. cbn [action_of apply_event].
  pose proof (deliver_clear_area b c Hu) as Ha.
  pose proof (deliver_clear_session b c Hu) as Hs.
  rewrite (next_value_upload b c Hu Hc (browser_ok_flag b Hb)) in Ha.
  unfold visible_text. rewrite (next_code_area _ _ Ha), Ha, Hs, ready_history.
  rewrite next_value_upload with (c := c);
    [|by rewrite deliver_upload|done|by rewrite Hs, ready_cleared].
  cbn. by rewrite !decide_False.
Qed.

(** ** What a session can raise *)

Lemma execute_exceptions a b (x : Exn) :
  history_ok (session_of b) -> (execute a b).2 = Halted (Raise x) ->
  x = UnicodeDecodeError \/ service_error x.
Proof.
  rewrite execute_outcome. intros Hok [->|(inputs & He)]%step_exceptions;
    [by left|right; by exists (clock b), inputs|done].
Qed.

Lemma deliver_exceptions a b (x : Exn) :
  history_ok (session_of b) -> ended (deliver a b) = Halted (Raise x) ->
  x = UnicodeDecodeError \/ service_error x.
Proof.
  intros Hok. destruct (decide (is_Some (upload_of b) /\ a = PressClear)) as [[[c Hu] ->]|Hn];
    [rewrite deliver_twice by eauto|rewrite deliver_once by done];
    rewrite execute_ended; apply execute_exceptions; [|done].
  unfold history_ok. rewrite (execute_clear_session b c Hu). constructor.
Qed.

Lemma browse_exceptions e b (x : Exn) :
  browser_ok b ->
  (ended b = Halted (Raise x) -> x = UnicodeDecodeError \/ service_error x) ->
  ended (browse e b) = Halted (Raise x) ->
  x = UnicodeDecodeError \/ service_error x.
Proof.
  intros ((Hok & _) & _) Hb. unfold browse. destruct (enabled e b); [|done].
  apply deliver_exceptions. unfold session_of. rewrite stored_apply_event.
  by destruct e.
Qed.

(** C27: no browser session raises anything but the decoding error of
    the upload and the exceptions of the service: whatever the user does,
    [IndexError] (lines 261-262) and [AttributeError] (line 316) never end
    an execution when the chains return text. *)
Theorem session_exceptions es (x : Exn) :
  ended (session es open_page) = Halted (Raise x) ->
  x = UnicodeDecodeError \/ service_error x.
Proof.
  pose proof open_page_ok as Hopen.
  assert (Hended : ended open_page = Halted (Raise x) ->
                   x = UnicodeDecodeError \/ service_error x)
    by (apply deliver_exceptions; constructor).
  revert Hopen Hended. generalize open_page.
  induction es as [|e es IH]; intros b Hb He; [done|].
  by apply IH; [apply browse_ok|apply browse_exceptions].
Qed.

(** ** From the keyboard to the history *)

Lemma typed_code_widgets_of a b :
  typed_code (widgets_of b a) (session_of b) = next_code b.
Proof. done. Qed.

Lemma browse_edit_history b text :
  browser_ok b -> enabled (Edit text) b = true ->
  history (session_of (browse (Edit text) b)) = history (session_of b) /\
  clock (browse (Edit text) b) = S (clock b) /\
  uploader (browse (Edit text) b) = uploader b.
Proof.
  intros Hb He. unfold browse. rewrite He. cbn [enabled] in He.
  destruct (area b) as [t|] eqn:Ht; [|done]. destruct (area_ok_upload b t Hb Ht) as [c Hu].
  rewrite deliver_once by (by intros [_ ?]). split; [|done].
  rewrite execute_session.
  rewrite (step_idle (widgets_of (apply_event (Edit text) b) Idle) _ c
             (pressed_widgets_of _ _) Hu). cbn [fst]. by rewrite ready_history.
Qed.

(** C15: what is typed is what is optimized.  In a session whose text on
    display is in effect, typing code that is not blank and pressing
    Optimize appends one entry to the history: the typed code, the text
    of the answer the chain gives in the execution of the press, and the
    language detected from the file in the uploader and the typed
    code. *)
Theorem typed_code_is_optimized b code v :
  reachable_browser b -> in_effect b -> enabled (Edit code) b = true ->
  truthy (Str.strip code) = true ->
  @chain_invoke (chains_at (S (clock b)))
    (chain_inputs code (detect_language (uploader b) code)) = Ok v ->
  history (session_of (session [Edit code; Press PressOptimize] b)) =
  history (session_of b) ++
  [{| messy := code; cleaned := Val.text_of v;
      language := detect_language (uploader b) code |}].
Proof.
  intros Hb%reachable_browser_inv Hi He Hcode Hv. cbn [session].
  destruct (browse_edit b code Hb He) as [Hvis Heff].
  destruct (browse_edit_history b code Hb He) as (Hh & Hclock & Hup).
  pose proof (browse_ok (Edit code) b Hb) as Hb1. set (b1 := browse (Edit code) b) in *.
  rewrite decide_True in Hvis by done. unfold in_effect in Heff. rewrite Hvis in Heff.
  injection Heff as Hnext. destruct (browser_ok_visible b1 code Hb1 Hvis) as (t & Ht & _).
  destruct (area_ok_upload b1 t Hb1 Ht) as [c Hu].
  unfold browse. rewrite enabled_action by eauto. rewrite deliver_once by (by intros [_ ?]).
  rewrite execute_session, <- Hh. cbn [action_of apply_event].
  rewrite (step_optimizes_history _ _ v); unfold optimizes, new_entry, initial_locals;
    cbn [messy_code detected_language uploaded_file widgets_of];
    rewrite !typed_code_widgets_of, <- Hnext, Hup, ?Hclock; [done|].
  split_and!; [done|by exists c|done..].
Qed.

End precedence.

(** ** The theorems at concrete inputs *)

Lemma session_ok_witness :
  browser_ok
    (@session sample_lexer (steady (answering "x = 1"))
       [Upload python_file; Press PressClear; Edit "x=1"; Press PressOptimize]
       (@open_page sample_lexer (steady (answering "x = 1")))).
Proof. apply (@session_ok sample_lexer _ (steady_text (constant_llm "x = 1"))). Defined.

Lemma what_you_see_witness :
  next_code cleared_over_upload = "" \/
  "" = "" /\ next_code cleared_over_upload <> "" /\
  upload_of cleared_over_upload = Some (next_code cleared_over_upload).
Proof.
  apply (@what_you_see sample_lexer _ (steady_text (constant_llm "x = 1")));
    [apply reachable_session, rb_open|by_evaluation].
Defined.

Lemma edit_text_area_witness :
  visible_text (@browse sample_lexer (steady (answering "x = 1")) (Edit "x=1")
                  cleared_over_upload) =
    Some (if decide (in_effect cleared_over_upload) then "x=1"
          else next_code cleared_over_upload) /\
  in_effect (@browse sample_lexer (steady (answering "x = 1")) (Edit "x=1")
               cleared_over_upload).
Proof.
  apply (@edit_text_area sample_lexer _ (steady_text (constant_llm "x = 1")));
    [apply reachable_session, rb_open|by_evaluation].
Defined.

Lemma upload_fills_witness :
  visible_text
    (@browse sample_lexer (steady (answering "x = 1")) (Upload python_file)
       (@session sample_lexer (steady (answering "x = 1")) [Edit "x=1"]
          (@open_page sample_lexer (steady (answering "x = 1"))))) =
  if decide
       (upload_of (@session sample_lexer (steady (answering "x = 1")) [Edit "x=1"]
                     (@open_page sample_lexer (steady (answering "x = 1")))) =
          Some "function f() { return 1; }" /\
        in_effect (@session sample_lexer (steady (answering "x = 1")) [Edit "x=1"]
                     (@open_page sample_lexer (steady (answering "x = 1")))))
  then visible_text (@session sample_lexer (steady (answering "x = 1")) [Edit "x=1"]
                       (@open_page sample_lexer (steady (answering "x = 1"))))
  else Some "function f() { return 1; }".
Proof.
  apply (@upload_fills sample_lexer _ (steady_text (constant_llm "x = 1")));
    [apply reachable_session, rb_open|by_evaluation..].
Defined.

Lemma clear_leaves_upload_witness :
  visible_text
    (@browse sample_lexer (steady (answering "x = 1")) (Press PressClear)
       (@session sample_lexer (steady (answering "x = 1"))
          [Upload python_file; Edit "x=1"]
          (@open_page sample_lexer (steady (answering "x = 1"))))) = Some "" /\
  next_code
    (@browse sample_lexer (steady (answering "x = 1")) (Press PressClear)
       (@session sample_lexer (steady (answering "x = 1"))
          [Upload python_file; Edit "x=1"]
          (@open_page sample_lexer (steady (answering "x = 1"))))) =
    "function f() { return 1; }" /\
  history
    (session_of
       (@browse sample_lexer (steady (answering "x = 1")) (Press PressClear)
          (@session sample_lexer (steady (answering "x = 1"))
             [Upload python_file; Edit "x=1"]
             (@open_page sample_lexer (steady (answering "x = 1")))))) = [].
Proof.
  apply (@clear_leaves_upload sample_lexer _ (steady_text (constant_llm "x = 1")) _ python_file);
    [apply reachable_session, rb_open|by_evaluation..].
Defined.

Lemma session_exceptions_witness :
  ServiceError "quota exceeded" = UnicodeDecodeError \/
  @service_error (steady failing) (ServiceError "quota exceeded").
Proof.
  apply (@session_exceptions sample_lexer _ (steady_text failing_llm)
           [Edit "x=1"; Press PressOptimize]).
  by_evaluation.
Defined.

Lemma typed_code_is_optimized_witness :
  history
    (session_of
       (@session sample_lexer (steady (answering "x = 1"))
          [Edit "x=1"; Press PressOptimize]
          (@session sample_lexer (steady (answering "x = 1")) [Upload python_file]
             (@open_page sample_lexer (steady (answering "x = 1")))))) =
  history
    (session_of
       (@session sample_lexer (steady (answering "x = 1")) [Upload python_file]
          (@open_page sample_lexer (steady (answering "x = 1"))))) ++
  [{| messy := "x=1";
      cleaned := Val.text_of
                   (VDict [("code", Some "x=1"); ("language", Some "python");
                           ("text", Some "x = 1")]);
      language := @detect_language sample_lexer (Some python_file) "x=1" |}].
Proof.
  apply (@typed_code_is_optimized sample_lexer _ (steady_text (constant_llm "x = 1")));
    [apply reachable_session, rb_open|by_evaluation..].
Defined.
