(* ===== verification/Server.v ===== *)
(** * Server: the sessions of several users

    Streamlit serves every browser tab as a session of its own: the
    script is executed for one session at a time with that session's
    [st.session_state] and widgets, and nothing the script of this
    repository writes outlives an execution except through them (the
    tables, the templates, the client of the model and the chains of
    lines 28-241 are made again by every execution).  A tab that is
    opened, or loaded again, starts from the defaults of lines 36-45; a
    tab that is closed is forgotten.

    The server is a finite map from the identifiers of the sessions to
    their browsers, and a request is the opening of a tab, an event of
    the user of a tab, or its closing.  The theorems show that the users
    do not interfere: the state of a session is the one its own requests
    give, whatever the others do in between, and every session the
    server holds is one a user alone could have reached, so that the
    theorems of [Sessions], [Precedence] and [Progress] hold of each of
    them. *)

From Stdlib Require Import String List.
From stdpp Require Import base tactics option list strings gmap.
From S2P Require Import Prelude PyString PyData Language Prompt Session.
From S2P Require Import Script Controller Run Page Sessions Browser Precedence.

(** ** Requests *)

Inductive Request : Type :=
| Connect (id : nat)
| Act (id : nat) (e : Event)
| Disconnect (id : nat).

(** The session a request belongs to. *)
Definition session_id (r : Request) : nat :=
  match r with Connect id | Act id _ | Disconnect id => id end.

Section with_services.
Context `{Lexer}.

(** The chains as they answer to each session. *)
Context (services : nat -> Service).

(** One request on the sessions the server holds.  An event for a session the server does not hold (the
    tab was closed) is dropped. *)
Definition serve (r : Request) (srv : gmap nat Browser) : gmap nat Browser :=
  match r with
  | Connect id => <[id := @open_page _ (services id)]> srv
  | Act id e => alter (@browse _ (services id) e) id srv
  | Disconnect id => delete id srv
  end.

(** The requests in the order the server takes them. *)
Definition serve_all (rs : list Request) (srv : gmap nat Browser) : gmap nat Browser :=
  foldl (fun srv r => serve r srv) srv rs.

(** The requests of the session [id] among [rs]. *)
Definition requests_of (id : nat) (rs : list Request) : list Request :=
  filter (fun r => session_id r = id) rs.

(** ** The users do not interfere *)

Implicit Types (r : Request) (rs : list Request) (srv : gmap nat Browser) (id : nat).

(** A request leaves the other sessions as they are. *)
Lemma serve_other r srv id : session_id r <> id -> serve r srv !! id = srv !! id.
Proof.
  destruct r as [j|j e|j]; cbn [session_id serve]; intros Hj.
  - by apply lookup_insert_ne.
  - by apply lookup_alter_ne.
  - by apply lookup_delete_ne.
Qed.

(** What a request does to its own session depends on that session
    only. *)
Lemma serve_own r srv srv' :
  srv !! session_id r = srv' !! session_id r ->
  serve r srv !! session_id r = serve r srv' !! session_id r.
Proof.
  destruct r as [j|j e|j]; cbn [session_id serve]; intros Hj.
  - by rewrite !lookup_insert_eq.
  - by rewrite !lookup_alter_eq, Hj.
  - by rewrite !lookup_delete_eq.
Qed.

Lemma serve_all_snoc rs r srv : serve_all (rs ++ [r]) srv = serve r (serve_all rs srv).
Proof. unfold serve_all. by rewrite foldl_app. Qed.

Lemma requests_of_snoc id rs r :
  requests_of id (rs ++ [r]) =
  requests_of id rs ++ (if decide (session_id r = id) then [r] else []).
Proof.
  unfold requests_of. by rewrite filter_app.
Qed.

(** The state of a session is the one its own requests give. *)
Lemma serve_all_own rs srv id :
  serve_all rs srv !! id = serve_all (requests_of id rs) srv !! id.
Proof.
  induction rs as [|r rs IH] using rev_ind; [done|].
  rewrite requests_of_snoc, serve_all_snoc. destruct (decide _) as [<-|Hr].
  - rewrite serve_all_snoc. by apply serve_own.
  - by rewrite app_nil_r, serve_other.
Qed.

(** Every session the server holds is a browser session of one user. *)
Definition server_ok (srv : gmap nat Browser) : Prop :=
  map_Forall (fun id b => @reachable_browser _ (services id) b) srv.

Lemma serve_ok r srv : server_ok srv -> server_ok (serve r srv).
Proof.
  unfold server_ok. destruct r as [j|j e|j]; cbn [serve]; intros Hsrv.
  - apply map_Forall_insert_2; [constructor|done].
  - intros id b. destruct (decide (j = id)) as [<-|Hj].
    + rewrite lookup_alter_eq. intros (b0 & Hb & ->)%fmap_Some.
      constructor. by eapply Hsrv.
    + rewrite lookup_alter_ne by done. apply Hsrv.
  - by apply map_Forall_delete.
Qed.

Lemma serve_all_ok rs srv : server_ok srv -> server_ok (serve_all rs srv).
Proof.
  induction rs as [|r rs IH] using rev_ind; [done|].
  rewrite serve_all_snoc. auto using serve_ok.
Qed.

(** The users do not interfere: after any sequence of requests, the
    server holds for the session [id] what it would hold had the
    requests of [id] been the only ones. *)
Theorem sessions_isolated rs id :
  serve_all rs ∅ !! id = serve_all (requests_of id rs) ∅ !! id.
Proof. apply serve_all_own. Qed.

(** Whatever the requests and their order, a session of the server is
    the browser session of one user: it is reached from the page a new
    tab gets by events of that user alone. *)
Theorem server_sessions_reachable rs id b :
  serve_all rs ∅ !! id = Some b -> @reachable_browser _ (services id) b.
Proof. intros Hb. by eapply (serve_all_ok rs ∅); [apply map_Forall_empty|]. Qed.

(** Loading the page again starts the session over: the history of the
    versions and the text that was typed are gone. *)
Theorem reload_forgets rs id b :
  serve_all (rs ++ [Connect id]) ∅ !! id = Some b ->
  history (session_of b) = [] /\ text_input_value (session_of b) = "".
Proof.
  rewrite serve_all_snoc. cbn [serve]. rewrite lookup_insert_eq. intros [= <-].
  by rewrite open_page_session.
Qed.

End with_services.

(** ** Examples *)

Lemma server_sessions_reachable_witness :
  @reachable_browser sample_lexer (steady (answering "x = 1"))
    (@browse sample_lexer (steady (answering "x = 1")) (Edit "x=1")
       (@open_page sample_lexer (steady (answering "x = 1")))).
Proof.
  apply (@server_sessions_reachable sample_lexer (fun _ => steady (answering "x = 1"))
           [Connect 0; Connect 1; Act 0 (Press PressOptimize); Act 1 (Edit "x=1");
            Disconnect 0] 1).
  by vm_compute.
Defined.

Lemma reload_forgets_witness :
  history (session_of (@open_page sample_lexer (steady (answering "x = 1")))) = [] /\
  text_input_value (session_of (@open_page sample_lexer (steady (answering "x = 1")))) = "".
Proof.
  apply (@reload_forgets sample_lexer (fun _ => steady (answering "x = 1"))
           [Connect 1; Act 1 (Edit "x=1"); Act 1 (Press PressOptimize)] 1).
  by vm_compute.
Defined.
