(* ===== verification/Progress.v ===== *)
(** * Progress: what the user can always get to

    The properties of this file say that a browser session does not get
    stuck: a press on the button of line 336 is always served by the
    execution it causes, pressing revert again and again comes to an end
    at the first entry of the history, and a session whose upload does
    not decode gets its buttons back when the file is removed.  The last
    part relates an optimize and the revert that follows it. *)

From Stdlib Require Import Ascii String List ZArith Lia.
From stdpp Require Import base tactics option list strings.
From S2P Require Import Prelude PyString PyData Language Prompt Session.
From S2P Require Import Script Invariant Controller Run Page Sessions Browser.
From S2P Require Import Precedence.

(** ** Definitions used to state the properties *)

(** Lines 260-261 on the history: revert drops the last entry when there
    is more than one. *)
Definition revert_history (h : list Entry) : list Entry :=
  if (1 <? length h)%nat then removelast h else h.

(** A file for the examples that is not UTF-8. *)
Definition binary_file : UploadedFile := {| name := "a.bin"; decoded := None |}.

(** The session the examples start from: two optimisations of typed
    code. *)
Definition optimized_twice : Browser :=
  @session sample_lexer (steady (answering "x = 1"))
    [Edit "x=1"; Press PressOptimize; Edit "y=2"; Press PressOptimize]
    (@open_page sample_lexer (steady (answering "x = 1"))).

(** ** Revert, again and again *)

Lemma revert_history_take (h : list Entry) m :
  (1 <= m <= length h)%nat ->
  revert_history (take m h) = take (Nat.max 1 (m - 1)) h.
Proof.
  intros Hm. unfold revert_history. rewrite length_take_le by lia.
  destruct (Nat.ltb_spec 1 m).
  - rewrite removelast_firstn_len, length_take_le, take_take by lia. f_equal. lia.
  - f_equal. lia.
Qed.

(** Reverting [k] times leaves the first entries of the history, and at
    least one of them. *)
Lemma iter_revert_history k (h : list Entry) :
  Nat.iter k revert_history h = take (Nat.max 1 (length h - k)) h.
Proof.
  destruct h as [|x h]; [by induction k as [|k IH]; [|rewrite Nat.iter_succ, IH]|].
  induction k as [|k IH]; [by rewrite take_ge by lia|].
  rewrite Nat.iter_succ, IH, revert_history_take by (simpl; lia). f_equal. lia.
Qed.

Section progress.
Context `{Lexer} `{Service} `{!TextService _}.
Implicit Types (a : Action) (b : Browser) (e : Event).

Lemma browse_press_upload a b : upload_of (browse (Press a) b) = upload_of b.
Proof. unfold browse. case_match; [apply deliver_upload|done]. Qed.

(** A press on revert, on the history. *)
Lemma browse_revert_history b :
  browser_ok b -> is_Some (upload_of b) ->
  history (session_of (browse (Press PressRevert) b)) =
  revert_history (history (session_of b)).
Proof.
  intros Hb [c Hu]. unfold browse. rewrite enabled_action by eauto.
  rewrite deliver_once by (by intros [_ ?]).
  by rewrite execute_session, (step_revert_history _ _ c (pressed_widgets_of _ _) Hu).
Qed.

Lemma iter_revert b k :
  reachable_browser b -> is_Some (upload_of b) ->
  reachable_browser (Nat.iter k (browse (Press PressRevert)) b) /\
  upload_of (Nat.iter k (browse (Press PressRevert)) b) = upload_of b /\
  history (session_of (Nat.iter k (browse (Press PressRevert)) b)) =
  Nat.iter k revert_history (history (session_of b)).
Proof.
  intros Hb Hu. induction k as [|k (IHr & IHu & IHh)]; [done|]. rewrite Nat.iter_succ.
  split_and!; [by constructor|by rewrite browse_press_upload|].
  rewrite browse_revert_history, IHh; [done|by apply reachable_browser_inv|by rewrite IHu].
Qed.

(** C20: pressing revert again and again comes to an end: [k] presses
    leave the first entries of the history, all but the last [k], and at
    least the first one.  After as many presses as the history has
    entries nothing is left to revert, and the entry of the first
    optimisation can be removed by Clear All only. *)
Theorem reverts_reach_bottom b k :
  reachable_browser b -> is_Some (upload_of b) ->
  history (session_of (Nat.iter k (browse (Press PressRevert)) b)) =
  take (Nat.max 1 (length (history (session_of b)) - k)) (history (session_of b)).
Proof.
  intros Hb Hu. destruct (iter_revert b k Hb Hu) as (_ & _ & ->).
  apply iter_revert_history.
Qed.

(** C16: a press on Explain Optimized Code is always served.  The button
    is on the page only with the comparison view of the last entry, and
    the execution the press causes shows that view again, calls the
    explain chain on the cleaned code of the entry, and renders the
    explanation before the footer, or ends with the exception of the
    chain. *)
Theorem explain_optimized_served b :
  reachable_browser b -> enabled (Press PressExplainOptimized) b = true ->
  exists x text,
    last (history (session_of b)) = Some x /\ cleaned x = VStr text /\
    shown (browse (Press PressExplainOptimized) b) =
      upload_page ++
      actions_page (widgets_of b PressExplainOptimized) (session_of b) ++
      comparison_view x ++
      ESpinner "📖 Analyzing your optimized code..." ::
      match @explain_chain_invoke (chains_at (clock b))
              (chain_inputs text (language x)) with
      | Ok v => [EMarkdown (VStr "### 📖 Optimized Code Explanation");
                 EMarkdown (Val.text_of v); EHtml FooterHtml; EHtml DarkCss]
      | Err _ => []
      end.
Proof.
  intros Hb%reachable_browser_inv He. unfold browse. rewrite He.
  cbn [action_of apply_event]. destruct Hb as (_ & _ & _ & _ & _ & Hp). destruct (Hp He) as [[c Hu] [x Hx]].
  destruct (comparison_entry_Some _ x Hx) as (h & text & Hh & Hc & Hs).
  exists x, text. rewrite Hh, last_snoc. split_and!; [done..|].
  rewrite deliver_once by (by intros [_ ?]). rewrite execute_shown.
  rewrite (page_step_explain_optimized _ _ c (pressed_widgets_of _ _) Hu).
  unfold comparison_page, comparison_outcome, explain_optimized_page,
    explain_optimized_outcome.
  rewrite ready_history, Hh, last_snoc, Hc, comparison_shown_ready, Hs.
  cbn [explain_optimized_btn widgets_of].
  rewrite bool_decide_eq_true_2 by done. do 2 f_equal.
  by destruct (explain_chain_invoke _); rewrite <- ?app_assoc.
Qed.

(** C21: a session never gets stuck on a file that does not decode.
    Taking the file out of the uploader, where there is one, gives a
    page with the text area and the four action buttons, and leaves the
    history as it is. *)
Theorem remove_recovers b :
  reachable_browser b ->
  actions_on (shown (browse Remove b)) = true /\
  is_Some (visible_text (browse Remove b)) /\
  history (session_of (browse Remove b)) = history (session_of b).
Proof.
  intros Hb%reachable_browser_inv. pose proof Hb as (_ & _ & Ha & Hup & Hact & _).
  unfold browse. cbn [enabled]. rewrite Hup. cbn [andb].
  destruct (uploader b) as [f|] eqn:Hf.
  - rewrite bool_decide_eq_true_2 by done. set (b' := apply_event Remove b).
    assert (Hu : upload_of b' = Some "") by done.
    rewrite deliver_once by (by intros [_ ?]).
    rewrite execute_shown, actions_on_page_step, (visible_execute _ b' "" Hu).
    rewrite execute_session, (step_idle _ _ "" (pressed_widgets_of _ _) Hu).
    cbn [fst]. by rewrite ready_history.
  - rewrite bool_decide_eq_false_2 by (by intros []).
    assert (Hu : upload_of b = Some "")
      by (by unfold upload_of, uploaded_code_of; simpl; rewrite Hf).
    rewrite Hact, Hu. split_and!; [done| |done]. unfold area_ok, visible_text in *.
    destruct (area b); [done|]. destruct Ha. congruence.
Qed.

End progress.

(** ** Optimize, then revert *)

Section roundtrip.
Context `{Lexer} `{Chains}.
Implicit Types (w : Widgets).

(** C19: revert undoes optimize.  An optimize that succeeds followed by a
    revert leaves the history it found, when that history was not empty;
    on the empty history the revert finds one entry, which it keeps: the
    first optimisation of a session cannot be reverted. *)
Theorem optimize_revert_roundtrip w1 w2 (s0 : Stored) v c :
  optimizes w1 (init_session_state s0) v ->
  pressed PressRevert w2 -> uploaded_code_of w2 = Some c ->
  history (init_session_state (final (run w2 (final (run w1 s0))))) =
  match history (init_session_state s0) with
  | [] => [new_entry (initial_locals w1 (init_session_state s0)) v]
  | _ :: _ => history (init_session_state s0)
  end.
Proof.
  intros Ho Hp Hu. rewrite run_session, (step_revert_history _ _ _ Hp Hu).
  rewrite run_session, (step_optimizes_history _ _ _ Ho).
  destruct (history (init_session_state s0)) as [|x h]; [done|].
  rewrite length_app, Nat.add_comm. by rewrite removelast_last.
Qed.

End roundtrip.

(** ** The theorems at concrete inputs *)

Lemma reverts_reach_bottom_witness :
  history
    (session_of
       (Nat.iter 3 (@browse sample_lexer (steady (answering "x = 1")) (Press PressRevert))
          optimized_twice)) =
  take (Nat.max 1 (length (history (session_of optimized_twice)) - 3))
    (history (session_of optimized_twice)).
Proof.
  apply (@reverts_reach_bottom sample_lexer _ (steady_text (constant_llm "x = 1")));
    [apply reachable_session, rb_open|by_evaluation; by eexists].
Defined.

Lemma explain_optimized_served_witness :
  exists x text,
    last (history (session_of optimized_twice)) = Some x /\ cleaned x = VStr text /\
    shown (@browse sample_lexer (steady (answering "x = 1"))
             (Press PressExplainOptimized) optimized_twice) =
      upload_page ++
      actions_page (widgets_of optimized_twice PressExplainOptimized)
        (session_of optimized_twice) ++
      comparison_view x ++
      ESpinner "📖 Analyzing your optimized code..." ::
      match @explain_chain_invoke
              (@chains_at (steady (answering "x = 1")) (clock optimized_twice))
              (chain_inputs text (language x)) with
      | Ok v => [EMarkdown (VStr "### 📖 Optimized Code Explanation");
                 EMarkdown (Val.text_of v); EHtml FooterHtml; EHtml DarkCss]
      | Err _ => []
      end.
Proof.
  apply (@explain_optimized_served sample_lexer _ (steady_text (constant_llm "x = 1")));
    [apply reachable_session, rb_open|by_evaluation].
Defined.

Lemma remove_recovers_witness :
  actions_on
    (shown (@browse sample_lexer (steady failing) Remove
              (@session sample_lexer (steady failing) [Upload binary_file]
                 (@open_page sample_lexer (steady failing))))) = true /\
  is_Some
    (visible_text
       (@browse sample_lexer (steady failing) Remove
          (@session sample_lexer (steady failing) [Upload binary_file]
             (@open_page sample_lexer (steady failing))))) /\
  history
    (session_of
       (@browse sample_lexer (steady failing) Remove
          (@session sample_lexer (steady failing) [Upload binary_file]
             (@open_page sample_lexer (steady failing))))) =
  history
    (session_of
       (@session sample_lexer (steady failing) [Upload binary_file]
          (@open_page sample_lexer (steady failing)))).
Proof.
  apply (@remove_recovers sample_lexer _ (steady_text failing_llm)).
  apply reachable_session, rb_open.
Defined.

Lemma optimize_revert_roundtrip_witness :
  history
    (init_session_state
       (final (@run sample_lexer (answering "y = 2  # two") (widgets None "" PressRevert)
                 (final (@run sample_lexer (answering "y = 2  # two")
                           (widgets None "y=2" PressOptimize)
                           (stored_history [first_entry])))))) =
  match history (init_session_state (stored_history [first_entry])) with
  | [] => [@new_entry
             (@initial_locals sample_lexer (widgets None "y=2" PressOptimize)
                (init_session_state (stored_history [first_entry])))
             (VDict [("code", Some "y=2"); ("language", None);
                     ("text", Some "y = 2  # two")])]
  | _ :: _ => history (init_session_state (stored_history [first_entry]))
  end.
Proof.
  apply (@optimize_revert_roundtrip sample_lexer (answering "y = 2  # two") _ _ _ _ "");
    by_evaluation; by eexists.
Defined.
